(* ===== verification/_CoqProject ===== *)
-Q . S2P
Prelude.v
PyVal.v
Repr.v
Strptime.v
Reader.v
Header.v
PyIO.v
Extractor.v
NmeaTime.v
Profile.v
Plotting.v
Editor.v
Acquisition.v
ClockTime.v
Pipeline.v
Online.v
Sensors.v
Processor.v
Configurator.v
