(* ===== verification/Prelude.v ===== *)
(** * OpenSonar: a verification development of the acquisition-and-correction pipeline

    The program (src/OpenSonarSoftware/) is a single-beam hydrographic survey
    tool in Python.  [osplib.py] holds every operation; [online.py] drives
    the acquisition loop, [processor.py] the post-processing menu and
    [configurator.py] the metadata entry, whose file online.py reads.
    The parts and how they interact:

    - Sensors ([GNSS], [Sonar], [Speed] classes of osplib.py) read frames
      from serial links; [take_observation] (osplib.py 204-239) fuses one
      GNSS frame, one sonar ping and, every 101st cycle, one probe reading
      into a raw log and a simplified log (text files).
    - [generic_reader], [read_config_file] and [Raw_Log.read_raw_log]
      (osplib.py 249-290, 493-514) read a log back as rows of Python values.
    - [Raw_Log.extract_soundings] and [Raw_Log.extract_dop] (551-604) fold
      the rows into soundings and dilution-of-precision samples, with
      [get_time_lat_long] (516-549) decoding NMEA time and coordinates.
    - [Profile] (350-466) computes harmonic-mean sound speeds from a
      depth/speed profile and corrects soundings with them.
    - [Clean_Soundings] (609-723) lets the operator delete ranges of
      soundings.
    - [write_meta_header] and [save_data] (300-340) write the metadata
      header of a log and the processed results.
    - online.py (51-218) reads the configuration, connects the sensors,
      writes the log headers, asks for the sound-speed source and runs
      the acquisition loop; processor.py (1-140) is a menu over a raw
      log: read it, extract soundings and DOPs, load a profile, correct,
      clean and save.

    The raw log file is the only hand-off between acquisition and the
    later processing pass, so the development models each stage as a
    function on explicit data and composes them in end-to-end theorems.

    ** Files (in dependency order, as listed in _CoqProject)

    - [Prelude]: this header, the Python exception type [exn], the result
      type [res] with its bind notation (scope [osp_scope]), Python list
      indexing with negative indices ([py_get]), boolean comparisons on
      [Q], Python's [round(x, 3)] on exact rationals, the hint database
      [osp] and the shared list/option/arithmetic lemmas.
    - [PyVal]: the Python values that flow through the rows of a log
      ([pyval]: None, float, int, str, time), Python's [float(str)]
      parser, [str(float)] printer and the dynamically typed arithmetic
      that raises [TypeError] / [ZeroDivisionError].
    - [Strptime]: [datetime.strptime] for the two formats the program uses
      ([%H%M%S.%f] and [%H:%M:%S.%f]) as Python's backtracking regular
      expression does it, and [str(time)].
    - [Extractor]: [get_time_lat_long], [extract_soundings] and
      [extract_dop] as folds with Python's exception semantics (a raising
      row keeps the updates made before the raise and is otherwise
      skipped).
    - [NmeaTime]: the NMEA fix time through [read_raw_log] ([float()]),
      [str()] and [strptime(..., '%H%M%S.%f')]: the regular expression
      run on symbolic digits through the first match of the search
      ([first_match]), the digits [str()] prints for an integer-valued
      float.
    - [Profile]: [read_simple_svp], [calculate_harmonic_mean],
      [correct_soundspeed] (with numpy's two-point [interp]) and
      [correct_soundings]; the logarithm is an interface (class [Ln]).
    - [Plotting]: [Profile.plot_hmss]: the series [plt.plot] receives
      (matplotlib's [ValueError] on a length mismatch), Python's [min]
      and [max] and the window of [plt.axis]; the bounds
      [1 - 1/x <= ln x <= x - 1] of the logarithm as the class
      [LnBounds].
    - [Reader]: [generic_reader], [file_check], [read_config_file] (the
      metadata file with its sensor and port descriptions) and [Raw_Log.read_raw_log]
      with its coercion of fields (empty to [None], numeric to float,
      otherwise string; a row whose first field is no clock time is
      dropped).
    - [Editor]: [Clean_Soundings]: the columns [pull_items] collects,
      Python's [min], [max] and [int], the zoom to the extents typed
      ([zoom]), the arithmetic of [plot_data] that can raise, the
      deletion ([delete_soundings]) and the loop [clean_soundings] with
      its menu ([clean_iter]).
    - [Acquisition]: the sensor operations of osplib.py ([Speed.read_speed],
      [Sonar.set_sound_speed], [Sonar.send_ping], [GNSS.get_nmea],
      [split_message]) and [take_observation] as a step on an explicit
      loop state [acq] (the counter [obs_numb], the current sound speed,
      the two logs and the command stream to the sonar) fed by explicit
      sensor input streams; the loop of online.py as the step relation
      [cycle] with [reachable] and [run] (its reflexive-transitive
      closure over several cycles).
    - [ClockTime]: the clock column of the raw log, [str(time)] read
      back by [strptime(..., '%H:%M:%S.%f')], with the validity of a
      [datetime.time] as [valid_time].
    - [Pipeline]: the composition of the stages: the [$DEPTH] row
      [take_observation] writes for a ping, read back by [read_raw_log]
      and folded by [extract_soundings].
    - [Repr]: the digits of [str(float)] and [str(int)] and their round
      trip through [float()] and [int()] (terminating decimals, with the
      number theory of denominators [2^a 5^b]).
    - [Header]: [write_meta_header] as the rows it writes, metadata
      equality up to float equality ([meta_eqv], a setoid with [Proper]
      accessors) and the writer/reader round trip.
    - [PyIO]: the effects of the two programs as a state monad [io] on a
      [world] (standard input lines, files as rows, the menu lines
      printed), Python's [input], [open], [while] with fuel, [save_data],
      and frame lemmas ([reads], [quiet], [returns]) with their hint
      database [io].
    - [Online]: online.py 51-218: the sensors as an environment [env],
      the resources held as [devices], the two menus as steps
      [speed_step] and [online_step] in [io], the whole setup
      [online_setup] ending in [Exited] or [GoesOnline], and
      [online_start], the state the acquisition loop starts from.
    - [Sensors]: the [GNSS], [Sonar] and [Speed] objects of osplib.py
      (34-200) as records with their attributes, the methods that
      connect, disconnect, read and command them, and their refinement
      of the [devices] abstraction [Online] uses.
    - [Processor]: processor.py as [processor] in [io], its state
      [proc] with a heap of Python lists, so that [raw_soundings] and
      [soundings] are addresses and the in-place update of
      [correct_soundings] is visible through both names.
    - [Configurator]: configurator.py as [configurator] in [io]: the
      default values, the prompts with their loops and tests
      ([prompt_config]), the dictionary with [dt.datetime]
      ([survey_metadata]) and [write_meta_header] on any dictionary, of
      which [Header.header_rows] is an instance.

    ** Theorems

    - Extractor: a sounding comes only from a [$DEPTH] row whose previous
      row is a [$GNGGA] row, never after a [$GNGLL] row, with the depth
      [-distance/1000 + sonar_offset] and consecutive sequence numbers
      (C1-C4); coordinate decoding [ddmm.mmmm] (C20); the dilution of
      precision samples (rising edge of each GSA run, C24, a leading GSA
      raising, C26).
    - NmeaTime: a whole-second fix time logged as [hhmmss.00] decodes to
      [hh:mm:ss] from 02:40:00 to 23:59:59 (C22), the range where the
      leading zero the float drops does not change the match; a fix
      between 00:10 and 00:24 is read with its minutes as the hour
      (C21).
    - Reader: the rows [read_raw_log] returns are typed: a time, then
      [None], floats and strings [float()] rejects (C27).
    - Pipeline: for every ping, the [$DEPTH] row acquisition writes,
      read back and extracted after a [$GNGGA] row, gives a water depth
      with the distance divided by 1000 twice (C5).
    - Profile: the closed form of the harmonic mean,
      [h = D / sum (ln(c_i+1/c_i) / g_i)] (C6), a layer of constant
      speed raising [ZeroDivisionError] (C7), and the correction on every
      branch: interior, deep, shallow (where index [-1] wraps to the last
      layer) and a flat profile (C8-C10, [correct_soundspeed_flat]).
    - Plotting: after a profile is read and its harmonic means computed,
      [plot_hmss] returns, and on a profile sampled downwards every
      observed sample and every harmonic mean lies inside the window it
      sets (C11): a harmonic mean is between the slowest and fastest
      speed above it, and the 0.05 m/s margin covers the rounding of the
      surface speed.
    - Acquisition: the order of the log entries of one cycle (C12), the
      counter invariant [0 <= obs_numb <= 100] by induction on the
      returning cycles (C13) and the resync period of 101 cycles over [run]
      (C14), the probe failure and the fixless GGA raising out of the
      loop (C15, C16), [get_nmea] returning the first well-formed
      sentence (C17), and the sign of the depth offset in the simple log
      ([simple_log_depth_offset_sign]).
    - ClockTime: a raw-log row gets back the time it was logged at,
      unless that time is a whole second, when [str(time)] has no
      fraction and the row is dropped (C28).
    - Editor: deleting [l..r] also drops the last row (C18) and a range
      past the end raises [IndexError] (C19); deleting then saving writes
      that set and leaves the editor running (C23).
    - Processor: a [.csv] name that names no file passes the raw-log
      prompt and the program raises [FileNotFoundError] (C25); cleaning is
      unreachable without [correct] (C30), [correct] twice corrects the
      same rows twice through the alias (C31), [correct] is offered at
      most once (C32) and raises [NameError] before a profile (C33).
    - Header: a header written by [write_meta_header] reads back as the
      same metadata (C35), through [float(str(x)) = x] on terminating
      decimals ([Repr.str_float_parse]).
    - Sensors: each method of the sensor objects refines its step on
      the [devices] abstraction of [Online]: the disconnections of the
      exit paths (C29), and [connect_refines], [set_speed_refines], ...;
      [get_nmea] without
      a GNSS returns a list its caller cannot unpack ([get_nmea_no_gnss]).
    - Online: every exit path releases all links but the sonar's (C36);
      the [default] path end to end, files written included (C37); the
      manual speed window [1400 < s < 1500] (C38) and the bounds of the
      command it sends, within an unsigned 32-bit field (C34).
    - Configurator: the configuration the script ends with (the answers
      after [yes], its defaults otherwise) is written to a [.csv] file,
      with offsets of the required signs, that reads back with
      [read_config_file] as those values when its numbers parse (C39);
      the date prompt accepts days [dt.datetime] rejects
      ([date_ok_bad_day]).

    Each theorem with hypotheses has a closed witness that applies it to
    a concrete input.  Loops over lists are folds; the acquisition loop,
    which does not terminate, is a step relation.  The [while] loops of
    the menus read a line of standard input on every iteration, so
    [while_input] gives them one more unit of fuel than there are lines
    left: that is enough, since every larger fuel gives the same
    outcome ([menu_loop_fuel], from [py_while_fuel] for bodies that
    consume a line), so the fuel never cuts a run short.  Digit loops
    of [Repr] take the number's bit size as fuel, proved enough.

    ** Numbers

    Python floats are modelled as exact rationals [Q]: the development
    shows what the code computes in exact arithmetic, not its binary64
    rounding.  [round(x, 3)] is round-half-even on the exact value.
    [float(s)] accepts the decimal literals of Python (sign, digits,
    point, exponent, surrounding whitespace); the spellings [inf], [nan]
    and digit underscores are not modelled (they never occur in NMEA
    fields).  [str(float)] prints the shortest decimal, which is Python's
    [repr] for every value read from a decimal literal of at most 15
    significant digits (all NMEA fields).

    ** What is not modelled

    Serial I/O (a sensor is the stream of lines it will send), pynmea2's
    parser (a GNSS line is given already split into fields), CSV quoting
    (a file is a list of rows of strings), [time.sleep], the text the
    programs print (the menus record only which options they offered),
    the drawing itself and the logos (of [plot_data] only the arithmetic
    that can raise, of [plot_hmss] what it hands to matplotlib).  Python's [float]
    spellings [inf] and [nan] are not modelled: a prompt that would
    accept [inf] as an offset rejects it in the model.  Each component
    file says what of its part is modelled.

    ** Still to model

    NMEA fix times with a fraction of a second (their [str()] goes
    through the shortest-repr digits of a non-integer float). *)

From Stdlib Require Export ZArith QArith Qround Lia Lqa String Ascii List Bool.
Export ListNotations.

Declare Scope osp_scope.
Delimit Scope osp_scope with osp.
Open Scope osp_scope.

(** ** Python exceptions and results *)

(** The exceptions the modelled code can raise. *)
Inductive exn : Type :=
| IndexError
| TypeError
| ValueError
| ZeroDivisionError
| NameError
| UnboundLocalError
(** [input()] at the end of standard input. *)
| EOFError
(** [open(name)] of a file that does not exist. *)
| FileNotFoundError
(** An attribute read before any method has set it. *)
| AttributeError
(** Not a Python exception: numpy's float64 division by zero, which
    yields [inf] or [nan] and lets the program go on.  The model has no
    non-finite values, so it stops there with this marker. *)
| NonFinite.

Definition exn_eqb (a b : exn) : bool :=
  match a, b with
  | IndexError, IndexError | TypeError, TypeError | ValueError, ValueError
  | ZeroDivisionError, ZeroDivisionError | NameError, NameError
  | UnboundLocalError, UnboundLocalError | EOFError, EOFError
  | FileNotFoundError, FileNotFoundError | AttributeError, AttributeError
  | NonFinite, NonFinite => true
  | _, _ => false
  end.

(** A computation that returns a value or raises. *)
Inductive res (A : Type) : Type :=
| Ok (a : A)
| Err (e : exn).
Arguments Ok {A} a.
Arguments Err {A} e.

Definition res_bind {A B} (c : res A) (k : A -> res B) : res B :=
  match c with
  | Ok a => k a
  | Err e => Err e
  end.

Notation "x <- c ;; k" := (res_bind c (fun x => k))
  (at level 61, c at next level, right associativity) : osp_scope.
Notation "' p <- c ;; k" := (res_bind c (fun x => match x with p => k end))
  (at level 61, p pattern, c at next level, right associativity) : osp_scope.

Definition res_map {A B} (f : A -> B) (c : res A) : res B :=
  x <- c ;; Ok (f x).

Definition is_ok {A} (c : res A) : bool :=
  match c with Ok _ => true | Err _ => false end.

(** [try: x = c; k  except: h]: continue with the value, or fall back to
    [h] (the state as the exception left it). *)
Definition or_else {A B} (c : res A) (h : B) (k : A -> B) : B :=
  match c with Ok a => k a | Err _ => h end.

Notation "x <-? c 'else' h ;; k" := (or_else c h (fun x => k))
  (at level 61, c at next level, h at next level, right associativity) : osp_scope.

(** [try: c  except: h] *)
Definition try_except {A} (c : res A) (h : exn -> A) : A :=
  match c with Ok a => a | Err e => h e end.

(** ** Python list indexing: [l[i]] with negative indices *)

Definition py_index {A} (l : list A) (i : Z) : option nat :=
  let n := Z.of_nat (length l) in
  if ((0 <=? i) && (i <? n))%Z then Some (Z.to_nat i)
  else if ((i <? 0) && (- n <=? i))%Z then Some (Z.to_nat (n + i))
  else None.

Definition py_get {A} (l : list A) (i : Z) : res A :=
  match py_index l i with
  | Some k => match nth_error l k with Some a => Ok a | None => Err IndexError end
  | None => Err IndexError
  end.

Notation "l .[ i ]" := (py_get l i%Z) (at level 1, format "l .[ i ]") : osp_scope.

(** Slicing [l[a:b]] for the non-negative and [-1] bounds the code uses. *)
Definition py_slice {A} (l : list A) (a b : Z) : list A :=
  let n := Z.of_nat (length l) in
  let norm i := if (i <? 0)%Z then Z.max 0 (n + i) else Z.min i n in
  let a' := norm a in
  let b' := norm b in
  firstn (Z.to_nat (b' - a')) (skipn (Z.to_nat a') l).

(** ** Comparisons on [Q] as booleans *)

Definition Qltb (x y : Q) : bool :=
  match Qcompare x y with Lt => true | _ => false end.


(** ** Python's [round(x, n)] on an exact value: round half to even *)

Definition round_half_even (q : Q) : Z :=
  let f := Qfloor q in
  let r := q - inject_Z f in
  if Qltb r (1 # 2) then f
  else if Qltb (1 # 2) r then f + 1
  else if Z.even f then f else f + 1.

(** [round(x, n)] for [n >= 0]. *)
Definition py_round (n : Z) (q : Q) : Q :=
  inject_Z (round_half_even (q * inject_Z (10 ^ n))) / inject_Z (10 ^ n).

Definition py_round3 (q : Q) : Q := py_round 3 q.

(** Python float division [a / b]: [ZeroDivisionError] on a zero divisor. *)
Definition qdiv (a b : Q) : res Q :=
  if Qeq_bool b 0 then Err ZeroDivisionError else Ok (a / b).

(** ** Hints and tactics *)

Create HintDb osp discriminated.
Create Rewrite HintDb osp_rw.

Ltac res_simpl :=
  repeat match goal with
  | H : Ok _ = Ok _ |- _ => injection H as H
  | H : Ok _ = Err _ |- _ => discriminate H
  | H : Err _ = Ok _ |- _ => discriminate H
  | H : Some _ = Some _ |- _ => injection H as H
  | H : Some _ = None |- _ => discriminate H
  | H : None = Some _ |- _ => discriminate H
  end; subst.

(** Case analysis on the binds of a hypothesis [c >>= k = Ok b]. *)
Ltac bind_inv H :=
  repeat match type of H with
  | res_bind ?c _ = Ok _ =>
      let E := fresh "E" in destruct c eqn:E; [cbn [res_bind] in H; try bind_inv E | discriminate H]
  end;
  try match type of H with Ok _ = Ok _ => injection H as H; subst end.

(** Case analysis on every [x <-? c else h ;; k] of a goal. *)
Ltac or_else_split :=
  repeat match goal with
  | |- context [or_else ?c _ _] =>
      let E := fresh "E" in destruct c eqn:E; cbn [or_else]
  end.

(** Case analysis on the boolean tests of a goal. *)
Ltac if_split :=
  repeat match goal with
  | |- context [if ?b then _ else _] =>
      let E := fresh "B" in destruct b eqn:E
  end.

(** ** Shared lemmas *)

Lemma res_bind_ok {A B} (a : A) (k : A -> res B) : res_bind (Ok a) k = k a.
Proof. reflexivity. Qed.

Lemma res_bind_err {A B} (e : exn) (k : A -> res B) : res_bind (Err e) k = Err e.
Proof. reflexivity. Qed.

Lemma res_bind_eq_ok {A B} (c : res A) (k : A -> res B) (b : B) :
  res_bind c k = Ok b -> exists a, c = Ok a /\ k a = Ok b.
Proof. destruct c; simpl; [eauto | discriminate]. Qed.

Lemma Qltb_iff (x y : Q) : Qltb x y = true <-> x < y.
Proof.
  unfold Qltb, Qlt. unfold Qcompare.
  destruct (Z.compare_spec (Qnum x * QDen y) (Qnum y * QDen x)); split;
    intros; try discriminate; try lia; auto.
Qed.

Lemma Qltb_false (x y : Q) : Qltb x y = false <-> y <= x.
Proof.
  rewrite <- not_true_iff_false, Qltb_iff. split; [apply Qnot_lt_le | apply Qle_not_lt].
Qed.

Lemma py_get_nonneg {A} (l : list A) (i : nat) (a : A) :
  nth_error l i = Some a -> l.[Z.of_nat i] = Ok a.
Proof.
  intros H. unfold py_get, py_index.
  assert (i < length l)%nat by (apply nth_error_Some; congruence).
  replace ((0 <=? Z.of_nat i) && (Z.of_nat i <? Z.of_nat (length l)))%Z with true
    by (symmetry; apply andb_true_iff; split; [apply Z.leb_le | apply Z.ltb_lt]; lia).
  rewrite Nat2Z.id, H. reflexivity.
Qed.

Lemma py_get_neg {A} (l : list A) (i : Z) :
  (i < 0)%Z -> (- Z.of_nat (length l) <= i)%Z ->
  l.[i] = match nth_error l (Z.to_nat (Z.of_nat (length l) + i)) with
          | Some a => Ok a | None => Err IndexError end.
Proof.
  intros H1 H2. unfold py_get, py_index.
  replace ((0 <=? i) && (i <? Z.of_nat (length l)))%Z with false
    by (symmetry; apply andb_false_iff; left; apply Z.leb_gt; lia).
  replace ((i <? 0) && (- Z.of_nat (length l) <=? i))%Z with true
    by (symmetry; apply andb_true_iff; split; [apply Z.ltb_lt | apply Z.leb_le]; lia).
  reflexivity.
Qed.

(** Indexing succeeds exactly inside [-len, len). *)
Lemma py_get_ok_iff {A} (l : list A) (i : Z) :
  is_ok (l.[i]) = true <-> (- Z.of_nat (length l) <= i < Z.of_nat (length l))%Z.
Proof.
  unfold py_get, py_index.
  destruct ((0 <=? i) && (i <? Z.of_nat (length l)))%Z eqn:E1.
  - apply andb_true_iff in E1 as [E1 E2]. apply Z.leb_le in E1. apply Z.ltb_lt in E2.
    destruct (nth_error l (Z.to_nat i)) eqn:N.
    + simpl; split; auto; lia.
    + apply nth_error_None in N. lia.
  - destruct ((i <? 0) && (- Z.of_nat (length l) <=? i))%Z eqn:E2.
    + apply andb_true_iff in E2 as [E2 E3]. apply Z.ltb_lt in E2. apply Z.leb_le in E3.
      destruct (nth_error l _) eqn:N.
      * simpl; split; auto; lia.
      * apply nth_error_None in N. lia.
    + apply andb_false_iff in E1. apply andb_false_iff in E2.
      rewrite Z.leb_gt, Z.ltb_ge in E1. rewrite Z.ltb_ge, Z.leb_gt in E2.
      simpl; split; [discriminate | lia].
Qed.

Lemma py_get_app_last {A} (l : list A) (a : A) : (l ++ [a]).[-1] = Ok a.
Proof.
  rewrite py_get_neg by (try rewrite length_app; simpl; lia).
  rewrite length_app. simpl.
  replace (Z.to_nat (Z.of_nat (length l + 1) + -1)) with (length l) by lia.
  rewrite nth_error_app2, Nat.sub_diag by lia. reflexivity.
Qed.

#[export] Hint Resolve py_get_nonneg : osp.
#[export] Hint Rewrite @res_bind_ok @res_bind_err @py_get_app_last : osp_rw.

Lemma Qfloor_unique (x : Q) (z : Z) : inject_Z z <= x -> x < inject_Z z + 1 -> Qfloor x = z.
Proof.
  intros H1 H2. pose proof (Qfloor_le x) as F1. pose proof (Qlt_floor x) as F2.
  rewrite inject_Z_plus in F2.
  assert (Qfloor x < z + 1)%Z.
  { rewrite Zlt_Qlt, inject_Z_plus. apply Qle_lt_trans with x; assumption. }
  assert (z < Qfloor x + 1)%Z.
  { rewrite Zlt_Qlt, inject_Z_plus. apply Qle_lt_trans with x; assumption. }
  lia.
Qed.

Lemma nth_error_snoc_cases {A} (l : list A) (a x : A) (k : nat) :
  nth_error (l ++ [a]) k = Some x ->
  (k < length l /\ nth_error l k = Some x)%nat \/ (k = length l /\ x = a).
Proof.
  intros H. destruct (Nat.lt_ge_cases k (length l)) as [Hk | Hk].
  - left. rewrite nth_error_app1 in H by exact Hk. auto.
  - right. rewrite nth_error_app2 in H by exact Hk.
    destruct (k - length l)%nat eqn:E; simpl in H; [injection H; split; [lia | auto] |].
    destruct n; discriminate.
Qed.

Lemma qdiv_ok (a b : Q) : ~ b == 0 -> qdiv a b = Ok (a / b).
Proof.
  intros H. unfold qdiv. destruct (Qeq_bool b 0) eqn:E; [|reflexivity].
  apply Qeq_bool_iff in E. contradiction.
Qed.

Lemma qdiv_zero (a b : Q) : b == 0 -> qdiv a b = Err ZeroDivisionError.
Proof. intros H. unfold qdiv. now replace (Qeq_bool b 0) with true by (symmetry; apply Qeq_bool_iff; exact H). Qed.

Lemma qdiv_ok_inv (a b c : Q) : qdiv a b = Ok c -> ~ b == 0 /\ c = a / b.
Proof.
  unfold qdiv. destruct (Qeq_bool b 0) eqn:E; [discriminate|].
  intros H; injection H as <-. split; [apply Qeq_bool_neq; exact E | reflexivity].
Qed.

Lemma qdiv_err (a b : Q) (e : exn) : qdiv a b = Err e -> e = ZeroDivisionError.
Proof. unfold qdiv. destruct (Qeq_bool b 0); intros H; [injection H; auto | discriminate]. Qed.

Lemma py_get_in {A} (l : list A) (i : Z) (v : A) : l.[i] = Ok v -> In v l.
Proof.
  unfold py_get. destruct (py_index l i); [|discriminate].
  destruct (nth_error l n) eqn:E; intros H; [|discriminate]. injection H as <-.
  eapply nth_error_In; eauto.
Qed.

Lemma py_get_range {A} (l : list A) (i : Z) :
  (- Z.of_nat (length l) <= i < Z.of_nat (length l))%Z -> exists v, l.[i] = Ok v /\ In v l.
Proof.
  intros H. apply py_get_ok_iff in H. destruct (l.[i]) as [v|] eqn:E; [|discriminate].
  exists v. split; [reflexivity | eapply py_get_in; eauto].
Qed.

Lemma py_get_at {A} (pre post : list A) (z : A) :
  (pre ++ z :: post).[Z.of_nat (length pre)] = Ok z.
Proof. apply py_get_nonneg. rewrite nth_error_app2, Nat.sub_diag by lia. reflexivity. Qed.

Lemma py_get_prev {A} (pre post : list A) (x z : A) :
  ((pre ++ [x]) ++ z :: post).[Z.of_nat (length (pre ++ [x])) - 1] = Ok x.
Proof.
  rewrite <- app_assoc, length_app. simpl.
  replace (Z.of_nat (length pre + 1) - 1)%Z with (Z.of_nat (length pre)) by lia.
  apply py_get_at.
Qed.

Lemma py_get_last {A} (l : list A) (v : A) : (l ++ [v]).[-1] = Ok v.
Proof. apply py_get_app_last. Qed.

Lemma py_get_head {A} (x : A) (l : list A) : (x :: l).[0] = Ok x.
Proof. reflexivity. Qed.

(** Slices with the bounds the code uses. *)
Lemma py_slice_prefix {A} (l : list A) (k : nat) :
  (k <= length l)%nat -> py_slice l 0 (Z.of_nat k) = firstn k l.
Proof.
  intros Hk. unfold py_slice. cbv zeta.
  replace (Z.of_nat k <? 0)%Z with false by (symmetry; apply Z.ltb_ge; lia).
  change (0 <? 0)%Z with false. cbv iota.
  rewrite (Z.min_l 0) by lia. rewrite Z.min_l by lia.
  replace (Z.to_nat (Z.of_nat k - 0)) with k by lia. reflexivity.
Qed.

Lemma py_slice_to_last {A} (l : list A) (a : nat) :
  (a < length l)%nat -> py_slice l (Z.of_nat a) (-1) = skipn a (removelast l).
Proof.
  intros Ha. unfold py_slice. cbv zeta.
  replace (Z.of_nat a <? 0)%Z with false by (symmetry; apply Z.ltb_ge; lia).
  change (-1 <? 0)%Z with true. cbv iota.
  rewrite Z.min_l, Z.max_r by lia.
  rewrite removelast_firstn_len, skipn_firstn_comm, Nat2Z.id. f_equal. lia.
Qed.

(** [flat_map] of a per-element test over [seq]. *)
Lemma flat_map_keep {B} (f : nat -> list B) (g : nat -> B) (l : list nat) :
  (forall x, In x l -> f x = [g x]) -> flat_map f l = map g l.
Proof.
  induction l as [|x l IH]; intros H; simpl; [reflexivity|].
  rewrite H by (now left). simpl. f_equal. apply IH. intros y Hy. apply H. now right.
Qed.

Lemma flat_map_drop {B} (f : nat -> list B) (l : list nat) :
  (forall x, In x l -> f x = []) -> flat_map f l = [].
Proof.
  induction l as [|x l IH]; intros H; simpl; [reflexivity|].
  rewrite H by (now left). apply IH. intros y Hy. apply H. now right.
Qed.

Lemma seq_window (a b n : nat) (f : nat -> list nat) :
  (a <= b <= n)%nat ->
  (forall x, f x = if (a <=? x)%nat && (x <? b)%nat then [x] else []) ->
  flat_map f (seq 0 n) = seq a (b - a).
Proof.
  intros Hab Hf.
  replace n with (a + ((b - a) + (n - b)))%nat by lia.
  rewrite !seq_app, !flat_map_app. simpl.
  rewrite (flat_map_drop f (seq 0 a)).
  2: { intros x Hx. apply in_seq in Hx. rewrite Hf. replace (a <=? x)%nat with false by (symmetry; apply Nat.leb_gt; lia). reflexivity. }
  rewrite (flat_map_keep f (fun x => x) (seq a (b - a))).
  2: { intros x Hx. apply in_seq in Hx. rewrite Hf.
       replace ((a <=? x)%nat && (x <? b)%nat) with true by (symmetry; apply andb_true_iff; split; [apply Nat.leb_le | apply Nat.ltb_lt]; lia). reflexivity. }
  rewrite (flat_map_drop f (seq (a + (b - a)) (n - b))).
  2: { intros x Hx. apply in_seq in Hx. rewrite Hf.
       replace ((a <=? x)%nat && (x <? b)%nat) with false by (symmetry; apply andb_false_iff; right; apply Nat.ltb_ge; lia). reflexivity. }
  rewrite map_id, app_nil_r. reflexivity.
Qed.

Lemma last_seq (s m d : nat) : last (seq s (S m)) d = (s + m)%nat.
Proof. rewrite seq_S. apply last_last. Qed.

(** [round] of a value between two integers stays between them. *)
Lemma round_half_even_between (x : Q) (a b : Z) :
  inject_Z a <= x -> x <= inject_Z b -> (a <= round_half_even x <= b)%Z.
Proof.
  intros Ha Hb. pose proof (Qfloor_le x) as F1.
  assert (Fa : (a <= Qfloor x)%Z).
  { rewrite <- (Qfloor_Z a). apply Qfloor_resp_le, Ha. }
  assert (Fb : (Qfloor x <= b)%Z).
  { rewrite Zle_Qle. apply Qle_trans with x; assumption. }
  unfold round_half_even. cbv zeta.
  destruct (Qltb (x - inject_Z (Qfloor x)) (1 # 2)) eqn:E1; [lia|].
  assert (Fl : (Qfloor x < b)%Z).
  { apply Qltb_false in E1. rewrite Zlt_Qlt. apply Qlt_le_trans with x; [|exact Hb].
    apply Qlt_le_trans with (inject_Z (Qfloor x) + (1 # 2)); [|lra]. lra. }
  destruct (Qltb (1 # 2) _); [lia|]. destruct (Z.even _); lia.
Qed.
