(* ===== verification/PyVal.v ===== *)
(** * Python values of the log rows

    A row of a log, once read by [Raw_Log.read_raw_log], holds Python
    values of five kinds: [None], [float], [int], [str] and
    [datetime.time].  This file gives them as [pyval], with Python's
    [float(s)] on strings, [str(x)] on each kind, the equality test
    [x == 'literal'] the code uses on message tags, and the dynamically
    typed arithmetic of the expressions in osplib.py (which raises
    [TypeError] on a string or [None] operand and [ZeroDivisionError] on a
    zero divisor). *)

From S2P Require Import Prelude.

Local Open Scope Z_scope.

(** ** Values *)

(** [datetime.time]: hour, minute, second, microsecond. *)
Record pytime := mk_time { t_hour : Z; t_minute : Z; t_second : Z; t_micro : Z }.

Inductive pyval : Type :=
| PNone
| PFloat (q : Q)
| PInt (z : Z)
| PStr (s : string)
| PTime (t : pytime).

Definition row := list pyval.

(** [v == 'lit'] for a string literal: false, never an error, on other kinds. *)
Definition py_eq_str (v : pyval) (lit : string) : bool :=
  match v with PStr s => String.eqb s lit | _ => false end.

(** ** Characters and digits *)

Definition is_digit (c : ascii) : bool :=
  let n := nat_of_ascii c in (48 <=? n)%nat && (n <=? 57)%nat.

Definition digit_val (c : ascii) : Z := Z.of_nat (nat_of_ascii c) - 48.

Definition digit_char (d : Z) : ascii := ascii_of_nat (Z.to_nat (d + 48)).

(** Python's [str.strip()] whitespace (the ASCII part). *)
Definition is_space (c : ascii) : bool :=
  let n := nat_of_ascii c in
  (n =? 32)%nat || ((9 <=? n)%nat && (n <=? 13)%nat).

Fixpoint drop_spaces (l : list ascii) : list ascii :=
  match l with
  | c :: r => if is_space c then drop_spaces r else l
  | [] => []
  end.

Definition strip (l : list ascii) : list ascii := rev (drop_spaces (rev (drop_spaces l))).

(** Leading run of digits and its value. *)
Fixpoint take_digits (l : list ascii) : list ascii * list ascii :=
  match l with
  | c :: r => if is_digit c then let '(ds, rest) := take_digits r in (c :: ds, rest) else ([], l)
  | [] => ([], [])
  end.

Definition digits_value (ds : list ascii) : Z :=
  fold_left (fun acc c => 10 * acc + digit_val c) ds 0.

(** ** [float(s)] *)

Definition sign_of (l : list ascii) : Z * list ascii :=
  match l with
  | "-"%char :: r => (-1, r)
  | "+"%char :: r => (1, r)
  | _ => (1, l)
  end.

Definition parse_exponent (l : list ascii) : option Z :=
  match l with
  | [] => Some 0
  | c :: r =>
      if (Ascii.eqb c "e"%char || Ascii.eqb c "E"%char) then
        let '(s, r') := sign_of r in
        let '(ds, rest) := take_digits r' in
        match ds, rest with
        | _ :: _, [] => Some (s * digits_value ds)
        | _, _ => None
        end
      else None
  end.

(** [10^e] as a rational, for any integer [e]. *)
Definition pow10 (e : Z) : Q :=
  if 0 <=? e then inject_Z (10 ^ e) else (1 # Z.to_pos (10 ^ (- e))).

(** The value of [float(s)] for a decimal literal, [None] where Python
    raises [ValueError]. *)
Definition parse_float (s : string) : option Q :=
  let l := strip (list_ascii_of_string s) in
  let '(sg, r) := sign_of l in
  let '(ip, r1) := take_digits r in
  let '(fp, r2) :=
    match r1 with
    | "."%char :: r1' => take_digits r1'
    | _ => ([], r1)
    end in
  let had_point := match r1 with "."%char :: _ => true | _ => false end in
  if (length ip + length fp =? 0)%nat then None
  else if negb had_point && negb (length fp =? 0)%nat then None
  else
    match parse_exponent r2 with
    | Some e =>
        Some (inject_Z (sg * digits_value (ip ++ fp))
              * pow10 (e - Z.of_nat (length fp)))%Q
    | None => None
    end.

(** [float(x)] on a value. *)
Definition py_float (v : pyval) : res Q :=
  match v with
  | PFloat q => Ok q
  | PInt z => Ok (inject_Z z)
  | PStr s => match parse_float s with Some q => Ok q | None => Err ValueError end
  | PNone | PTime _ => Err TypeError
  end.

(** [int(s)] on a string: optional sign and digits, surrounding spaces. *)
Definition parse_int (s : string) : option Z :=
  let l := strip (list_ascii_of_string s) in
  let '(sg, r) := sign_of l in
  let '(ds, rest) := take_digits r in
  match ds, rest with
  | _ :: _, [] => Some (sg * digits_value ds)
  | _, _ => None
  end.

(** ** [str(x)] *)

(** Decimal digits of a non-negative integer. *)
Fixpoint digits_fuel (fuel : nat) (n : Z) (acc : list ascii) : list ascii :=
  match fuel with
  | O => acc
  | S f =>
      let acc' := digit_char (n mod 10) :: acc in
      if n <? 10 then acc' else digits_fuel f (n / 10) acc'
  end.

Definition z_digits (n : Z) : list ascii :=
  digits_fuel (S (Pos.size_nat (Z.to_pos (Z.abs n + 1)))) (Z.abs n) [].

Definition str_int (z : Z) : list ascii :=
  (if z <? 0 then ["-"%char] else []) ++ z_digits z.

Definition zeros (n : Z) : list ascii := repeat "0"%char (Z.to_nat n).

(** The terminating decimal [m * 10^e] of a non-negative rational, when
    its denominator divides [10^k] for some [k] up to the fuel. *)
Fixpoint decimal_of (fuel : nat) (k : Z) (n : Z) (d : positive) : option (Z * Z) :=
  match fuel with
  | O => None
  | S f =>
      if (n * 10 ^ k) mod Zpos d =? 0 then Some ((n * 10 ^ k) / Zpos d, - k)
      else decimal_of f (k + 1) n d
  end.

(** Removing trailing zeros: [m * 10^e] with [m] not a multiple of 10. *)
Fixpoint strip_zeros (fuel : nat) (m e : Z) : Z * Z :=
  match fuel with
  | O => (m, e)
  | S f => if (m mod 10 =? 0) && negb (m =? 0) then strip_zeros f (m / 10) (e + 1) else (m, e)
  end.

(** Round a positive rational to 17 significant digits: [m * 10^e]. *)
Definition round17 (n : Z) (d : positive) : Z * Z :=
  let e := Z.log2 n - Z.log2 (Zpos d) in
  let sh := 17 - (e * 3 / 10 + 1) in
  let scaled := (inject_Z n / inject_Z (Zpos d) * pow10 sh)%Q in
  (round_half_even scaled, - sh).

(** Python's [repr] layout of a positive decimal [m * 10^e]. *)
Definition repr_layout (m e : Z) : list ascii :=
  let ds := z_digits m in
  let nd := Z.of_nat (length ds) in
  let decpt := nd + e in
  if (-4 <? decpt) && (decpt <=? 16) then
    if decpt <=? 0 then ["0"%char; "."%char] ++ zeros (- decpt) ++ ds
    else if nd <=? decpt then ds ++ zeros (decpt - nd) ++ ["."%char; "0"%char]
    else firstn (Z.to_nat decpt) ds ++ ["."%char] ++ skipn (Z.to_nat decpt) ds
  else
    let x := decpt - 1 in
    firstn 1 ds ++ (match skipn 1 ds with [] => [] | r => "."%char :: r end)
      ++ ["e"%char] ++ (if x <? 0 then ["-"%char] else ["+"%char])
      ++ (if Z.abs x <? 10 then ["0"%char] else []) ++ z_digits (Z.abs x).

(** [str(x)] for a float. *)
Definition str_float (q : Q) : list ascii :=
  let q' := Qred q in
  let n := Qnum q' in
  let d := Qden q' in
  if n =? 0 then ["0"%char; "."%char; "0"%char]
  else
    let '(m, e) :=
      match decimal_of (S (Pos.size_nat d)) 0 (Z.abs n) d with
      | Some (m, e) => strip_zeros (Pos.size_nat (Z.to_pos (m + 1))) m e
      | None => let '(m, e) := round17 (Z.abs n) d in
                strip_zeros 17 m e
      end in
    (if n <? 0 then ["-"%char] else []) ++ repr_layout m e.

(** Two-digit zero padding, and six-digit for microseconds. *)
Definition pad (w : nat) (z : Z) : list ascii :=
  let ds := z_digits z in repeat "0"%char (w - length ds) ++ ds.

(** [str(t)] for a [datetime.time]: [HH:MM:SS.ffffff], without the
    fraction when the microsecond is zero. *)
Definition str_time (t : pytime) : list ascii :=
  pad 2 (t_hour t) ++ [":"%char] ++ pad 2 (t_minute t) ++ [":"%char] ++ pad 2 (t_second t)
  ++ (if t_micro t =? 0 then [] else "."%char :: pad 6 (t_micro t)).

Definition py_str (v : pyval) : string :=
  string_of_list_ascii
    match v with
    | PNone => list_ascii_of_string "None"
    | PFloat q => str_float q
    | PInt z => str_int z
    | PStr s => list_ascii_of_string s
    | PTime t => str_time t
    end.

(** ** Arithmetic *)

Inductive num := NInt (z : Z) | NFloat (q : Q).

Definition as_num (v : pyval) : res num :=
  match v with
  | PInt z => Ok (NInt z)
  | PFloat q => Ok (NFloat q)
  | _ => Err TypeError
  end.

Definition num_q (n : num) : Q := match n with NInt z => inject_Z z | NFloat q => q end.

Definition of_num (n : num) : pyval := match n with NInt z => PInt z | NFloat q => PFloat q end.

Definition py_arith (fz : Z -> Z -> Z) (fq : Q -> Q -> Q) (a b : pyval) : res pyval :=
  x <- as_num a ;;
  y <- as_num b ;;
  match x, y with
  | NInt i, NInt j => Ok (PInt (fz i j))
  | _, _ => Ok (PFloat (fq (num_q x) (num_q y)))
  end.

Definition py_add := py_arith Z.add Qplus.
Definition py_sub := py_arith Z.sub Qminus.
Definition py_mul := py_arith Z.mul Qmult.

(** True division [a / b] always gives a float. *)
Definition py_div (a b : pyval) : res pyval :=
  x <- as_num a ;;
  y <- as_num b ;;
  if Qeq_bool (num_q y) 0 then Err ZeroDivisionError
  else Ok (PFloat (num_q x / num_q y)).

Definition py_neg (a : pyval) : res pyval :=
  x <- as_num a ;;
  Ok (match x with NInt i => PInt (- i) | NFloat q => PFloat (- q) end).

(** [round(x, 3)] *)
Definition py_round3v (a : pyval) : res pyval :=
  x <- as_num a ;;
  match x with
  | NInt i => Ok (PInt i)
  | NFloat q => Ok (PFloat (py_round3 q))
  end.

(** ** Lemmas *)

Lemma py_arith_float (fz : Z -> Z -> Z) (fq : Q -> Q -> Q) (p q : Q) :
  py_arith fz fq (PFloat p) (PFloat q) = Ok (PFloat (fq p q)).
Proof. reflexivity. Qed.

Lemma py_div_float (p q : Q) :
  ~ q == 0 -> py_div (PFloat p) (PFloat q) = Ok (PFloat (p / q)).
Proof.
  intros H. unfold py_div. simpl.
  destruct (Qeq_bool q 0) eqn:E; [apply Qeq_bool_iff in E; contradiction | reflexivity].
Qed.

Lemma py_div_zero (a b : pyval) (p : Q) :
  as_num a <> Err TypeError -> (b = PFloat p \/ b = PInt (Qnum p)) -> p == 0 ->
  is_ok (as_num a) = true -> py_div a b = Err ZeroDivisionError.
Proof.
  intros _ Hb Hp Ha. unfold py_div.
  destruct (as_num a) as [x|]; [|discriminate]. simpl.
  destruct Hb as [-> | ->]; simpl.
  - replace (Qeq_bool p 0) with true by (symmetry; apply Qeq_bool_iff; exact Hp). reflexivity.
  - replace (Qeq_bool (inject_Z (Qnum p)) 0) with true; [reflexivity|].
    symmetry; apply Qeq_bool_iff. unfold Qeq in *. simpl in *. lia.
Qed.

Lemma py_neg_float (q : Q) : py_neg (PFloat q) = Ok (PFloat (- q)).
Proof. reflexivity. Qed.

(** Non-numbers in arithmetic raise [TypeError]. *)
Lemma py_arith_type_error_l (fz : Z -> Z -> Z) (fq : Q -> Q -> Q) (a b : pyval) :
  (forall z, a <> PInt z) -> (forall q, a <> PFloat q) -> py_arith fz fq a b = Err TypeError.
Proof. intros H1 H2. destruct a; try reflexivity; [exfalso; eapply H2 | exfalso; eapply H1]; reflexivity. Qed.

#[export] Hint Rewrite py_arith_float py_neg_float : osp_rw.
