(* ===== verification/Repr.v ===== *)
(** * [float(str(x))] and [int(str(n))]: printing and parsing agree

    The logs and headers the programs write are read back by the same
    programs: [write_meta_header] prints the metadata with [str()] and
    [read_config_file] parses it with [float()] and [int()]; the raw log
    prints NMEA fields and [read_raw_log] parses them.  This file proves
    that the models of [str] ([str_float], [str_int] in [PyVal]) and of
    [float] / [int] ([parse_float], [parse_int]) are inverse on the
    values that reach them: every float parsed from a decimal literal is
    printed by [str] as a literal that parses back to the same number, and
    likewise for integers.

    The proof follows the printer: [z_digits] produces the decimal digits
    of a natural number ([z_digits_spec]); [decimal_of] finds the
    terminating decimal [m * 10^e] of a rational whose reduced denominator
    divides a power of ten ([decimal_of_complete], which needs the fact
    that such a denominator is [2^a * 5^b]); [strip_zeros] keeps the
    value; each of the four layouts of [repr_layout] parses back to
    [m * 10^e] ([parse_layout]). *)

From Stdlib Require Import Znumtheory Qpower.
From Stdlib Require Qcanon.
From S2P Require Import Prelude PyVal.

Local Open Scope Z_scope.
Local Set Warnings "-deprecated".

(** ** Digits *)

Definition digit (c : ascii) : Prop := is_digit c = true.

Lemma digit_char_spec (d : Z) : 0 <= d < 10 -> digit (digit_char d) /\ digit_val (digit_char d) = d.
Proof.
  intros H. unfold digit.
  assert (d = 0 \/ d = 1 \/ d = 2 \/ d = 3 \/ d = 4 \/ d = 5 \/ d = 6 \/ d = 7 \/ d = 8 \/ d = 9)
    as Hd by lia.
  repeat destruct Hd as [-> | Hd]; try (subst; split; reflexivity).
Qed.

Lemma digits_value_acc (ds : list ascii) (acc : Z) :
  fold_left (fun a c => 10 * a + digit_val c) ds acc = acc * 10 ^ Z.of_nat (length ds) + digits_value ds.
Proof.
  unfold digits_value. revert acc. induction ds as [|c ds IH]; intros acc; cbn [fold_left length].
  - cbn. lia.
  - rewrite (IH (10 * acc + digit_val c)), (IH (10 * 0 + digit_val c)).
    rewrite Nat2Z.inj_succ, Z.pow_succ_r by lia. ring.
Qed.

Lemma digits_value_app (ds1 ds2 : list ascii) :
  digits_value (ds1 ++ ds2) = digits_value ds1 * 10 ^ Z.of_nat (length ds2) + digits_value ds2.
Proof. unfold digits_value at 1. rewrite fold_left_app. apply digits_value_acc. Qed.

Lemma digits_value_cons0 (ds : list ascii) : digits_value ("0"%char :: ds) = digits_value ds.
Proof. reflexivity. Qed.

Lemma digits_value_zeros (k : nat) (ds : list ascii) :
  digits_value (repeat "0"%char k ++ ds) = digits_value ds.
Proof.
  rewrite digits_value_app. replace (digits_value (repeat "0"%char k)) with 0; [lia|].
  induction k as [|k IH]; [reflexivity|]. cbn [repeat]. rewrite digits_value_cons0. exact IH.
Qed.

Lemma digits_fuel_S (f : nat) (n : Z) (acc : list ascii) :
  digits_fuel (S f) n acc
  = if n <? 10 then digit_char (n mod 10) :: acc else digits_fuel f (n / 10) (digit_char (n mod 10) :: acc).
Proof. reflexivity. Qed.

Lemma digits_fuel_spec (fuel : nat) (n : Z) (acc : list ascii) :
  0 <= n < 10 ^ Z.of_nat (S fuel) ->
  exists ds, digits_fuel (S fuel) n acc = (ds ++ acc)%list /\ ds <> [] /\ Forall digit ds
             /\ digits_value ds = n.
Proof.
  revert n acc. induction fuel as [|f IH]; intros n acc Hn;
    destruct (digit_char_spec (n mod 10)) as [Hd Hv]; try (apply Z.mod_pos_bound; lia);
    rewrite digits_fuel_S; destruct (Z.ltb_spec n 10).
  - exists [digit_char (n mod 10)]. repeat split; [discriminate | repeat constructor; exact Hd |].
    cbn. rewrite Hv. rewrite Z.mod_small; lia.
  - simpl in Hn. lia.
  - exists [digit_char (n mod 10)]. repeat split; [discriminate | repeat constructor; exact Hd |].
    cbn. rewrite Hv. rewrite Z.mod_small; lia.
  - rewrite Nat2Z.inj_succ, Z.pow_succ_r in Hn by lia.
    destruct (IH (n / 10) (digit_char (n mod 10) :: acc)) as (ds & E & Hne & Hall & Hval).
    { split; [apply Z.div_pos; lia | apply Z.div_lt_upper_bound; lia]. }
    exists (ds ++ [digit_char (n mod 10)])%list. rewrite E, <- app_assoc. repeat split.
    + destruct ds; [contradiction | discriminate].
    + apply Forall_app. split; [exact Hall | repeat constructor; exact Hd].
    + rewrite digits_value_app, Hval. cbn. rewrite Hv. pose proof (Z.div_mod n 10). lia.
Qed.

Lemma size_nat_bound (p : positive) : Zpos p < 2 ^ Z.of_nat (Pos.size_nat p).
Proof.
  induction p as [p IH|p IH|]; simpl Pos.size_nat; rewrite ?Nat2Z.inj_succ, ?Z.pow_succ_r by lia;
    [rewrite Pos2Z.inj_xI | rewrite Pos2Z.inj_xO |]; lia.
Qed.

Lemma pow2_le_pow10 (k : nat) : 2 ^ Z.of_nat k <= 10 ^ Z.of_nat k.
Proof. apply Z.pow_le_mono_l. lia. Qed.

(** [z_digits n]: the decimal digits of [|n|]. *)
Lemma z_digits_spec (n : Z) :
  0 <= n -> z_digits n <> [] /\ Forall digit (z_digits n) /\ digits_value (z_digits n) = n.
Proof.
  intros Hn. unfold z_digits. rewrite Z.abs_eq by lia.
  destruct (digits_fuel_spec (Pos.size_nat (Z.to_pos (n + 1))) n [])
    as (ds & E & Hne & Hall & Hval).
  { split; [lia|]. pose proof (size_nat_bound (Z.to_pos (n + 1))) as B.
    rewrite Z2Pos.id in B by lia. pose proof (pow2_le_pow10 (Pos.size_nat (Z.to_pos (n + 1)))).
    rewrite Nat2Z.inj_succ, Z.pow_succ_r by lia. lia. }
  rewrite E, app_nil_r. auto.
Qed.

Lemma digit_cases (c : ascii) :
  digit c -> In c ["0"; "1"; "2"; "3"; "4"; "5"; "6"; "7"; "8"; "9"]%char.
Proof.
  unfold digit, is_digit. intros H. apply andb_true_iff in H as [H1 H2].
  apply Nat.leb_le in H1, H2. rewrite <- (ascii_nat_embedding c).
  assert (nat_of_ascii c = 48 \/ nat_of_ascii c = 49 \/ nat_of_ascii c = 50 \/ nat_of_ascii c = 51
          \/ nat_of_ascii c = 52 \/ nat_of_ascii c = 53 \/ nat_of_ascii c = 54 \/ nat_of_ascii c = 55
          \/ nat_of_ascii c = 56 \/ nat_of_ascii c = 57)%nat as Hc by lia.
  repeat destruct Hc as [Hc|Hc]; rewrite Hc; simpl; tauto.
Qed.

(** The characters a printed number is made of. *)
Definition numeral_char (c : ascii) : Prop :=
  digit c \/ c = "."%char \/ c = "-"%char \/ c = "+"%char \/ c = "e"%char.

Lemma numeral_not_space (c : ascii) : numeral_char c -> is_space c = false.
Proof.
  intros [H | [-> | [-> | [-> | ->]]]]; try reflexivity.
  apply digit_cases in H. repeat destruct H as [<- | H]; try reflexivity. destruct H.
Qed.

Lemma drop_spaces_id (l : list ascii) :
  match l with c :: _ => is_space c = false | [] => True end -> drop_spaces l = l.
Proof. destruct l as [|c l]; [reflexivity|]. simpl. intros ->. reflexivity. Qed.

(** [str.strip()] leaves a numeral alone. *)
Lemma strip_numeral (l : list ascii) : Forall numeral_char l -> strip l = l.
Proof.
  intros H. unfold strip.
  rewrite (drop_spaces_id l) by (destruct l; [exact I | inversion H; apply numeral_not_space; assumption]).
  rewrite drop_spaces_id, rev_involutive; [reflexivity|].
  destruct (rev l) as [|c r] eqn:E; [exact I|]. apply numeral_not_space.
  rewrite Forall_forall in H. apply H. rewrite in_rev, E. left. reflexivity.
Qed.

Lemma sign_of_digit (c : ascii) (l : list ascii) : digit c -> sign_of (c :: l) = (1, c :: l).
Proof. intros H. apply digit_cases in H. repeat destruct H as [<- | H]; try reflexivity. destruct H. Qed.

Lemma take_digits_app (ds rest : list ascii) :
  Forall digit ds -> match rest with c :: _ => is_digit c = false | [] => True end ->
  take_digits (ds ++ rest) = (ds, rest).
Proof.
  intros Hd Hr. induction Hd as [|c ds Hc Hd IH]; simpl.
  - destruct rest as [|c rest]; [reflexivity|]. simpl. rewrite Hr. reflexivity.
  - rewrite Hc, IH. reflexivity.
Qed.

(** The exponent part of a numeral: nothing, or [e], a sign and digits. *)
Definition exp_chars (x : Z) (ex : list ascii) : Prop :=
  (ex = [] /\ x = 0)
  \/ exists sc digs, ex = "e"%char :: sc :: digs /\ digs <> [] /\ Forall digit digs
                     /\ ((sc = "-"%char /\ x = - digits_value digs) \/ (sc = "+"%char /\ x = digits_value digs)).

Lemma parse_exponent_chars (x : Z) (ex : list ascii) : exp_chars x ex -> parse_exponent ex = Some x.
Proof.
  intros [[-> ->] | (sc & digs & -> & Hne & Hd & [[-> ->] | [-> ->]])]; [reflexivity | |];
    pose proof (take_digits_app digs [] Hd I) as T; rewrite app_nil_r in T;
    cbn [parse_exponent Ascii.eqb Bool.eqb orb sign_of]; rewrite T;
    destruct digs; try contradiction; f_equal; lia.
Qed.

Lemma exp_chars_head (x : Z) (ex : list ascii) :
  exp_chars x ex -> match ex with c :: _ => is_digit c = false /\ c <> "."%char | [] => True end.
Proof. intros [[-> _] | (sc & digs & -> & _)]; [exact I | split; [reflexivity | discriminate]]. Qed.

Lemma exp_chars_numeral (x : Z) (ex : list ascii) : exp_chars x ex -> Forall numeral_char ex.
Proof.
  intros [[-> _] | (sc & digs & -> & _ & Hd & Hs)]; [constructor|].
  constructor; [right; right; right; right; reflexivity|].
  constructor; [destruct Hs as [[-> _]|[-> _]]; [right; right; left | right; right; right; left]; reflexivity|].
  eapply Forall_impl; [|exact Hd]. intros c Hc. left. exact Hc.
Qed.

(** A numeral: optional minus, integer digits, optional point and
    fraction digits, optional exponent. *)
Definition numeral (neg point : bool) (ip fp ex : list ascii) : list ascii :=
  ((if neg then ["-"%char] else []) ++ ip ++ (if point then "."%char :: fp else []) ++ ex)%list.

Lemma numeral_chars (neg point : bool) (ip fp ex : list ascii) (x : Z) :
  Forall digit ip -> Forall digit fp -> exp_chars x ex -> Forall numeral_char (numeral neg point ip fp ex).
Proof.
  intros Hi Hf He. unfold numeral.
  assert (D : forall l, Forall digit l -> Forall numeral_char l)
    by (intros l; apply Forall_impl; intros c Hc; left; exact Hc).
  rewrite !Forall_app. repeat split.
  - destruct neg; [constructor; [right; right; left; reflexivity | constructor] | constructor].
  - apply D, Hi.
  - destruct point; [constructor; [right; left; reflexivity | apply D, Hf] | constructor].
  - eapply exp_chars_numeral, He.
Qed.

Lemma parse_numeral (neg point : bool) (ip fp ex : list ascii) (x : Z) :
  ip <> [] -> Forall digit ip -> Forall digit fp -> (point = false -> fp = []) -> exp_chars x ex ->
  parse_float (string_of_list_ascii (numeral neg point ip fp ex))
  = Some (inject_Z ((if neg then -1 else 1) * digits_value (ip ++ fp)) * pow10 (x - Z.of_nat (length fp)))%Q.
Proof.
  intros Hne Hi Hf Hp He. unfold parse_float.
  rewrite list_ascii_of_string_of_list_ascii, strip_numeral by (eapply numeral_chars; eassumption).
  pose proof (exp_chars_head x ex He) as Hh.
  assert (Hr : match ((if point then "."%char :: fp else []) ++ ex)%list with
               | c :: _ => is_digit c = false | [] => True end)
    by (destruct point; [reflexivity | destruct ex; [exact I | apply Hh]]).
  assert (St : sign_of (numeral neg point ip fp ex)
               = (if neg then -1 else 1, (ip ++ (if point then "."%char :: fp else []) ++ ex)%list)).
  { unfold numeral. destruct neg; [reflexivity|]. destruct ip as [|c ip']; [contradiction|].
    inversion Hi; subst. apply sign_of_digit. assumption. }
  rewrite St. cbv beta iota zeta. rewrite (take_digits_app ip _ Hi Hr).
  destruct point.
  - cbn [app]. rewrite (take_digits_app fp ex Hf) by (destruct ex; [exact I | apply Hh]).
    destruct ip; [contradiction|]. cbn [length Nat.add Nat.eqb negb andb].
    rewrite (parse_exponent_chars x ex He). reflexivity.
  - rewrite (Hp eq_refl). cbn [app].
    destruct He as [[-> ->] | (sc & digs & -> & Hd1 & Hd2 & Hd3)];
      destruct ip; try contradiction; cbn [length Nat.add Nat.eqb negb andb];
      [reflexivity|].
    rewrite (parse_exponent_chars x); [reflexivity|]. right. exists sc, digs. auto.
Qed.

(** ** Powers of ten *)

Lemma pow10_Qpower (e : Z) : (pow10 e == inject_Z 10 ^ e)%Q.
Proof.
  unfold pow10. destruct (Z.leb_spec 0 e).
  - apply Zpower_Qpower. exact H.
  - replace e with (- (- e)) at 2 by lia. rewrite Qpower_opp, <- Zpower_Qpower by lia.
    assert (P : 0 < 10 ^ (- e)) by (apply Z.pow_pos_nonneg; lia).
    rewrite <- (Z2Pos.id (10 ^ (- e))) at 2 by exact P. reflexivity.
Qed.

Lemma pow10_add (a b : Z) : (pow10 (a + b) == pow10 a * pow10 b)%Q.
Proof. rewrite !pow10_Qpower. apply Qpower_plus. discriminate. Qed.

Lemma pow10_nonneg (k : Z) : 0 <= k -> (pow10 k == inject_Z (10 ^ k))%Q.
Proof. intros H. rewrite pow10_Qpower, Zpower_Qpower by exact H. reflexivity. Qed.

Lemma pow10_nonzero (e : Z) : ~ (pow10 e == 0)%Q.
Proof. rewrite pow10_Qpower. apply Qpower_not_0. discriminate. Qed.

(** Moving [j] trailing zeros of the mantissa into the exponent. *)
Lemma shift_value (m j e : Z) :
  0 <= j -> (inject_Z (m * 10 ^ j) * pow10 (e - j) == inject_Z m * pow10 e)%Q.
Proof.
  intros Hj. rewrite inject_Z_mult, <- pow10_nonneg by exact Hj.
  replace e with ((e - j) + j) at 2 by lia. rewrite pow10_add. ring.
Qed.

(** ** The layouts of [repr] *)

Lemma length_zeros (k : Z) : length (zeros k) = Z.to_nat k.
Proof. apply repeat_length. Qed.

Lemma digits_zeros_tail (ds : list ascii) (k : nat) :
  digits_value (ds ++ repeat "0"%char k) = digits_value ds * 10 ^ Z.of_nat k.
Proof.
  rewrite digits_value_app, repeat_length.
  pose proof (digits_value_zeros k []) as H. rewrite app_nil_r in H. rewrite H. cbn. lia.
Qed.

Lemma zeros_digits (k : Z) : Forall digit (zeros k).
Proof. apply Forall_forall. intros c Hc. apply repeat_spec in Hc. subst. reflexivity. Qed.

Lemma exp_chars_repr (x : Z) :
  exp_chars x (["e"%char] ++ (if x <? 0 then ["-"%char] else ["+"%char])
               ++ (if Z.abs x <? 10 then ["0"%char] else []) ++ z_digits (Z.abs x))%list.
Proof.
  destruct (z_digits_spec (Z.abs x) ltac:(lia)) as (Hne & Hd & Hv).
  right. exists (if x <? 0 then "-"%char else "+"%char),
    ((if Z.abs x <? 10 then ["0"%char] else []) ++ z_digits (Z.abs x))%list.
  assert (V : digits_value ((if Z.abs x <? 10 then ["0"%char] else []) ++ z_digits (Z.abs x))%list = Z.abs x)
    by (destruct (Z.abs x <? 10); [cbn [app]; rewrite digits_value_cons0 | ]; exact Hv).
  split; [destruct (x <? 0); reflexivity|]. split.
  - destruct (Z.abs x <? 10); [discriminate | exact Hne].
  - split; [apply Forall_app; split; [destruct (Z.abs x <? 10); repeat constructor | exact Hd]|].
    rewrite V. destruct (Z.ltb_spec x 0); [left | right]; split; (reflexivity || lia).
Qed.

(** Every layout of [repr_layout m e] (and its negation) parses back to
    [m * 10^e]. *)
Lemma parse_repr (neg : bool) (m e : Z) :
  0 < m ->
  exists v, parse_float (string_of_list_ascii ((if neg then ["-"%char] else []) ++ repr_layout m e))
            = Some v /\ (v == inject_Z ((if neg then -1 else 1) * m) * pow10 e)%Q.
Proof.
  intros Hm. destruct (z_digits_spec m ltac:(lia)) as (Hne & Hd & Hv).
  unfold repr_layout. set (ds := z_digits m) in *. set (nd := Z.of_nat (length ds)).
  set (sg := if neg then -1 else 1).
  assert (Hnd : 1 <= nd) by (unfold nd; destruct ds; [contradiction | cbn [length]; lia]).
  destruct ((-4 <? nd + e) && (nd + e <=? 16)).
  - destruct (Z.leb_spec (nd + e) 0).
    + replace ((if neg then ["-"%char] else []) ++ ["0"%char; "."%char] ++ zeros (- (nd + e)) ++ ds)%list
        with (numeral neg true ["0"%char] (zeros (- (nd + e)) ++ ds) [])
        by (unfold numeral; rewrite !app_nil_r; reflexivity).
      rewrite (parse_numeral neg true _ _ [] 0) by
        (first [discriminate | (intros Hc; discriminate Hc) | solve [repeat constructor] | apply Forall_app; split; [apply zeros_digits | exact Hd]
               | left; split; reflexivity]).
      eexists; split; [reflexivity|]. cbn [app]. rewrite digits_value_cons0. unfold zeros at 1. rewrite digits_value_zeros, Hv.
      rewrite length_app, length_zeros. fold nd. replace (0 - (Z.of_nat (Z.to_nat (- (nd + e)) + length ds)))
        with e by (fold nd; lia). reflexivity.
    + destruct (Z.leb_spec nd (nd + e)).
      * replace ((if neg then ["-"%char] else []) ++ ds ++ zeros (nd + e - nd) ++ ["."%char; "0"%char])%list
          with (numeral neg true (ds ++ zeros (nd + e - nd)) ["0"%char] [])
          by (unfold numeral; rewrite !app_nil_r, <- !app_assoc; reflexivity).
        rewrite (parse_numeral neg true _ _ [] 0) by
          (first [(intros Hc; discriminate Hc) | intros Hc; apply app_eq_nil in Hc; tauto | solve [repeat constructor]
                 | apply Forall_app; split; [exact Hd | apply zeros_digits] | left; split; reflexivity]).
        eexists; split; [reflexivity|].
        rewrite digits_value_app. unfold zeros. rewrite digits_zeros_tail, Hv. cbn [length Z.of_nat].
        rewrite Z2Nat.id by lia. replace (nd + e - nd) with e by lia.
        change (Z.pos (Pos.of_succ_nat 0)) with 1. change (digits_value ["0"%char]) with 0.
        fold sg. replace (sg * (m * 10 ^ e * 10 ^ 1 + 0)) with (sg * m * 10 ^ (e + 1))
          by (rewrite Z.pow_add_r by lia; ring).
        replace (0 - 1) with (e - (e + 1)) by lia. apply shift_value. lia.
      * set (k := Z.to_nat (nd + e)).
        replace ((if neg then ["-"%char] else []) ++ firstn k ds ++ ["."%char] ++ skipn k ds)%list
          with (numeral neg true (firstn k ds) (skipn k ds) [])
          by (unfold numeral; rewrite !app_nil_r; reflexivity).
        assert (Hk : (1 <= k < length ds)%nat) by (unfold k, nd in *; lia).
        rewrite (parse_numeral neg true _ _ [] 0).
        -- eexists; split; [reflexivity|]. rewrite firstn_skipn, Hv, length_skipn.
           replace (0 - Z.of_nat (length ds - k)) with e by (unfold k, nd in *; lia). reflexivity.
        -- intros Hc. apply (f_equal (@length ascii)) in Hc. rewrite length_firstn in Hc.
           cbn [length] in Hc. lia.
        -- rewrite <- (firstn_skipn k ds) in Hd. apply Forall_app in Hd. tauto.
        -- rewrite <- (firstn_skipn k ds) in Hd. apply Forall_app in Hd. tauto.
        -- intros Hc. discriminate Hc.
        -- left. split; reflexivity.
  - destruct ds as [|d0 rest] eqn:Eds; [contradiction|]. cbn [firstn skipn].
    assert (Hd0 : digit d0 /\ Forall digit rest) by (inversion Hd; auto).
    assert (Hval : digits_value ([d0] ++ rest) = m) by exact Hv.
    set (x := nd + e - 1). set (ex := (["e"%char] ++ (if x <? 0 then ["-"%char] else ["+"%char])
               ++ (if Z.abs x <? 10 then ["0"%char] else []) ++ z_digits (Z.abs x))%list).
    assert (Hlen : nd = Z.of_nat (S (length rest))) by reflexivity.
    destruct rest as [|r0 rest'].
    + replace ((if neg then ["-"%char] else []) ++ [d0] ++ [] ++ ex)%list with (numeral neg false [d0] [] ex)
        by reflexivity.
      rewrite (parse_numeral neg false [d0] [] ex x) by
        (first [discriminate | solve [repeat constructor; tauto] | reflexivity | apply exp_chars_repr]).
      eexists; split; [reflexivity|]. cbn [app]. rewrite Hv.
      cbn [length Z.of_nat] in Hlen |- *. replace (x - 0) with e by (unfold x; lia). reflexivity.
    + replace ((if neg then ["-"%char] else []) ++ [d0] ++ ("."%char :: r0 :: rest') ++ ex)%list
        with (numeral neg true [d0] (r0 :: rest') ex) by reflexivity.
      rewrite (parse_numeral neg true [d0] (r0 :: rest') ex x) by
        (first [discriminate | solve [repeat constructor; tauto] | tauto | apply exp_chars_repr]).
      eexists; split; [reflexivity|]. cbn [app]. rewrite Hv.
      replace (x - Z.of_nat (length (r0 :: rest'))) with e by (unfold x; rewrite Hlen; cbn [length]; lia).
      reflexivity.
Qed.

(** ** Terminating decimals *)

Lemma strip_zeros_value (f : nat) (m e : Z) :
  0 < m -> 0 < fst (strip_zeros f m e)
           /\ (inject_Z (fst (strip_zeros f m e)) * pow10 (snd (strip_zeros f m e)) == inject_Z m * pow10 e)%Q.
Proof.
  revert m e. induction f as [|f IH]; intros m e Hm; simpl; [split; [lia | reflexivity]|].
  destruct ((m mod 10 =? 0) && negb (m =? 0)) eqn:E; simpl; [|split; [lia | reflexivity]].
  apply andb_true_iff in E as [E _]. apply Z.eqb_eq in E.
  assert (Hm' : m = m / 10 * 10 ^ 1) by (pose proof (Z.div_mod m 10); cbn; lia).
  destruct (IH (m / 10) (e + 1)) as [IH1 IH2]; [apply Z.div_str_pos; pose proof (Z.mod_pos_bound m 10); lia|].
  split; [exact IH1|]. rewrite IH2, <- (shift_value (m / 10) 1 (e + 1)) by lia.
  rewrite <- Hm'. replace (e + 1 - 1) with e by lia. reflexivity.
Qed.

Lemma decimal_of_sound (f : nat) (k n : Z) (d : positive) (m e : Z) :
  0 <= k -> decimal_of f k n d = Some (m, e) ->
  0 <= - e /\ m * Zpos d = n * 10 ^ (- e).
Proof.
  revert k. induction f as [|f IH]; intros k Hk H; [discriminate|]. simpl in H.
  destruct (Z.eqb_spec ((n * 10 ^ k) mod Zpos d) 0) as [E|E].
  - injection H as <- <-. rewrite Z.opp_involutive. split; [exact Hk|].
    pose proof (Z.div_mod (n * 10 ^ k) (Zpos d)) as D. rewrite E in D. lia.
  - apply (IH (k + 1)); [lia | exact H].
Qed.

Lemma decimal_of_complete (f : nat) (k n : Z) (d : positive) (j : Z) :
  k <= j < k + Z.of_nat f -> (n * 10 ^ j) mod Zpos d = 0 -> decimal_of f k n d <> None.
Proof.
  revert k. induction f as [|f IH]; intros k Hj Hm; [lia|]. simpl.
  destruct (Z.eqb_spec ((n * 10 ^ k) mod Zpos d) 0); [discriminate|].
  apply (IH (k + 1)); [|exact Hm]. destruct (Z.eq_dec j k); [subst; contradiction | lia].
Qed.

Lemma prime_5 : prime 5.
Proof.
  apply prime_intro; [lia|]. intros n Hn. apply Zgcd_1_rel_prime.
  assert (n = 1 \/ n = 2 \/ n = 3 \/ n = 4) as H by lia.
  repeat destruct H as [-> | H]; try reflexivity. subst. reflexivity.
Qed.

(** Dividing by a prime factor, or being coprime to it. *)
Lemma divide_prime_step (p d c : Z) :
  prime p -> 0 < d -> (d | p * c) ->
  (exists d', 0 < d' /\ d = p * d' /\ (d' | c)) \/ (d | c).
Proof.
  intros Hp Hd Hdiv. destruct (Zdivide_dec p d) as [[k ->]|Hn].
  - left. assert (1 < p) by (destruct Hp; lia). exists k. split; [nia|]. split; [ring|].
    rewrite (Z.mul_comm k p) in Hdiv. apply Z.mul_divide_cancel_l in Hdiv; [exact Hdiv | lia].
  - right. apply Gauss with p; [exact Hdiv|]. apply rel_prime_sym, prime_rel_prime; assumption.
Qed.

Lemma divisor_2a5b (i j : nat) (d : Z) :
  0 < d -> (d | 2 ^ Z.of_nat i * 5 ^ Z.of_nat j) ->
  exists a b : nat, d = 2 ^ Z.of_nat a * 5 ^ Z.of_nat b.
Proof.
  revert j d. induction i as [|i IHi]; intros j d Hd Hdiv.
  - change (2 ^ Z.of_nat 0) with 1 in Hdiv. rewrite Z.mul_1_l in Hdiv.
    revert d Hd Hdiv. induction j as [|j IHj]; intros d Hd Hdiv.
    + exists 0%nat, 0%nat. cbn in *. apply Z.divide_1_r_nonneg in Hdiv; lia.
    + rewrite Nat2Z.inj_succ, Z.pow_succ_r in Hdiv by lia.
      destruct (divide_prime_step 5 d _ prime_5 Hd Hdiv) as [(d' & Hd' & -> & Hc) | Hc].
      * destruct (IHj d' Hd' Hc) as (a & b & ->).
        exists a, (S b). rewrite Nat2Z.inj_succ, Z.pow_succ_r by lia. ring.
      * exact (IHj d Hd Hc).
  - rewrite Nat2Z.inj_succ, Z.pow_succ_r, <- Z.mul_assoc in Hdiv by lia.
    destruct (divide_prime_step 2 d _ prime_2 Hd Hdiv) as [(d' & Hd' & -> & Hc) | Hc].
    + destruct (IHi j d' Hd' Hc) as (a & b & ->).
      exists (S a), b. rewrite Nat2Z.inj_succ, Z.pow_succ_r by lia. ring.
    + exact (IHi j d Hd Hc).
Qed.

(** A denominator dividing a power of ten divides [10^s], [s] its bit size. *)
Lemma divides_pow10_size (d : positive) (K : nat) :
  (Zpos d | 10 ^ Z.of_nat K) -> (Zpos d | 10 ^ Z.of_nat (Pos.size_nat d)).
Proof.
  intros H. replace (10 ^ Z.of_nat K) with (2 ^ Z.of_nat K * 5 ^ Z.of_nat K) in H
    by (rewrite <- Z.pow_mul_l; reflexivity).
  destruct (divisor_2a5b K K (Zpos d) ltac:(lia) H) as (a & b & Ed).
  set (s := Pos.size_nat d). pose proof (size_nat_bound d) as B. fold s in B.
  assert (Ha : (a < s)%nat).
  { destruct (Nat.lt_ge_cases a s) as [|Hs]; [assumption|].
    assert (2 ^ Z.of_nat s <= 2 ^ Z.of_nat a) by (apply Z.pow_le_mono_r; lia).
    assert (0 < 5 ^ Z.of_nat b) by (apply Z.pow_pos_nonneg; lia). nia. }
  assert (Hb : (b < s)%nat).
  { destruct (Nat.lt_ge_cases b s) as [|Hs]; [assumption|].
    assert (5 ^ Z.of_nat s <= 5 ^ Z.of_nat b) by (apply Z.pow_le_mono_r; lia).
    assert (2 ^ Z.of_nat s <= 5 ^ Z.of_nat s) by (apply Z.pow_le_mono_l; lia).
    assert (0 < 2 ^ Z.of_nat a) by (apply Z.pow_pos_nonneg; lia). nia. }
  rewrite Ed. exists (2 ^ Z.of_nat (s - a) * 5 ^ Z.of_nat (s - b)).
  replace (10 ^ Z.of_nat s) with (2 ^ Z.of_nat s * 5 ^ Z.of_nat s) by (rewrite <- Z.pow_mul_l; reflexivity).
  replace (Z.of_nat s) with (Z.of_nat (s - a) + Z.of_nat a) at 1 by lia.
  replace (Z.of_nat s) with (Z.of_nat (s - b) + Z.of_nat b) by lia.
  rewrite !Z.pow_add_r by lia. ring.
Qed.

(** A rational with a terminating decimal expansion. *)
Definition decimal (q : Q) : Prop :=
  exists (k : nat) (z : Z), (q * inject_Z (10 ^ Z.of_nat k) == inject_Z z)%Q.

Lemma Qred_den_divides (q : Q) :
  decimal q -> exists K : nat, (Zpos (Qden (Qred q)) | 10 ^ Z.of_nat K).
Proof.
  intros (k & z & H). exists k.
  pose proof (Qred_correct q) as Hr. pose proof (Qcanon.Qred_involutive q) as Hi.
  apply Qcanon.Qred_iff in Hi. rewrite <- Hr in H.
  destruct (Qred q) as [n d]. cbn [Qnum Qden] in *. unfold Qeq in H. cbn in H.
  apply Gauss with n.
  - exists z. rewrite Z.mul_1_r in H. lia.
  - apply rel_prime_sym, Zgcd_1_rel_prime. exact Hi.
Qed.

Lemma decimal_value (m n j : Z) (d : positive) :
  0 <= j -> m * Zpos d = n * 10 ^ j ->
  (inject_Z m * pow10 (- j) == inject_Z n / inject_Z (Zpos d))%Q.
Proof.
  intros Hj E.
  assert (P : (pow10 (- j) == / pow10 j)%Q) by (rewrite !pow10_Qpower, Qpower_opp; reflexivity).
  assert (M : (inject_Z m == inject_Z n * pow10 j / inject_Z (Zpos d))%Q).
  { rewrite pow10_nonneg by exact Hj. rewrite <- inject_Z_mult, <- E, inject_Z_mult. field. discriminate. }
  rewrite M, P. field. split; [discriminate | apply pow10_nonzero].
Qed.

(** [str(x)] of a terminating decimal parses back to [x]. *)
Lemma str_float_parse (q : Q) :
  decimal q -> exists v, parse_float (string_of_list_ascii (str_float q)) = Some v /\ (v == q)%Q.
Proof.
  intros Hq. destruct (Qred_den_divides q Hq) as [K HK].
  pose proof (Qred_correct q) as Hr. unfold str_float.
  destruct (Qred q) as [n d] eqn:Eq. cbn [Qnum Qden] in *.
  destruct (Z.eqb_spec n 0) as [->|Hn].
  - eexists. split; [reflexivity|]. rewrite <- Hr. unfold Qeq. simpl. lia.
  - set (s := Pos.size_nat d).
    assert (Hdiv : (Z.abs n * 10 ^ Z.of_nat s) mod Zpos d = 0).
    { apply Zdivide_mod. apply Z.divide_mul_r. apply (divides_pow10_size d K HK). }
    destruct (decimal_of (S s) 0 (Z.abs n) d) as [[m e]|] eqn:Ed;
      [| exfalso; apply (decimal_of_complete (S s) 0 (Z.abs n) d (Z.of_nat s)); [lia | exact Hdiv | exact Ed]].
    destruct (decimal_of_sound (S s) 0 (Z.abs n) d m e ltac:(lia) Ed) as [He Hme].
    assert (Hm : 0 < m) by (assert (0 < 10 ^ (- e)) by (apply Z.pow_pos_nonneg; lia); nia).
    pose proof (strip_zeros_value (Pos.size_nat (Z.to_pos (m + 1))) m e Hm) as [Hm' Hv'].
    destruct (strip_zeros (Pos.size_nat (Z.to_pos (m + 1))) m e) as [m' e']. cbn [fst snd] in Hm', Hv'.
    destruct (parse_repr (n <? 0) m' e' Hm') as (v & Hp & Hv). exists v. split; [exact Hp|].
    rewrite Hv, <- Hr, inject_Z_mult, <- Qmult_assoc, Hv'.
    replace e with (- (- e)) by lia. rewrite (decimal_value m (Z.abs n) (- e) d He Hme).
    unfold Qdiv. rewrite Qmult_assoc, <- inject_Z_mult.
    replace ((if n <? 0 then -1 else 1) * Z.abs n) with n by (destruct (Z.ltb_spec n 0); lia).
    unfold Qeq. cbn. ring.
Qed.

(** A float read from a decimal literal is a terminating decimal. *)
Lemma parse_float_decimal (s : string) (q : Q) : parse_float s = Some q -> decimal q.
Proof.
  unfold parse_float.
  destruct (sign_of (strip (list_ascii_of_string s))) as [sg r].
  destruct (take_digits r) as [ip r1].
  destruct (match r1 with "."%char :: r1' => take_digits r1' | _ => ([], r1) end) as [fp r2].
  destruct (_ =? 0)%nat; [discriminate|]. destruct (_ && _); [discriminate|].
  destruct (parse_exponent r2) as [x|]; [|discriminate]. intros H. injection H as <-.
  set (N := sg * digits_value (ip ++ fp)). set (E := x - Z.of_nat (length fp)).
  destruct (Z.leb_spec 0 E).
  - exists 0%nat, (N * 10 ^ E). rewrite pow10_nonneg by assumption.
    cbn [Z.of_nat Z.pow]. rewrite !inject_Z_mult. ring.
  - exists (Z.to_nat (- E)), N. rewrite Z2Nat.id by lia.
    rewrite <- pow10_nonneg by lia. rewrite <- Qmult_assoc, <- pow10_add, Z.add_opp_diag_r.
    cbn. ring.
Qed.

Lemma z_digits_abs (z : Z) : z_digits (Z.abs z) = z_digits z.
Proof. unfold z_digits. rewrite Z.abs_involutive. reflexivity. Qed.

Lemma str_int_numeral (z : Z) :
  str_int z = numeral (z <? 0) false (z_digits z) [] [].
Proof. unfold str_int, numeral. rewrite !app_nil_r. reflexivity. Qed.

(** ** The round trips *)

(** [int(str(n)) = n] for every integer. *)
Lemma int_str_roundtrip (z : Z) : parse_int (py_str (PInt z)) = Some z.
Proof.
  destruct (z_digits_spec (Z.abs z) ltac:(lia)) as (Hne & Hd & Hv). rewrite z_digits_abs in *.
  unfold py_str, parse_int. rewrite list_ascii_of_string_of_list_ascii, str_int_numeral.
  rewrite strip_numeral by (eapply (numeral_chars _ _ _ _ _ 0); [exact Hd | constructor | left; split; reflexivity]).
  unfold numeral. rewrite !app_nil_r.
  assert (T : take_digits (z_digits z) = (z_digits z, [])).
  { pose proof (take_digits_app (z_digits z) [] Hd I) as T. rewrite app_nil_r in T. exact T. }
  destruct (Z.ltb_spec z 0).
  - cbn [app sign_of]. rewrite T. destruct (z_digits z); [contradiction|]. f_equal. lia.
  - destruct (z_digits z) as [|c ds] eqn:E; [contradiction|]. inversion Hd; subst.
    cbn [app]. rewrite sign_of_digit by assumption. rewrite T. f_equal. lia.
Qed.

(** [float(str(n)) == n] for every integer: an integer field written
    by [csv.writer] reads back as a float of the same value. *)
Lemma float_int_str (z : Z) : parse_float (py_str (PInt z)) = Some (inject_Z z).
Proof.
  destruct (z_digits_spec (Z.abs z) ltac:(lia)) as (Hne & Hd & Hv). rewrite z_digits_abs in *.
  unfold py_str. rewrite str_int_numeral.
  rewrite (parse_numeral (z <? 0) false (z_digits z) [] [] 0 Hne Hd (Forall_nil _) (fun _ => eq_refl)
             (or_introl (conj eq_refl eq_refl))).
  rewrite app_nil_r, Hv.
  replace ((if z <? 0 then (-1)%Z else 1%Z) * Z.abs z)%Z with z by (destruct (Z.ltb_spec z 0); lia).
  change (pow10 (0 - Z.of_nat (length (@nil ascii)))) with 1%Q.
  unfold inject_Z, Qmult. cbn [Qnum Qden]. rewrite Z.mul_1_r. reflexivity.
Qed.

