(* ===== verification/Strptime.v ===== *)
(** * [datetime.strptime] for the formats of osplib.py

    [Raw_Log.read_raw_log] parses the leading timestamp of each row with
    [strptime(row[0], '%H:%M:%S.%f')] (osplib.py 501) and
    [get_time_lat_long] parses the NMEA time field with
    [strptime(message[t], '%H%M%S.%f')] (osplib.py 520).  CPython compiles
    the format to a regular expression ([_strptime.TimeRE]): [%H] is
    [2[0-3]|[0-1]\d|\d], [%M] is [[0-5]\d|\d], [%S] is [6[0-1]|[0-5]\d|\d],
    [%f] is [[0-9]{1,6}] and a literal is itself.  [re.match] returns the
    first match of the backtracking search (alternatives left to right,
    [{1,6}] longest first), and strptime raises [ValueError] when there is
    none or when it does not reach the end of the string ("unconverted
    data remains").  The fields then build a [datetime], which refuses a
    second of 60 or 61.  [match_elems] enumerates the matches in the
    engine's order, so its head is the match Python takes. *)

From S2P Require Import Prelude PyVal.

Local Open Scope Z_scope.

(** One element of the compiled pattern: its alternatives in order, each a
    fixed-length sequence of character classes. *)
Definition alt := list (ascii -> bool).
Definition elem := list alt.

Definition in_range (lo hi : ascii) (c : ascii) : bool :=
  (nat_of_ascii lo <=? nat_of_ascii c)%nat && (nat_of_ascii c <=? nat_of_ascii hi)%nat.

Definition lit (c : ascii) : elem := [[Ascii.eqb c]].

Definition re_H : elem :=
  [[Ascii.eqb "2"; in_range "0" "3"]; [in_range "0" "1"; is_digit]; [is_digit]].
Definition re_M : elem := [[in_range "0" "5"; is_digit]; [is_digit]].
Definition re_S : elem :=
  [[Ascii.eqb "6"; in_range "0" "1"]; [in_range "0" "5"; is_digit]; [is_digit]].
(** [[0-9]{1,6}], greedy: six digits first. *)
Definition re_f : elem := map (fun n => repeat is_digit n) [6; 5; 4; 3; 2; 1]%nat.

(** The format strings, compiled. *)
Definition fmt_nmea : list elem := [re_H; re_M; re_S; lit "."; re_f].
Definition fmt_clock : list elem := [re_H; lit ":"; re_M; lit ":"; re_S; lit "."; re_f].

Fixpoint match_alt (a : alt) (inp : list ascii) : option (list ascii * list ascii) :=
  match a, inp with
  | [], _ => Some ([], inp)
  | p :: a', c :: inp' =>
      if p c then
        match match_alt a' inp' with
        | Some (cap, rest) => Some (c :: cap, rest)
        | None => None
        end
      else None
  | _ :: _, [] => None
  end.

(** All matches of a pattern at the start of the input, in the order of
    the backtracking search: the captured text of each element and the
    unconsumed rest. *)
Fixpoint match_elems (es : list elem) (inp : list ascii) : list (list (list ascii) * list ascii) :=
  match es with
  | [] => [([], inp)]
  | e :: es' =>
      flat_map (fun a =>
        match match_alt a inp with
        | Some (cap, rest) => map (fun '(caps, r) => (cap :: caps, r)) (match_elems es' rest)
        | None => []
        end) e
  end.

(** [%f]: the digits padded on the right to six. *)
Definition micro_of (ds : list ascii) : Z :=
  digits_value (ds ++ repeat "0"%char (6 - length ds)).

(** The groups of the match, positions of H, M, S, f in the format. *)
Definition build_time (h m s f : list ascii) : res pytime :=
  let sec := digits_value s in
  if 59 <? sec then Err ValueError
  else Ok (mk_time (digits_value h) (digits_value m) sec (micro_of f)).

Definition strptime_groups (fmt : list elem) (caps : list (list ascii)) : res pytime :=
  match fmt, caps with
  | [_; _; _; _; _], [h; m; s; _; f] => build_time h m s f
  | [_; _; _; _; _; _; _], [h; _; m; _; s; _; f] => build_time h m s f
  | _, _ => Err ValueError
  end.

Definition strptime (fmt : list elem) (s : string) : res pytime :=
  match match_elems fmt (list_ascii_of_string s) with
  | (caps, []) :: _ => strptime_groups fmt caps
  | _ => Err ValueError
  end.

Definition strptime_v (fmt : list elem) (v : pyval) : res pytime :=
  match v with PStr s => strptime fmt s | _ => Err TypeError end.

(** ** Examples of the engine's order *)

Example strptime_nmea_noon : strptime fmt_nmea "123519.0" = Ok (mk_time 12 35 19 0).
Proof. reflexivity. Qed.

Example strptime_clock_basic :
  strptime fmt_clock "12:35:19.250000" = Ok (mk_time 12 35 19 250000).
Proof. reflexivity. Qed.
