(* ===== verification/Reader.v ===== *)
(** * Reading logs back ([generic_reader], [read_config_file],
      [Raw_Log.read_raw_log]; osplib.py 249-290, 493-514)

    A file is the list of rows [csv.reader] yields: each row a list of
    strings ([csv.reader] yields [[]] for a blank line).  CSV quoting is
    below this level and not modelled.  [generic_reader] has no [try]: an
    empty row makes [row[0]] raise [IndexError] out of it.
    [read_raw_log] converts the leading timestamp with [strptime] and
    every other field with [float()], leaving a field that does not parse
    as its string and turning an empty field into [None]; a row whose
    timestamp does not parse is dropped. *)

From S2P Require Import Prelude PyVal Strptime.

Local Open Scope Z_scope.
Local Open Scope string_scope.

Definition srow := list string.

(** The loop of [generic_reader] with its [start_found] flag. *)
Fixpoint reader_loop (rows : list srow) (start : string) (stop : option string)
    (found : bool) (acc : list srow) : res (list srow) :=
  match rows with
  | [] => Ok acc
  | r :: rs =>
      r0 <- r.[0] ;;
      if negb (String.eqb r0 start) && negb found then reader_loop rs start stop found acc
      else if String.eqb r0 start then reader_loop rs start stop true acc
      else if match stop with Some e => String.eqb r0 e | None => false end then Ok acc
      else reader_loop rs start stop found (acc ++ [r])
  end.

(** [generic_reader(filename, delimit, start, end)]; [end = None] is
    [stop = None]. *)
Definition generic_reader (rows : list srow) (start : string) (stop : option string)
    : res (list srow) :=
  reader_loop rows start stop false [].

(** ** Metadata (the [Metadata] header of every file) *)

Record sensor_desc := mk_sensor { sd_name : string; sd_type : string; sd_offset : Q;
                                  sd_r1 : Q; sd_r2 : Q; sd_r3 : Q }.
Record com_desc := mk_com { cd_name : string; cd_port : string; cd_baud : Z }.
Record metadata := mk_meta {
  m_survey : string * string * string;
  m_geodetics : Q * Q;
  m_vessel : string;
  m_gnss : sensor_desc;
  m_sonar : sensor_desc;
  m_svp : string * string * Q;
  m_gnss_com : com_desc;
  m_sonar_com : com_desc;
  m_svp_com : com_desc }.

Definition s_float (s : string) : res Q := py_float (PStr s).

Definition s_int (s : string) : res Z :=
  match parse_int s with Some z => Ok z | None => Err ValueError end.

Definition cell (rs : list srow) (i j : Z) : res string := r <- rs.[i] ;; r.[j].

Definition read_sensor (rs : list srow) (i : Z) : res sensor_desc :=
  n <- cell rs i 0 ;; t <- cell rs i 1 ;;
  o <- cell rs i 2 ;; o <- s_float o ;; a <- cell rs i 3 ;; a <- s_float a ;;
  b <- cell rs i 4 ;; b <- s_float b ;; c <- cell rs i 5 ;; c <- s_float c ;;
  Ok (mk_sensor n t o a b c).

Definition read_com (rs : list srow) (i : Z) : res com_desc :=
  n <- cell rs i 0 ;; p <- cell rs i 1 ;; b <- cell rs i 2 ;; b <- s_int b ;;
  Ok (mk_com n p b).

(** [file_check(filename, '.csv')]: the suffix test; the existence test
    after the two [return]s is unreachable. *)
Definition file_check (filename ending : string) : bool :=
  let n := String.length filename in
  let k := String.length ending in
  (k <=? n)%nat && String.eqb (substring (n - k) k filename) ending.

(** [read_config_file(filename)] on a file that passed [file_check]. *)
Definition read_config_file (rows : list srow) : res metadata :=
  rs <- generic_reader rows "Header_Start" (Some "Header_End") ;;
  s0 <- cell rs 0 0 ;; s1 <- cell rs 0 1 ;; s2 <- cell rs 0 2 ;;
  g0 <- cell rs 1 0 ;; g0 <- s_float g0 ;; g1 <- cell rs 1 1 ;; g1 <- s_float g1 ;;
  v <- cell rs 2 0 ;;
  gnss <- read_sensor rs 3 ;;
  sonar <- read_sensor rs 4 ;;
  p0 <- cell rs 5 0 ;; p1 <- cell rs 5 1 ;; p2 <- cell rs 5 2 ;; p2 <- s_float p2 ;;
  gc <- read_com rs 6 ;; sc <- read_com rs 7 ;; pc <- read_com rs 8 ;;
  Ok (mk_meta (s0, s1, s2) (g0, g1) v gnss sonar (p0, p1, p2) gc sc pc).

(** ** Body rows *)

(** [if row[i] == '': row[i] = None; row[i] = float(row[i])] under
    [try/except: pass]. *)
Definition coerce_field (s : string) : pyval :=
  if String.eqb s "" then PNone
  else match parse_float s with Some q => PFloat q | None => PStr s end.

(** One row of the loop of [read_raw_log]: [None] when it is dropped. *)
Definition coerce_row (r : srow) : option row :=
  match r with
  | [] => None
  | s0 :: rest =>
      match strptime fmt_clock s0 with
      | Ok t => Some (PTime t :: map coerce_field rest)
      | Err _ => None
      end
  end.

Definition coerce_rows (body : list srow) : list row :=
  fold_right (fun r acc => match coerce_row r with Some x => x :: acc | None => acc end) [] body.

(** [Raw_Log.read_raw_log()] *)
Definition read_raw_log (rows : list srow) : res (metadata * list row) :=
  meta <- read_config_file rows ;;
  body <- generic_reader rows "Header_End" None ;;
  Ok (meta, coerce_rows body).

(** ** The suffix test and the types of the rows read *)

(** The shape of a row [read_raw_log] returns: a clock time, then fields
    that are [None] (an empty field), a float, or a non-empty string
    [float()] rejects. *)
Definition field_typed (v : pyval) : bool :=
  match v with
  | PNone | PFloat _ => true
  | PStr s => negb (String.eqb s "") && match parse_float s with Some _ => false | None => true end
  | _ => false
  end.

Definition row_typed (r : row) : bool :=
  match r with
  | PTime _ :: rest => forallb field_typed rest
  | _ => false
  end.

Lemma coerce_field_typed (s : string) : field_typed (coerce_field s) = true.
Proof.
  unfold coerce_field. destruct (String.eqb_spec s ""); [reflexivity|].
  destruct (parse_float s) eqn:E; cbn; [reflexivity|].
  apply String.eqb_neq in n. now rewrite n, E.
Qed.

Lemma coerce_rows_typed (body : list srow) : Forall (fun r => row_typed r = true) (coerce_rows body).
Proof.
  induction body as [|r body IH]; cbn; [constructor|].
  destruct (coerce_row r) as [x|] eqn:E; [|exact IH]. constructor; [|exact IH].
  destruct r as [|s0 rest]; [discriminate|]. cbn in E.
  destruct (strptime fmt_clock s0); [|discriminate]. injection E as <-. cbn.
  apply forallb_forall. intros v Hv. apply in_map_iff in Hv as (s & <- & _). apply coerce_field_typed.
Qed.

(** C27. Type of the rows [Raw_Log.read_raw_log] returns: each starts with a
    clock time, and every other field is [None] (an empty field), a
    float, or a non-empty string [float()] rejects; never an [int]. *)
Theorem read_raw_log_typed (rows : list srow) (m : metadata) (body : list row) :
  read_raw_log rows = Ok (m, body) -> Forall (fun r => row_typed r = true) body.
Proof.
  unfold read_raw_log. intros H. bind_inv H. apply coerce_rows_typed.
Qed.

Module Demo.

(** A configuration file of a lake survey. *)
Definition config : list srow :=
  [["OSP_CONFIG"]; ["Header_Start"]; ["Lake_Survey"; "Lake"; "2022-01-15"]; ["6378137.0"; "298.257223563"];
   ["Boat"]; ["GNSS"; "F9P"; "1.25"; "0"; "0"; "0"]; ["Sonar"; "Ping"; "-0.5"; "0"; "0"; "0"];
   ["SVP"; "probe"; "1500.0"]; ["GNSS_Com"; "COM1"; "9600"]; ["Sonar_Com"; "COM2"; "115200"];
   ["SVP_Com"; "COM3"; "9600"]; ["Header_End"]].

(** A raw log: the header, then a fix, a ping and a line without time. *)
Definition raw_log : list srow :=
  config ++ [["12:35:19.100000"; "$GNGGA"; "123519.00"; "4807.038"; "N"; ""];
             ["12:35:19.200000"; "$DEPTH"; "5.0"; "100"; "0"; "0"; "0"; "0"; "1500.0"];
             ["garbage"; "1"]].

End Demo.

Lemma read_raw_log_typed_witness :
  exists m body, read_raw_log Demo.raw_log = Ok (m, body) /\ Forall (fun r => row_typed r = true) body.
Proof.
  destruct (read_raw_log Demo.raw_log) as [[m body]|e] eqn:E; [|vm_compute in E; discriminate].
  exists m, body. split; [reflexivity | exact (read_raw_log_typed _ _ _ E)].
Defined.
