(* ===== verification/Header.v ===== *)
(** * The metadata header: [write_meta_header] and its round trip

    Every file the programs write starts with the survey metadata:
    [write_meta_header] (osplib.py 300-317) writes the file type, the
    marker row [Header_Start], the nine metadata rows (survey, geodetics,
    vessel, GNSS, sonar, SVP, the three ports), for a simplified log a
    column-name row, and [Header_End]; [online.py] writes it at the top of
    the raw and the simplified log (lines 88-97), and [read_config_file]
    reads it back from the raw log in the processor.

    [header_rows] is the writer, with Python's [str] on the numbers and
    [str] of the one-element file-type list.  The round trip
    [header_roundtrip]: the metadata [online.py] read from a configuration
    file, written to a log header and read back, is the same metadata, up
    to the equality of floats ([meta_eqv], an equivalence).  It rests on
    [Repr.str_float_parse] and on two facts of [generic_reader]: the
    rows it returns never start with a marker, and it stops at the end
    marker whatever follows. *)

From Stdlib Require Import Setoid Morphisms.
From S2P Require Import Prelude PyVal Repr Reader.

Local Open Scope string_scope.

(** ** The writer *)

Definition str_f (q : Q) : string := py_str (PFloat q).
Definition str_i (z : Z) : string := py_str (PInt z).

Definition sensor_row (s : sensor_desc) : srow :=
  [sd_name s; sd_type s; str_f (sd_offset s); str_f (sd_r1 s); str_f (sd_r2 s); str_f (sd_r3 s)].

Definition com_row (c : com_desc) : srow := [cd_name c; cd_port c; str_i (cd_baud c)].

(** The column-name row of a simplified log: one field. *)
Definition simple_columns : string :=
  "Time, Latitude, Longitude, Depth_Below_Water, Height_Ellipsoidal, Soundspeed".

(** [write_meta_header(filename, metadata)] with
    [metadata['filetype'] = [ft]]: the rows of the new file. *)
Definition header_rows (ft : string) (m : metadata) : list srow :=
  let '(s0, s1, s2) := m_survey m in
  let '(g0, g1) := m_geodetics m in
  let '(p0, p1, p2) := m_svp m in
  [["['" ++ ft ++ "']"]; ["Header_Start"]; [s0; s1; s2]; [str_f g0; str_f g1]; [m_vessel m];
   sensor_row (m_gnss m); sensor_row (m_sonar m); [p0; p1; str_f p2];
   com_row (m_gnss_com m); com_row (m_sonar_com m); com_row (m_svp_com m)]
  ++ (if String.eqb ft "OSP_SIMPLE_LOG" then [[simple_columns]] else [])
  ++ [["Header_End"]].

(** ** Equality of metadata up to the value of its floats *)

Ltac split_and := repeat match goal with |- _ /\ _ => split end.

Definition sensor_eqv (a b : sensor_desc) : Prop :=
  sd_name a = sd_name b /\ sd_type a = sd_type b /\ (sd_offset a == sd_offset b)%Q
  /\ (sd_r1 a == sd_r1 b)%Q /\ (sd_r2 a == sd_r2 b)%Q /\ (sd_r3 a == sd_r3 b)%Q.

Definition meta_eqv (a b : metadata) : Prop :=
  m_survey a = m_survey b
  /\ (fst (m_geodetics a) == fst (m_geodetics b))%Q /\ (snd (m_geodetics a) == snd (m_geodetics b))%Q
  /\ m_vessel a = m_vessel b
  /\ sensor_eqv (m_gnss a) (m_gnss b) /\ sensor_eqv (m_sonar a) (m_sonar b)
  /\ fst (m_svp a) = fst (m_svp b) /\ (snd (m_svp a) == snd (m_svp b))%Q
  /\ m_gnss_com a = m_gnss_com b /\ m_sonar_com a = m_sonar_com b /\ m_svp_com a = m_svp_com b.

#[export] Instance sensor_eqv_equiv : Equivalence sensor_eqv.
Proof.
  unfold sensor_eqv. split.
  - intros a. split_and; reflexivity.
  - intros a b (H1 & H2 & H3 & H4 & H5 & H6). split_and; symmetry; assumption.
  - intros a b c (H1 & H2 & H3 & H4 & H5 & H6) (K1 & K2 & K3 & K4 & K5 & K6).
    split_and; etransitivity; eassumption.
Qed.

#[export] Instance meta_eqv_equiv : Equivalence meta_eqv.
Proof.
  unfold meta_eqv. split.
  - intros a. split_and; reflexivity.
  - intros a b H. destruct H as (H1 & H2 & H3 & H4 & H5 & H6 & H7 & H8 & H9 & H10 & H11).
    split_and; symmetry; assumption.
  - intros a b c H K. destruct H as (H1 & H2 & H3 & H4 & H5 & H6 & H7 & H8 & H9 & H10 & H11).
    destruct K as (K1 & K2 & K3 & K4 & K5 & K6 & K7 & K8 & K9 & K10 & K11).
    split_and; etransitivity; eassumption.
Qed.

(** The offsets [extract_soundings] takes from the metadata
    ([metadata['GNSS'][2]], [metadata['Sonar'][2]]) agree on equivalent
    metadata. *)
#[export] Instance gnss_offset_proper : Proper (meta_eqv ==> Qeq) (fun m => sd_offset (m_gnss m)).
Proof. intros a b H. apply H. Qed.

#[export] Instance sonar_offset_proper : Proper (meta_eqv ==> Qeq) (fun m => sd_offset (m_sonar m)).
Proof. intros a b H. apply H. Qed.

(** ** What [generic_reader] returns *)

(** A row whose first field is not a marker. *)
Definition plain_row (start : string) (stop : option string) (r : srow) : Prop :=
  exists r0 t, r = r0 :: t /\ r0 <> start /\ stop <> Some r0.

Lemma reader_loop_plain (rows : list srow) (start : string) (stop : option string)
    (found : bool) (acc rs : list srow) :
  Forall (plain_row start stop) acc -> reader_loop rows start stop found acc = Ok rs ->
  Forall (plain_row start stop) rs.
Proof.
  revert found acc. induction rows as [|r rows IH]; intros found acc Ha H; simpl in H.
  - injection H as <-. exact Ha.
  - destruct r as [|r0 t]; [discriminate|]. cbn [res_bind py_get py_index] in H. simpl in H.
    destruct (negb (String.eqb r0 start) && negb found); [eapply IH; eassumption|].
    destruct (String.eqb_spec r0 start); [eapply IH; eassumption|].
    destruct stop as [e|]; [destruct (String.eqb_spec r0 e)|].
    + injection H as <-. exact Ha.
    + eapply IH; [|exact H]. apply Forall_app. split; [exact Ha|]. constructor; [|constructor].
      exists r0, t. repeat split; [assumption | congruence].
    + eapply IH; [|exact H]. apply Forall_app. split; [exact Ha|]. constructor; [|constructor].
      exists r0, t. repeat split; [assumption | discriminate].
Qed.

(** After the start marker, the rows up to the end marker, whatever
    follows it. *)
Lemma reader_loop_until (rows rest : list srow) (start e : string) (tl : list string) (acc : list srow) :
  e <> start -> Forall (plain_row start (Some e)) rows ->
  reader_loop (rows ++ (e :: tl) :: rest)%list start (Some e) true acc = Ok (acc ++ rows)%list.
Proof.
  intros He Hr. revert acc. induction Hr as [|r rows (r0 & t & -> & H1 & H2) Hr IH]; intros acc; simpl.
  - rewrite andb_false_r. destruct (String.eqb_spec e start); [contradiction|].
    rewrite String.eqb_refl, app_nil_r. reflexivity.
  - rewrite andb_false_r. destruct (String.eqb_spec r0 start); [contradiction|].
    destruct (String.eqb_spec r0 e); [congruence|]. rewrite IH, <- app_assoc. reflexivity.
Qed.

Lemma py_get_zero {A} (l : list A) (a : A) : l.[0] = Ok a -> exists t, l = a :: t.
Proof. destruct l as [|b t]; [discriminate|]. intros H. injection H as ->. eauto. Qed.

Lemma cell_plain (rs : list srow) (i : Z) (s : string) (start : string) (stop : option string) :
  Forall (plain_row start stop) rs -> cell rs i 0 = Ok s -> s <> start /\ stop <> Some s.
Proof.
  intros Hall H. unfold cell in H. destruct (rs.[i]) as [r|] eqn:Er; [|discriminate]. cbn in H.
  apply py_get_in in Er. rewrite Forall_forall in Hall. destruct (Hall r Er) as (r0 & t & -> & H1 & H2).
  injection H as <-. auto.
Qed.

(** ** Metadata as [read_config_file] returns it *)

Definition not_marker (s : string) : Prop := s <> "Header_Start" /\ s <> "Header_End".

(** The first field of each metadata row is not a marker, and every
    float is a terminating decimal. *)
Definition meta_wf (m : metadata) : Prop :=
  let '(s0, _, _) := m_survey m in
  let '(g0, g1) := m_geodetics m in
  let '(p0, _, p2) := m_svp m in
  not_marker s0 /\ not_marker (m_vessel m) /\ not_marker (sd_name (m_gnss m))
  /\ not_marker (sd_name (m_sonar m)) /\ not_marker p0 /\ not_marker (cd_name (m_gnss_com m))
  /\ not_marker (cd_name (m_sonar_com m)) /\ not_marker (cd_name (m_svp_com m))
  /\ decimal g0 /\ decimal g1 /\ decimal p2
  /\ decimal (sd_offset (m_gnss m)) /\ decimal (sd_r1 (m_gnss m)) /\ decimal (sd_r2 (m_gnss m))
  /\ decimal (sd_r3 (m_gnss m)) /\ decimal (sd_offset (m_sonar m)) /\ decimal (sd_r1 (m_sonar m))
  /\ decimal (sd_r2 (m_sonar m)) /\ decimal (sd_r3 (m_sonar m)).

Lemma s_float_decimal (s : string) (q : Q) : s_float s = Ok q -> decimal q.
Proof.
  unfold s_float, py_float. destruct (parse_float s) eqn:E; intros H; [|discriminate].
  injection H as <-. eapply parse_float_decimal, E.
Qed.

Lemma plain_not_marker (rs : list srow) (i : Z) (s : string) :
  Forall (plain_row "Header_Start" (Some "Header_End")) rs -> cell rs i 0 = Ok s -> not_marker s.
Proof. intros Hall H. destruct (cell_plain rs i s _ _ Hall H). split; congruence. Qed.

Lemma read_config_wf (rows : list srow) (m : metadata) : read_config_file rows = Ok m -> meta_wf m.
Proof.
  intros H. unfold read_config_file, read_sensor, read_com in H. bind_inv H.
  unfold generic_reader in *.
  match goal with E : reader_loop _ _ _ _ _ = Ok ?rs |- _ =>
    pose proof (reader_loop_plain _ _ _ _ _ rs (Forall_nil _) E) as Hall end.
  cbn [meta_wf m_survey m_geodetics m_svp m_vessel m_gnss m_sonar m_gnss_com m_sonar_com m_svp_com
       sd_name sd_offset sd_r1 sd_r2 sd_r3 cd_name].
  split_and; first [eapply plain_not_marker; eassumption | eapply s_float_decimal; eassumption].
Qed.

(** ** The round trip *)

Lemma s_float_str (q : Q) : decimal q -> exists q', s_float (str_f q) = Ok q' /\ (q' == q)%Q.
Proof.
  intros Hq. destruct (str_float_parse q Hq) as (v & Hp & Hv).
  exists v. unfold s_float, py_float, str_f, py_str. rewrite Hp. auto.
Qed.

Lemma s_int_str (z : Z) : s_int (str_i z) = Ok z.
Proof. unfold s_int, str_i. rewrite int_str_roundtrip. reflexivity. Qed.

(** A printed float is not a marker: the markers do not parse. *)
Lemma str_f_not_marker (q : Q) : decimal q -> not_marker (str_f q).
Proof.
  intros Hq. destruct (str_float_parse q Hq) as (v & Hp & _). fold (py_str (PFloat q)) in Hp.
  fold (str_f q) in Hp. split; intros E; rewrite E in Hp; vm_compute in Hp; discriminate Hp.
Qed.

(** The nine metadata rows of [header_rows], and the column-name row of
    a simplified log. *)
Definition meta_rows (m : metadata) : list srow :=
  let '(s0, s1, s2) := m_survey m in
  let '(g0, g1) := m_geodetics m in
  let '(p0, p1, p2) := m_svp m in
  [[s0; s1; s2]; [str_f g0; str_f g1]; [m_vessel m];
   sensor_row (m_gnss m); sensor_row (m_sonar m); [p0; p1; str_f p2];
   com_row (m_gnss_com m); com_row (m_sonar_com m); com_row (m_svp_com m)].

Definition column_rows (ft : string) : list srow :=
  if String.eqb ft "OSP_SIMPLE_LOG" then [[simple_columns]] else [].

Lemma header_rows_split (ft : string) (m : metadata) :
  header_rows ft m = ([[("['" ++ ft ++ "']")%string]; ["Header_Start"]] ++ (meta_rows m ++ column_rows ft) ++ [["Header_End"]])%list.
Proof.
  unfold header_rows, meta_rows, column_rows.
  destruct (m_survey m) as [[s0 s1] s2], (m_geodetics m), (m_svp m) as [[p0 p1] p2].
  destruct (String.eqb ft "OSP_SIMPLE_LOG"); reflexivity.
Qed.

Lemma plain_marker_row (s : string) (t : list string) :
  not_marker s -> plain_row "Header_Start" (Some "Header_End") (s :: t).
Proof. intros [H1 H2]. exists s, t. split; [reflexivity | split; congruence]. Qed.

Lemma generic_reader_header (ft : string) (m : metadata) (body : list srow) :
  meta_wf m ->
  generic_reader (header_rows ft m ++ body) "Header_Start" (Some "Header_End")
  = Ok (meta_rows m ++ column_rows ft)%list.
Proof.
  intros Hw. rewrite header_rows_split, <- !app_assoc. unfold generic_reader. cbn [app reader_loop].
  cbn [res_bind py_get py_index length nth_error]. simpl.
  rewrite app_assoc. apply (reader_loop_until _ _ _ _ _ []); [discriminate|].
  unfold meta_wf in Hw. unfold meta_rows, column_rows.
  destruct (m_survey m) as [[s0 s1] s2], (m_geodetics m) as [g0 g1], (m_svp m) as [[p0 p1] p2].
  destruct Hw as (H1 & H2 & H3 & H4 & H5 & H6 & H7 & H8 & H9 & H10 & H11 & _).
  apply Forall_app. split.
  - repeat constructor; apply plain_marker_row; try assumption; apply str_f_not_marker; assumption.
  - destruct (String.eqb ft "OSP_SIMPLE_LOG"); repeat constructor.
    apply plain_marker_row. split; discriminate.
Qed.

#[local] Arguments s_float : simpl never.
#[local] Arguments s_int : simpl never.
#[local] Arguments str_f : simpl never.
#[local] Arguments str_i : simpl never.

Lemma header_roundtrip_wf (ft : string) (m : metadata) (body : list srow) :
  meta_wf m -> exists m', read_config_file (header_rows ft m ++ body) = Ok m' /\ meta_eqv m m'.
Proof.
  intros Hw. unfold read_config_file. rewrite (generic_reader_header ft m body Hw). cbn [res_bind].
  destruct m as [[[s0 s1] s2] [g0 g1] v [gn gt go gr1 gr2 gr3] [sn st so sr1 sr2 sr3] [[p0 p1] p2]
                 [gcn gcp gcb] [scn scp scb] [pcn pcp pcb]].
  unfold meta_wf in Hw. cbn in Hw. destruct Hw as (_ & _ & _ & _ & _ & _ & _ & _ & Hw).
  repeat match type of Hw with
         | decimal ?q /\ _ =>
             let x := fresh "x" in let E := fresh "E" in let Qx := fresh "Q" in
             destruct Hw as [D Hw]; destruct (s_float_str q D) as (x & E & Qx); clear D
         | decimal ?q =>
             let x := fresh "x" in let E := fresh "E" in let Qx := fresh "Q" in
             destruct (s_float_str q Hw) as (x & E & Qx); clear Hw
         end.
  unfold meta_rows, column_rows, read_sensor, read_com, cell, sensor_row, com_row.
  destruct (String.eqb ft "OSP_SIMPLE_LOG"); simpl;
    repeat match goal with E : s_float _ = Ok _ |- _ => rewrite E; clear E; simpl end;
    rewrite !s_int_str; simpl;
    (eexists; split; [reflexivity|]);
    unfold meta_eqv, sensor_eqv; cbn; split_and; first [reflexivity | symmetry; assumption].
Qed.

(** C35. Metadata round trip: the metadata [online.py] reads from a
    configuration file ([read_config_file]), written as the header of a
    raw or simplified log ([write_meta_header]) and read back from that
    log, whatever rows follow the header, is the same metadata: the same
    strings and integers, floats of the same value. *)
Theorem header_roundtrip (rows : list srow) (ft : string) (m : metadata) (body : list srow) :
  read_config_file rows = Ok m ->
  exists m', read_config_file (header_rows ft m ++ body) = Ok m' /\ meta_eqv m m'.
Proof. intros H. apply header_roundtrip_wf, (read_config_wf rows), H. Qed.

(** ** A configuration file of the example survey *)

Module Demo.

Definition config : list srow := Reader.Demo.config.

Definition no_sensor : sensor_desc := mk_sensor "" "" 0 0 0 0.
Definition no_com : com_desc := mk_com "" "" 0.
Definition no_meta : metadata :=
  mk_meta ("", "", "") (0%Q, 0%Q) "" no_sensor no_sensor ("", "", 0%Q) no_com no_com no_com.

Definition meta : metadata :=
  match read_config_file config with Ok m => m | Err _ => no_meta end.

End Demo.

Lemma header_roundtrip_witness :
  read_config_file Demo.config = Ok Demo.meta
  /\ exists m', read_config_file (header_rows "OSP_SIMPLE_LOG" Demo.meta ++ [])%list = Ok m'
                /\ meta_eqv Demo.meta m'.
Proof.
  split; [vm_compute; reflexivity|].
  exact (header_roundtrip Demo.config "OSP_SIMPLE_LOG" Demo.meta [] ltac:(vm_compute; reflexivity)).
Defined.
