(* ===== verification/PyIO.v ===== *)
(** * Python's effects in the programs: standard input, files, printing

    The interactive programs of the repository (online.py, processor.py,
    configurator.py and [Clean_Soundings]) read their choices with
    [input()], read CSV files, write new ones ([write_meta_header]) and
    append to them through [osplib.save_data].  This file models those
    effects.  The world [world] holds standard input (each [input()]
    takes a line, [EOFError] at the end), the files (read, written or,
    by [save_data], appended to) and the menu lines
    printed; [io] is a state-and-error monad over it, in which an
    exception ends the program and keeps the world as it was when the
    exception was raised.  [py_while] is Python's [while] loop with fuel.

    The frame lemmas say what a computation may change: [reads] (only
    consumes standard input), [quiet] (prints no menu line), [consumes]
    (reads at least one line when it returns), [returns] (a property of
    the value returned); [io_frame] and [io_returns] decompose a
    composite computation into its primitives. *)

From S2P Require Import Prelude PyVal Reader.

Local Open Scope string_scope.

(** ** The world and the monad *)

Record world := mk_world {
  w_stdin : list string;
  w_files : string -> option (list srow);
  w_menu : list string }.

Definition io (A : Type) : Type := world -> res A * world.

Definition ret {A} (a : A) : io A := fun w => (Ok a, w).
Definition raise {A} (e : exn) : io A := fun w => (Err e, w).
Definition lift {A} (r : res A) : io A := fun w => (r, w).

Definition io_bind {A B} (c : io A) (k : A -> io B) : io B :=
  fun w => match c w with
           | (Ok a, w') => k a w'
           | (Err e, w') => (Err e, w')
           end.

Declare Scope io_scope.
Delimit Scope io_scope with io.
Notation "x <<- c ;; k" := (io_bind c (fun x => k))
  (at level 61, c at next level, right associativity) : io_scope.
Notation "' p <<- c ;; k" := (io_bind c (fun x => match x with p => k end))
  (at level 61, p pattern, c at next level, right associativity) : io_scope.
Local Open Scope io_scope.

(** [input(prompt)] *)
Definition input : io string :=
  fun w => match w_stdin w with
           | [] => (Err EOFError, w)
           | s :: rest => (Ok s, mk_world rest (w_files w) (w_menu w))
           end.

(** [print('    - <option> ...')] of the menu, recorded by option name. *)
Definition print_option (o : string) : io unit :=
  fun w => (Ok tt, mk_world (w_stdin w) (w_files w) (w_menu w ++ [o])%list).

(** [open(name)] and [csv.reader] *)
Definition open_csv (name : string) : io (list srow) :=
  fun w => match w_files w name with
           | Some rows => (Ok rows, w)
           | None => (Err FileNotFoundError, w)
           end.

(** [csv.writer]: [None] is written as an empty field, every other value
    as [str()]. *)
Definition csv_field (v : pyval) : string :=
  match v with PNone => "" | _ => py_str v end.

(** [open(name, 'a')] and [writer.writerows(data)]: the file is created
    when it does not exist. *)
Definition append_rows (name : string) (data : list row) : io unit :=
  fun w =>
    let old := match w_files w name with Some rows => rows | None => [] end in
    let files' := fun n => if String.eqb n name then Some (old ++ map (map csv_field) data)%list
                           else w_files w n in
    (Ok tt, mk_world (w_stdin w) files' (w_menu w)).

(** [open(filename, 'w')] with the rows written to it (by
    [write_meta_header]): the file is created or overwritten. *)
Definition write_file (name : string) (rows : list srow) : io unit :=
  fun w => (Ok tt, mk_world (w_stdin w) (fun n => if String.eqb n name then Some rows else w_files w n)
                   (w_menu w)).

(** [save_data(data)] (osplib.py 323-338) *)
Definition save_data (data : list row) : io unit :=
  selection <<- input ;;
  if String.eqb selection "no" then ret tt
  else if String.eqb selection "yes" then
    filename <<- input ;;
    append_rows filename data
  else ret tt.

(** [while cond(s): s = body(s)] with [fuel] iterations at most.  The
    loops below read a line of standard input on every iteration, and
    [while_input] gives them one iteration more than there are lines
    left: the fuel never runs out before [input()] raises [EOFError]
    ([py_while_fuel] below). *)
Fixpoint py_while {St} (fuel : nat) (cond : St -> bool) (body : St -> io St) (s : St) : io St :=
  if cond s then
    match fuel with
    | O => raise EOFError
    | S fuel' => s' <<- body s ;; py_while fuel' cond body s'
    end
  else ret s.

Definition while_input {St} (cond : St -> bool) (body : St -> io St) (s : St) : io St :=
  fun w => py_while (S (length (w_stdin w))) cond body s w.

Definition when (b : bool) (c : io unit) : io unit := if b then c else ret tt.

(** ** Frame lemmas of the monad *)

Create HintDb io discriminated.

(** [c] only consumes standard input: what is left after it is a suffix
    of what was there. *)
Definition reads {A} (c : io A) : Prop :=
  forall w, exists pre, w_stdin w = (pre ++ w_stdin (snd (c w)))%list.

(** [c] prints no menu line. *)
Definition quiet {A} (c : io A) : Prop :=
  forall w, w_menu (snd (c w)) = w_menu w.

Lemma reads_bind {A B} (c : io A) (k : A -> io B) :
  reads c -> (forall a, reads (k a)) -> reads (io_bind c k).
Proof.
  intros Hc Hk w. destruct (Hc w) as [p1 E1]. unfold io_bind.
  destruct (c w) as [[a|e] w1]; simpl in *; [|eauto].
  destruct (Hk a w1) as [p2 E2]. exists (p1 ++ p2)%list. rewrite E1, E2, app_assoc. reflexivity.
Qed.

Lemma quiet_bind {A B} (c : io A) (k : A -> io B) :
  quiet c -> (forall a, quiet (k a)) -> quiet (io_bind c k).
Proof.
  intros Hc Hk w. specialize (Hc w). unfold io_bind.
  destruct (c w) as [[a|e] w1]; simpl in *; [rewrite Hk|]; assumption.
Qed.

Lemma reads_keep {A} (c : io A) : (forall w, w_stdin (snd (c w)) = w_stdin w) -> reads c.
Proof. intros H w. exists []. rewrite H. reflexivity. Qed.

Lemma reads_input : reads input.
Proof. intros [[|s rest] f m]; [exists [] | exists [s]]; reflexivity. Qed.

Lemma quiet_input : quiet input.
Proof. intros [[|s rest] f m]; reflexivity. Qed.

Lemma reads_print (o : string) : reads (print_option o).
Proof. apply reads_keep. reflexivity. Qed.

Lemma reads_ret {A} (a : A) : reads (ret a).
Proof. apply reads_keep. reflexivity. Qed.

Lemma quiet_ret {A} (a : A) : quiet (ret a).
Proof. intro. reflexivity. Qed.

Lemma reads_raise {A} (e : exn) : reads (@raise A e).
Proof. apply reads_keep. reflexivity. Qed.

Lemma quiet_raise {A} (e : exn) : quiet (@raise A e).
Proof. intro. reflexivity. Qed.

Lemma reads_lift {A} (r : res A) : reads (lift r).
Proof. apply reads_keep. reflexivity. Qed.

Lemma quiet_lift {A} (r : res A) : quiet (lift r).
Proof. intro. reflexivity. Qed.

Lemma reads_open (n : string) : reads (open_csv n).
Proof. apply reads_keep. intros w. unfold open_csv. destruct (w_files w n); reflexivity. Qed.

Lemma quiet_open (n : string) : quiet (open_csv n).
Proof. intros w. unfold open_csv. destruct (w_files w n); reflexivity. Qed.

Lemma reads_append (n : string) (d : list row) : reads (append_rows n d).
Proof. apply reads_keep. reflexivity. Qed.

Lemma quiet_append (n : string) (d : list row) : quiet (append_rows n d).
Proof. intro. reflexivity. Qed.

#[export] Hint Resolve reads_input quiet_input reads_print reads_ret quiet_ret reads_raise
  quiet_raise reads_lift quiet_lift reads_open quiet_open reads_append quiet_append : io.

(** Split a composite computation into its primitives: binds, the tests
    and the pattern matches of its continuations. *)
Ltac io_frame :=
  repeat first
    [ progress (intros; cbv beta iota)
    | apply reads_bind | apply quiet_bind
    | match goal with
      | |- context [if ?b then _ else _] => destruct b
      | |- context [match ?x with _ => _ end] => destruct x
      end
    | solve [eauto with io] ].

Lemma reads_save (d : list row) : reads (save_data d).
Proof. unfold save_data. io_frame. Qed.

Lemma quiet_save (d : list row) : quiet (save_data d).
Proof. unfold save_data. io_frame. Qed.

#[export] Hint Resolve reads_save quiet_save : io.

Local Open Scope nat_scope.

Lemma reads_length {A} (c : io A) (w : world) :
  reads c -> length (w_stdin (snd (c w))) <= length (w_stdin w).
Proof. intros H. destruct (H w) as [p E]. rewrite E, length_app. lia. Qed.

(** [c] reads at least one line whenever it returns. *)
Definition consumes {A} (c : io A) : Prop :=
  forall w, match c w with
            | (Ok _, w') => length (w_stdin w') < length (w_stdin w)
            | (Err _, _) => True
            end.

Lemma consumes_input_between {A B} (c : io A) (k : A -> string -> io B) :
  reads c -> (forall a s, reads (k a s)) ->
  consumes (a <<- c ;; s <<- input ;; k a s).
Proof.
  intros Hc Hk w. unfold io_bind.
  pose proof (reads_length c w Hc) as L1.
  destruct (c w) as [[a|e] w1]; [|exact I]. simpl in L1.
  destruct w1 as [[|s rest] f m]; simpl in *; [exact I|].
  pose proof (reads_length (k a s) (mk_world rest f m) (Hk a s)) as L2.
  destruct (k a s (mk_world rest f m)) as [[b|e] w2]; simpl in *; [lia | exact I].
Qed.

(** Termination of the loops: once the fuel exceeds the lines left on
    standard input, more fuel changes nothing. *)
Lemma py_while_fuel {St} (cond : St -> bool) (body : St -> io St) :
  (forall s, consumes (body s)) ->
  forall n m s w, length (w_stdin w) < n -> length (w_stdin w) < m ->
  py_while n cond body s w = py_while m cond body s w.
Proof.
  intros Hb. induction n as [|n IH]; intros [|m] s w Hn Hm; try lia. simpl.
  destruct (cond s); [|reflexivity]. unfold io_bind.
  specialize (Hb s w). destruct (body s w) as [[s'|e] w']; [|reflexivity].
  apply IH; lia.
Qed.

Lemma reads_when (b : bool) (c : io unit) : reads c -> reads (when b c).
Proof. destruct b; simpl; auto with io. Qed.

#[export] Hint Resolve reads_when : io.

(** [c] returns only values satisfying [Q]. *)
Definition returns {A} (c : io A) (Q : A -> Prop) : Prop :=
  forall w, match c w with (Ok a, _) => Q a | (Err _, _) => True end.

Lemma returns_bind {A B} (c : io A) (k : A -> io B) (Q : B -> Prop) :
  (forall a, returns (k a) Q) -> returns (io_bind c k) Q.
Proof. intros Hk w. unfold io_bind. destruct (c w) as [[a|e] w1]; [apply Hk | exact I]. Qed.

Lemma returns_ret {A} (a : A) (Q : A -> Prop) : Q a -> returns (ret a) Q.
Proof. intros H w. exact H. Qed.

Lemma returns_raise {A} (e : exn) (Q : A -> Prop) : returns (raise e) Q.
Proof. intros w. exact I. Qed.

Ltac io_returns :=
  repeat first
    [ progress (intros; cbv beta iota)
    | match goal with
      | |- returns (io_bind _ _) _ => apply returns_bind
      | |- returns (raise _) _ => apply returns_raise
      | |- returns (ret _) _ => apply returns_ret
      | |- context [if ?b then _ else _] => destruct b eqn:?
      | |- context [match ?x with _ => _ end] => destruct x
      end ].

(** An invariant of the loop body is one of the loop; [J] holds of the
    world an exception leaves. *)
Lemma py_while_inv {St} (I : St -> world -> Prop) (J : world -> Prop)
    (cond : St -> bool) (body : St -> io St) :
  (forall s w, I s w -> J w) ->
  (forall s w, I s w -> cond s = true ->
     match body s w with (Ok s', w') => I s' w' | (Err _, w') => J w' end) ->
  forall n s w, I s w ->
  match py_while n cond body s w with (Ok s', w') => I s' w' | (Err _, w') => J w' end.
Proof.
  intros HJ Hb. induction n as [|n IH]; intros s w Hi; simpl;
    destruct (cond s) eqn:Ec; try exact Hi; [simpl; eauto|]. unfold io_bind.
  specialize (Hb s w Hi Ec). destruct (body s w) as [[s'|e] w']; [apply IH|]; assumption.
Qed.

(** Bind with the property of the first value available to the rest. *)
Lemma returns_bind_dep {A B} (c : io A) (k : A -> io B) (P : A -> Prop) (Q : B -> Prop) :
  returns c P -> (forall a, P a -> returns (k a) Q) -> returns (io_bind c k) Q.
Proof.
  intros Hc Hk w. specialize (Hc w). unfold io_bind.
  destruct (c w) as [[a|e] w1]; [apply Hk, Hc | exact I].
Qed.

Lemma returns_lift {A} (r : res A) : returns (lift r) (fun a => r = Ok a).
Proof. intros w. destruct r; reflexivity. Qed.

Lemma returns_while {St} (Inv : St -> Prop) (cond : St -> bool) (body : St -> io St) (s : St) :
  (forall s, Inv s -> returns (body s) Inv) -> Inv s -> returns (while_input cond body s) Inv.
Proof.
  intros Hb Hs w. unfold while_input.
  pose proof (py_while_inv (fun s _ => Inv s) (fun _ => True) cond body (fun _ _ _ => I)
                (fun s0 w0 H _ => Hb s0 H w0) (S (length (w_stdin w))) s w Hs) as Hi.
  destruct (py_while _ cond body s w) as [[?|?] ?]; exact Hi.
Qed.

Lemma quiet_while {St} (cond : St -> bool) (body : St -> io St) (s : St) :
  (forall s, quiet (body s)) -> quiet (while_input cond body s).
Proof.
  intros Hb w. unfold while_input.
  pose proof (py_while_inv (fun _ w' => w_menu w' = w_menu w) (fun w' => w_menu w' = w_menu w)
                cond body (fun _ _ H => H)) as Hi.
  specialize (Hi ltac:(intros s0 w0 E _; specialize (Hb s0 w0);
                      destruct (body s0 w0) as [[?|?] w1]; simpl in Hb; congruence)
                 (S (length (w_stdin w))) s w eq_refl).
  destruct (py_while _ cond body s w) as [[?|?] ?]; exact Hi.
Qed.

Lemma reads_not_in {A} (c : io A) (w : world) (x : string) :
  reads c -> ~ In x (w_stdin w) -> ~ In x (w_stdin (snd (c w))).
Proof. intros Hc Hx Hin. destruct (Hc w) as [p E]. apply Hx. rewrite E. apply in_or_app. auto. Qed.


Lemma reads_while {St} (cond : St -> bool) (body : St -> io St) (s : St) :
  (forall s, reads (body s)) -> reads (while_input cond body s).
Proof.
  intros Hb w. unfold while_input.
  pose proof (py_while_inv (fun _ w' => exists pre, w_stdin w = (pre ++ w_stdin w')%list)
                (fun w' => exists pre, w_stdin w = (pre ++ w_stdin w')%list)
                cond body (fun _ _ H => H)) as Hi.
  specialize (Hi ltac:(intros s0 w0 [p E] _; destruct (Hb s0 w0) as [p' E'];
                      destruct (body s0 w0) as [[?|?] w1]; simpl in E';
                      exists (p ++ p')%list; rewrite E, E', app_assoc; reflexivity)
                 (S (length (w_stdin w))) s w (ex_intro _ [] eq_refl)).
  destruct (py_while _ cond body s w) as [[?|?] ?]; exact Hi.
Qed.


Lemma py_while_S_ok {St} (n : nat) (cond : St -> bool) (body : St -> io St) (s s' : St) (w w' : world) :
  cond s = true -> body s w = (Ok s', w') -> py_while (S n) cond body s w = py_while n cond body s' w'.
Proof. intros Hc Hb. simpl. rewrite Hc. unfold io_bind. rewrite Hb. reflexivity. Qed.

Lemma py_while_S_err {St} (n : nat) (cond : St -> bool) (body : St -> io St) (s : St) (e : exn) (w w' : world) :
  cond s = true -> body s w = (Err e, w') -> py_while (S n) cond body s w = (Err e, w').
Proof. intros Hc Hb. simpl. rewrite Hc. unfold io_bind. rewrite Hb. reflexivity. Qed.

Lemma py_while_S_stop {St} (n : nat) (cond : St -> bool) (body : St -> io St) (s : St) (w : world) :
  cond s = false -> py_while (S n) cond body s w = (Ok s, w).
Proof. intros Hc. simpl. rewrite Hc. reflexivity. Qed.

(** The state after a display: [correct] possibly set. *)

(** A loop that returns stops because its condition is false, with the
    invariant of its body. *)
Lemma py_while_returns {St} (Inv : St -> Prop) (cond : St -> bool) (body : St -> io St) :
  (forall s, Inv s -> returns (body s) Inv) ->
  forall n s, Inv s -> returns (py_while n cond body s) (fun s => Inv s /\ cond s = false).
Proof.
  intros Hb. induction n as [|n IH]; intros s Hs w; simpl; destruct (cond s) eqn:Ec;
    try solve [exact I | split; assumption].
  unfold io_bind. specialize (Hb s Hs w). destruct (body s w) as [[s'|e] w']; [apply IH, Hb | exact I].
Qed.

Lemma returns_while_exit {St} (Inv : St -> Prop) (cond : St -> bool) (body : St -> io St) (s : St) :
  (forall s, Inv s -> returns (body s) Inv) -> Inv s ->
  returns (while_input cond body s) (fun s => Inv s /\ cond s = false).
Proof. intros Hb Hs w. exact (py_while_returns Inv cond body Hb _ s Hs w). Qed.

Lemma returns_input (Q : string -> Prop) : (forall s, Q s) -> returns input Q.
Proof. intros H [[|s rest] f m]; [exact I | apply H]. Qed.

(** After [write_file], the file holds the rows written. *)
Lemma write_file_files (name : string) (rows : list srow) (w : world) :
  w_files (snd (write_file name rows w)) name = Some rows.
Proof. cbn. rewrite String.eqb_refl. reflexivity. Qed.
