(* ===== verification/Extractor.v ===== *)
(** * Sounding and DOP extraction ([Raw_Log], osplib.py 516-604)

    [get_time_lat_long] decodes the NMEA time and the [ddmm.mmmm]
    coordinates of a fix row; [extract_soundings] folds the rows of a raw
    log into soundings; [extract_dop] collects the DOP values of the
    first [$GNGSA] row of each run.

    Rows are lists of [pyval] as [read_raw_log] leaves them.  The body of
    the loop in [extract_soundings] is inside [try: ... except: pass]:
    [sounding_step] returns the state with every assignment made before
    the first raising statement, and [prev_row] is only updated by the
    last statement of the body, so a raising row is transparent for the
    adjacency test of the next [$DEPTH] row.  [extract_dop] has no [try]:
    it returns [Err] where Python propagates the exception.

    [get_time_lat_long] also overwrites [message[t]] with its [str()]
    (line 519); the overwritten field is never read again by either fold,
    so the model returns the decoded values and leaves the row alone. *)

From S2P Require Import Prelude PyVal Strptime Reader.

Local Open Scope Z_scope.

(** ** Coordinates *)

(** [ddmm.mmmm] to degrees (lines 534-540). *)
Definition decode_coord (raw : Q) : Q :=
  let d := inject_Z (Qfloor (raw / 100)%Q) in
  let m := ((raw / 100 - d) * 100)%Q in
  (d + m / 60)%Q.

(** [if message[i+1] == pos: raw = message[i]; neg = False
     elif message[i+1] == neg: raw = message[i]; neg = True]:
    [None] when neither letter matches (the names stay unbound). *)
Definition hemisphere (m : row) (i : Z) (pos neg : string) : res (option (pyval * bool)) :=
  h <- m.[i + 1] ;;
  if py_eq_str h pos then (r <- m.[i] ;; Ok (Some (r, false)))
  else if py_eq_str h neg then (r <- m.[i] ;; Ok (Some (r, true)))
  else Ok None.

(** The degrees of a bound coordinate: [NameError] when unbound,
    [TypeError] when the field is not a number. *)
Definition coord_value (h : option (pyval * bool)) : res Q :=
  match h with
  | None => Err NameError
  | Some (raw, _) => x <- as_num raw ;; Ok (decode_coord (num_q x))
  end.

Definition apply_sign (h : option (pyval * bool)) (q : Q) : Q :=
  match h with Some (_, true) => (- q)%Q | _ => q end.

(** [get_time_lat_long(message, t, la, lo)] (lines 516-549): each
    exception returns the variables as assigned so far. *)
Definition get_time_lat_long (m : row) (t la lo : Z) : pyval * pyval * pyval :=
  v <-? m.[t] else (PNone, PNone, PNone) ;;
  tm <-? strptime fmt_nmea (py_str v) else (PNone, PNone, PNone) ;;
  hla <-? hemisphere m la "N" "S" else (PTime tm, PNone, PNone) ;;
  hlo <-? hemisphere m lo "E" "W" else (PTime tm, PNone, PNone) ;;
  lat <-? coord_value hla else (PTime tm, PNone, PNone) ;;
  lon <-? coord_value hlo else (PTime tm, PFloat lat, PNone) ;;
  (PTime tm, PFloat (apply_sign hla lat), PFloat (apply_sign hlo lon)).

(** ** Soundings *)

(** The local variables of [extract_soundings] (lines 575-577). *)
Record xstate := mk_xstate {
  x_prev : option row;
  x_time : pyval; x_lat : pyval; x_long : pyval;
  x_ant : pyval; x_hdg : pyval; x_speed : pyval; x_hdop : pyval;
  x_depth : pyval; x_bottom : pyval; x_ss : pyval;
  x_num : Z;
  x_log : list row }.

Definition xstate0 : xstate :=
  mk_xstate None PNone PNone PNone PNone PNone PNone PNone PNone PNone PNone 0 [].

Definition set_fix (st : xstate) (f : pyval * pyval * pyval) : xstate :=
  {| x_prev := x_prev st; x_time := fst (fst f); x_lat := snd (fst f); x_long := snd f;
     x_ant := x_ant st;
     x_hdg := x_hdg st; x_speed := x_speed st; x_hdop := x_hdop st; x_depth := x_depth st;
     x_bottom := x_bottom st; x_ss := x_ss st; x_num := x_num st; x_log := x_log st |}.

Definition set_prev (st : xstate) (r : row) : xstate :=
  {| x_prev := Some r; x_time := x_time st; x_lat := x_lat st; x_long := x_long st;
     x_ant := x_ant st; x_hdg := x_hdg st; x_speed := x_speed st; x_hdop := x_hdop st;
     x_depth := x_depth st; x_bottom := x_bottom st; x_ss := x_ss st; x_num := x_num st;
     x_log := x_log st |}.

Definition set_motion (st : xstate) (sp hd : pyval) : xstate :=
  {| x_prev := x_prev st; x_time := x_time st; x_lat := x_lat st; x_long := x_long st;
     x_ant := x_ant st; x_hdg := hd; x_speed := sp; x_hdop := x_hdop st;
     x_depth := x_depth st; x_bottom := x_bottom st; x_ss := x_ss st; x_num := x_num st;
     x_log := x_log st |}.

Definition set_hdop (st : xstate) (h : pyval) : xstate :=
  {| x_prev := x_prev st; x_time := x_time st; x_lat := x_lat st; x_long := x_long st;
     x_ant := x_ant st; x_hdg := x_hdg st; x_speed := x_speed st; x_hdop := h;
     x_depth := x_depth st; x_bottom := x_bottom st; x_ss := x_ss st; x_num := x_num st;
     x_log := x_log st |}.

Definition set_ant (st : xstate) (a : pyval) : xstate :=
  {| x_prev := x_prev st; x_time := x_time st; x_lat := x_lat st; x_long := x_long st;
     x_ant := a; x_hdg := x_hdg st; x_speed := x_speed st; x_hdop := x_hdop st;
     x_depth := x_depth st; x_bottom := x_bottom st; x_ss := x_ss st; x_num := x_num st;
     x_log := x_log st |}.

Definition set_depth (st : xstate) (d : pyval) : xstate :=
  {| x_prev := x_prev st; x_time := x_time st; x_lat := x_lat st; x_long := x_long st;
     x_ant := x_ant st; x_hdg := x_hdg st; x_speed := x_speed st; x_hdop := x_hdop st;
     x_depth := d; x_bottom := x_bottom st; x_ss := x_ss st; x_num := x_num st;
     x_log := x_log st |}.

Definition set_bottom (st : xstate) (b : pyval) : xstate :=
  {| x_prev := x_prev st; x_time := x_time st; x_lat := x_lat st; x_long := x_long st;
     x_ant := x_ant st; x_hdg := x_hdg st; x_speed := x_speed st; x_hdop := x_hdop st;
     x_depth := x_depth st; x_bottom := b; x_ss := x_ss st; x_num := x_num st;
     x_log := x_log st |}.

(** [soundspeed = row[-1]], the append (lines 597-598) and
    [sounding_number += 1]. *)
Definition sounding_row (st : xstate) (ss : pyval) : row :=
  [x_time st; PInt (x_num st); x_lat st; x_long st; x_ant st; x_hdg st;
   x_speed st; x_hdop st; x_depth st; x_bottom st; ss].

Definition emit (st : xstate) (ss : pyval) : xstate :=
  let s := sounding_row st ss in
  {| x_prev := x_prev st; x_time := x_time st; x_lat := x_lat st; x_long := x_long st;
     x_ant := x_ant st; x_hdg := x_hdg st; x_speed := x_speed st; x_hdop := x_hdop st;
     x_depth := x_depth st; x_bottom := x_bottom st; x_ss := ss; x_num := x_num st + 1;
     x_log := x_log st ++ [s] |}.

Section Soundings.

(** [ant_off = metadata['GNSS'][2]], [sonar_off = metadata['Sonar'][2]]. *)
Variables ant_off sonar_off : Q.

(** The [$DEPTH] branch after the adjacency test (lines 594-599). *)
Definition depth_emit (st : xstate) (r : row) : xstate :=
  d <-? r.[2] else st ;;
  nd <-? py_neg d else st ;;
  q <-? py_div nd (PInt 1000) else st ;;
  wd <-? py_add q (PFloat sonar_off) else st ;;
  let st1 := set_depth st wd in
  b1 <-? py_sub (x_ant st1) (PFloat ant_off) else st1 ;;
  b <-? py_add b1 wd else st1 ;;
  let st2 := set_bottom st1 b in
  ss <-? r.[-1] else st2 ;;
  set_prev (emit st2 ss) r.

(** One iteration of the loop of [extract_soundings] (lines 579-603). *)
Definition sounding_step (st : xstate) (r : row) : xstate :=
  k <-? r.[1] else st ;;
  if py_eq_str k "$GNRMC" then
    let st1 := set_fix st (get_time_lat_long r 2 4 6) in
    sp <-? r.[8] else st1 ;;
    hd <-? r.[9] else set_motion st1 sp (x_hdg st1) ;;
    set_prev (set_motion st1 sp hd) r
  else if py_eq_str k "$GNGGA" then
    let st1 := set_fix st (get_time_lat_long r 2 3 5) in
    h <-? r.[9] else st1 ;;
    let st2 := set_hdop st1 h in
    ah <-? r.[10] else st2 ;;
    sep <-? r.[12] else st2 ;;
    s <-? py_add ah sep else st2 ;;
    e <-? py_round3v s else st2 ;;
    set_prev (set_ant st2 e) r
  else if py_eq_str k "$DEPTH" then
    p <-? (match x_prev st with Some p => Ok p | None => Err TypeError end) else st ;;
    pk <-? p.[1] else st ;;
    if py_eq_str pk "$GNGLL" then set_prev st r
    else if py_eq_str pk "$GNGGA" then depth_emit st r
    else set_prev st r
  else set_prev st r.

Definition run_soundings (rows : list row) : xstate := fold_left sounding_step rows xstate0.

(** [extract_soundings(metadata)] *)
Definition extract_soundings (rows : list row) : list row := x_log (run_soundings rows).

End Soundings.

(** ** DOP samples (lines 551-565) *)

Definition dop_step (acc : res (option row * list row)) (r : row) : res (option row * list row) :=
  '(prev, log) <- acc ;;
  k <- r.[1] ;;
  if py_eq_str k "$GNGSA" then
    p <- (match prev with Some p => Ok p | None => Err TypeError end) ;;
    pk <- p.[1] ;;
    if py_eq_str pk "$GNGSA" then Ok (Some r, log)
    else
      tm <- r.[0] ;;
      pdop <- r.[-2] ;;
      hdop <- r.[-3] ;;
      vdop <- r.[-4] ;;
      Ok (Some r, log ++ [[tm; k; pdop; hdop; vdop]])
  else Ok (Some r, log).

Definition extract_dop (rows : list row) : res (list row) :=
  res_map snd (fold_left dop_step rows (Ok (None, []))).

(** ** Lemmas on one step *)

(** The tag test of a row: [row[1] == lit]. *)
Definition tagged (r : row) (lit : string) : Prop :=
  exists k, r.[1] = Ok k /\ py_eq_str k lit = true.

Section StepLemmas.
Variables ant_off sonar_off : Q.

Abbreviation step := (sounding_step ant_off sonar_off).
Abbreviation demit := (depth_emit ant_off sonar_off).

(** The [$DEPTH] emission either leaves the sounding log alone or
    appends one row numbered with the current counter. *)
Lemma depth_emit_cases (st : xstate) (r : row) :
  (x_log (demit st r) = x_log st /\ x_num (demit st r) = x_num st)
  \/ (exists st2 ss, x_num st2 = x_num st
        /\ x_log (demit st r) = x_log st ++ [sounding_row st2 ss]
        /\ x_num (demit st r) = x_num st + 1
        /\ x_prev (demit st r) = Some r).
Proof.
  unfold depth_emit. or_else_split; try (left; split; reflexivity).
  right. exists (set_bottom (set_depth st a2) a4), a5. repeat split; reflexivity.
Qed.

(** One step: either the log is unchanged, or the row is a [$DEPTH]
    row after a [$GNGGA] row and one numbered sounding is appended. *)
Lemma step_cases (st : xstate) (r : row) :
  (x_log (step st r) = x_log st /\ x_num (step st r) = x_num st)
  \/ (exists p st2 ss, x_prev st = Some p /\ tagged p "$GNGGA" /\ tagged r "$DEPTH"
        /\ x_num st2 = x_num st
        /\ x_log (step st r) = x_log st ++ [sounding_row st2 ss]
        /\ x_num (step st r) = x_num st + 1).
Proof.
  unfold sounding_step.
  destruct (r.[1]) as [k|] eqn:Ek; cbn [or_else]; [|left; split; reflexivity].
  destruct (py_eq_str k "$GNRMC"); [or_else_split; left; split; reflexivity|].
  destruct (py_eq_str k "$GNGGA"); [or_else_split; left; split; reflexivity|].
  destruct (py_eq_str k "$DEPTH") eqn:B3; [|left; split; reflexivity].
  destruct (x_prev st) as [p|] eqn:Ep; cbn [or_else]; [|left; split; reflexivity].
  destruct (p.[1]) as [pk|] eqn:Epk; cbn [or_else]; [|left; split; reflexivity].
  destruct (py_eq_str pk "$GNGLL"); [left; split; reflexivity|].
  destruct (py_eq_str pk "$GNGGA") eqn:B4; [|left; split; reflexivity].
  destruct (depth_emit_cases st r) as [H | (st2 & ss & H1 & H2 & H3 & _)]; [left; exact H|].
  right. exists p, st2, ss. repeat split; try assumption; eexists; split; eassumption.
Qed.

(** A row that is not a [$DEPTH] row never emits. *)
Lemma step_no_emit (st : xstate) (r : row) :
  ~ tagged r "$DEPTH" -> x_log (step st r) = x_log st /\ x_num (step st r) = x_num st.
Proof.
  intros Hn. destruct (step_cases st r) as [H | (p & st2 & ss & _ & _ & Ht & _)];
    [exact H | contradiction].
Qed.

(** A row whose tag is neither [$GNRMC], [$GNGGA] nor [$DEPTH] becomes the
    previous row and changes nothing else. *)
Lemma step_other (st : xstate) (r : row) (k : pyval) :
  r.[1] = Ok k -> py_eq_str k "$GNRMC" = false -> py_eq_str k "$GNGGA" = false ->
  py_eq_str k "$DEPTH" = false -> step st r = set_prev st r.
Proof. intros E H1 H2 H3. unfold sounding_step. rewrite E. cbn [or_else]. now rewrite H1, H2, H3. Qed.

Lemma run_snoc (rows : list row) (r : row) :
  run_soundings ant_off sonar_off (rows ++ [r]) = step (run_soundings ant_off sonar_off rows) r.
Proof. unfold run_soundings. now rewrite fold_left_app. Qed.

End StepLemmas.

#[export] Hint Rewrite run_snoc : osp_rw.

(** ** Theorems on [extract_soundings] *)

Section SoundingTheorems.
Variables ant_off sonar_off : Q.

Abbreviation step := (sounding_step ant_off sonar_off).
Abbreviation run := (run_soundings ant_off sonar_off).
Abbreviation extract := (extract_soundings ant_off sonar_off).

(** The counter and numbering invariant of the fold. *)
Definition numbered (st : xstate) : Prop :=
  x_num st = Z.of_nat (length (x_log st))
  /\ forall k s, nth_error (x_log st) k = Some s -> s.[1] = Ok (PInt (Z.of_nat k)).

Lemma numbered_step (st : xstate) (r : row) : numbered st -> numbered (step st r).
Proof.
  intros [Hn Hk]. unfold numbered.
  destruct (step_cases ant_off sonar_off st r) as [[-> ->] | (p & st2 & ss & _ & _ & _ & H2 & -> & ->)].
  - split; assumption.
  - split.
    + rewrite length_app. simpl. lia.
    + intros k s Hs. apply nth_error_snoc_cases in Hs as [[_ Hs] | [-> ->]]; [now apply Hk|].
      unfold sounding_row. apply (py_get_nonneg _ 1). simpl. rewrite H2, Hn. reflexivity.
Qed.

Lemma numbered_run (rows : list row) : numbered (run rows).
Proof.
  induction rows as [|r rows IH] using rev_ind.
  - split; [reflexivity | intros [|k] s H; discriminate].
  - rewrite run_snoc. now apply numbered_step.
Qed.

(** C2. Sequence numbers: the [k]-th sounding extracted from any log
    carries [sequence_number = k] (field 1), whatever rows raised. *)
Theorem soundings_numbered (rows : list row) (k : nat) (s : row) :
  nth_error (extract rows) k = Some s -> s.[1] = Ok (PInt (Z.of_nat k)).
Proof. apply (proj2 (numbered_run rows)). Qed.

(** C1. Adjacency: every sounding comes from a [$DEPTH] row whose
    previous row (the last row processed without an exception) is a
    [$GNGGA] row; the soundings before it come from the rows before it. *)
Theorem soundings_follow_gga (rows : list row) (k : nat) (s : row) :
  nth_error (extract rows) k = Some s ->
  exists pre r post p, rows = pre ++ r :: post /\ tagged r "$DEPTH"
    /\ x_prev (run pre) = Some p /\ tagged p "$GNGGA"
    /\ length (extract pre) = k.
Proof.
  revert k s. induction rows as [|r rows IH] using rev_ind; intros k s H.
  - destruct k; discriminate.
  - unfold extract_soundings in H. rewrite run_snoc in H.
    destruct (step_cases ant_off sonar_off (run rows) r)
      as [[Hl _] | (p & st2 & ss & Hp & Hg & Hd & _ & Hl & _)]; rewrite Hl in H.
    + destruct (IH k s H) as (pre & r' & post & p & -> & ?).
      exists pre, r', (post ++ [r]), p. rewrite <- app_assoc. auto.
    + apply nth_error_snoc_cases in H as [[_ H] | [-> _]].
      * destruct (IH k s H) as (pre & r' & post & p' & -> & ?).
        exists pre, r', (post ++ [r]), p'. rewrite <- app_assoc. auto.
      * exists rows, r, [], p. auto.
Qed.

Lemma py_eq_str_true (k : pyval) (lit : string) : py_eq_str k lit = true -> k = PStr lit.
Proof. destruct k; simpl; try discriminate. intros H. apply String.eqb_eq in H. now subst. Qed.

Lemma tagged_ok (r : row) (lit : string) : tagged r lit -> r.[1] = Ok (PStr lit).
Proof. intros (k & Ek & Hk). apply py_eq_str_true in Hk. now subst. Qed.

(** C3. A [$DEPTH] row that directly follows a [$GNGLL] row is
    discarded: appending the pair to any log adds no sounding. *)
Theorem depth_after_gll_discarded (pre : list row) (g d : row) :
  tagged g "$GNGLL" -> tagged d "$DEPTH" ->
  extract (pre ++ [g; d]) = extract pre.
Proof.
  intros Hg Hd. apply tagged_ok in Hg, Hd.
  unfold extract_soundings.
  replace (pre ++ [g; d]) with ((pre ++ [g]) ++ [d]) by (rewrite <- app_assoc; reflexivity).
  rewrite !run_snoc.
  rewrite (step_other ant_off sonar_off _ g (PStr "$GNGLL")) by (assumption || reflexivity).
  unfold sounding_step at 1. rewrite Hd. cbn [or_else py_eq_str String.eqb]. simpl.
  rewrite Hg. reflexivity.
Qed.

End SoundingTheorems.

Section SoundingValues.
Variables ant_off sonar_off : Q.

Lemma step_depth_after_gga (st : xstate) (p d : row) :
  x_prev st = Some p -> tagged p "$GNGGA" -> tagged d "$DEPTH" ->
  sounding_step ant_off sonar_off st d = depth_emit ant_off sonar_off st d.
Proof.
  intros Hp Hg Hd. apply tagged_ok in Hg, Hd.
  unfold sounding_step. rewrite Hd. cbn [or_else]. simpl. rewrite Hp. cbn [or_else].
  rewrite Hg. reflexivity.
Qed.

Lemma py_get_last_ok (r : row) (i : Z) (v : pyval) :
  (0 <= i)%Z -> r.[i] = Ok v -> exists w, r.[-1] = Ok w.
Proof.
  intros Hi H. assert (Hok : is_ok (r.[i]) = true) by (rewrite H; reflexivity).
  apply py_get_ok_iff in Hok. destruct (r.[-1]) as [w|] eqn:E; [eauto|].
  assert (Hl : is_ok (r.[-1]) = true) by (apply py_get_ok_iff; lia).
  rewrite E in Hl. discriminate.
Qed.

(** C4. Depth and bottom height of an emitted sounding (lines 594-596):
    [water_depth = -distance/1000 + sonar_off] and
    [bottom = antenna_height - ant_off + water_depth], with the ping's
    last field as the sound speed. *)
Theorem depth_sounding_values (pre : list row) (p d : row) (dist a : Q) :
  x_prev (run_soundings ant_off sonar_off pre) = Some p -> tagged p "$GNGGA" ->
  tagged d "$DEPTH" -> d.[2] = Ok (PFloat dist) ->
  x_ant (run_soundings ant_off sonar_off pre) = PFloat a ->
  exists s ss, extract_soundings ant_off sonar_off (pre ++ [d])
               = extract_soundings ant_off sonar_off pre ++ [s]
    /\ s.[8] = Ok (PFloat (- dist / 1000 + sonar_off))
    /\ s.[9] = Ok (PFloat (a - ant_off + (- dist / 1000 + sonar_off)))
    /\ d.[-1] = Ok ss /\ s.[10] = Ok ss.
Proof.
  intros Hp Hg Hd H2 Ha.
  destruct (py_get_last_ok d 2 _ ltac:(lia) H2) as [ss Hss].
  unfold extract_soundings. rewrite run_snoc, (step_depth_after_gga _ p) by assumption.
  unfold depth_emit. rewrite H2. cbn [or_else]. rewrite py_neg_float. cbn [or_else].
  unfold py_div. cbn [res_bind as_num num_q]. change (Qeq_bool (inject_Z 1000) 0) with false.
  cbn [or_else py_add py_arith res_bind as_num num_q]. simpl x_ant. rewrite Ha.
  cbn [or_else py_sub py_arith res_bind as_num num_q]. rewrite Hss. cbn [or_else].
  eexists _, ss. split; [reflexivity|]. repeat split; assumption || reflexivity.
Qed.

End SoundingValues.

(** ** Coordinates and time *)

(** C20. [ddmm.mmmm] decoding: a field [100 d + m] with minutes [0 <= m < 100]
    decodes to [d + m/60] degrees. *)
Theorem decode_coord_ddmm (d : Z) (m : Q) :
  (0 <= m)%Q -> (m < 100)%Q -> decode_coord (inject_Z d * 100 + m) == inject_Z d + m / 60.
Proof.
  intros H0 H1. unfold decode_coord.
  assert (E : (inject_Z d * 100 + m) / 100 == inject_Z d + m / 100) by field.
  rewrite (Qfloor_unique _ d).
  - rewrite E. field.
  - rewrite E. assert (0 <= m / 100)%Q by (apply Qle_shift_div_l; lra). lra.
  - rewrite E. assert (m / 100 < 1)%Q by (apply Qlt_shift_div_r; lra). lra.
Qed.

Lemma decode_coord_ddmm_witness :
  (0 <= 7038 # 1000)%Q /\ (7038 # 1000 < 100)%Q
  /\ (decode_coord (inject_Z 48 * 100 + (7038 # 1000)) == inject_Z 48 + (7038 # 1000) / 60)%Q.
Proof.
  split; [vm_compute; discriminate | split; [vm_compute; reflexivity|]].
  apply decode_coord_ddmm; vm_compute; [discriminate | reflexivity].
Defined.

(** ** A raw log of the shape the acquisition loop writes *)

Module Demo.
Open Scope string_scope.

(** [str(time),str(msg)] of a GGA fix: antenna height 10 m, geoid
    separation 0 m, at 12:35:19 UTC, 48 07.038 N 11 31.000 E. *)
Definition gga : list string :=
  ["12:35:19.100000"; "$GNGGA"; "123519.00"; "4807.038"; "N"; "01131.000"; "E"; "1";
   "08"; "0.9"; "10"; "M"; "0"; "M"; ""; "*47"].
(** A ping row: distance field 5000, sound speed 1500. *)
Definition depth : list string :=
  ["12:35:19.200000"; "$DEPTH"; "5000"; "100"; "0"; "0"; "0"; "0"; "1500"].
Definition gll : list string :=
  ["12:35:20.100000"; "$GNGLL"; "4807.038"; "N"; "01131.000"; "E"; "123520.00"; "A"; "A*47"].
Definition gsa : list string :=
  ["12:35:21.100000"; "$GNGSA"; "A"; "3"; "10"; "12"; ""; ""; ""; ""; ""; ""; ""; ""; "";
   ""; "1.8"; "1.0"; "1.5"; "1*33"].

Definition rows (l : list (list string)) : list row := coerce_rows l.
End Demo.

(** The end-to-end scenario of the design: [$GNGGA], [$DEPTH],
    [$GNGLL], [$DEPTH] with a sonar offset of -0.5 m gives exactly one
    sounding, of water depth [-5000/1000 - 0.5 = -5.5] and bottom height
    [10 - 0 - 5.5 = 4.5]; the depth after the GLL fix is discarded. *)
Theorem extract_design_scenario :
  exists s w b, extract_soundings 0 (-1 # 2) (Demo.rows [Demo.gga; Demo.depth; Demo.gll; Demo.depth]) = [s]
    /\ s.[8] = Ok (PFloat w) /\ w == -11 # 2 /\ s.[9] = Ok (PFloat b) /\ b == 9 # 2.
Proof. vm_compute. do 3 eexists. repeat split; reflexivity. Qed.

(** Position of the design's example fix: [4807.038,N] and
    [01131.000,E] decode to 48.1173 and 11 + 31/60 degrees, at 12:35:19. *)
Theorem gga_position_example :
  exists la lo, get_time_lat_long (hd [] (Demo.rows [Demo.gga])) 2 3 5
                = (PTime (mk_time 12 35 19 0), PFloat la, PFloat lo)
    /\ la == 481173 # 10000 /\ lo == 691 # 60.
Proof. vm_compute. do 2 eexists. repeat split; reflexivity. Qed.

(** ** Theorems on [extract_dop] *)

Lemma dop_fold_err (rows : list row) (e : exn) : fold_left dop_step rows (Err e) = Err e.
Proof. induction rows; simpl; auto. Qed.

Lemma dop_fold_snoc (rows : list row) (r : row) acc :
  fold_left dop_step (rows ++ [r]) acc = dop_step (fold_left dop_step rows acc) r.
Proof. now rewrite fold_left_app. Qed.

(** After an [Ok] fold the previous row is the last row. *)
Lemma dop_fold_prev (rows : list row) (l : row) (p : option row) (out : list row) :
  fold_left dop_step (rows ++ [l]) (Ok (None, [])) = Ok (p, out) -> p = Some l.
Proof.
  rewrite dop_fold_snoc. destruct (fold_left dop_step rows _) as [[p0 o0]|e]; simpl; [|discriminate].
  destruct (l.[1]); simpl; [|discriminate].
  if_split; simpl; try (intros H; injection H; auto; fail).
  destruct p0 as [p1|]; simpl; [|discriminate]. destruct (p1.[1]); simpl; [|discriminate].
  if_split; simpl; [intros H; injection H; auto|].
  destruct (l.[0]), (l.[-2]), (l.[-3]), (l.[-4]); simpl; try discriminate.
  intros H; injection H; auto.
Qed.

Lemma extract_dop_fold (rows : list row) (out : list row) :
  extract_dop rows = Ok out -> exists p, fold_left dop_step rows (Ok (None, [])) = Ok (p, out).
Proof.
  unfold extract_dop. destruct (fold_left dop_step rows _) as [[p o]|e]; simpl; [|discriminate].
  intros H; injection H as <-. eauto.
Qed.

(** C26. A log whose first row is a [$GNGSA] row makes [extract_dop]
    raise [TypeError]: [prev_row] is still [None] when [prev_row[1]] is
    read (line 557). *)
Theorem dop_leading_gsa_raises (g : row) (rest : list row) :
  tagged g "$GNGSA" -> extract_dop (g :: rest) = Err TypeError.
Proof.
  intros Hg. apply tagged_ok in Hg. unfold extract_dop. simpl. rewrite Hg. simpl.
  now rewrite dop_fold_err.
Qed.

(** Duplicate suppression: a [$GNGSA] row right after a [$GNGSA] row
    adds no sample. *)
Theorem dop_run_collapses (rows : list row) (l g : row) (out : list row) :
  extract_dop (rows ++ [l]) = Ok out -> tagged l "$GNGSA" -> tagged g "$GNGSA" ->
  extract_dop (rows ++ [l; g]) = Ok out.
Proof.
  intros H Hl Hg. apply tagged_ok in Hl, Hg.
  destruct (extract_dop_fold _ _ H) as [p Hf].
  pose proof (dop_fold_prev _ _ _ _ Hf) as ->.
  unfold extract_dop. replace (rows ++ [l; g]) with ((rows ++ [l]) ++ [g])
    by (rewrite <- app_assoc; reflexivity).
  rewrite dop_fold_snoc, Hf. simpl. rewrite Hg. simpl. rewrite Hl. reflexivity.
Qed.

(** C24. Rising edge: a [$GNGSA] row after a row of another kind adds one
    sample [[time, '$GNGSA', row[-2], row[-3], row[-4]]], whose slots the
    code names pdop, hdop, vdop. *)
Theorem dop_rising_edge (rows : list row) (l g : row) (out : list row) (k : pyval) :
  extract_dop (rows ++ [l]) = Ok out -> l.[1] = Ok k -> py_eq_str k "$GNGSA" = false ->
  tagged g "$GNGSA" -> (4 <= length g)%nat ->
  exists t a b c, g.[0] = Ok t /\ g.[-2] = Ok a /\ g.[-3] = Ok b /\ g.[-4] = Ok c
    /\ extract_dop (rows ++ [l; g]) = Ok (out ++ [[t; PStr "$GNGSA"; a; b; c]]).
Proof.
  intros H Hl Hk Hg Hlen. apply tagged_ok in Hg.
  destruct (extract_dop_fold _ _ H) as [p Hf].
  pose proof (dop_fold_prev _ _ _ _ Hf) as ->.
  assert (G : forall i, (- 4 <= i < 0)%Z \/ i = 0%Z -> exists v, g.[i] = Ok v).
  { intros i Hi. destruct (g.[i]) as [v|] eqn:E; [eauto|].
    assert (Hok : is_ok (g.[i]) = true) by (apply py_get_ok_iff; lia).
    rewrite E in Hok. discriminate. }
  destruct (G 0%Z) as [t Ht]; [lia|]. destruct (G (-2)%Z) as [a Ha]; [lia|].
  destruct (G (-3)%Z) as [b Hb]; [lia|]. destruct (G (-4)%Z) as [c Hc]; [lia|].
  exists t, a, b, c. repeat split; try assumption.
  unfold extract_dop. replace (rows ++ [l; g]) with ((rows ++ [l]) ++ [g])
    by (rewrite <- app_assoc; reflexivity).
  rewrite dop_fold_snoc, Hf. simpl. rewrite Hg. simpl. rewrite Hl. simpl. rewrite Hk.
  rewrite Ht, Ha, Hb, Hc. reflexivity.
Qed.

(** The design's DOP example: a run of five [$GNGSA] rows after a fix
    gives one sample, and a second run after a different row a second. *)
Theorem dop_design_example :
  exists s1 s2,
    extract_dop (Demo.rows [Demo.gga; Demo.gsa; Demo.gsa; Demo.gsa; Demo.gsa; Demo.gsa;
                            Demo.depth; Demo.gsa; Demo.gsa]) = Ok [s1; s2].
Proof. vm_compute. eauto. Qed.

(** ** Witnesses on the demonstration log *)

Definition demo_log : list row := Demo.rows [Demo.gga; Demo.depth; Demo.gll; Demo.depth].

Lemma soundings_numbered_witness :
  exists s, nth_error (extract_soundings 0 (-1 # 2) demo_log) 0 = Some s
    /\ s.[1] = Ok (PInt (Z.of_nat 0)).
Proof.
  destruct (nth_error (extract_soundings 0 (-1 # 2) demo_log) 0) as [s|] eqn:E;
    [|vm_compute in E; discriminate].
  exists s. split; [reflexivity | exact (soundings_numbered 0 (-1 # 2) demo_log 0 s E)].
Defined.

Lemma soundings_follow_gga_witness :
  exists s, nth_error (extract_soundings 0 (-1 # 2) demo_log) 0 = Some s
    /\ exists pre r post p, demo_log = pre ++ r :: post /\ tagged r "$DEPTH"
      /\ x_prev (run_soundings 0 (-1 # 2) pre) = Some p /\ tagged p "$GNGGA"
      /\ length (extract_soundings 0 (-1 # 2) pre) = 0%nat.
Proof.
  destruct (nth_error (extract_soundings 0 (-1 # 2) demo_log) 0) as [s|] eqn:E;
    [|vm_compute in E; discriminate].
  exists s. split; [reflexivity | exact (soundings_follow_gga 0 (-1 # 2) demo_log 0 s E)].
Defined.

Lemma depth_after_gll_discarded_witness :
  tagged (hd [] (Demo.rows [Demo.gll])) "$GNGLL" /\ tagged (hd [] (Demo.rows [Demo.depth])) "$DEPTH"
  /\ extract_soundings 0 (-1 # 2)
       (Demo.rows [Demo.gga] ++ [hd [] (Demo.rows [Demo.gll]); hd [] (Demo.rows [Demo.depth])])
     = extract_soundings 0 (-1 # 2) (Demo.rows [Demo.gga]).
Proof.
  assert (G : tagged (hd [] (Demo.rows [Demo.gll])) "$GNGLL") by (eexists; split; vm_compute; reflexivity).
  assert (D : tagged (hd [] (Demo.rows [Demo.depth])) "$DEPTH") by (eexists; split; vm_compute; reflexivity).
  split; [exact G | split; [exact D|]].
  apply (depth_after_gll_discarded 0 (-1 # 2) _ _ _ G D).
Defined.

Lemma depth_sounding_values_witness :
  exists s ss, extract_soundings 0 (-1 # 2) (Demo.rows [Demo.gga] ++ [hd [] (Demo.rows [Demo.depth])])
               = extract_soundings 0 (-1 # 2) (Demo.rows [Demo.gga]) ++ [s]
    /\ s.[8] = Ok (PFloat (Qopp 5000 / 1000 + (-1 # 2)))
    /\ s.[9] = Ok (PFloat ((10000 # 1000) - 0 + (Qopp 5000 / 1000 + (-1 # 2))))
    /\ (hd [] (Demo.rows [Demo.depth])).[-1] = Ok ss /\ s.[10] = Ok ss.
Proof.
  apply (depth_sounding_values 0 (-1 # 2) _ (hd [] (Demo.rows [Demo.gga]))).
  - vm_compute. reflexivity.
  - eexists; split; vm_compute; reflexivity.
  - eexists; split; vm_compute; reflexivity.
  - vm_compute. reflexivity.
  - vm_compute. reflexivity.
Defined.

Lemma dop_leading_gsa_raises_witness :
  tagged (hd [] (Demo.rows [Demo.gsa])) "$GNGSA"
  /\ extract_dop (hd [] (Demo.rows [Demo.gsa]) :: Demo.rows [Demo.gga]) = Err TypeError.
Proof.
  assert (G : tagged (hd [] (Demo.rows [Demo.gsa])) "$GNGSA") by (eexists; split; vm_compute; reflexivity).
  split; [exact G | apply (dop_leading_gsa_raises _ _ G)].
Defined.

Lemma dop_run_collapses_witness :
  extract_dop (Demo.rows [Demo.gga] ++ [hd [] (Demo.rows [Demo.gsa]); hd [] (Demo.rows [Demo.gsa])])
  = extract_dop (Demo.rows [Demo.gga] ++ [hd [] (Demo.rows [Demo.gsa])]).
Proof.
  destruct (extract_dop (Demo.rows [Demo.gga] ++ [hd [] (Demo.rows [Demo.gsa])])) as [out|e] eqn:E.
  - apply (dop_run_collapses _ _ _ out E); eexists; split; vm_compute; reflexivity.
  - vm_compute in E. discriminate.
Defined.

Lemma dop_rising_edge_witness :
  exists t a b c, (hd [] (Demo.rows [Demo.gsa])).[0] = Ok t
    /\ (hd [] (Demo.rows [Demo.gsa])).[-2] = Ok a /\ (hd [] (Demo.rows [Demo.gsa])).[-3] = Ok b
    /\ (hd [] (Demo.rows [Demo.gsa])).[-4] = Ok c
    /\ extract_dop (Demo.rows [Demo.gga] ++ [hd [] (Demo.rows [Demo.depth]); hd [] (Demo.rows [Demo.gsa])])
       = Ok ([] ++ [[t; PStr "$GNGSA"; a; b; c]]).
Proof.
  apply (dop_rising_edge (Demo.rows [Demo.gga]) _ _ [] (PStr "$DEPTH")).
  - vm_compute. reflexivity.
  - vm_compute. reflexivity.
  - reflexivity.
  - eexists; split; vm_compute; reflexivity.
  - vm_compute. lia.
Defined.
