(* ===== verification/NmeaTime.v ===== *)
(** * The NMEA fix time through the raw log

    A GGA sentence carries its UTC time as [hhmmss.ss].  online.py writes
    it verbatim to the raw log; [Raw_Log.read_raw_log] reads it back as a
    float ([coerce_field], osplib.py 506), which drops its leading
    zeros; [get_time_lat_long] prints the float with [str()] and parses
    it with [strptime(..., '%H%M%S.%f')] (osplib.py 520).  This file
    shows when the time survives: for a fix at a whole second, exactly
    from 02:40 on, since from there the printed float still has a first
    group that [%H] reads as the hour.  [nmea_time_hour0_misread]
    shows what happens before: a fix between 00:10 and 00:24 is read
    with its minutes as the hour.

    The proof computes each step on symbolic digits: [float()] of the
    field, [str()] of an integer-valued float ([str_float_int]), the
    digits of the number ([z_digits_canon]), and the regular expression
    of [%H%M%S.%f] on the digit characters. *)

From S2P Require Import Prelude PyVal Repr Strptime Reader Extractor.

Local Open Scope Z_scope.

(** [first_match es inp caps]: the first match of the backtracking search
    consumes the whole input and captures [caps]. *)
Definition first_match (es : list elem) (inp : list ascii) (caps : list (list ascii)) : Prop :=
  exists l, match_elems es inp = (caps, []) :: l.

(** The time field of a GGA sentence as the receiver sends it and
    online.py logs it: [hhmmss.00]. *)
Definition nmea_time_field (h mi s : Z) : string :=
  string_of_list_ascii (pad 2 h ++ pad 2 mi ++ pad 2 s ++ ["."%char; "0"%char; "0"%char]).

(** The value of that field as a number. *)
Definition hhmmss (h mi s : Z) : Z := h * 10000 + mi * 100 + s.

(** ** Digits of a number *)

Lemma digits_fuel_app (f : nat) (n : Z) (acc : list ascii) :
  digits_fuel f n acc = (digits_fuel f n [] ++ acc)%list.
Proof.
  revert n acc. induction f as [|f IH]; intros n acc; [reflexivity|].
  rewrite !digits_fuel_S. destruct (n <? 10); [reflexivity|].
  rewrite IH, (IH _ [_]), <- app_assoc. reflexivity.
Qed.

(** Any fuel that covers the number gives the same digits. *)
Lemma digits_fuel_enough (f g : nat) (n : Z) :
  0 <= n < 10 ^ Z.of_nat (S f) -> 0 <= n < 10 ^ Z.of_nat (S g) ->
  digits_fuel (S f) n [] = digits_fuel (S g) n [].
Proof.
  revert g n. induction f as [|f IH]; intros g n Hf Hg; rewrite (digits_fuel_S _ n), (digits_fuel_S g n);
    destruct (Z.ltb_spec n 10); try reflexivity.
  - cbn in Hf. lia.
  - destruct g as [|g]; [cbn in Hg; lia|].
    rewrite (digits_fuel_app (S f)), (digits_fuel_app (S g)). f_equal. apply IH.
    + rewrite Nat2Z.inj_succ, Z.pow_succ_r in Hf by lia.
      split; [apply Z.div_pos; lia | apply Z.div_lt_upper_bound; lia].
    + rewrite Nat2Z.inj_succ, Z.pow_succ_r in Hg by lia.
      split; [apply Z.div_pos; lia | apply Z.div_lt_upper_bound; lia].
Qed.

Lemma z_digits_fuel (n : Z) (f : nat) :
  0 <= n < 10 ^ Z.of_nat (S f) -> z_digits n = digits_fuel (S f) n [].
Proof.
  intros Hn. unfold z_digits. rewrite Z.abs_eq by lia. apply digits_fuel_enough; [|exact Hn].
  pose proof (size_nat_bound (Z.to_pos (n + 1))) as B. rewrite Z2Pos.id in B by lia.
  pose proof (pow2_le_pow10 (Pos.size_nat (Z.to_pos (n + 1)))).
  rewrite Nat2Z.inj_succ, Z.pow_succ_r by lia. lia.
Qed.

Lemma z_digits_small (n : Z) : 0 <= n < 10 -> z_digits n = [digit_char n].
Proof.
  intros Hn. rewrite (z_digits_fuel n 0) by (cbn; lia). rewrite digits_fuel_S.
  destruct (Z.ltb_spec n 10); [|lia]. rewrite Z.mod_small by lia. reflexivity.
Qed.

(** The last digit comes off with [n mod 10]. *)
Lemma z_digits_snoc (n : Z) :
  10 <= n -> z_digits n = (z_digits (n / 10) ++ [digit_char (n mod 10)])%list.
Proof.
  intros Hn. set (f := Pos.size_nat (Z.to_pos (n + 1))).
  assert (B : n < 10 ^ Z.of_nat (S f)).
  { pose proof (size_nat_bound (Z.to_pos (n + 1))) as B. rewrite Z2Pos.id in B by lia.
    pose proof (pow2_le_pow10 f). rewrite Nat2Z.inj_succ, Z.pow_succ_r by lia. fold f in B. lia. }
  rewrite (z_digits_fuel n (S f)) by (rewrite Nat2Z.inj_succ, Z.pow_succ_r by lia; lia).
  rewrite digits_fuel_S. destruct (Z.ltb_spec n 10); [lia|].
  rewrite digits_fuel_app. f_equal. symmetry. apply z_digits_fuel.
  split; [apply Z.div_pos; lia | apply Z.div_lt_upper_bound; lia].
Qed.

Lemma digit_char_val (c : ascii) : digit c -> digit_char (digit_val c) = c.
Proof. intros H. apply digit_cases in H. repeat (destruct H as [<- | H]; [reflexivity|]). destruct H. Qed.

Lemma digit_val_range (c : ascii) : digit c -> 0 <= digit_val c < 10.
Proof. intros H. apply digit_cases in H. repeat (destruct H as [<- | H]; [vm_compute; split; [discriminate | reflexivity]|]). destruct H. Qed.

(** Digits without a leading zero. *)
Definition canon (ds : list ascii) : Prop :=
  Forall digit ds /\ match ds with c :: _ => c <> "0"%char | [] => False end.

Lemma digits_value_nonneg (ds : list ascii) : Forall digit ds -> 0 <= digits_value ds.
Proof.
  induction ds as [|x r IH] using rev_ind; intros Hr; [reflexivity|].
  rewrite Forall_app in Hr. destruct Hr as [Hr Hx]. inversion Hx as [|? ? Hx' _]; subst.
  rewrite digits_value_app. pose proof (digit_val_range x Hx'). specialize (IH Hr). cbn. lia.
Qed.

Lemma canon_pos (ds : list ascii) : canon ds -> 1 <= digits_value ds.
Proof.
  intros [Hd Hh]. destruct ds as [|c rest]; [contradiction|].
  change (c :: rest) with ([c] ++ rest)%list. rewrite digits_value_app.
  inversion Hd as [|? ? Hc Hr]; subst. pose proof (digits_value_nonneg rest Hr).
  assert (1 <= digit_val c).
  { pose proof (digit_val_range c Hc). destruct (Z.eq_dec (digit_val c) 0) as [E|]; [|lia].
    exfalso. apply Hh. rewrite <- (digit_char_val c Hc), E. reflexivity. }
  cbn [digits_value fold_left]. pose proof (Z.pow_pos_nonneg 10 (Z.of_nat (length rest))). nia.
Qed.

(** [z_digits] of the value of a canonical digit list is that list. *)
Lemma z_digits_canon (ds : list ascii) : canon ds -> z_digits (digits_value ds) = ds.
Proof.
  induction ds as [|c ds IH] using rev_ind; intros [Hd Hh]; [contradiction|].
  rewrite Forall_app in Hd. destruct Hd as [Hd Hc]. inversion Hc as [|? ? Hc' _]; subst.
  pose proof (digit_val_range c Hc') as Rc.
  destruct ds as [|c0 ds'].
  - change (digits_value ([] ++ [c])) with (10 * 0 + digit_val c).
    rewrite z_digits_small by lia. cbn [app]. f_equal. apply digit_char_val, Hc'.
  - assert (Cd : canon (c0 :: ds')) by (split; assumption).
    pose proof (canon_pos _ Cd) as P.
    rewrite digits_value_app. change (digits_value [c]) with (10 * 0 + digit_val c).
    change (Z.of_nat (length [c])) with 1. rewrite Z.pow_1_r.
    set (v := digits_value (c0 :: ds')) in *.
    replace (v * 10 + (10 * 0 + digit_val c)) with (v * 10 + digit_val c) by ring.
    rewrite z_digits_snoc by lia.
    rewrite Z.div_add_l, Z.div_small, Z.add_0_r by lia.
    rewrite Z.add_comm, Z.mod_add, Z.mod_small by lia.
    rewrite (IH Cd), (digit_char_val c Hc'). reflexivity.
Qed.

(** ** [str()] of a float with an integer value *)

Lemma Qred_int (n : Z) : Qred (n # 1) = (n # 1)%Q.
Proof.
  unfold Qred. pose proof (Z.ggcd_gcd n 1) as G. pose proof (Z.ggcd_correct_divisors n 1) as D.
  destruct (Z.ggcd n 1) as [g [a b]]. cbn in *. rewrite Z.gcd_1_r in G. subst g.
  destruct D as [D1 D2]. replace a with n by lia. replace b with 1 by lia. reflexivity.
Qed.

Lemma decimal_of_int (f : nat) (n : Z) : decimal_of (S f) 0 n 1 = Some (n, 0).
Proof. cbn [decimal_of]. rewrite Z.pow_0_r, Z.mul_1_r, Z.mod_1_r, Z.div_1_r. reflexivity. Qed.

Lemma zeros_succ (k : Z) : 0 <= k -> zeros (k + 1) = (zeros k ++ ["0"%char])%list.
Proof.
  intros Hk. unfold zeros. rewrite Z2Nat.inj_add by lia. change (Z.to_nat 1) with 1%nat.
  rewrite repeat_app. reflexivity.
Qed.

(** Removing the trailing zeros of [m * 10^e] keeps its digits. *)
Lemma strip_zeros_digits (f : nat) (m e : Z) :
  0 < m ->
  let '(m', e') := strip_zeros f m e in
  0 < m' /\ e <= e' /\ (z_digits m' ++ zeros (e' - e))%list = z_digits m.
Proof.
  revert m e. induction f as [|f IH]; intros m e Hm; cbn [strip_zeros].
  - rewrite Z.sub_diag, app_nil_r. auto with zarith.
  - destruct (Z.eqb_spec (m mod 10) 0) as [H0|H0]; cbn [andb negb];
      [|rewrite Z.sub_diag, app_nil_r; auto with zarith].
    destruct (Z.eqb_spec m 0); [lia|]. cbn [negb].
    assert (Hd : 0 < m / 10) by (pose proof (Z.div_mod m 10); apply Z.div_str_pos; lia).
    specialize (IH (m / 10) (e + 1) Hd). destruct (strip_zeros f (m / 10) (e + 1)) as [m' e'].
    destruct IH as (Hp & He & Hz). split; [exact Hp|]. split; [lia|].
    rewrite (z_digits_snoc m) by (pose proof (Z.div_mod m 10); lia). rewrite H0, <- Hz.
    replace (e' - e) with ((e' - (e + 1)) + 1) by lia. rewrite zeros_succ by lia.
    rewrite app_assoc. reflexivity.
Qed.

Lemma digits_fuel_length (f : nat) (n : Z) (acc : list ascii) :
  (length (digits_fuel f n acc) <= f + length acc)%nat.
Proof.
  revert n acc. induction f as [|f IH]; intros n acc; [cbn; lia|]. rewrite digits_fuel_S.
  destruct (n <? 10); [cbn; lia|]. specialize (IH (n / 10) (digit_char (n mod 10) :: acc)). cbn in *. lia.
Qed.

Lemma z_digits_length (n : Z) : 0 <= n < 10 ^ 16 -> (length (z_digits n) <= 16)%nat.
Proof.
  intros Hn. rewrite (z_digits_fuel n 15) by (cbn; lia).
  pose proof (digits_fuel_length 16 n []). cbn [length] in *. lia.
Qed.

(** [str(float(n))] of an integer below [10^16]: its digits, then [.0]. *)
Lemma str_float_int (n : Z) :
  0 < n < 10 ^ 16 -> str_float (n # 1) = (z_digits n ++ ["."%char; "0"%char])%list.
Proof.
  intros Hn. unfold str_float. rewrite Qred_int. cbn [Qnum Qden].
  destruct (Z.eqb_spec n 0); [lia|]. rewrite decimal_of_int, Z.abs_eq by lia.
  pose proof (strip_zeros_digits (Pos.size_nat (Z.to_pos (n + 1))) n 0 ltac:(lia)) as S.
  destruct (strip_zeros _ n 0) as [m e]. destruct S as (Hm & He & Hz). rewrite Z.sub_0_r in Hz.
  destruct (Z.ltb_spec n 0); [lia|]. cbn [app].
  pose proof (z_digits_length n ltac:(lia)) as L.
  assert (Ld : (length (z_digits m) + Z.to_nat e = length (z_digits n))%nat)
    by (rewrite <- Hz, length_app, length_zeros; reflexivity).
  destruct (z_digits_spec m ltac:(lia)) as (Hne & _ & _).
  assert (1 <= length (z_digits m))%nat as L1 by (destruct (z_digits m); [contradiction | cbn; lia]).
  unfold repr_layout.
  replace (Z.of_nat (length (z_digits m)) + e) with (Z.of_nat (length (z_digits n))) by lia.
  destruct (Z.ltb_spec (-4) (Z.of_nat (length (z_digits n)))); [|lia].
  destruct (Z.leb_spec (Z.of_nat (length (z_digits n))) 16); [|lia]. cbn [andb].
  destruct (Z.leb_spec (Z.of_nat (length (z_digits n))) 0); [lia|].
  destruct (Z.leb_spec (Z.of_nat (length (z_digits m))) (Z.of_nat (length (z_digits n)))); [|lia].
  replace (Z.of_nat (length (z_digits n)) - Z.of_nat (length (z_digits m))) with e by lia.
  rewrite app_assoc, Hz. reflexivity.
Qed.

(** ** The digit characters of a field *)

Lemma nat_of_digit_char (d : Z) : 0 <= d < 10 -> nat_of_ascii (digit_char d) = (48 + Z.to_nat d)%nat.
Proof.
  intros Hd. unfold digit_char. rewrite nat_ascii_embedding by lia. lia.
Qed.

Lemma ascii_eqb_nat (a b : ascii) : Ascii.eqb a b = Nat.eqb (nat_of_ascii a) (nat_of_ascii b).
Proof.
  destruct (Ascii.eqb_spec a b) as [->|H]; [symmetry; apply Nat.eqb_refl|].
  symmetry. apply Nat.eqb_neq. intros E. apply H.
  rewrite <- (ascii_nat_embedding a), <- (ascii_nat_embedding b), E. reflexivity.
Qed.

Lemma digit_char_digit (d : Z) : 0 <= d < 10 -> digit (digit_char d).
Proof. intros Hd. apply (digit_char_spec d Hd). Qed.

Lemma digit_char_not0 (d : Z) : 1 <= d < 10 -> digit_char d <> "0"%char.
Proof.
  intros Hd E. pose proof (proj2 (digit_char_spec d ltac:(lia))) as V. rewrite E in V.
  change (digit_val "0"%char) with 0 in V. lia.
Qed.

(** Two-digit zero padding of a number below 100. *)
Lemma pad2 (x : Z) : 0 <= x < 100 -> pad 2 x = [digit_char (x / 10); digit_char (x mod 10)].
Proof.
  intros Hx. unfold pad. destruct (Z.ltb_spec x 10).
  - rewrite z_digits_small by lia. rewrite Z.div_small, Z.mod_small by lia. reflexivity.
  - rewrite z_digits_snoc, z_digits_small by (try split; try apply Z.div_pos; try apply Z.div_lt_upper_bound; lia).
    reflexivity.
Qed.

Lemma digits_value_pad2 (x : Z) : 0 <= x < 100 -> digits_value (pad 2 x) = x.
Proof.
  intros Hx. unfold pad. rewrite digits_value_zeros. apply z_digits_spec. lia.
Qed.

(** ** The character tests of the pattern on digit characters *)

Lemma is_digit_dc (x : Z) : 0 <= x < 10 -> is_digit (digit_char x) = true.
Proof. intros H. apply (digit_char_digit x H). Qed.

Lemma in_range_dc (hi : Z) (x : Z) : 0 <= x < 10 -> 0 <= hi < 10 ->
  in_range "0" (digit_char hi) (digit_char x) = (x <=? hi).
Proof.
  intros Hx Hh. unfold in_range. rewrite !nat_of_digit_char by lia. change (nat_of_ascii "0") with 48%nat.
  destruct (Z.leb_spec x hi); [apply andb_true_iff; split; apply Nat.leb_le; lia|].
  apply andb_false_iff. right. apply Nat.leb_gt. lia.
Qed.

Lemma eqb_dc (y x : Z) : 0 <= x < 10 -> 0 <= y < 10 -> Ascii.eqb (digit_char y) (digit_char x) = (x =? y).
Proof.
  intros Hx Hy. rewrite ascii_eqb_nat, !nat_of_digit_char by lia.
  destruct (Z.eqb_spec x y); [apply Nat.eqb_eq; lia | apply Nat.eqb_neq; lia].
Qed.

Lemma eqb_dot_dc (x : Z) : 0 <= x < 10 -> Ascii.eqb "." (digit_char x) = false.
Proof. intros Hx. rewrite ascii_eqb_nat, nat_of_digit_char by lia. apply Nat.eqb_neq. change (nat_of_ascii ".") with 46%nat. lia. Qed.

Lemma eqb_colon_dc (x : Z) : 0 <= x < 10 -> Ascii.eqb ":" (digit_char x) = false.
Proof. intros Hx. rewrite ascii_eqb_nat, nat_of_digit_char by lia. apply Nat.eqb_neq. change (nat_of_ascii ":") with 58%nat. lia. Qed.

Lemma in_range1 (x : Z) : 0 <= x < 10 -> in_range "0" "1" (digit_char x) = (x <=? 1).
Proof. intros H. change "1"%char with (digit_char 1). apply in_range_dc; lia. Qed.
Lemma in_range3 (x : Z) : 0 <= x < 10 -> in_range "0" "3" (digit_char x) = (x <=? 3).
Proof. intros H. change "3"%char with (digit_char 3). apply in_range_dc; lia. Qed.
Lemma in_range5 (x : Z) : 0 <= x < 10 -> in_range "0" "5" (digit_char x) = (x <=? 5).
Proof. intros H. change "5"%char with (digit_char 5). apply in_range_dc; lia. Qed.
Lemma eqb2 (x : Z) : 0 <= x < 10 -> Ascii.eqb "2" (digit_char x) = (x =? 2).
Proof. intros H. change "2"%char with (digit_char 2). apply eqb_dc; lia. Qed.
Lemma eqb6 (x : Z) : 0 <= x < 10 -> Ascii.eqb "6" (digit_char x) = (x =? 6).
Proof. intros H. change "6"%char with (digit_char 6). apply eqb_dc; lia. Qed.

(** A character test on a literal character, evaluated. *)
Ltac eval_test t :=
  let v := eval vm_compute in t in
  match v with true => change t with true | false => change t with false end.

(** One step of the symbolic evaluation: evaluate a test on a literal,
    rewrite a character test on a digit into a comparison of numbers, or
    split on such a comparison. *)
Ltac dc_step :=
  match goal with
  | |- context [is_digit ?c] => eval_test (is_digit c)
  | |- context [in_range ?lo ?hi ?c] => eval_test (in_range lo hi c)
  | |- context [Ascii.eqb ?a ?c] => eval_test (Ascii.eqb a c)
  | |- context [is_digit (digit_char ?x)] => rewrite (is_digit_dc x) by lia
  | |- context [in_range "0" "1" (digit_char ?x)] => rewrite (in_range1 x) by lia
  | |- context [in_range "0" "3" (digit_char ?x)] => rewrite (in_range3 x) by lia
  | |- context [in_range "0" "5" (digit_char ?x)] => rewrite (in_range5 x) by lia
  | |- context [Ascii.eqb "2" (digit_char ?x)] => rewrite (eqb2 x) by lia
  | |- context [Ascii.eqb "6" (digit_char ?x)] => rewrite (eqb6 x) by lia
  | |- context [Ascii.eqb "." (digit_char ?x)] => rewrite (eqb_dot_dc x) by lia
  | |- context [Ascii.eqb ":" (digit_char ?x)] => rewrite (eqb_colon_dc x) by lia
  | |- context [?x <=? ?y] => destruct (Z.leb_spec x y); try (exfalso; lia)
  | |- context [?x =? ?y] => destruct (Z.eqb_spec x y); try (exfalso; lia)
  end.

(** ** The first match of the search *)

Lemma fm_nil : first_match [] [] [].
Proof. exists []. reflexivity. Qed.

Lemma match_elems_alt (a : alt) (e : elem) (es : list elem) (inp : list ascii) :
  match_elems ((a :: e) :: es) inp
  = ((match match_alt a inp with
      | Some (cap, rest) => map (fun '(caps, r) => (cap :: caps, r)) (match_elems es rest)
      | None => []
      end) ++ match_elems (e :: es) inp)%list.
Proof. reflexivity. Qed.

Lemma fm_take (a : alt) (e : elem) (es : list elem) (inp cap rest : list ascii) (caps : list (list ascii)) :
  match_alt a inp = Some (cap, rest) -> first_match es rest caps -> first_match ((a :: e) :: es) inp (cap :: caps).
Proof. intros H1 [l H2]. unfold first_match. rewrite match_elems_alt, H1, H2. eexists. reflexivity. Qed.

Lemma fm_skip (a : alt) (e : elem) (es : list elem) (inp : list ascii) (caps : list (list ascii)) :
  match_alt a inp = None -> first_match (e :: es) inp caps -> first_match ((a :: e) :: es) inp caps.
Proof. intros H1 H2. unfold first_match in *. rewrite match_elems_alt, H1. exact H2. Qed.

Lemma strptime_first (fmt : list elem) (inp : list ascii) (caps : list (list ascii)) :
  first_match fmt inp caps -> strptime fmt (string_of_list_ascii inp) = strptime_groups fmt caps.
Proof. intros [l H]. unfold strptime. rewrite list_ascii_of_string_of_list_ascii, H. reflexivity. Qed.

(** An alternative of an element matches, or fails, on the input. *)
Ltac ma_solve := first [reflexivity | simpl; repeat (dc_step; simpl); reflexivity].
Ltac fm_step := first [apply fm_nil | eapply fm_take; [ma_solve|] | apply fm_skip; [ma_solve|]].

(** An alternative that matches but leaves no way to finish the pattern
    is passed over: the engine backtracks into the next one. *)
Lemma fm_skip_dead (a : alt) (e : elem) (es : list elem) (inp cap rest : list ascii) (caps : list (list ascii)) :
  match_alt a inp = Some (cap, rest) -> match_elems es rest = [] ->
  first_match (e :: es) inp caps -> first_match ((a :: e) :: es) inp caps.
Proof. intros H1 H2 H3. unfold first_match in *. rewrite match_elems_alt, H1, H2. exact H3. Qed.

(** The backtracking search itself: take an alternative and go on, or
    pass over one that fails at once or leads nowhere. *)
Ltac dead_solve := first [reflexivity | simpl; repeat (dc_step; simpl); reflexivity].
Ltac fm_search :=
  first [ apply fm_nil
        | eapply fm_take; [ma_solve | fm_search]
        | apply fm_skip; [ma_solve | fm_search]
        | eapply fm_skip_dead; [ma_solve | dead_solve | fm_search] ].

(** The regular expression is run by [simpl] on symbolic digits: the
    character tests stay folded so that [dc_step] can rewrite them. *)
#[local] Arguments digit_char : simpl never.
#[local] Arguments is_digit : simpl never.
#[local] Arguments in_range : simpl never.
#[local] Arguments Ascii.eqb : simpl never.

(** A six-digit time [hhmmss.0] with [10 <= hh <= 23] is matched as
    [hh], [mm], [ss]. *)
Lemma first_match_six (a b c d e f : Z) :
  (a = 1 /\ 0 <= b <= 9 \/ a = 2 /\ 0 <= b <= 3) -> 0 <= c <= 5 -> 0 <= d <= 9 -> 0 <= e <= 5 -> 0 <= f <= 9 ->
  first_match fmt_nmea [digit_char a; digit_char b; digit_char c; digit_char d;
                        digit_char e; digit_char f; "."%char; "0"%char]
    [[digit_char a; digit_char b]; [digit_char c; digit_char d]; [digit_char e; digit_char f]; ["."%char]; ["0"%char]].
Proof.
  intros Ha Hc Hd He Hf. unfold fmt_nmea, re_H, re_M, re_S, re_f, lit. cbn [map repeat].
  destruct Ha as [[-> Hb]|[-> Hb]]; repeat fm_step.
Qed.

(** A five-digit time [hmmss.0] is matched as [h], [mm], [ss] when [h]
    is not a prefix of an hour [%H] accepts first: [h >= 3], or [h = 2]
    with a minute from 40 on. *)
Lemma first_match_five (a c d e f : Z) :
  (3 <= a <= 9 \/ a = 2 /\ 4 <= c <= 5) -> 0 <= c <= 5 -> 0 <= d <= 9 -> 0 <= e <= 5 -> 0 <= f <= 9 ->
  first_match fmt_nmea [digit_char a; digit_char c; digit_char d;
                        digit_char e; digit_char f; "."%char; "0"%char]
    [[digit_char a]; [digit_char c; digit_char d]; [digit_char e; digit_char f]; ["."%char]; ["0"%char]].
Proof.
  intros Ha Hc Hd He Hf. unfold fmt_nmea, re_H, re_M, re_S, re_f, lit. cbn [map repeat].
  destruct Ha as [Ha|[-> Hc']]; repeat fm_step.
Qed.


(** ** The fix time through [float()], [str()] and [strptime] *)

Lemma pad2_digits (x : Z) : 0 <= x < 100 -> Forall digit (pad 2 x).
Proof. intros Hx. rewrite pad2 by lia. repeat constructor; apply digit_char_digit; Z.to_euclidean_division_equations; lia. Qed.

Lemma length_pad2 (x : Z) : 0 <= x < 100 -> length (pad 2 x) = 2%nat.
Proof. intros Hx. rewrite pad2 by lia. reflexivity. Qed.

Lemma string_of_nonempty (l : list ascii) : l <> [] -> String.eqb (string_of_list_ascii l) "" = false.
Proof. destruct l; [contradiction | reflexivity]. Qed.

(** [read_raw_log] turns the field into a float whose value is [hhmmss]. *)
Lemma coerce_nmea_time (h mi s : Z) :
  0 <= h < 100 -> 0 <= mi < 100 -> 0 <= s < 100 ->
  exists q, coerce_field (nmea_time_field h mi s) = PFloat q /\ Qred q = (hhmmss h mi s # 1)%Q.
Proof.
  intros Hh Hm Hs. unfold coerce_field.
  replace (nmea_time_field h mi s)
    with (string_of_list_ascii (numeral false true (pad 2 h ++ pad 2 mi ++ pad 2 s) ["0"%char; "0"%char] []))
    by (unfold nmea_time_field, numeral; rewrite <- !app_assoc; reflexivity).
  rewrite (parse_numeral false true _ _ [] 0).
  - rewrite string_of_nonempty by (unfold numeral; rewrite pad2 by lia; discriminate). eexists. split; [reflexivity|].
    rewrite <- (Qred_int (hhmmss h mi s)). apply Qred_complete.
    rewrite !digits_value_app, !digits_value_pad2 by lia. rewrite !length_app, !length_pad2 by lia.
    change (digits_value ["0"%char; "0"%char]) with 0. change (pow10 (0 - Z.of_nat (length ["0"%char; "0"%char]))) with (1 # 100)%Q.
    unfold Qeq, Qmult, inject_Z, hhmmss. cbn [Qnum Qden length Z.of_nat Nat.add]. lia.
  - rewrite pad2 by lia. discriminate.
  - rewrite !Forall_app. auto using pad2_digits.
  - repeat constructor.
  - discriminate.
  - left. auto.
Qed.

Lemma str_float_Qred (q : Q) : str_float q = str_float (Qred q).
Proof. unfold str_float. rewrite (Qred_complete (Qred q) q (Qred_correct q)). reflexivity. Qed.

(** The digits [str()] prints for [hhmmss]. *)
Lemma canon_pad2_digits (ds : list ascii) (h mi s : Z) :
  ds <> [] -> Forall digit ds -> match ds with c :: _ => c <> "0"%char | [] => False end ->
  0 <= mi < 100 -> 0 <= s < 100 -> digits_value ds = h ->
  z_digits (hhmmss h mi s) = (ds ++ pad 2 mi ++ pad 2 s)%list.
Proof.
  intros Hne Hd Hh Hm Hs Hv. rewrite <- (z_digits_canon (ds ++ pad 2 mi ++ pad 2 s)%list).
  - f_equal. rewrite !digits_value_app, !digits_value_pad2, !length_app, !length_pad2, Hv by lia.
    unfold hhmmss. cbn. lia.
  - split; [rewrite !Forall_app; auto using pad2_digits|]. destruct ds; [contradiction | exact Hh].
Qed.

Lemma digits_value_dc2 (x : Z) : 0 <= x < 100 -> digits_value [digit_char (x / 10); digit_char (x mod 10)] = x.
Proof. intros Hx. rewrite <- pad2 by lia. apply digits_value_pad2. lia. Qed.

Lemma digits_value_dc1 (x : Z) : 0 <= x < 10 -> digits_value [digit_char x] = x.
Proof. intros Hx. apply (proj2 (digit_char_spec x Hx)). Qed.

Ltac zdiv := Z.to_euclidean_division_equations; lia.

(** [strptime(str(float(field)), '%H%M%S.%f')] gives the fix time back. *)
Lemma nmea_time_parse (h mi s : Z) :
  (3 <= h <= 23 \/ h = 2 /\ 40 <= mi) -> 0 <= mi <= 59 -> 0 <= s <= 59 ->
  strptime fmt_nmea (py_str (coerce_field (nmea_time_field h mi s))) = Ok (mk_time h mi s 0).
Proof.
  intros Hh Hm Hs.
  destruct (coerce_nmea_time h mi s ltac:(lia) ltac:(lia) ltac:(lia)) as (q & -> & Hq).
  unfold py_str. rewrite str_float_Qred, Hq, str_float_int
    by (unfold hhmmss; change (10 ^ 16) with 10000000000000000; lia).
  destruct (Z.leb_spec 10 h).
  - rewrite (canon_pad2_digits (pad 2 h) h mi s);
      [| rewrite pad2 by lia; discriminate | apply pad2_digits; lia
       | rewrite pad2 by lia; apply digit_char_not0; zdiv | lia | lia | apply digits_value_pad2; lia].
    rewrite (pad2 h), (pad2 mi), (pad2 s) by lia. cbn [app].
    rewrite (strptime_first _ _ _ (first_match_six (h / 10) (h mod 10) (mi / 10) (mi mod 10) (s / 10) (s mod 10)
      ltac:(zdiv) ltac:(zdiv) ltac:(zdiv) ltac:(zdiv) ltac:(zdiv))).
    unfold strptime_groups, build_time. rewrite !digits_value_dc2 by lia.
    destruct (Z.ltb_spec 59 s); [lia | reflexivity].
  - rewrite (canon_pad2_digits [digit_char h] h mi s);
      [| discriminate | repeat constructor; apply digit_char_digit; lia
       | apply digit_char_not0; lia | lia | lia | apply digits_value_dc1; lia].
    rewrite (pad2 mi), (pad2 s) by lia. cbn [app].
    rewrite (strptime_first _ _ _ (first_match_five h (mi / 10) (mi mod 10) (s / 10) (s mod 10)
      ltac:(zdiv) ltac:(zdiv) ltac:(zdiv) ltac:(zdiv) ltac:(zdiv))).
    unfold strptime_groups, build_time. rewrite digits_value_dc1, !digits_value_dc2 by lia.
    destruct (Z.ltb_spec 59 s); [lia | reflexivity].
Qed.

(** C22. The fix time of a GGA row survives [read_raw_log] and
    [get_time_lat_long]: a row whose time field was logged as [hhmmss.00]
    decodes to the time [hh:mm:ss], for every whole-second time from 02:40
    to 23:59:59 (the leading zero the float drops does not matter from
    there on). *)
Theorem nmea_fix_time_roundtrip (m : row) (t la lo h mi s : Z) :
  (3 <= h <= 23 \/ h = 2 /\ 40 <= mi) -> 0 <= mi <= 59 -> 0 <= s <= 59 ->
  m.[t] = Ok (coerce_field (nmea_time_field h mi s)) ->
  fst (fst (get_time_lat_long m t la lo)) = PTime (mk_time h mi s 0).
Proof.
  intros Hh Hm Hs Ht. unfold get_time_lat_long. rewrite Ht. cbn [or_else].
  rewrite nmea_time_parse by assumption. cbn [or_else]. or_else_split; reflexivity.
Qed.

Lemma nmea_fix_time_roundtrip_witness :
  (3 <= 12 <= 23 \/ 12 = 2 /\ 40 <= 35) /\ 0 <= 35 <= 59 /\ 0 <= 19 <= 59
  /\ (hd [] (Extractor.Demo.rows [Extractor.Demo.gga])).[2] = Ok (coerce_field (nmea_time_field 12 35 19))
  /\ fst (fst (get_time_lat_long (hd [] (Extractor.Demo.rows [Extractor.Demo.gga])) 2 3 5))
     = PTime (mk_time 12 35 19 0).
Proof.
  assert (E : (hd [] (Extractor.Demo.rows [Extractor.Demo.gga])).[2] = Ok (coerce_field (nmea_time_field 12 35 19)))
    by (vm_compute; reflexivity).
  split; [lia|]. split; [lia|]. split; [lia|]. split; [exact E|].
  apply (nmea_fix_time_roundtrip _ 2 3 5 12 35 19); [lia | lia | lia | exact E].
Defined.

(** ** Fixes in the first hour *)

(** A four-digit time [mmss.0] with [10 <= mm <= 23] is matched as the
    hour [mm], then, after backtracking out of a two-digit minute that
    leaves nothing for [%S], the minute [s/10] and the second [s mod 10]. *)
Lemma first_match_four (a b c d : Z) :
  (a = 1 /\ 0 <= b <= 9 \/ a = 2 /\ 0 <= b <= 3) -> 0 <= c <= 5 -> 0 <= d <= 9 ->
  first_match fmt_nmea [digit_char a; digit_char b; digit_char c; digit_char d; "."%char; "0"%char]
    [[digit_char a; digit_char b]; [digit_char c]; [digit_char d]; ["."%char]; ["0"%char]].
Proof.
  intros Ha Hc Hd. unfold fmt_nmea, re_H, re_M, re_S, re_f, lit. cbn [map repeat].
  destruct Ha as [[-> Hb]|[-> Hb]]; fm_search.
Qed.

Lemma z_digits_mmss (mi s : Z) :
  10 <= mi < 100 -> 0 <= s < 100 -> z_digits (hhmmss 0 mi s) = (pad 2 mi ++ pad 2 s)%list.
Proof.
  intros Hm Hs. rewrite <- (z_digits_canon (pad 2 mi ++ pad 2 s)).
  - f_equal. rewrite digits_value_app, !digits_value_pad2, length_pad2 by lia. unfold hhmmss. cbn. lia.
  - split; [rewrite Forall_app; auto using pad2_digits with zarith|].
    rewrite pad2 by lia. apply digit_char_not0. zdiv.
Qed.

(** [strptime(str(float(field)), '%H%M%S.%f')] on a fix of the first hour. *)
Lemma nmea_time_parse_hour0 (mi s : Z) :
  10 <= mi <= 23 -> 0 <= s <= 59 ->
  strptime fmt_nmea (py_str (coerce_field (nmea_time_field 0 mi s))) = Ok (mk_time mi (s / 10) (s mod 10) 0).
Proof.
  intros Hm Hs. destruct (coerce_nmea_time 0 mi s ltac:(lia) ltac:(lia) ltac:(lia)) as (q & -> & Hq).
  unfold py_str. rewrite str_float_Qred, Hq, str_float_int
    by (unfold hhmmss; change (10 ^ 16) with 10000000000000000; lia).
  rewrite z_digits_mmss, (pad2 mi), (pad2 s) by lia. cbn [app].
  rewrite (strptime_first _ _ _ (first_match_four (mi / 10) (mi mod 10) (s / 10) (s mod 10)
    ltac:(zdiv) ltac:(zdiv) ltac:(zdiv))).
  unfold strptime_groups, build_time. rewrite digits_value_dc2, !digits_value_dc1 by zdiv.
  destruct (Z.ltb_spec 59 (s mod 10)); [zdiv | reflexivity].
Qed.

(** C21. A fix logged between 00:10:00 and 00:23:59 UTC loses its
    leading zeros in [float()], and [get_time_lat_long] reads the
    remaining [mmss.0] with its minutes as the hour and its two second
    digits as minute and second: 00:15:19 comes back as 15:01:09. *)
Theorem nmea_time_hour0_misread (m : row) (t la lo mi s : Z) :
  10 <= mi <= 23 -> 0 <= s <= 59 -> m.[t] = Ok (coerce_field (nmea_time_field 0 mi s)) ->
  fst (fst (get_time_lat_long m t la lo)) = PTime (mk_time mi (s / 10) (s mod 10) 0).
Proof.
  intros Hm Hs Ht. unfold get_time_lat_long. rewrite Ht. cbn [or_else].
  rewrite nmea_time_parse_hour0 by assumption. cbn [or_else]. or_else_split; reflexivity.
Qed.

Module Demo.
Local Open Scope string_scope.

(** The GGA fix of [Extractor.Demo.gga] logged at 00:15:19 UTC. *)
Definition gga_0015 : list string :=
  ["00:15:19.100000"; "$GNGGA"; "001519.00"; "4807.038"; "N"; "01131.000"; "E"; "1";
   "08"; "0.9"; "10"; "M"; "0"; "M"; ""; "*47"].
End Demo.

Lemma nmea_time_hour0_misread_witness :
  10 <= 15 <= 23 /\ 0 <= 19 <= 59
  /\ (hd [] (Extractor.Demo.rows [Demo.gga_0015])).[2] = Ok (coerce_field (nmea_time_field 0 15 19))
  /\ fst (fst (get_time_lat_long (hd [] (Extractor.Demo.rows [Demo.gga_0015])) 2 3 5))
     = PTime (mk_time 15 (19 / 10) (19 mod 10) 0).
Proof.
  assert (E : (hd [] (Extractor.Demo.rows [Demo.gga_0015])).[2] = Ok (coerce_field (nmea_time_field 0 15 19)))
    by (vm_compute; reflexivity).
  split; [lia|]. split; [lia|]. split; [exact E|].
  apply (nmea_time_hour0_misread _ 2 3 5 15 19); [lia | lia | exact E].
Defined.
