(* ===== verification/Profile.v ===== *)
(** * The sound-speed profile ([Profile], osplib.py 350-466)

    [read_simple_svp] reads a two-column depth/speed file;
    [calculate_harmonic_mean] accumulates, layer by layer, the one-way
    travel time through layers of constant sound-speed gradient and
    returns the harmonic-mean sound speed down to each sample;
    [correct_soundspeed] re-scales one raw depth with the harmonic mean
    interpolated at that depth; [correct_soundings] applies it to every
    sounding row and appends the corrected fields.

    [np.log] is given by the interface [Ln] (a logarithm on positive
    rationals: zero at 1, the sign of its argument's distance to 1); the
    theorems hold for every instance.  [np.interp] with two points is
    [interp2], numpy's [arr_interp] for [len(xp) = 2]. *)

From S2P Require Import Prelude PyVal Reader.

Local Open Scope Q_scope.

(** ** The logarithm interface *)

Class Ln := {
  qln : Q -> Q;
  qln_proper : forall x y, x == y -> qln x == qln y;
  qln_one : qln 1 == 0;
  qln_pos : forall x, 1 < x -> 0 < qln x;
  qln_neg : forall x, 0 < x -> x < 1 -> qln x < 0
}.

(** ** Reading a profile (lines 355-374) *)

(** [depth = item[0]; speed = item[1]] sit outside the [try], the two
    [float()] calls and the appends inside it. *)
Fixpoint read_simple_svp (rows : list srow) : res (list Q * list Q) :=
  match rows with
  | [] => Ok ([], [])
  | item :: rest =>
      d <- item.[0] ;;
      s <- item.[1] ;;
      '(ds, ss) <- read_simple_svp rest ;;
      match s_float d, s_float s with
      | Ok dq, Ok sq => Ok (dq :: ds, sq :: ss)
      | _, _ => Ok (ds, ss)
      end
  end.

Section HarmonicMean.
Context `{L : Ln}.

(** The loop of [calculate_harmonic_mean] (lines 389-403): the last
    sample, the running travel time and depth sums, and the list built
    so far; [speeds_list[count]] raises [IndexError] when the speeds
    run out before the depths. *)
Fixpoint hm_loop (depths speeds : list Q) (last_depth last_speed time_sum dd_sum : Q)
    (acc : list Q) : res (list Q) :=
  match depths with
  | [] => Ok acc
  | d :: ds =>
      match speeds with
      | [] => Err IndexError
      | s :: ss =>
          let delta_speed := s - last_speed in
          let delta_depth := d - last_depth in
          g <- qdiv delta_speed delta_depth ;;
          inv <- qdiv 1 g ;;
          ratio <- qdiv s last_speed ;;
          let time := inv * qln ratio in
          let time_sum' := time_sum + time in
          let dd_sum' := dd_sum + delta_depth in
          if Qeq_bool time_sum' 0 then Err NonFinite
          else hm_loop ds ss d s time_sum' dd_sum' (acc ++ [dd_sum' / time_sum'])
      end
  end.

(** [calculate_harmonic_mean()]: the surface speed is
    [round(speeds_list[0], 1)] at depth 0. *)
Definition calculate_harmonic_mean (depths speeds : list Q) : res (list Q) :=
  s0 <- speeds.[0] ;;
  hm_loop depths speeds 0 (py_round 1 s0) 0 0 [].

End HarmonicMean.

(** ** Correction of one depth (lines 442-466) *)

(** [np.interp(x, [x1, x2], [y1, y2])] *)
Definition interp2 (x x1 x2 y1 y2 : Q) : Q :=
  if Qltb x2 x then y2
  else if Qltb x x1 then y1
  else if Qeq_bool x x2 then y2
  else if Qeq_bool x x1 then y1
  else (y2 - y1) / (x2 - x1) * (x - x1) + y1.

(** [depths_list.index(item)]: the first position holding a value equal
    to [item]. *)
Fixpoint list_index (x : Q) (l : list Q) (i : nat) : option nat :=
  match l with
  | [] => None
  | y :: l' => if Qeq_bool y x then Some i else list_index x l' (S i)
  end.

(** The [for item in depths_list: if original_depth < item: ... break]
    scan: the first profile depth greater than the sounding's. *)
Fixpoint first_above (x : Q) (l : list Q) : option Q :=
  match l with
  | [] => None
  | y :: l' => if Qltb x y then Some y else first_above x l'
  end.

(** [correct_soundspeed(original_depth, original_soundspeed)]: the new
    depth and the new sound speed.  With an empty profile [interpolate]
    is never bound. *)
Definition correct_soundspeed (depths hms : list Q) (od os : pyval) : res (Q * Q) :=
  d <- as_num od ;;
  s <- as_num os ;;
  tt <- qdiv (num_q d) (num_q s) ;;
  match first_above (num_q d) depths with
  | Some item =>
      i <- (match list_index item depths 0 with Some i => Ok i | None => Err ValueError end) ;;
      let next := Z.of_nat i in
      let prev := (Z.of_nat i - 1)%Z in
      x1 <- depths.[prev] ;; x2 <- depths.[next] ;;
      y1 <- hms.[prev] ;; y2 <- hms.[next] ;;
      let v := interp2 (num_q d) x1 x2 y1 y2 in
      Ok (v * tt, v)
  | None =>
      match depths with
      | [] => Err UnboundLocalError
      | _ => v <- hms.[-1] ;; Ok (v * tt, v)
      end
  end.

(** The body of the loop of [correct_soundings] (lines 418-437): the row
    with [round(n_depth, 3)], [round(row[-3] + diff, 3)] (the bottom
    height, [row[-3]] after the first append) and [round(n_speed, 3)]
    appended. *)
Definition correct_row (depths hms : list Q) (r : row) : res row :=
  od <- r.[-3] ;;
  os <- r.[-1] ;;
  '(nd, ns) <- correct_soundspeed depths hms od os ;;
  o <- as_num od ;;
  let diff := nd - num_q o in
  let r1 := r ++ [PFloat (py_round3 nd)] in
  b <- r1.[-3] ;;
  bd <- py_add b (PFloat diff) ;;
  bd3 <- py_round3v bd ;;
  let r3 := r1 ++ [bd3; PFloat (py_round3 ns)] in
  _ <- r3.[1] ;;
  Ok r3.

(** [correct_soundings(soundings)]: no [try], so the first raising row
    ends the call. *)
Fixpoint correct_soundings (depths hms : list Q) (rows : list row) : res (list row) :=
  match rows with
  | [] => Ok []
  | r :: rs => r' <- correct_row depths hms r ;; rs' <- correct_soundings depths hms rs ;; Ok (r' :: rs')
  end.

(** ** A logarithm for concrete runs: [2 (x - 1) / (x + 1)] *)

Definition pade_ln (x : Q) : Q := 2 * (x - 1) / (x + 1).

#[export] Instance pade_Ln : Ln.
Proof.
  refine {| qln := pade_ln |}; unfold pade_ln.
  - intros x y H. now rewrite H.
  - reflexivity.
  - intros x H. apply Qlt_shift_div_l; lra.
  - intros x H0 H1. apply Qlt_shift_div_r; lra.
Defined.

(** ** Theorems on the harmonic mean *)

Section HarmonicTheorems.
Context `{L : Ln}.

(** The closed form: the harmonic mean down to sample [k] is the depth
    of sample [k] over the sum of the layer travel times
    [t_i = (d_i - d_(i-1)) ln(s_i / s_(i-1)) / (s_i - s_(i-1))]. *)
Fixpoint hm_closed (ld ls T : Q) (ds ss : list Q) : list Q :=
  match ds, ss with
  | d :: ds', s :: ss' =>
      let t := (d - ld) * qln (s / ls) / (s - ls) in
      d / (T + t) :: hm_closed d s (T + t) ds' ss'
  | _, _ => []
  end.

Lemma hm_loop_closed (ds ss : list Q) (ld ls T T' D : Q) (acc out : list Q) :
  D == ld -> T == T' -> hm_loop ds ss ld ls T D acc = Ok out ->
  exists rest, out = acc ++ rest /\ Forall2 Qeq rest (hm_closed ld ls T' ds ss).
Proof.
  revert ss ld ls T T' D acc. induction ds as [|d ds IH]; intros ss ld ls T T' D acc HD HT H.
  - simpl in H. injection H as <-. exists []. rewrite app_nil_r. split; constructor.
  - destruct ss as [|s ss]; simpl in H; [discriminate|].
    destruct (qdiv (s - ls) (d - ld)) as [g|] eqn:Eg; [|discriminate]. simpl in H.
    destruct (qdiv 1 g) as [inv|] eqn:Ei; [|discriminate]. simpl in H.
    destruct (qdiv s ls) as [ratio|] eqn:Er; [|discriminate]. simpl in H.
    apply qdiv_ok_inv in Eg as [Hdd ->]. apply qdiv_ok_inv in Ei as [Hg ->].
    apply qdiv_ok_inv in Er as [Hls ->].
    destruct (Qeq_bool _ 0) eqn:Et; [discriminate|]. apply Qeq_bool_neq in Et.
    assert (Hds : ~ s - ls == 0).
    { intros Z. apply Hg. rewrite Z. field. exact Hdd. }
    assert (HT' : T + 1 / ((s - ls) / (d - ld)) * qln (s / ls)
                  == T' + (d - ld) * qln (s / ls) / (s - ls)).
    { rewrite HT. field. auto. }
    assert (HD' : D + (d - ld) == d) by (rewrite HD; ring).
    destruct (IH _ _ _ _ _ _ _ HD' HT' H) as (rest & -> & Hr).
    eexists. rewrite <- app_assoc. split; [reflexivity|]. simpl. constructor; [|exact Hr].
    rewrite HD', HT'. reflexivity.
Qed.

(** C6. Refinement: when [calculate_harmonic_mean] returns, its list is,
    element by element, the closed form [d_k / (t_0 + ... + t_k)] from
    the surface (depth 0, speed [round(speeds[0], 1)]). *)
Theorem harmonic_mean_closed_form (depths speeds hms : list Q) (s0 : Q) :
  calculate_harmonic_mean depths speeds = Ok hms -> speeds.[0] = Ok s0 ->
  Forall2 Qeq hms (hm_closed 0 (py_round 1 s0) 0 depths speeds).
Proof.
  unfold calculate_harmonic_mean. intros H Hs. rewrite Hs in H. simpl in H.
  destruct (hm_loop_closed _ _ _ _ _ _ _ _ _ ltac:(reflexivity) ltac:(reflexivity) H)
    as (rest & -> & Hr).
  exact Hr.
Qed.

(** C7. A profile whose surface speed is already rounded to 0.1 m/s
    (in particular a constant-speed profile) has a zero gradient in its
    first layer, and [calculate_harmonic_mean] raises
    [ZeroDivisionError] at [1/g] instead of guarding the layer. *)
Theorem harmonic_mean_flat_surface_raises (d s : Q) (ds ss : list Q) :
  py_round 1 s == s -> calculate_harmonic_mean (d :: ds) (s :: ss) = Err ZeroDivisionError.
Proof.
  intros Hr. unfold calculate_harmonic_mean. simpl.
  destruct (qdiv (s - py_round 1 s) (d - 0)) as [g|e] eqn:E; simpl.
  - apply qdiv_ok_inv in E as [_ ->]. rewrite qdiv_zero; [reflexivity|].
    rewrite Hr. unfold Qdiv. ring.
  - now apply qdiv_err in E as ->.
Qed.



End HarmonicTheorems.

(** ** Theorems on the correction *)

Lemma interp2_between (x x1 x2 y1 y2 : Q) :
  x1 <= x -> x < x2 -> interp2 x x1 x2 y1 y2 == (y2 - y1) / (x2 - x1) * (x - x1) + y1.
Proof.
  intros H1 H2. unfold interp2.
  rewrite (proj2 (Qltb_false x2 x) (Qlt_le_weak _ _ H2)), (proj2 (Qltb_false x x1) H1).
  destruct (Qeq_bool x x2) eqn:E2; [apply Qeq_bool_iff in E2; rewrite E2 in H2; now apply Qlt_irrefl in H2|].
  destruct (Qeq_bool x x1) eqn:E1; [|reflexivity].
  apply Qeq_bool_iff in E1. rewrite E1. ring.
Qed.

Lemma interp2_const (x x1 x2 y1 y2 c : Q) :
  y1 == c -> y2 == c -> interp2 x x1 x2 y1 y2 == c.
Proof.
  intros H1 H2. unfold interp2. if_split; try assumption.
  rewrite H1, H2. unfold Qdiv. ring.
Qed.

Lemma first_above_app (x z : Q) (pre post : list Q) :
  (forall y, In y pre -> y <= x) -> x < z -> first_above x (pre ++ z :: post) = Some z.
Proof.
  intros Hp Hz. induction pre as [|y pre IH]; simpl.
  - now rewrite (proj2 (Qltb_iff x z) Hz).
  - rewrite (proj2 (Qltb_false x y) (Hp y (or_introl eq_refl))).
    apply IH. intros y' Hy'. apply Hp. now right.
Qed.

Lemma first_above_none (x : Q) (l : list Q) :
  (forall y, In y l -> y <= x) -> first_above x l = None.
Proof.
  intros Hl. induction l as [|y l IH]; simpl; [reflexivity|].
  rewrite (proj2 (Qltb_false x y) (Hl y (or_introl eq_refl))).
  apply IH. intros y' Hy'. apply Hl. now right.
Qed.

Lemma first_above_in (x z : Q) (l : list Q) : first_above x l = Some z -> In z l.
Proof.
  induction l as [|y l IH]; simpl; [discriminate|].
  destruct (Qltb x y); [intros H; injection H as <-; now left | intros H; right; auto].
Qed.

Lemma list_index_app (z : Q) (pre post : list Q) (i : nat) :
  (forall y, In y pre -> ~ y == z) -> list_index z (pre ++ z :: post) i = Some (i + length pre)%nat.
Proof.
  revert i. induction pre as [|y pre IH]; intros i Hp; simpl.
  - replace (Qeq_bool z z) with true by (symmetry; apply Qeq_bool_iff; reflexivity). f_equal; lia.
  - destruct (Qeq_bool y z) eqn:E; [exfalso; apply (Hp y (or_introl eq_refl)); now apply Qeq_bool_iff|].
    rewrite IH; [f_equal; lia|]. intros y' Hy'. apply Hp. now right.
Qed.

Lemma list_index_in (z : Q) (l : list Q) (i : nat) :
  In z l -> exists j, list_index z l i = Some j /\ (i <= j < i + length l)%nat.
Proof.
  revert i. induction l as [|y l IH]; intros i Hin; simpl; [destruct Hin|].
  destruct (Qeq_bool y z) eqn:E; [exists i; split; [reflexivity | lia]|].
  destruct Hin as [<- | Hin].
  - replace (Qeq_bool y y) with true in E by (symmetry; apply Qeq_bool_iff; reflexivity). discriminate.
  - destruct (IH (S i) Hin) as (j & Hj & Hb). exists j. split; [assumption | lia].
Qed.

Section Correction.
Variables (depths hms : list Q).

(** C8. Interpolation: a raw depth [d] with [x1 <= d < x2] for
    consecutive profile depths [x1, x2], all earlier depths at most
    [d], is corrected with the harmonic mean interpolated linearly
    between [x1] and [x2], times the travel time [d / s]. *)
Theorem correct_soundspeed_interior (pre post hpre hpost : list Q) (x1 x2 y1 y2 d s : Q) :
  (forall y, In y (pre ++ [x1]) -> y <= d) -> d < x2 ->
  length hpre = length pre -> ~ s == 0 ->
  correct_soundspeed (pre ++ x1 :: x2 :: post) (hpre ++ y1 :: y2 :: hpost) (PFloat d) (PFloat s)
    = Ok (interp2 d x1 x2 y1 y2 * (d / s), interp2 d x1 x2 y1 y2)
  /\ interp2 d x1 x2 y1 y2 == (y2 - y1) / (x2 - x1) * (d - x1) + y1.
Proof.
  intros Hle Hd Hlen Hs. split.
  - unfold correct_soundspeed. cbn [res_bind as_num num_q]. rewrite qdiv_ok by exact Hs.
    cbn [res_bind].
    replace (pre ++ x1 :: x2 :: post) with ((pre ++ [x1]) ++ x2 :: post)
      by (rewrite <- app_assoc; reflexivity).
    replace (hpre ++ y1 :: y2 :: hpost) with ((hpre ++ [y1]) ++ y2 :: hpost)
      by (rewrite <- app_assoc; reflexivity).
    assert (HL : length (hpre ++ [y1]) = length (pre ++ [x1])) by (rewrite !length_app; simpl; lia).
    rewrite first_above_app by assumption. cbn [res_bind].
    rewrite list_index_app.
    2: { intros y Hy E. apply (Qlt_irrefl d). apply Qlt_le_trans with x2; [exact Hd|].
         rewrite <- E. now apply Hle. }
    cbn [res_bind]. rewrite Nat.add_0_l.
    rewrite py_get_prev, py_get_at, <- HL, py_get_prev, py_get_at. reflexivity.
  - apply interp2_between; [apply Hle; apply in_or_app; right; now left | exact Hd].
Qed.
End Correction.

Lemma last_in_py {A} (l : list A) (d : A) : l <> [] -> l.[-1] = Ok (last l d).
Proof.
  intros Hl. destruct (@exists_last _ l Hl) as (l' & v & ->).
  rewrite py_get_last, last_last. reflexivity.
Qed.

(** C10. Below the profile: a raw depth at or below every profile depth
    is corrected with the last harmonic mean, without extrapolation. *)
Theorem correct_soundspeed_deep (depths hms : list Q) (v d s : Q) :
  (forall y, In y depths -> y <= d) -> depths <> [] -> ~ s == 0 ->
  correct_soundspeed depths (hms ++ [v]) (PFloat d) (PFloat s) = Ok (v * (d / s), v).
Proof.
  intros Hle Hne Hs. unfold correct_soundspeed. cbn [res_bind as_num num_q].
  rewrite qdiv_ok by exact Hs. cbn [res_bind]. rewrite first_above_none by exact Hle.
  destruct depths; [contradiction|]. rewrite py_get_last. reflexivity.
Qed.

Lemma correct_soundspeed_deep_witness :
  correct_soundspeed [1; 10] [1500; 1490] (PFloat 25) (PFloat 1500)
  = Ok (1490 * (25 / 1500), 1490)%Q.
Proof.
  apply (correct_soundspeed_deep [1; 10] [1500]).
  - intros y [<- | [<- | []]]; discriminate.
  - discriminate.
  - discriminate.
Defined.

(** C9. Above the profile: a raw depth shallower than the first profile
    depth makes [prev_depth_index = -1], which Python reads as the last
    element, so the sounding is corrected with the deepest harmonic mean
    instead of the surface one. *)
Theorem correct_soundspeed_shallow_wraps (x0 : Q) (rest : list Q) (h0 : Q) (hrest : list Q) (d s : Q) :
  d < x0 -> d < last (x0 :: rest) x0 -> ~ s == 0 ->
  correct_soundspeed (x0 :: rest) (h0 :: hrest) (PFloat d) (PFloat s)
    = Ok (last (h0 :: hrest) h0 * (d / s), last (h0 :: hrest) h0).
Proof.
  intros H0 Hl Hs. unfold correct_soundspeed. cbn [res_bind as_num num_q].
  rewrite qdiv_ok by exact Hs. cbn [res_bind]. simpl first_above.
  rewrite (proj2 (Qltb_iff d x0) H0). cbn [res_bind].
  simpl list_index. replace (Qeq_bool x0 x0) with true by (symmetry; apply Qeq_bool_iff; reflexivity).
  cbn [res_bind]. change (Z.of_nat 0 - 1)%Z with (-1)%Z. change (Z.of_nat 0) with 0%Z.
  rewrite (last_in_py (x0 :: rest) x0), (last_in_py (h0 :: hrest) h0) by discriminate.
  rewrite !py_get_head. cbn [res_bind].
  unfold interp2. rewrite (proj2 (Qltb_false x0 d) (Qlt_le_weak _ _ H0)).
  rewrite (proj2 (Qltb_iff d _) Hl). reflexivity.
Qed.

Lemma correct_soundspeed_shallow_wraps_witness :
  correct_soundspeed [1; 10; 20] [1500; 1495; 1490] (PFloat (-11 # 2)) (PFloat 1500)
  = Ok (1490 * ((-11 # 2) / 1500), 1490)%Q.
Proof.
  apply (correct_soundspeed_shallow_wraps 1 [10; 20] 1500 [1495; 1490]); vm_compute;
    [reflexivity | reflexivity | discriminate].
Defined.

(** Flat profile: when every harmonic mean equals the sound speed the
    depth was measured with, the correction returns the same depth and
    speed. *)
Theorem correct_soundspeed_flat (depths hms : list Q) (d s : Q) :
  (forall y, In y hms -> y == s) -> length hms = length depths -> depths <> [] -> ~ s == 0 ->
  exists nd ns, correct_soundspeed depths hms (PFloat d) (PFloat s) = Ok (nd, ns)
    /\ nd == d /\ ns == s.
Proof.
  intros Hh Hlen Hne Hs. unfold correct_soundspeed. cbn [res_bind as_num num_q].
  rewrite qdiv_ok by exact Hs. cbn [res_bind].
  destruct (first_above d depths) as [item|] eqn:Ef.
  - apply first_above_in in Ef. destruct (list_index_in item depths 0 Ef) as (j & -> & Hj).
    cbn [res_bind].
    destruct (py_get_range depths (Z.of_nat j - 1)) as (a & -> & _); [lia|].
    destruct (py_get_range depths (Z.of_nat j)) as (b & -> & _); [lia|].
    destruct (py_get_range hms (Z.of_nat j - 1)) as (y1 & -> & H1); [lia|].
    destruct (py_get_range hms (Z.of_nat j)) as (y2 & -> & H2); [lia|].
    cbn [res_bind]. do 2 eexists. split; [reflexivity|].
    assert (E : interp2 d a b y1 y2 == s) by (apply interp2_const; auto).
    split; [rewrite E; field; exact Hs | exact E].
  - destruct depths as [|x depths]; [contradiction|].
    destruct (py_get_range hms (-1)) as (v & -> & Hv); [simpl in Hlen; lia|].
    cbn [res_bind]. do 2 eexists. split; [reflexivity|].
    rewrite (Hh v Hv). split; [field; exact Hs | reflexivity].
Qed.

Lemma correct_soundspeed_flat_witness :
  exists nd ns, correct_soundspeed [1; 10; 20] [1500; 1500; 1500] (PFloat 7) (PFloat 1500)
                = Ok (nd, ns) /\ nd == 7 /\ ns == 1500.
Proof.
  apply correct_soundspeed_flat.
  - intros y [<- | [<- | [<- | []]]]; reflexivity.
  - reflexivity.
  - discriminate.
  - discriminate.
Defined.

Lemma harmonic_mean_flat_surface_raises_witness :
  py_round 1 1500 == 1500
  /\ calculate_harmonic_mean (L := pade_Ln) [10; 20] [1500; 1500] = Err ZeroDivisionError.
Proof.
  split; [reflexivity|]. apply harmonic_mean_flat_surface_raises. reflexivity.
Defined.

Lemma harmonic_mean_closed_form_witness :
  exists hms, calculate_harmonic_mean (L := pade_Ln) [1; 10; 20] [1500.25; 1495; 1490] = Ok hms
    /\ Forall2 Qeq hms (hm_closed (L := pade_Ln) 0 (py_round 1 1500.25) 0 [1; 10; 20] [1500.25; 1495; 1490]).
Proof.
  destruct (calculate_harmonic_mean (L := pade_Ln) [1; 10; 20] [1500.25; 1495; 1490]) as [hms|e] eqn:E;
    [|vm_compute in E; discriminate].
  exists hms. split; [reflexivity|]. exact (harmonic_mean_closed_form _ _ _ _ E eq_refl).
Defined.

Lemma correct_soundspeed_interior_witness :
  correct_soundspeed [1; 10; 20] [1500; 1497; 1494] (PFloat 15) (PFloat 1500)
    = Ok (interp2 15 10 20 1497 1494 * (15 / 1500), interp2 15 10 20 1497 1494)
  /\ interp2 15 10 20 1497 1494 == (1494 - 1497) / (20 - 10) * (15 - 10) + 1497.
Proof.
  apply (correct_soundspeed_interior [1] [] [1500] []).
  - intros y Hy. simpl in Hy. destruct Hy as [<- | [<- | []]]; discriminate.
  - reflexivity.
  - reflexivity.
  - discriminate.
Defined.
