(* ===== verification/Plotting.v ===== *)
(** * The harmonic-mean plot ([Profile.plot_hmss], osplib.py 468-486)

    [plot_hmss] draws the observed profile and the harmonic means against
    depth, then sets the axes to the speed range widened by 0.05 m/s and
    the depth range widened by 0.5 m, depth increasing downwards.  The
    model keeps what the drawing depends on: the two series as
    [plt.plot] receives them (matplotlib raises [ValueError] when [x] and
    [y] differ in length), Python's [min] and [max] ([ValueError] on an
    empty list) and the window [plt.axis] is given.  Titles, labels, the
    grid and [plt.show] only draw.

    processor.py calls [plot_hmss] right after [read_simple_svp] and
    [calculate_harmonic_mean]; [Processor] models the call as a step
    without effect.  The theorems here show why that is sound: after a
    profile is read and its means computed, [plot_hmss] never raises, and
    on a profile sampled downwards every point of both curves lies inside
    the window, the harmonic means included: each lies between the
    slowest and the fastest speed of the layers above it, and the surface
    speed [round(speeds[0], 1)] is within the 0.05 m/s margin of
    [speeds[0]].  That second part needs two bounds of the logarithm,
    [1 - 1/x <= ln x <= x - 1], stated as the class [LnBounds] over
    [Profile.Ln]. *)

From Stdlib Require Import Sorting.Sorted.
From S2P Require Import Prelude PyVal Reader Profile.

Local Open Scope Q_scope.

(** ** Python's [min] and [max] on a list of floats *)

(** [min(l)]: the first element no later element is below. *)
Definition py_min_q (l : list Q) : res Q :=
  match l with
  | [] => Err ValueError
  | x :: r => Ok (fold_left (fun m y => if Qltb y m then y else m) r x)
  end.

(** [max(l)]: the first element no later element is above. *)
Definition py_max_q (l : list Q) : res Q :=
  match l with
  | [] => Err ValueError
  | x :: r => Ok (fold_left (fun m y => if Qltb m y then y else m) r x)
  end.

(** ** The drawing *)

(** [plt.plot(x, y)]: the points drawn, [ValueError] when the lengths
    differ ("x and y must have same first dimension"). *)
Definition plt_plot (x y : list Q) : res (list (Q * Q)) :=
  if (length x =? length y)%nat then Ok (combine x y) else Err ValueError.

(** [plt.axis([xmin, xmax, ymin, ymax])]. *)
Record axis_window := mk_axis {
  x_min : Q;
  x_max : Q;
  y_bottom : Q;
  y_top : Q
}.

(** What [plot_hmss] leaves on the figure. *)
Record hmss_plot := mk_hmss_plot {
  observed : list (Q * Q);
  harmonic : list (Q * Q);
  window : axis_window
}.

(** [plot_hmss()] on [self.depths_list], [self.speeds_list] and
    [self.harmonic_mean_list], in the order of its statements and of the
    arguments of [plt.axis]. *)
Definition plot_hmss (depths speeds hms : list Q) : res hmss_plot :=
  obs <- plt_plot speeds depths ;;
  hm <- plt_plot hms depths ;;
  smin <- py_min_q speeds ;;
  smax <- py_max_q speeds ;;
  dmax <- py_max_q depths ;;
  dmin <- py_min_q depths ;;
  Ok (mk_hmss_plot obs hm (mk_axis (smin - (5 # 100)) (smax + (5 # 100)) (dmax + (1 # 2)) (dmin - (1 # 2)))).

(** A point is visible when it lies inside the window; the depth axis
    is inverted ([ymin] is the deeper bound). *)
Definition visible (w : axis_window) (p : Q * Q) : Prop :=
  x_min w <= fst p <= x_max w /\ y_top w <= snd p <= y_bottom w.

(** ** Bounds of the logarithm *)

Lemma Qsq_nonneg (y : Q) : 0 <= y * y.
Proof. unfold Qle, Qmult. simpl. nia. Qed.

Class LnBounds `{L : Ln} := {
  qln_lower : forall x, 0 < x -> 1 - 1 / x <= qln x;
  qln_upper : forall x, 0 < x -> qln x <= x - 1
}.

(** The instance used for concrete runs satisfies them. *)
#[export] Instance pade_LnBounds : @LnBounds pade_Ln.
Proof.
  split; simpl; unfold pade_ln; intros x Hx.
  - assert (E : 2 * (x - 1) / (x + 1) - (1 - 1 / x) == (x - 1) * (x - 1) / (x * (x + 1)))
      by (field; split; lra).
    assert (0 <= (x - 1) * (x - 1) / (x * (x + 1))) by (apply Qle_shift_div_l; [try apply Qmult_lt_0_compat; lra | rewrite Qmult_0_l; apply Qsq_nonneg]).
    lra.
  - assert (E : x - 1 - 2 * (x - 1) / (x + 1) == (x - 1) * (x - 1) / (x + 1)) by (field; lra).
    assert (0 <= (x - 1) * (x - 1) / (x + 1)) by (apply Qle_shift_div_l; [try apply Qmult_lt_0_compat; lra | rewrite Qmult_0_l; apply Qsq_nonneg]).
    lra.
Qed.

(** ** [plot_hmss] after [read_simple_svp] and [calculate_harmonic_mean] *)

Lemma read_simple_svp_length (rows : list srow) (ds ss : list Q) :
  read_simple_svp rows = Ok (ds, ss) -> length ds = length ss.
Proof.
  revert ds ss. induction rows as [|item rest IH]; intros ds ss H; simpl in H.
  - injection H as <- <-. reflexivity.
  - destruct (item.[0]) as [d|]; simpl in H; [|discriminate].
    destruct (item.[1]) as [s|]; simpl in H; [|discriminate].
    destruct (read_simple_svp rest) as [[ds' ss']|] eqn:E; simpl in H; [|discriminate].
    specialize (IH _ _ eq_refl).
    destruct (s_float d), (s_float s); injection H as <- <-; simpl; auto.
Qed.

Section Lengths.
Context `{L : Ln}.

Lemma hm_loop_length (ds ss : list Q) (ld ls T D : Q) (acc out : list Q) :
  hm_loop ds ss ld ls T D acc = Ok out -> length out = (length acc + length ds)%nat.
Proof.
  revert ss ld ls T D acc. induction ds as [|d ds IH]; intros ss ld ls T D acc H; simpl in H.
  - injection H as <-. simpl. lia.
  - destruct ss as [|s ss]; [discriminate|].
    destruct (qdiv (s - ls) (d - ld)) as [g|]; simpl in H; [|discriminate].
    destruct (qdiv 1 g); simpl in H; [|discriminate].
    destruct (qdiv s ls); simpl in H; [|discriminate].
    destruct (Qeq_bool _ 0); [discriminate|].
    rewrite (IH _ _ _ _ _ _ H), length_app. simpl. lia.
Qed.

Lemma calculate_harmonic_mean_shape (ds ss hms : list Q) :
  calculate_harmonic_mean ds ss = Ok hms -> ss <> [] /\ length hms = length ds.
Proof.
  unfold calculate_harmonic_mean. destruct ss as [|s0 ss]; [discriminate|]. simpl.
  intros H. split; [discriminate|]. apply hm_loop_length in H. exact H.
Qed.
End Lengths.

Lemma py_min_q_ok (l : list Q) : l <> [] -> exists m, py_min_q l = Ok m.
Proof. destruct l; [contradiction|]. eexists. reflexivity. Qed.

Lemma py_max_q_ok (l : list Q) : l <> [] -> exists m, py_max_q l = Ok m.
Proof. destruct l; [contradiction|]. eexists. reflexivity. Qed.

Lemma plt_plot_ok (x y : list Q) : length x = length y -> plt_plot x y = Ok (combine x y).
Proof. intros H. unfold plt_plot. rewrite H, Nat.eqb_refl. reflexivity. Qed.

(** processor.py draws the profile right after reading it and
    computing its harmonic means: whenever both return, [plot_hmss]
    returns too, drawing the observed speeds and the harmonic means
    against the depths read.  Neither [min]/[max] of an empty list nor a
    length mismatch in [plt.plot] can occur there. *)
Theorem plot_hmss_after_profile `{L : Ln} (rows : list srow) (ds ss hms : list Q) :
  read_simple_svp rows = Ok (ds, ss) -> calculate_harmonic_mean ds ss = Ok hms ->
  exists w, plot_hmss ds ss hms = Ok (mk_hmss_plot (combine ss ds) (combine hms ds) w).
Proof.
  intros Hr Hc. pose proof (read_simple_svp_length _ _ _ Hr) as Lr.
  destruct (calculate_harmonic_mean_shape _ _ _ Hc) as [Hne Lh].
  assert (Hd : ds <> []) by (intros ->; destruct ss; [contradiction | discriminate]).
  destruct (py_min_q_ok _ Hne) as [smin Es1]. destruct (py_max_q_ok _ Hne) as [smax Es2].
  destruct (py_min_q_ok _ Hd) as [dmin Ed1]. destruct (py_max_q_ok _ Hd) as [dmax Ed2].
  unfold plot_hmss. rewrite !plt_plot_ok by congruence. simpl.
  rewrite Es1, Es2, Ed1, Ed2. eexists. reflexivity.
Qed.

(** ** The harmonic means lie inside the window *)

Lemma round_half_even_near (x : Q) :
  x - (1 # 2) <= inject_Z (round_half_even x) <= x + (1 # 2).
Proof.
  pose proof (Qfloor_le x) as F1. pose proof (Qlt_floor x) as F2.
  rewrite inject_Z_plus in F2. change (inject_Z 1) with 1 in F2.
  unfold round_half_even. cbv zeta.
  destruct (Qltb (x - inject_Z (Qfloor x)) (1 # 2)) eqn:E1;
    [apply Qltb_iff in E1; lra | apply Qltb_false in E1].
  destruct (Qltb (1 # 2) (x - inject_Z (Qfloor x))) eqn:E2;
    [rewrite inject_Z_plus; change (inject_Z 1) with 1; apply Qltb_iff in E2; lra
    | apply Qltb_false in E2].
  destruct (Z.even _); [|rewrite inject_Z_plus; change (inject_Z 1) with 1]; lra.
Qed.

(** [round(s, 1)] moves [s] by at most 0.05. *)
Lemma py_round1_near (s : Q) : s - (5 # 100) <= py_round 1 s <= s + (5 # 100).
Proof.
  unfold py_round. change (inject_Z (10 ^ 1)) with 10.
  pose proof (round_half_even_near (s * 10)) as [H1 H2]. split.
  - apply Qle_shift_div_l; [reflexivity|]. lra.
  - apply Qle_shift_div_r; [reflexivity|]. lra.
Qed.

Ltac Qnz := let E := fresh in intro E; lra.

Lemma div_le_mono (x y e : Q) : 0 < e -> x <= y -> x / e <= y / e.
Proof. intros He H. apply Qmult_le_compat_r; [exact H|]. apply Qlt_le_weak, Qinv_lt_0_compat, He. Qed.

Lemma div_le_anti (x y e : Q) : e < 0 -> x <= y -> y / e <= x / e.
Proof.
  intros He H. assert (Ex : x / e == - (x / - e)) by (field; Qnz).
  assert (Ey : y / e == - (y / - e)) by (field; Qnz).
  rewrite Ex, Ey. pose proof (div_le_mono x y (- e) ltac:(lra) H). lra.
Qed.

(** Two speeds [1/m1 <= u <= 1/m2] inside [[lo, hi]] keep a layer of
    thickness [D] and slowness [u] inside the window. *)
Lemma slowness_bounds (lo hi m1 m2 u D : Q) :
  0 < lo -> lo <= m1 <= hi -> lo <= m2 <= hi -> 1 / m1 <= u <= 1 / m2 -> 0 < D ->
  lo * (D * u) <= D <= hi * (D * u).
Proof.
  intros Hlo H1 H2 [Hu1 Hu2] HD.
  assert (A : lo * u <= 1).
  { apply Qle_trans with (lo * (1 / m2)); [apply Qmult_le_l; lra|].
    assert (E : lo * (1 / m2) == lo / m2) by (field; Qnz). rewrite E.
    apply Qle_shift_div_r; lra. }
  assert (B : 1 <= hi * u).
  { apply Qle_trans with (hi * (1 / m1)); [|apply Qmult_le_l; lra].
    assert (E : hi * (1 / m1) == hi / m1) by (field; Qnz). rewrite E.
    apply Qle_shift_div_l; lra. }
  pose proof (Qmult_le_0_compat D (1 - lo * u) ltac:(lra) ltac:(lra)).
  pose proof (Qmult_le_0_compat D (hi * u - 1) ltac:(lra) ltac:(lra)).
  split; lra.
Qed.

Section Bounds.
Context `{LB : LnBounds}.

Lemma ln_ratio_bounds (a b : Q) : 0 < a -> 0 < b -> (b - a) / b <= qln (b / a) <= (b - a) / a.
Proof.
  intros Ha Hb. assert (P : 0 < b / a) by (apply Qlt_shift_div_l; lra).
  pose proof (qln_lower _ P) as L1. pose proof (qln_upper _ P) as U1.
  assert (E1 : 1 - 1 / (b / a) == (b - a) / b) by (field; split; Qnz).
  assert (E2 : b / a - 1 == (b - a) / a) by (field; Qnz).
  rewrite E1 in L1. rewrite E2 in U1. split; assumption.
Qed.

(** One layer of [calculate_harmonic_mean]: its travel time [t] satisfies
    [lo * t <= thickness <= hi * t] when both of its speeds are in
    [[lo, hi]]. *)
Lemma layer_time_bounds (lo hi ls s ld d : Q) :
  0 < lo -> lo <= ls <= hi -> lo <= s <= hi -> ld < d -> ~ s - ls == 0 ->
  lo * (1 / ((s - ls) / (d - ld)) * qln (s / ls)) <= d - ld
  /\ d - ld <= hi * (1 / ((s - ls) / (d - ld)) * qln (s / ls)).
Proof.
  intros Hlo Hls Hs Hd Hne. destruct (ln_ratio_bounds ls s) as [Q1 Q2]; try lra.
  set (q := qln (s / ls)) in *.
  assert (Et : 1 / ((s - ls) / (d - ld)) * q == (d - ld) * (q / (s - ls))) by (field; split; [exact Hne | Qnz]).
  rewrite Et.
  assert (Es : (s - ls) / s / (s - ls) == 1 / s) by (field; split; [Qnz | exact Hne]).
  assert (El : (s - ls) / ls / (s - ls) == 1 / ls) by (field; split; [Qnz | exact Hne]).
  destruct (Qlt_le_dec 0 (s - ls)).
  - apply (slowness_bounds lo hi s ls); try lra. split.
    + rewrite <- Es. apply div_le_mono; assumption.
    + rewrite <- El. apply div_le_mono; assumption.
  - assert (N : s - ls < 0) by (apply Qle_lteq in q0 as [?|E]; [assumption | contradiction]).
    apply (slowness_bounds lo hi ls s); try lra. split.
    + rewrite <- El. apply div_le_anti; assumption.
    + rewrite <- Es. apply div_le_anti; assumption.
Qed.

Lemma mean_in_range (lo hi D T : Q) :
  0 < lo -> lo <= hi -> 0 < D -> lo * T <= D <= hi * T -> lo <= D / T <= hi.
Proof.
  intros Hlo Hh HD [H1 H2].
  assert (HT : 0 < T).
  { destruct (Qlt_le_dec 0 T) as [|HT]; [assumption|].
    pose proof (Qmult_le_0_compat hi (- T) ltac:(lra) ltac:(lra)). lra. }
  split; [apply Qle_shift_div_l | apply Qle_shift_div_r]; assumption.
Qed.

(** The invariant of the loop of [calculate_harmonic_mean]: with the
    depths strictly increasing and every speed in [[lo, hi]], the running
    sums keep [lo * time_sum <= depth_sum <= hi * time_sum], so every
    harmonic mean appended is in [[lo, hi]]. *)
Lemma hm_loop_bounds (lo hi : Q) (ds ss : list Q) (ld ls T D : Q) (acc out : list Q) :
  hm_loop ds ss ld ls T D acc = Ok out ->
  0 < lo -> lo <= ls <= hi -> Forall (fun s => lo <= s <= hi) ss -> Sorted Qlt (ld :: ds) ->
  0 <= D -> lo * T <= D <= hi * T -> Forall (fun h => lo <= h <= hi) acc ->
  Forall (fun h => lo <= h <= hi) out.
Proof.
  revert ss ld ls T D acc. induction ds as [|d ds IH]; intros ss ld ls T D acc H Hlo Hls Hss Hsort HD HT Hacc;
    simpl in H; [injection H as <-; exact Hacc|].
  destruct ss as [|s ss]; [discriminate|].
  destruct (qdiv (s - ls) (d - ld)) as [g|] eqn:Eg; simpl in H; [|discriminate].
  destruct (qdiv 1 g) as [inv|] eqn:Ei; simpl in H; [|discriminate].
  destruct (qdiv s ls) as [ratio|] eqn:Er; simpl in H; [|discriminate].
  apply qdiv_ok_inv in Eg as [Hdd ->]. apply qdiv_ok_inv in Ei as [Hg ->].
  apply qdiv_ok_inv in Er as [_ ->].
  destruct (Qeq_bool _ 0); [discriminate|].
  inversion Hsort as [|? ? Hsort' Hrel]; subst. inversion Hrel as [|? ? Hlt]; subst.
  inversion Hss as [|? ? Hs Hss']; subst.
  assert (Hne : ~ s - ls == 0) by (intros E; apply Hg; rewrite E; field; exact Hdd).
  destruct (layer_time_bounds lo hi ls s ld d) as [L1 L2]; try assumption.
  eapply IH; [exact H | exact Hlo | exact Hs | exact Hss' | exact Hsort' | lra | split; lra |].
  apply Forall_app. split; [exact Hacc|]. constructor; [|constructor].
  apply mean_in_range; lra.
Qed.
End Bounds.

Lemma fold_min_le (r : list Q) (x : Q) :
  let m := fold_left (fun m y => if Qltb y m then y else m) r x in m <= x /\ Forall (fun y => m <= y) r.
Proof.
  revert x. induction r as [|y r IH]; intros x; simpl; [split; [apply Qle_refl | constructor]|].
  destruct (Qltb y x) eqn:E;
    [destruct (IH y) as [H1 H2]; apply Qltb_iff in E | destruct (IH x) as [H1 H2]; apply Qltb_false in E];
    (split; [lra | constructor; [lra | exact H2]]).
Qed.

Lemma fold_max_ge (r : list Q) (x : Q) :
  let m := fold_left (fun m y => if Qltb m y then y else m) r x in x <= m /\ Forall (fun y => y <= m) r.
Proof.
  revert x. induction r as [|y r IH]; intros x; simpl; [split; [apply Qle_refl | constructor]|].
  destruct (Qltb x y) eqn:E;
    [destruct (IH y) as [H1 H2]; apply Qltb_iff in E | destruct (IH x) as [H1 H2]; apply Qltb_false in E];
    (split; [lra | constructor; [lra | exact H2]]).
Qed.

Lemma py_min_q_in (l : list Q) (m : Q) : py_min_q l = Ok m -> In m l.
Proof.
  destruct l as [|x r]; [discriminate|]. intros H. injection H as <-.
  revert x. induction r as [|y r IH]; intros x; simpl; [left; reflexivity|].
  destruct (Qltb y x); [specialize (IH y) | specialize (IH x)]; simpl in IH; tauto.
Qed.

Lemma py_min_q_le (l : list Q) (m : Q) : py_min_q l = Ok m -> Forall (fun y => m <= y) l.
Proof.
  destruct l as [|x r]; [discriminate|]. intros H. injection H as <-.
  destruct (fold_min_le r x). constructor; assumption.
Qed.

Lemma py_max_q_ge (l : list Q) (m : Q) : py_max_q l = Ok m -> Forall (fun y => y <= m) l.
Proof.
  destruct l as [|x r]; [discriminate|]. intros H. injection H as <-.
  destruct (fold_max_ge r x). constructor; assumption.
Qed.

Lemma Forall_combine {A B} (P : A -> Prop) (R : B -> Prop) (xs : list A) (ys : list B) :
  Forall P xs -> Forall R ys -> Forall (fun p => P (fst p) /\ R (snd p)) (combine xs ys).
Proof.
  revert ys. induction xs as [|x xs IH]; intros [|y ys] Hx Hy; simpl; try constructor.
  - inversion Hx; inversion Hy; subst. split; assumption.
  - inversion Hx; inversion Hy; subst. apply IH; assumption.
Qed.

Lemma Forall_range (l : list Q) (a b : Q) :
  Forall (fun y => a <= y) l -> Forall (fun y => y <= b) l -> Forall (fun y => a <= y <= b) l.
Proof.
  intros H1 H2. induction l as [|x l IH]; [constructor|].
  inversion H1; inversion H2; subst. constructor; [split; assumption | auto].
Qed.

(** On a profile sampled downwards ([0 < d_0 < d_1 < ...]) with
    speeds above 0.05 m/s, everything [plot_hmss] draws is inside the
    window it sets: the observed samples, and every harmonic mean, which
    lies between the slowest and the fastest speed of the profile up to
    the rounding of the surface speed, within the 0.05 m/s margin. *)
Lemma plot_hmss_window `{LB : LnBounds} (ds ss hms : list Q) (p : hmss_plot) :
  calculate_harmonic_mean ds ss = Ok hms -> Sorted Qlt (0 :: ds) ->
  Forall (fun s => 5 # 100 < s) ss -> plot_hmss ds ss hms = Ok p ->
  Forall (visible (window p)) (observed p) /\ Forall (visible (window p)) (harmonic p).
Proof.
  intros Hc Hsort Hpos Hp. unfold plot_hmss, plt_plot in Hp.
  destruct (_ =? _)%nat; [|discriminate]. destruct (_ =? _)%nat; [|discriminate]. simpl in Hp.
  destruct (py_min_q ss) as [smin|] eqn:E1; [|discriminate]. destruct (py_max_q ss) as [smax|] eqn:E2; [|discriminate].
  destruct (py_max_q ds) as [dmax|] eqn:E3; [|discriminate]. destruct (py_min_q ds) as [dmin|] eqn:E4; [|discriminate].
  injection Hp as <-. simpl.
  apply py_max_q_ge in E2. apply py_max_q_ge in E3. apply py_min_q_le in E4.
  unfold visible. simpl.
  assert (Hd : Forall (fun y => dmin - (1 # 2) <= y <= dmax + (1 # 2)) ds).
  { apply Forall_range; [eapply Forall_impl; [|exact E4] | eapply Forall_impl; [|exact E3]]; intros ? ?; cbv beta in *; lra. }
  assert (Hmin : 5 # 100 < smin).
  { apply py_min_q_in in E1. rewrite Forall_forall in Hpos. apply Hpos, E1. }
  apply py_min_q_le in E1.
  assert (Hs : Forall (fun y => smin - (5 # 100) <= y <= smax + (5 # 100)) ss).
  { apply Forall_range; [eapply Forall_impl; [|exact E1] | eapply Forall_impl; [|exact E2]];
      intros ? ?; cbv beta in *; lra. }
  assert (Hh : Forall (fun y => smin - (5 # 100) <= y <= smax + (5 # 100)) hms).
  { unfold calculate_harmonic_mean in Hc. destruct ss as [|s0 ss']; [discriminate|]. simpl in Hc.
    inversion E1 as [|? ? M1 _]; inversion E2 as [|? ? M2 _]; inversion Hpos as [|? ? P0 _]; subst.
    pose proof (py_round1_near s0).
    eapply (hm_loop_bounds (smin - (5 # 100)) (smax + (5 # 100)));
      [exact Hc | lra | lra | exact Hs | exact Hsort | lra | lra | constructor]. }
  split; [refine (Forall_impl _ _ (Forall_combine _ _ _ _ Hs Hd))
         | refine (Forall_impl _ _ (Forall_combine _ _ _ _ Hh Hd))];
    intros [x y] [Hx Hy]; simpl in *; lra.
Qed.

(** C11. processor.py draws the profile right after reading it with
    [read_simple_svp] and computing its harmonic means: whenever both
    return on a profile sampled downwards ([0 < d_0 < d_1 < ...]) with
    speeds above 0.05 m/s, [plot_hmss] returns too (no [min] of an empty
    list, no length mismatch in [plt.plot]), drawing the observed speeds
    and the harmonic means against the depths, and every point of both
    curves lies inside the window [plt.axis] sets: each harmonic mean is
    between the slowest and the fastest speed of the profile up to the
    rounding of the surface speed, which the 0.05 m/s margin covers. *)
Theorem plot_hmss_visible `{LB : LnBounds} (rows : list srow) (ds ss hms : list Q) :
  read_simple_svp rows = Ok (ds, ss) -> calculate_harmonic_mean ds ss = Ok hms ->
  Sorted Qlt (0 :: ds) -> Forall (fun s => 5 # 100 < s) ss ->
  exists p, plot_hmss ds ss hms = Ok p /\ observed p = combine ss ds /\ harmonic p = combine hms ds
    /\ Forall (visible (window p)) (observed p) /\ Forall (visible (window p)) (harmonic p).
Proof.
  intros Hr Hc Hsort Hpos. destruct (plot_hmss_after_profile rows ds ss hms Hr Hc) as [w Hp].
  eexists. split; [exact Hp|]. split; [reflexivity|]. split; [reflexivity|].
  exact (plot_hmss_window ds ss hms _ Hc Hsort Hpos Hp).
Qed.

Module Demo.
Local Open Scope string_scope.

(** A profile file: 2 m at 1490.04 m/s, 5 m at 1480 m/s, 10 m at
    1485 m/s, after a header line [float()] rejects. *)
Definition svp : list srow :=
  [["depth"; "speed"]; ["2"; "1490.04"]; ["5"; "1480"]; ["10"; "1485"]].

Definition profile : list Q * list Q :=
  match read_simple_svp svp with Ok x => x | Err _ => ([], []) end.

Definition hms : list Q :=
  match calculate_harmonic_mean (fst profile) (snd profile) with Ok h => h | Err _ => [] end.
End Demo.

Lemma plot_hmss_visible_witness :
  read_simple_svp Demo.svp = Ok (fst Demo.profile, snd Demo.profile)
  /\ calculate_harmonic_mean (fst Demo.profile) (snd Demo.profile) = Ok Demo.hms
  /\ Sorted Qlt (0 :: fst Demo.profile) /\ Forall (fun s => 5 # 100 < s) (snd Demo.profile)
  /\ exists p, plot_hmss (fst Demo.profile) (snd Demo.profile) Demo.hms = Ok p
      /\ observed p = combine (snd Demo.profile) (fst Demo.profile)
      /\ harmonic p = combine Demo.hms (fst Demo.profile)
      /\ Forall (visible (window p)) (observed p) /\ Forall (visible (window p)) (harmonic p).
Proof.
  assert (E1 : read_simple_svp Demo.svp = Ok (fst Demo.profile, snd Demo.profile)) by (vm_compute; reflexivity).
  assert (E2 : calculate_harmonic_mean (fst Demo.profile) (snd Demo.profile) = Ok Demo.hms)
    by (vm_compute; reflexivity).
  assert (E3 : Sorted Qlt (0 :: fst Demo.profile)) by (vm_compute; repeat constructor).
  assert (E4 : Forall (fun s => 5 # 100 < s) (snd Demo.profile)) by (vm_compute; repeat constructor).
  split; [exact E1|]. split; [exact E2|]. split; [exact E3|]. split; [exact E4|].
  exact (plot_hmss_visible Demo.svp _ _ _ E1 E2 E3 E4).
Defined.
