(* ===== verification/Editor.v ===== *)
(** * The sounding editor ([Clean_Soundings], osplib.py 609-723)

    [Clean_Soundings(soundings)] collects the columns of the soundings
    ([pull_items]), then loops: it reads two extents (integers, or the
    words [min] and [max]), computes the least and greatest corrected
    depth of [new_depth[left:right]] ([zoom]) and plots them, and asks
    for [yes] (delete a range), [no], [save] ([save_data]) or [exit].
    For a deletion the code builds [delete_range = range(left, right + 2)],
    collects the positions [bad_pings] of the rows whose [row[1]] is in
    that range, and keeps [mod_soundings[0:bad_pings[0]]] followed by
    [mod_soundings[bad_pings[-1]:-1]] ([delete_soundings]).

    The editor's attributes are the record [editor]; [clean_iter] is one
    iteration of the loop in the [io] monad of [PyIO] and
    [clean_soundings] the constructor and its loop.  Of [plot_data] only
    the arithmetic that can raise is modelled.  Note that the extents
    index the list of depths by position, not by ping number. *)

From S2P Require Import Prelude PyVal Repr Reader PyIO.

Local Open Scope Z_scope.

(** [x == k] for an [int] [k]: true on an equal [int] or [float]. *)
Definition py_eq_int (v : pyval) (k : Z) : bool :=
  match v with
  | PInt z => z =? k
  | PFloat q => Qeq_bool q (inject_Z k)
  | _ => false
  end.

(** [list(range(a, b, 1))] *)
Definition py_range (a b : Z) : list Z := map (fun i => a + Z.of_nat i) (seq 0 (Z.to_nat (b - a))).

(** The double loop of lines 705-712: the position of each row whose
    number equals an element of [delete_range], once per equal element. *)
Fixpoint bad_positions (rows : list row) (range : list Z) (ping : nat) : res (list nat) :=
  match rows with
  | [] => Ok []
  | r :: rs =>
      x <- r.[1] ;;
      rest <- bad_positions rs range (S ping) ;;
      Ok (map (fun _ => ping) (filter (py_eq_int x) range) ++ rest)
  end.

(** The deletion (lines 695-718): [IndexError] when no row matches. *)
Definition delete_soundings (rows : list row) (left_delete right_input : Z) : res (list row) :=
  let right_delete := right_input + 2 in
  let delete_range := py_range left_delete right_delete in
  bad <- bad_positions rows delete_range 0 ;;
  match bad with
  | [] => Err IndexError
  | b0 :: _ =>
      let bl := last bad b0 in
      Ok (py_slice rows 0 (Z.of_nat b0) ++ py_slice rows (Z.of_nat bl) (-1))
  end.

(** ** The editor loop ([clean_soundings], lines 645-718) *)

(** Python's [a < b] on the values of a sounding row: numbers by value,
    strings and times lexicographically, [TypeError] otherwise. *)
Definition time_ltb (x y : pytime) : bool :=
  (t_hour x <? t_hour y)
  || ((t_hour x =? t_hour y)
      && ((t_minute x <? t_minute y)
          || ((t_minute x =? t_minute y)
              && ((t_second x <? t_second y)
                  || ((t_second x =? t_second y) && (t_micro x <? t_micro y)))))).

Definition py_lt (a b : pyval) : res bool :=
  match a, b with
  | PStr s, PStr t => Ok (match String.compare s t with Lt => true | _ => false end)
  | PTime x, PTime y => Ok (time_ltb x y)
  | _, _ => x <- as_num a ;; y <- as_num b ;; Ok (Qltb (num_q x) (num_q y))
  end.

(** [min(l)] and [max(l)]: the first least (greatest) item, keeping the
    current one unless [item < current] ([item > current]);
    [ValueError] on an empty sequence. *)
Definition py_min (l : list pyval) : res pyval :=
  match l with
  | [] => Err ValueError
  | x :: rest => fold_left (fun acc y => c <- acc ;; b <- py_lt y c ;; Ok (if b then y else c)) rest (Ok x)
  end.

Definition py_max (l : list pyval) : res pyval :=
  match l with
  | [] => Err ValueError
  | x :: rest => fold_left (fun acc y => c <- acc ;; b <- py_lt c y ;; Ok (if b then y else c)) rest (Ok x)
  end.

(** [int(x)]: truncation of a float, parsing of a string. *)
Definition py_int (v : pyval) : res Z :=
  match v with
  | PInt z => Ok z
  | PFloat q => Ok (Z.quot (Qnum q) (Zpos (Qden q)))
  | PStr s => match parse_int s with Some z => Ok z | None => Err ValueError end
  | _ => Err TypeError
  end.

(** [self.new_depth[self.left:self.right]]: the extents must be [int]s. *)
Definition slice_extents (l : list pyval) (left right : pyval) : res (list pyval) :=
  match left, right with
  | PInt a, PInt b => Ok (py_slice l a b)
  | _, _ => Err TypeError
  end.

(** The five columns [pull_items] (lines 614-625) collects. *)
Record items := mk_items {
  i_ping : list pyval; i_old_depth : list pyval; i_new_depth : list pyval;
  i_old_speed : list pyval; i_new_speed : list pyval }.

Fixpoint pull_items (rows : list row) : res items :=
  match rows with
  | [] => Ok (mk_items [] [] [] [] [])
  | r :: rs =>
      p <- r.[1] ;; od <- r.[-4] ;; nd <- r.[-2] ;; os <- r.[-3] ;; ns <- r.[-1] ;;
      it <- pull_items rs ;;
      Ok (mk_items (p :: i_ping it) (od :: i_old_depth it) (nd :: i_new_depth it)
                   (os :: i_old_speed it) (ns :: i_new_speed it))
  end.

(** The editor's attributes and the local [new_soundings]. *)
Record editor := mk_editor {
  ed_soundings : list row;       (** [self.soundings] *)
  ed_items : items;              (** what [pull_items] last collected *)
  ed_left : pyval; ed_right : pyval; ed_y_min : pyval; ed_y_max : pyval;
  ed_new_soundings : list row;   (** [new_soundings] *)
  ed_exit : bool }.              (** [return] at [exit] *)

(** [plot_data()] (lines 627-643): the plot is not modelled, the
    arithmetic on the extents that can raise is. *)
Definition plot_data (e : editor) : res unit :=
  _ <- py_sub (ed_right e) (ed_left e) ;;
  _ <- py_sub (ed_y_min e) (PFloat (5 # 100)) ;;
  _ <- py_add (ed_y_max e) (PFloat (5 # 100)) ;;
  Ok tt.

(** Lines 659-671: [int()] of each extent when it is an integer, then
    [min]/[max] for the words [min] and [max]. *)
Definition read_extent (s : string) (word : string) (bound : list pyval -> res pyval)
    (ping : list pyval) : res pyval :=
  match parse_int s with
  | Some z => Ok (PInt z)
  | None =>
      if String.eqb s word then b <- bound ping ;; z <- py_int b ;; Ok (PInt z)
      else Ok (PStr s)
  end.

Definition with_window (e : editor) (l r ymin ymax : pyval) : editor :=
  mk_editor (ed_soundings e) (ed_items e) l r ymin ymax (ed_new_soundings e) (ed_exit e).

Definition with_soundings (e : editor) (rows : list row) (it : items) : editor :=
  mk_editor rows it (ed_left e) (ed_right e) (ed_y_min e) (ed_y_max e) rows (ed_exit e).

Definition with_exit (e : editor) : editor :=
  mk_editor (ed_soundings e) (ed_items e) (ed_left e) (ed_right e) (ed_y_min e) (ed_y_max e)
    (ed_new_soundings e) true.

(** Lines 656-673: the zoom to the extents typed, [min]/[max] of the
    corrected depths in the window, and the plot. *)
Definition zoom (e : editor) (l r : string) : res editor :=
  left <- read_extent l "min" py_min (i_ping (ed_items e)) ;;
  right <- read_extent r "max" py_max (i_ping (ed_items e)) ;;
  window <- slice_extents (i_new_depth (ed_items e)) left right ;;
  y_min <- py_min window ;;
  y_max <- py_max window ;;
  let e1 := with_window e left right y_min y_max in
  _ <- plot_data e1 ;;
  Ok e1.

Local Open Scope io_scope.

(** One iteration of [while True] (lines 654-718). *)
Definition clean_iter (e : editor) : io editor :=
  l <<- input ;; r <<- input ;;
  e1 <<- lift (zoom e l r) ;;
  selection <<- input ;;
  if String.eqb selection "exit" then ret (with_exit e1)
  else if String.eqb selection "no" then ret e1
  else if String.eqb selection "save" then _ <<- save_data (ed_new_soundings e1) ;; ret e1
  else if String.eqb selection "yes" then
    ld <<- input ;; left_delete <<- lift (py_int (PStr ld)) ;;
    rd <<- input ;; right_input <<- lift (py_int (PStr rd)) ;;
    rows <<- lift (delete_soundings (ed_new_soundings e1) left_delete right_input) ;;
    it <<- lift (pull_items rows) ;;
    let e2 := with_soundings e1 rows it in
    _ <<- lift (plot_data e2) ;;
    ret e2
  else ret e1.

(** [Clean_Soundings(soundings)]: the constructor runs
    [clean_soundings] (lines 645-653, then the loop), which returns only
    at [exit]. *)
Definition clean_soundings (soundings : list row) : io editor :=
  it <<- lift (pull_items soundings) ;;
  y_min <<- lift (py_min (i_new_depth it)) ;;
  y_max <<- lift (py_max (i_new_depth it)) ;;
  left <<- lift (py_min (i_ping it)) ;;
  right <<- lift (py_max (i_ping it)) ;;
  let e0 := mk_editor soundings it left right y_min y_max soundings false in
  _ <<- lift (plot_data e0) ;;
  while_input (fun e => negb (ed_exit e)) clean_iter e0.

Local Close Scope io_scope.

(** ** Theorems *)

(** Rows numbered by position, as [extract_soundings] produces them. *)
Definition numbered_rows (rows : list row) : Prop :=
  forall k r, nth_error rows k = Some r -> r.[1] = Ok (PInt (Z.of_nat k)).

Lemma filter_range (z a : Z) (s n : nat) :
  filter (Z.eqb z) (map (fun i => a + Z.of_nat i) (seq s n))
  = if (a + Z.of_nat s <=? z) && (z <? a + Z.of_nat s + Z.of_nat n) then [z] else [].
Proof.
  revert s. induction n as [|n IH]; intros s; cbn [seq map filter].
  - destruct (Z.leb_spec (a + Z.of_nat s) z), (Z.ltb_spec z (a + Z.of_nat s + Z.of_nat 0));
      simpl; first [reflexivity | exfalso; lia].
  - rewrite IH. destruct (Z.eqb_spec z (a + Z.of_nat s));
      destruct (Z.leb_spec (a + Z.of_nat (S s)) z), (Z.ltb_spec z (a + Z.of_nat (S s) + Z.of_nat n)),
        (Z.leb_spec (a + Z.of_nat s) z), (Z.ltb_spec z (a + Z.of_nat s + Z.of_nat (S n)));
      simpl; first [reflexivity | exfalso; lia | subst; reflexivity].
Qed.

Lemma bad_positions_numbered (rows : list row) (a b : Z) (p : nat) :
  (0 <= a)%Z ->
  (forall k r, nth_error rows k = Some r -> r.[1] = Ok (PInt (Z.of_nat (p + k)))) ->
  bad_positions rows (py_range a b) p
  = Ok (flat_map (fun k => if (Z.to_nat a <=? k)%nat && (k <? Z.to_nat (Z.max a b))%nat
                           then [k] else []) (seq p (length rows))).
Proof.
  intros Ha. revert p. induction rows as [|r rows IH]; intros p Hn; simpl; [reflexivity|].
  rewrite (Hn 0%nat r eq_refl). cbn [res_bind].
  rewrite IH by (intros k r' Hk; rewrite (Hn (S k) r' Hk); do 3 f_equal; lia). cbn [res_bind].
  f_equal. f_equal. unfold py_range. simpl py_eq_int. rewrite Nat.add_0_r.
  change (filter (py_eq_int (PInt (Z.of_nat p)))) with (filter (Z.eqb (Z.of_nat p))).
  rewrite filter_range.
  replace ((a + Z.of_nat 0 <=? Z.of_nat p) && (Z.of_nat p <? a + Z.of_nat 0 + Z.of_nat (Z.to_nat (b - a))))
    with ((Z.to_nat a <=? p)%nat && (p <? Z.to_nat (Z.max a b))%nat); [destruct (_ && _); reflexivity|].
  apply eq_true_iff_eq. rewrite !andb_true_iff, !Z.leb_le, !Z.ltb_lt, Nat.leb_le, Nat.ltb_lt. lia.
Qed.

(** The deletion of an interior range of numbered rows. *)
Lemma delete_interior (rows : list row) (l r : nat) :
  numbered_rows rows -> (l <= r)%nat -> (S r < length rows)%nat ->
  delete_soundings rows (Z.of_nat l) (Z.of_nat r)
  = Ok (firstn l rows ++ skipn (S r) (removelast rows)).
Proof.
  intros Hn Hlr Hlen. unfold delete_soundings.
  rewrite bad_positions_numbered; [| lia | intros k x Hk; rewrite (Hn k x Hk); reflexivity].
  cbn [res_bind].
  rewrite (seq_window l (S (S r)) (length rows)); [| lia |].
  2: { intros x. cbv beta. rewrite Nat2Z.id.
       replace (Z.to_nat (Z.max (Z.of_nat l) (Z.of_nat r + 2))) with (S (S r)) by lia.
       reflexivity. }
  replace (S (S r) - l)%nat with (S (S r - l)) by lia. cbn [seq].
  change (l :: seq (S l) (S r - l)) with (seq l (S (S r - l))).
  rewrite last_seq. replace (l + (S r - l))%nat with (S r) by lia.
  rewrite py_slice_prefix, py_slice_to_last by lia. reflexivity.
Qed.

(** C18. Deleting the range [l..r] strictly inside a numbered set removes
    rows [l..r] and also the last row: [mod_soundings[bad_pings[-1]:-1]]
    stops one short of the end, where the operator asked for a filter. *)
Theorem delete_soundings_drops_last (rows : list row) (l r : nat) :
  numbered_rows rows -> (l <= r)%nat -> (S r < length rows)%nat ->
  delete_soundings rows (Z.of_nat l) (Z.of_nat r)
  = Ok (firstn l rows ++ skipn (S r) (removelast rows)).
Proof. apply delete_interior. Qed.

(** C19. A range that starts past every sequence number matches no row,
    and [bad_pings[0]] raises [IndexError] out of the editor. *)
Theorem delete_soundings_no_match (rows : list row) (l r : nat) :
  numbered_rows rows -> (length rows <= l)%nat ->
  delete_soundings rows (Z.of_nat l) (Z.of_nat r) = Err IndexError.
Proof.
  intros Hn Hl. unfold delete_soundings.
  rewrite bad_positions_numbered; [| lia | intros k x Hk; rewrite (Hn k x Hk); reflexivity].
  cbn [res_bind]. rewrite flat_map_drop; [reflexivity|].
  intros x Hx. apply in_seq in Hx. rewrite Nat2Z.id.
  replace (l <=? x)%nat with false by (symmetry; apply Nat.leb_gt; lia). reflexivity.
Qed.

(** Ten soundings numbered 0 to 9. *)
Definition ten_rows : list row := map (fun k => [PNone; PInt (Z.of_nat k)]) (seq 0 10).

(** Rows built from their position [k], with [k] at index 1. *)
Lemma numbered_map_seq (g : nat -> row) (n : nat) :
  (forall k, (g k).[1] = Ok (PInt (Z.of_nat k))) -> numbered_rows (map g (seq 0 n)).
Proof.
  intros Hg k r H. rewrite nth_error_map in H.
  destruct (nth_error (seq 0 n) k) as [j|] eqn:E; [|discriminate].
  injection H as <-. rewrite nth_error_seq in E. destruct (k <? n)%nat; [|discriminate].
  injection E as <-. apply Hg.
Qed.

Lemma ten_rows_numbered : numbered_rows ten_rows.
Proof. apply numbered_map_seq. reflexivity. Qed.

Lemma delete_soundings_drops_last_witness :
  delete_soundings ten_rows 2 4 = Ok (firstn 2 ten_rows ++ skipn 5 (removelast ten_rows)).
Proof. exact (delete_soundings_drops_last ten_rows 2 4 ten_rows_numbered ltac:(lia) ltac:(vm_compute; lia)). Defined.

Lemma delete_soundings_no_match_witness : delete_soundings ten_rows 12 14 = Err IndexError.
Proof. exact (delete_soundings_no_match ten_rows 12 14 ten_rows_numbered ltac:(vm_compute; lia)). Defined.

(** ** The editor loop *)

Section EditorLoop.
Local Open Scope io_scope.
Local Open Scope string_scope.

Lemma zoom_keeps (e e1 : editor) (l r : string) :
  zoom e l r = Ok e1 -> ed_new_soundings e1 = ed_new_soundings e /\ ed_exit e1 = ed_exit e.
Proof. intros H. unfold zoom in H. bind_inv H. split; reflexivity. Qed.

Lemma consumes_clean_iter (e : editor) : consumes (clean_iter e).
Proof.
  apply (consumes_input_between (ret tt) (fun _ l => r <<- input ;; e1 <<- lift (zoom e l r) ;; _)).
  - auto with io.
  - intros _ l. unfold clean_iter. io_frame.
Qed.

(** The editor loop ends within its fuel: every iteration reads at least
    one line, so any fuel beyond the lines left gives the same outcome. *)
Lemma clean_loop_fuel (n : nat) (e : editor) (w : world) :
  (length (w_stdin w) < n)%nat ->
  py_while n (fun e => negb (ed_exit e)) clean_iter e w
  = while_input (fun e => negb (ed_exit e)) clean_iter e w.
Proof. intros Hn. unfold while_input. apply py_while_fuel; [exact consumes_clean_iter | exact Hn | lia]. Qed.

(** [save] appends the current soundings to the file named and goes on
    with the loop: only [exit] ends it. *)
Lemma clean_iter_save (e e1 : editor) (l r name : string) (rest : list string)
    (f : string -> option (list srow)) (m : list string) :
  zoom e l r = Ok e1 ->
  clean_iter e (mk_world (l :: r :: "save" :: "yes" :: name :: rest) f m)
  = (Ok e1, snd (append_rows name (ed_new_soundings e) (mk_world rest f m))).
Proof.
  intros H. destruct (zoom_keeps _ _ _ _ H) as [Hn _].
  unfold clean_iter, io_bind, input, lift. cbn [w_stdin w_files w_menu]. rewrite H. cbn.
  rewrite Hn. reflexivity.
Qed.

(** [yes] with the two pings typed: the deletion, then [self.soundings]
    and the columns replaced by its result. *)
Lemma clean_iter_delete (e e1 : editor) (l r ld rd : string) (a b : Z) (rows : list row) (it : items)
    (rest : list string) (f : string -> option (list srow)) (m : list string) :
  zoom e l r = Ok e1 -> parse_int ld = Some a -> parse_int rd = Some b ->
  delete_soundings (ed_new_soundings e) a b = Ok rows -> pull_items rows = Ok it ->
  plot_data (with_soundings e1 rows it) = Ok tt ->
  clean_iter e (mk_world (l :: r :: "yes" :: ld :: rd :: rest) f m)
  = (Ok (with_soundings e1 rows it), mk_world rest f m).
Proof.
  intros H Ha Hb Hd Hp Hplot. destruct (zoom_keeps _ _ _ _ H) as [Hn _].
  unfold clean_iter, io_bind, input, lift. cbn [w_stdin w_files w_menu]. rewrite H. cbn.
  rewrite Ha, Hb. cbn. rewrite Hn, Hd, Hp, Hplot. reflexivity.
Qed.

(** C23. Delete, then save: with the editor's soundings numbered by
    position, answering [yes] with the pings [l <= r] of an interior
    range and then [save] appends to the file named the soundings
    without rows [l..r] and without the last row, and the editor goes on
    asking for extents: saving does not end the session, only [exit]
    does. *)
Theorem save_after_delete (e e1 e3 : editor) (zl zr zl' zr' name : string) (l r : nat) (it : items)
    (rest : list string) (f : string -> option (list srow)) (m : list string) :
  numbered_rows (ed_new_soundings e) -> (l <= r)%nat -> (S r < length (ed_new_soundings e))%nat ->
  zoom e zl zr = Ok e1 ->
  let kept := (firstn l (ed_new_soundings e) ++ skipn (S r) (removelast (ed_new_soundings e)))%list in
  pull_items kept = Ok it -> plot_data (with_soundings e1 kept it) = Ok tt ->
  zoom (with_soundings e1 kept it) zl' zr' = Ok e3 ->
  io_bind (clean_iter e) clean_iter
    (mk_world (zl :: zr :: "yes" :: py_str (PInt (Z.of_nat l)) :: py_str (PInt (Z.of_nat r))
               :: zl' :: zr' :: "save" :: "yes" :: name :: rest) f m)
  = (Ok e3, snd (append_rows name kept (mk_world rest f m))) /\ ed_exit e3 = ed_exit e.
Proof.
  intros Hn Hlr Hlen Hz1 kept Hp Hplot Hz3.
  destruct (zoom_keeps _ _ _ _ Hz1) as [_ Hx1]. destruct (zoom_keeps _ _ _ _ Hz3) as [Hn3 Hx3].
  split; [|rewrite Hx3, <- Hx1; reflexivity].
  unfold io_bind at 1.
  rewrite (clean_iter_delete e e1 _ _ _ _ _ _ kept it _ f m Hz1 (int_str_roundtrip _) (int_str_roundtrip _)
             (delete_interior _ _ _ Hn Hlr Hlen) Hp Hplot).
  rewrite (clean_iter_save _ _ _ _ _ _ _ _ Hz3). reflexivity.
Qed.

End EditorLoop.

Local Open Scope string_scope.

Module Demo.

(** Eight corrected soundings: time, number, old depth, old speed, new
    depth, new speed. *)
Definition sounding (k : nat) : row :=
  [PNone; PInt (Z.of_nat k); PFloat (inject_Z (Z.of_nat k)); PFloat 1500;
   PFloat (inject_Z (Z.of_nat k) + 1); PFloat 1490].

Definition rows : list row := map sounding (seq 0 8).

Definition ok_or {A} (d : A) (r : res A) : A := match r with Ok a => a | Err _ => d end.

Definition items0 : items := ok_or (mk_items [] [] [] [] []) (pull_items rows).
Definition e : editor := mk_editor rows items0 (PInt 0) (PInt 7) (PFloat 1) (PFloat 8) rows false.
Definition e1 : editor := ok_or e (zoom e "min" "max").
Definition kept : list row := (firstn 2 rows ++ skipn 5 (removelast rows))%list.
Definition it : items := ok_or items0 (pull_items kept).
Definition e3 : editor := ok_or e (zoom (with_soundings e1 kept it) "0" "3").

End Demo.

Lemma save_after_delete_witness :
  io_bind (clean_iter Demo.e) clean_iter
    (mk_world ["min"; "max"; "yes"; py_str (PInt (Z.of_nat 2)); py_str (PInt (Z.of_nat 4));
               "0"; "3"; "save"; "yes"; "out.csv"] (fun _ => None) [])
  = (Ok Demo.e3, snd (append_rows "out.csv" Demo.kept (mk_world [] (fun _ => None) [])))
  /\ ed_exit Demo.e3 = ed_exit Demo.e.
Proof.
  exact (save_after_delete Demo.e Demo.e1 Demo.e3 "min" "max" "0" "3" "out.csv" 2 4 Demo.it [] (fun _ => None) []
           (numbered_map_seq Demo.sounding 8 (fun k => eq_refl)) ltac:(lia) ltac:(vm_compute; lia)
           ltac:(vm_compute; reflexivity) ltac:(vm_compute; reflexivity) ltac:(vm_compute; reflexivity)
           ltac:(vm_compute; reflexivity)).
Defined.
