(* ===== verification/Acquisition.v ===== *)
(** * The acquisition loop ([take_observation], osplib.py 204-239, driven
      by online.py 213-218)

    One call of [take_observation] is one cycle: every 101st cycle (when
    the probe is the sound-speed source) it reads the probe and sends the
    new speed to the sonar; it then reads one GNSS sentence
    ([GNSS.get_nmea], lines 60-82), writes it to the raw log, and for a
    GGA, RMC or GLL fix pings the sonar ([Sonar.send_ping] and
    [ping_to_string], lines 105-132) and writes the ping; for a [$GNGGA]
    fix it also writes a row of the simplified log.

    The sensors are the inputs of the model: the probe lines, the GNSS
    sentences (already parsed by pynmea2, which is not modelled: a line
    is [Garbage] when [pynmea2.parse] raises) and the sonar's distance
    records.  The logs are lists of CSV rows.  A cycle ends in one of three
    ways: it returns, it raises (there is no [try] in [take_observation]
    or in the loop of online.py, so the exception ends the program; the
    rows written before it stay in the files), or it never returns
    ([get_nmea] retries forever when no line parses). *)

From S2P Require Import Prelude PyVal.

Local Open Scope Z_scope.
Local Open Scope string_scope.

(** ** Sensor inputs *)

(** A GNSS sentence as pynmea2 gives it: talker and sentence type, the
    data fields as [str(msg)] prints them, and the [latitude] and
    [longitude] properties. *)
Record sentence := mk_sentence {
  s_talker : string; s_type : string; s_fields : list string; s_lat : pyval; s_lon : pyval }.

Inductive gnss_line := Garbage | Sentence (s : sentence).

(** The record [Ping1D.get_distance()] returns, distance in millimetres. *)
Record ping := mk_ping {
  p_time : pytime; p_mm : Z; p_conf : Z; p_dur : Z; p_start : Z; p_len : Z; p_gain : Z }.

(** [metadata['Sonar'][2]], [metadata['GNSS'][2]] and whether the probe
    is the sound-speed source ([update_speed] in online.py). *)
Record acq_cfg := mk_cfg { c_update : bool; c_sonar_off : Q; c_gnss_off : Q }.

Record acq := mk_acq {
  obs_numb : Z;
  current_speed : pyval;
  raw_log : list (list string);
  simple_log : list (list string);
  sonar_cmds : list Z;
  probe_in : list string;
  gnss_in : list (pytime * gnss_line);
  ping_in : list (option ping) }.

Inductive outcome :=
| Returned (st : acq)
| Raised (e : exn) (st : acq)
| Blocked (st : acq).

(** ** Sensor operations *)

(** [Speed.get_surface_sound_speed()] (lines 179-188): [float(line)/1000],
    [None] when the line does not parse (a timeout reads an empty line). *)
Definition read_probe (inp : list string) : pyval * list string :=
  match inp with
  | [] => (PNone, [])
  | l :: rest =>
      match parse_float l with
      | Some q => (PFloat (q / 1000)%Q, rest)
      | None => (PNone, rest)
      end
  end.

(** [Sonar.set_sound_speed(s)] (lines 134-144), sonar connected:
    [round(s * 1000)] is sent. *)
Definition set_sound_speed (s : pyval) : res Z :=
  x <- py_mul s (PInt 1000) ;;
  match x with
  | PInt z => Ok z
  | PFloat q => Ok (round_half_even q)
  | _ => Err TypeError
  end.

(** [GNSS.get_nmea()] (lines 60-82): the first line that parses, with its
    [ping] flag (a GGA, RMC or GLL sentence of any talker); [None] when
    no line of the input parses, where the Python loop never returns. *)
Fixpoint get_nmea (inp : list (pytime * gnss_line)) : option (pytime * sentence * list (pytime * gnss_line)) :=
  match inp with
  | [] => None
  | (_, Garbage) :: rest => get_nmea rest
  | (t, Sentence s) :: rest => Some (t, s, rest)
  end.

Definition is_fix (s : sentence) : bool :=
  String.eqb (s_type s) "GGA" || String.eqb (s_type s) "RMC" || String.eqb (s_type s) "GLL".

Definition sentence_tag (s : sentence) : string := "$" ++ s_talker s ++ s_type s.

(** [str(time) + ',' + str(nmea)]: the raw-log row of a sentence. *)
Definition nmea_row (t : pytime) (s : sentence) : list string :=
  string_of_list_ascii (str_time t) :: sentence_tag s :: s_fields s.

(** [Sonar.ping_to_string(ssp)] (lines 117-132): distance in metres. *)
Definition ping_row (p : ping) (ssp : pyval) : list string :=
  [string_of_list_ascii (str_time (p_time p)); "$DEPTH";
   py_str (PFloat (inject_Z (p_mm p) / 1000)%Q);
   py_str (PInt (p_conf p)); py_str (PInt (p_dur p)); py_str (PInt (p_start p));
   py_str (PInt (p_len p)); py_str (PInt (p_gain p)); py_str ssp].

(** [nmea_message.split(',')]: the row with the line's ['\n'] still on
    its last field. *)
Definition split_message (r : list string) : list string :=
  match r with
  | [] => []
  | _ => removelast r ++ [last r "" ++ String "010"%char EmptyString]
  end.

(** ** One cycle *)

Definition with_resync (st : acq) (speed : pyval) (probe : list string) (cmds : list Z) (n : Z) : acq :=
  mk_acq n speed (raw_log st) (simple_log st) cmds probe (gnss_in st) (ping_in st).

Definition with_obs (st : acq) (n : Z) : acq :=
  mk_acq n (current_speed st) (raw_log st) (simple_log st) (sonar_cmds st) (probe_in st)
    (gnss_in st) (ping_in st).

Definition with_gnss (st : acq) (row : list string) (rest : list (pytime * gnss_line)) : acq :=
  mk_acq (obs_numb st) (current_speed st) (raw_log st ++ [row]) (simple_log st) (sonar_cmds st)
    (probe_in st) rest (ping_in st).

Definition with_ping (st : acq) (row : list string) (rest : list (option ping)) : acq :=
  mk_acq (obs_numb st) (current_speed st) (raw_log st ++ [row]) (simple_log st) (sonar_cmds st)
    (probe_in st) (gnss_in st) rest.

Definition with_simple (st : acq) (row : list string) : acq :=
  mk_acq (obs_numb st) (current_speed st) (raw_log st) (simple_log st ++ [row]) (sonar_cmds st)
    (probe_in st) (gnss_in st) (ping_in st).

(** Lines 206-214: the resync every 101st cycle. *)
Definition resync (cfg : acq_cfg) (st : acq) : outcome :=
  if c_update cfg then
    if (obs_numb st =? 100)%Z then
      let '(speed, rest) := read_probe (probe_in st) in
      let st1 := with_resync st speed rest (sonar_cmds st) (obs_numb st) in
      match set_sound_speed speed with
      | Ok cmd => Returned (with_resync st speed rest (sonar_cmds st ++ [cmd]) 0)
      | Err e => Raised e st1
      end
    else Returned (with_obs st (obs_numb st + 1))
  else Returned st.

(** Lines 228-238: the simplified-log row of a [$GNGGA] fix. *)
Definition simple_row (cfg : acq_cfg) (s : sentence) (p : ping) (msg : list string) (speed : pyval)
    : res (list string) :=
  let depth := py_round3 (inject_Z (p_mm p) / 1000 + c_sonar_off cfg)%Q in
  a <- msg.[10] ;; alt <- py_float (PStr a) ;;
  g <- msg.[12] ;; sep <- py_float (PStr g) ;;
  let height := py_round3 (alt + sep - depth - c_gnss_off cfg)%Q in
  Ok [string_of_list_ascii (str_time (p_time p)); py_str (s_lat s); py_str (s_lon s);
      py_str (PFloat depth); py_str (PFloat height); py_str speed].

(** [take_observation(...)] (lines 204-239). *)
Definition take_observation (cfg : acq_cfg) (st : acq) : outcome :=
  match resync cfg st with
  | Raised e st1 => Raised e st1
  | Blocked st1 => Blocked st1
  | Returned st1 =>
      match get_nmea (gnss_in st1) with
      | None => Blocked (mk_acq (obs_numb st1) (current_speed st1) (raw_log st1) (simple_log st1)
                          (sonar_cmds st1) (probe_in st1) [] (ping_in st1))
      | Some (t, s, rest) =>
          let row := nmea_row t s in
          let st2 := with_gnss st1 row rest in
          if is_fix s then
            match ping_in st2 with
            | [] | None :: _ => Raised TypeError st2
            | Some p :: prest =>
                let st3 := with_ping st2 (ping_row p (current_speed st2)) prest in
                let msg := split_message row in
                match msg.[1] with
                | Err e => Raised e st3
                | Ok k =>
                    if String.eqb k "$GNGGA" then
                      match simple_row cfg s p msg (current_speed st3) with
                      | Ok r => Returned (with_simple st3 r)
                      | Err e => Raised e st3
                      end
                    else Returned st3
                end
            end
          else Returned st2
      end
  end.

(** The loop of online.py (lines 213-218) as a step relation: a cycle
    that returns. *)
Inductive cycle (cfg : acq_cfg) : acq -> acq -> Prop :=
| cycle_step st st' : take_observation cfg st = Returned st' -> cycle cfg st st'.

Inductive reachable (cfg : acq_cfg) (init : acq) : acq -> Prop :=
| reach_init : reachable cfg init init
| reach_step st st' : reachable cfg init st -> cycle cfg st st' -> reachable cfg init st'.

(** A run of [n] returning cycles. *)
Inductive run (cfg : acq_cfg) : nat -> acq -> acq -> Prop :=
| run_nil st : run cfg 0 st st
| run_cons n st st' st'' : run cfg n st st' -> cycle cfg st' st'' -> run cfg (S n) st st''.

(** ** Lemmas on one cycle *)

(** Every returning cycle goes through a returning resync. *)
Lemma take_observation_resync (cfg : acq_cfg) (st st' : acq) :
  take_observation cfg st = Returned st' ->
  exists st1, resync cfg st = Returned st1 /\ obs_numb st' = obs_numb st1
    /\ sonar_cmds st' = sonar_cmds st1.
Proof.
  unfold take_observation. destruct (resync cfg st) as [st1|e st1|st1]; try discriminate.
  intros H. exists st1. split; [reflexivity|].
  destruct (get_nmea (gnss_in st1)) as [[[t s] rest]|]; [|discriminate].
  destruct (is_fix s); [|injection H as <-; split; reflexivity].
  destruct (ping_in _) as [|[p|] prest]; try discriminate.
  destruct ((split_message _).[1]) as [k|]; [|discriminate].
  destruct (String.eqb k "$GNGGA"); [|injection H as <-; split; reflexivity].
  destruct (simple_row _ _ _ _ _); [injection H as <-; split; reflexivity | discriminate].
Qed.

Lemma resync_obs (cfg : acq_cfg) (st st1 : acq) :
  resync cfg st = Returned st1 ->
  obs_numb st1 = (if c_update cfg then if (obs_numb st =? 100)%Z then 0 else obs_numb st + 1
                  else obs_numb st)%Z
  /\ length (sonar_cmds st1) = (length (sonar_cmds st)
       + if c_update cfg then if (obs_numb st =? 100)%Z then 1 else 0 else 0)%nat.
Proof.
  unfold resync. destruct (c_update cfg).
  - destruct (obs_numb st =? 100)%Z.
    + destruct (read_probe (probe_in st)) as [speed rest].
      destruct (set_sound_speed speed) as [cmd|e]; intros H; [|discriminate].
      injection H as <-. simpl. rewrite length_app. split; reflexivity.
    + intros H. injection H as <-. simpl. split; [reflexivity | lia].
  - intros H. injection H as <-. split; [reflexivity | lia].
Qed.

(** ** Theorems *)

(** C13. The resync counter stays in [0, 100] along every run of the
    loop of online.py (it starts at 0): a state reached by returning
    cycles from a state whose counter is in range has its counter in
    range. *)
Theorem obs_numb_bounded (cfg : acq_cfg) (init st : acq) :
  (0 <= obs_numb init <= 100)%Z -> reachable cfg init st -> (0 <= obs_numb st <= 100)%Z.
Proof.
  intros H0 Hr. induction Hr as [|st st' _ IH Hc]; [exact H0|].
  inversion Hc as [? ? Ht]; subst.
  destruct (take_observation_resync _ _ _ Ht) as (st1 & Hs & -> & _).
  destruct (resync_obs _ _ _ Hs) as [-> _].
  destruct (c_update cfg); [|exact IH].
  destruct (Z.eqb_spec (obs_numb st) 100); lia.
Qed.

(** C14. Resync period: with the probe as the sound-speed source and the
    counter starting at 0, after [n] returning cycles the counter is
    [n mod 101] and the sonar has received [n / 101] new sound speeds:
    the probe is read on every 101st cycle. *)
Theorem resync_every_101 (cfg : acq_cfg) (n : nat) (init st : acq) :
  c_update cfg = true -> obs_numb init = 0%Z -> run cfg n init st ->
  obs_numb st = Z.of_nat (n mod 101) /\ length (sonar_cmds st) = (length (sonar_cmds init) + n / 101)%nat.
Proof.
  intros Hu H0 Hr. induction Hr as [st|n st st' st'' Hr IH Hc]; [rewrite H0; split; [reflexivity | simpl; lia]|].
  destruct (IH H0) as [IHo IHc].
  assert (Ht : take_observation cfg st' = Returned st'') by (inversion Hc; assumption).
  destruct (take_observation_resync _ _ _ Ht) as (st1 & Hs & -> & ->).
  destruct (resync_obs _ _ _ Hs) as [-> ->]. rewrite Hu, IHo, IHc.
  pose proof (Nat.mod_upper_bound n 101 ltac:(lia)).
  destruct (Z.eqb_spec (Z.of_nat (n mod 101)) 100) as [E|E].
  - assert (n mod 101 = 100)%nat by lia.
    assert (S n mod 101 = 0 /\ S n / 101 = S (n / 101))%nat as [-> ->].
    { pose proof (Nat.div_mod_eq n 101). split.
      - symmetry. apply (Nat.mod_unique _ _ (S (n / 101))); lia.
      - symmetry. apply (Nat.div_unique _ _ _ 0); lia. }
    split; [reflexivity | lia].
  - assert (S n mod 101 = S (n mod 101) /\ S n / 101 = n / 101)%nat as [-> ->].
    { pose proof (Nat.div_mod_eq n 101). split.
      - symmetry. apply (Nat.mod_unique _ _ (n / 101)); lia.
      - symmetry. apply (Nat.div_unique _ _ _ (S (n mod 101))); lia. }
    split; lia.
Qed.

Lemma split_message_1 (a b c : string) (rest : list string) :
  (split_message (a :: b :: c :: rest)).[1] = Ok b.
Proof.
  apply (py_get_nonneg _ 1). unfold split_message.
  change (removelast (a :: b :: c :: rest)) with (a :: b :: removelast (c :: rest)). reflexivity.
Qed.

Lemma split_message_nth (r : list string) (k : nat) (x : string) :
  (S k < length r)%nat -> nth_error r k = Some x -> nth_error (split_message r) k = Some x.
Proof.
  intros Hk Hx. destruct r as [|a r]; [simpl in Hk; lia|]. unfold split_message.
  rewrite nth_error_app1.
  - rewrite removelast_firstn_len, nth_error_firstn.
    replace (k <? Init.Nat.pred (length (a :: r)))%nat with true by (symmetry; apply Nat.ltb_lt; simpl in *; lia).
    exact Hx.
  - rewrite removelast_firstn_len, firstn_length_le by lia. simpl in *. lia.
Qed.

(** C12. Ordering within a cycle: a returning cycle appends the GNSS row
    to the raw log, then, for a GGA/RMC/GLL fix, the ping row; it appends
    a simplified row only for a [$GNGGA] sentence, after both. *)
Theorem cycle_log_order (cfg : acq_cfg) (st st' : acq) :
  take_observation cfg st = Returned st' ->
  exists t s,
    (is_fix s = false /\ raw_log st' = (raw_log st ++ [nmea_row t s])%list
       /\ simple_log st' = simple_log st)
    \/ (exists p, is_fix s = true
       /\ raw_log st' = (raw_log st ++ [nmea_row t s; ping_row p (current_speed st')])%list
       /\ (simple_log st' = simple_log st
           \/ (s_fields s <> [] -> sentence_tag s = "$GNGGA")
              /\ exists r, simple_log st' = (simple_log st ++ [r])%list)).
Proof.
  intros Hret. unfold take_observation in Hret.
  destruct (resync cfg st) as [st1|e st1|st1] eqn:Hs; try discriminate.
  assert (Hl : raw_log st1 = raw_log st /\ simple_log st1 = simple_log st).
  { revert Hs. unfold resync. destruct (c_update cfg); [|intros E; injection E as <-; auto].
    destruct (obs_numb st =? 100)%Z; [|intros E; injection E as <-; auto].
    destruct (read_probe _). destruct (set_sound_speed _); intros E; [injection E as <-; auto | discriminate]. }
  destruct Hl as [Hr Hsl].
  destruct (get_nmea (gnss_in st1)) as [[[t s] rest]|]; [|discriminate].
  exists t, s. destruct (is_fix s) eqn:Hf.
  2: { injection Hret as <-. left. simpl. rewrite Hr, Hsl. auto. }
  destruct (ping_in _) as [|[p|] prest]; try discriminate. right. exists p. split; [reflexivity|].
  destruct ((split_message (nmea_row t s)).[1]) as [k|] eqn:Ek; [|discriminate].
  destruct (String.eqb k "$GNGGA") eqn:Eg.
  - destruct (simple_row _ _ _ _ _) as [r|]; [|discriminate]. injection Hret as <-.
    simpl. rewrite Hr, Hsl, <- app_assoc. split; [reflexivity|]. right. split; [|eauto].
    intros Hne. unfold nmea_row in Ek. destruct (s_fields s) as [|f fs]; [contradiction|].
    rewrite split_message_1 in Ek. injection Ek as <-. now apply String.eqb_eq.
  - injection Hret as <-. simpl. rewrite Hr, Hsl, <- app_assoc. auto.
Qed.

(** C15. A probe read failure during a resync is not absorbed: the probe
    returns [None], [set_sound_speed(None)] computes [round(None * 1000)]
    and raises [TypeError], which ends the acquisition program. *)
Theorem probe_failure_raises (cfg : acq_cfg) (st : acq) (rest : list string) :
  c_update cfg = true -> obs_numb st = 100%Z -> read_probe (probe_in st) = (PNone, rest) ->
  take_observation cfg st = Raised TypeError (with_resync st PNone rest (sonar_cmds st) 100).
Proof.
  intros Hu Ho Hp. unfold take_observation, resync. rewrite Hu, Ho. simpl. rewrite Hp. reflexivity.
Qed.

(** C17. [get_nmea] returns the first sentence that parses, skipping the
    lines before it; on an input where no line parses it never returns
    and the cycle is blocked. *)
Theorem get_nmea_first (pre rest : list (pytime * gnss_line)) (t : pytime) (s : sentence) :
  (forall x, In x pre -> snd x = Garbage) ->
  get_nmea (pre ++ (t, Sentence s) :: rest) = Some (t, s, rest).
Proof.
  intros H. induction pre as [|[t' l] pre IH]; [reflexivity|].
  pose proof (H (t', l) (or_introl eq_refl)) as Hl. simpl in Hl. subst l.
  simpl. apply IH. intros x Hx. apply H. now right.
Qed.

(** C16. A GGA sentence without a fix (empty altitude field) raises
    [ValueError] at [float(nmea_message[10])] after its GNSS and ping rows
    were written: there is no [try], so a receiver without a fix ends the
    acquisition instead of the cycle being retried. *)
Theorem gga_without_fix_raises (cfg : acq_cfg) (st st1 : acq) (t : pytime) (s : sentence)
    (rest : list (pytime * gnss_line)) (p : ping) (prest : list (option ping)) :
  resync cfg st = Returned st1 -> get_nmea (gnss_in st1) = Some (t, s, rest) ->
  s_talker s = "GN" -> s_type s = "GGA" -> nth_error (s_fields s) 8 = Some "" ->
  (10 <= length (s_fields s))%nat -> ping_in st1 = Some p :: prest ->
  exists st', take_observation cfg st = Raised ValueError st'
    /\ raw_log st' = (raw_log st1 ++ [nmea_row t s; ping_row p (current_speed st1)])%list.
Proof.
  intros Hs Hg Ht Hy H8 Hlen Hp.
  assert (Hm1 : (split_message (nmea_row t s)).[1] = Ok "$GNGGA").
  { unfold nmea_row. destruct (s_fields s) as [|f0 fs]; [simpl in Hlen; lia|].
    rewrite split_message_1. unfold sentence_tag. now rewrite Ht, Hy. }
  assert (Hm10 : (split_message (nmea_row t s)).[10] = Ok "").
  { apply (py_get_nonneg _ 10). apply split_message_nth; unfold nmea_row; simpl; [lia | exact H8]. }
  unfold take_observation. rewrite Hs. cbn iota. rewrite Hg.
  replace (is_fix s) with true by (unfold is_fix; now rewrite Hy).
  cbn [ping_in with_gnss]. rewrite Hp. cbn [current_speed with_gnss].
  rewrite Hm1. cbn [String.eqb Ascii.eqb Bool.eqb]. simpl String.eqb.
  unfold simple_row. rewrite Hm10. cbn [res_bind py_float].
  eexists. split; [reflexivity|]. simpl. rewrite <- app_assoc. reflexivity.
Qed.

(** ** A demonstration survey *)

Module Demo.
Definition cfg : acq_cfg := mk_cfg true (-1 # 2) (1 # 2).
Definition t0 : pytime := mk_time 12 35 19 100000.
Definition gga_fields (alt : string) : list string :=
  ["123519.00"; "4807.038"; "N"; "01131.000"; "E"; "1"; "08"; "0.9"; alt; "M"; "0"; "M"; ""; "*47"].
Definition gga (alt : string) : sentence :=
  mk_sentence "GN" "GGA" (gga_fields alt) (PFloat (481173 # 10000)) (PFloat (691 # 60)).
Definition ping0 : ping := mk_ping (mk_time 12 35 19 200000) 5000 100 0 0 0 0.
Definition st0 (alt : string) : acq :=
  mk_acq 0 (PFloat 1500) [] [] [] [] [(t0, Garbage); (t0, Sentence (gga alt))] [Some ping0].
Definition after (st : acq) : acq :=
  match take_observation cfg st with Returned s => s | _ => st end.
End Demo.

Lemma demo_cycle : cycle Demo.cfg (Demo.st0 "10") (Demo.after (Demo.st0 "10")).
Proof. constructor. vm_compute. reflexivity. Qed.

Lemma obs_numb_bounded_witness :
  (0 <= obs_numb (Demo.st0 "10") <= 100)%Z /\ (0 <= obs_numb (Demo.after (Demo.st0 "10")) <= 100)%Z.
Proof.
  assert (H0 : (0 <= obs_numb (Demo.st0 "10") <= 100)%Z) by (vm_compute; split; discriminate).
  split; [exact H0|]. apply (obs_numb_bounded Demo.cfg (Demo.st0 "10")); [exact H0|].
  eapply reach_step; [apply reach_init | apply demo_cycle].
Defined.

Lemma resync_every_101_witness :
  obs_numb (Demo.after (Demo.st0 "10")) = Z.of_nat (1 mod 101)
  /\ length (sonar_cmds (Demo.after (Demo.st0 "10"))) = (length (sonar_cmds (Demo.st0 "10")) + 1 / 101)%nat.
Proof.
  apply (resync_every_101 Demo.cfg 1 (Demo.st0 "10")); [reflexivity | reflexivity |].
  eapply run_cons; [apply run_nil | apply demo_cycle].
Defined.

Lemma cycle_log_order_witness :
  exists t s,
    (is_fix s = false /\ raw_log (Demo.after (Demo.st0 "10")) = (raw_log (Demo.st0 "10") ++ [nmea_row t s])%list
       /\ simple_log (Demo.after (Demo.st0 "10")) = simple_log (Demo.st0 "10"))
    \/ (exists p, is_fix s = true
       /\ raw_log (Demo.after (Demo.st0 "10"))
          = (raw_log (Demo.st0 "10") ++ [nmea_row t s; ping_row p (current_speed (Demo.after (Demo.st0 "10")))])%list
       /\ (simple_log (Demo.after (Demo.st0 "10")) = simple_log (Demo.st0 "10")
           \/ (s_fields s <> [] -> sentence_tag s = "$GNGGA")
              /\ exists r, simple_log (Demo.after (Demo.st0 "10")) = (simple_log (Demo.st0 "10") ++ [r])%list)).
Proof. apply (cycle_log_order Demo.cfg). vm_compute. reflexivity. Defined.

Lemma probe_failure_raises_witness :
  take_observation Demo.cfg (mk_acq 100 (PFloat 1500) [] [] [] ["SVP?"] [] [])
  = Raised TypeError (with_resync (mk_acq 100 (PFloat 1500) [] [] [] ["SVP?"] [] []) PNone [] [] 100).
Proof. apply probe_failure_raises; reflexivity. Defined.

Lemma get_nmea_first_witness :
  get_nmea ([(Demo.t0, Garbage)] ++ (Demo.t0, Sentence (Demo.gga "10")) :: [])
  = Some (Demo.t0, Demo.gga "10", []).
Proof. apply get_nmea_first. intros x [<- | []]. reflexivity. Defined.

Lemma gga_without_fix_raises_witness :
  exists st', take_observation Demo.cfg (Demo.st0 "") = Raised ValueError st'
    /\ raw_log st' = ([] ++ [nmea_row Demo.t0 (Demo.gga ""); ping_row Demo.ping0 (PFloat 1500)])%list.
Proof.
  apply (gga_without_fix_raises Demo.cfg (Demo.st0 "") (with_obs (Demo.st0 "") 1) Demo.t0 (Demo.gga "") [] Demo.ping0 []);
    try reflexivity. vm_compute. lia.
Defined.

(** The simplified log of the same cycle records the depth as
    [distance + sonar_offset = 5.0 - 0.5 = 4.5] m: the transducer offset
    is added with the sign of a height, so the depth below the waterline
    is 1 m short of the [5.5] m of the geometry, and the bottom height
    [10 + 0 - 4.5 - 0.5 = 5.0] is 1 m too high. *)
Theorem simple_log_depth_offset_sign :
  simple_log (Demo.after (Demo.st0 "10"))
  = [["12:35:19.200000"; "48.1173"; "11.516666666666667"; "4.5"; "5.0"; "1500.0"]]%string.
Proof. vm_compute. reflexivity. Qed.
