(* ===== verification/ClockTime.v ===== *)
(** * The clock column of the raw log

    [take_observation] starts every raw-log row with [str(time)] of the
    [datetime.time] [get_nmea] or [send_ping] took (osplib.py 70, 218,
    and [Sonar.ping_to_string]); [Raw_Log.read_raw_log] parses it back
    with [strptime(row[0], '%H:%M:%S.%f')] (osplib.py 501) and drops the
    row when that raises.  [str(time)] prints [HH:MM:SS.ffffff], but
    leaves the fraction out when the microsecond is zero, and the format
    requires it: a row logged at a whole second is dropped, every other
    row gets its time back exactly.

    The proof runs the regular expression of [%H:%M:%S.%f] on symbolic
    digits with the tactics of [NmeaTime]; a time without a fraction has
    no match at all, since a pattern with a literal point only matches an
    input that contains one ([match_elems_lit]). *)

From S2P Require Import Prelude PyVal Repr Strptime Reader NmeaTime Acquisition.

Local Open Scope Z_scope.

(** The range of the fields of a [datetime.time]. *)
Definition valid_time (t : pytime) : bool :=
  (0 <=? t_hour t) && (t_hour t <=? 23) && (0 <=? t_minute t) && (t_minute t <=? 59)
  && (0 <=? t_second t) && (t_second t <=? 59) && (0 <=? t_micro t) && (t_micro t <? 1000000).

#[local] Arguments digit_char : simpl never.
#[local] Arguments is_digit : simpl never.
#[local] Arguments in_range : simpl never.
#[local] Arguments Ascii.eqb : simpl never.

(** ** Zero-padded numbers *)

Lemma z_digits_length6 (x : Z) : 0 <= x < 10 ^ 6 -> (length (z_digits x) <= 6)%nat.
Proof.
  intros Hx. rewrite (z_digits_fuel x 5) by (cbn; lia).
  pose proof (digits_fuel_length 6 x []). cbn [length] in *. lia.
Qed.

Lemma pad_facts (w : nat) (x : Z) :
  0 <= x -> (length (z_digits x) <= w)%nat ->
  length (pad w x) = w /\ Forall digit (pad w x) /\ digits_value (pad w x) = x.
Proof.
  intros Hx Hl. destruct (z_digits_spec x Hx) as (_ & Hd & Hv). unfold pad.
  rewrite length_app, repeat_length, digits_value_zeros, Forall_app. repeat split; [lia | | exact Hd | exact Hv].
  apply Forall_forall. intros c Hc. apply repeat_spec in Hc as ->. reflexivity.
Qed.

(** [[0-9]{n}] on [n] digits. *)
Lemma match_alt_digits (ds rest : list ascii) :
  Forall digit ds -> match_alt (repeat is_digit (length ds)) (ds ++ rest) = Some (ds, rest).
Proof.
  induction 1 as [|c ds Hc _ IH]; [reflexivity|].
  cbn [length repeat app match_alt]. rewrite Hc, IH. reflexivity.
Qed.

(** ** The regular expression on [str(time)] *)

(** With a fraction: the hour, minute and second as two digits each, and
    the six digits of the fraction. *)
Lemma first_match_clock (a b c d e f : Z) (us : list ascii) :
  (0 <= a <= 1 /\ 0 <= b <= 9 \/ a = 2 /\ 0 <= b <= 3) -> 0 <= c <= 5 -> 0 <= d <= 9 ->
  0 <= e <= 5 -> 0 <= f <= 9 -> Forall digit us -> length us = 6%nat ->
  first_match fmt_clock
    ([digit_char a; digit_char b; ":"%char; digit_char c; digit_char d; ":"%char;
      digit_char e; digit_char f; "."%char] ++ us)
    [[digit_char a; digit_char b]; [":"%char]; [digit_char c; digit_char d]; [":"%char];
     [digit_char e; digit_char f]; ["."%char]; us].
Proof.
  intros Ha Hc Hd He Hf Hus Hl. unfold fmt_clock, re_H, re_M, re_S, re_f, lit. cbn [map app].
  destruct Ha as [[Ha Hb]|[-> Hb]]; repeat fm_step;
    (eapply fm_take; [rewrite <- (app_nil_r us) at 1; rewrite <- Hl; apply match_alt_digits, Hus | apply fm_nil]).
Qed.

(** What an alternative consumes is a prefix of the input. *)
Lemma match_alt_prefix (a : alt) (inp cap rest : list ascii) :
  match_alt a inp = Some (cap, rest) -> inp = (cap ++ rest)%list.
Proof.
  revert inp cap. induction a as [|p a IH]; intros [|c inp] cap H; simpl in H; try discriminate;
    [injection H as <- <-; reflexivity | injection H as <- <-; reflexivity |].
  destruct (p c); [|discriminate]. destruct (match_alt a inp) as [[cap' rest']|] eqn:E; [|discriminate].
  injection H as <- <-. rewrite (IH _ _ E). reflexivity.
Qed.

(** A pattern with the literal [c] after [es1] only matches an input
    that contains [c]. *)
Lemma match_elems_lit (es1 es2 : list elem) (c : ascii) (inp : list ascii) (x : list (list ascii) * list ascii) :
  In x (match_elems (es1 ++ lit c :: es2) inp) -> In c inp.
Proof.
  revert inp x. induction es1 as [|e es1 IH]; intros inp x H; simpl in H.
  - rewrite app_nil_r in H. destruct inp as [|c' inp]; [contradiction|]. simpl in H.
    destruct (Ascii.eqb c c') eqn:E; [|contradiction]. apply Ascii.eqb_eq in E as ->. left. reflexivity.
  - apply in_flat_map in H as (a & _ & H). destruct (match_alt a inp) as [[cap rest]|] eqn:E; [|contradiction].
    apply in_map_iff in H as ([caps r] & _ & H). rewrite (match_alt_prefix _ _ _ _ E).
    apply in_or_app. right. exact (IH _ _ H).
Qed.

(** Without a fraction no match of [%H:%M:%S.%f] exists: the input has
    no point. *)
Lemma clock_no_fraction (a b c d e f : Z) :
  0 <= a <= 2 -> 0 <= b <= 9 -> 0 <= c <= 5 -> 0 <= d <= 9 -> 0 <= e <= 5 -> 0 <= f <= 9 ->
  match_elems fmt_clock [digit_char a; digit_char b; ":"%char; digit_char c; digit_char d; ":"%char;
                         digit_char e; digit_char f] = [].
Proof.
  intros. destruct (match_elems _ _) as [|x l] eqn:E; [reflexivity|]. exfalso.
  assert (Hx : In x (match_elems ([re_H; lit ":"; re_M; lit ":"; re_S] ++ lit "." :: [re_f])
                       [digit_char a; digit_char b; ":"%char; digit_char c; digit_char d; ":"%char;
                        digit_char e; digit_char f])).
  { change ([re_H; lit ":"; re_M; lit ":"; re_S] ++ lit "." :: [re_f])%list with fmt_clock. rewrite E. left. reflexivity. }
  apply match_elems_lit in Hx. simpl in Hx.
  repeat destruct Hx as [Hx|Hx]; try discriminate Hx; try contradiction;
    match type of Hx with digit_char ?y = _ =>
      pose proof (eqb_dot_dc y ltac:(lia)) as N; rewrite Hx in N; discriminate N end.
Qed.

(** ** [strptime(str(t), '%H:%M:%S.%f')] *)

Lemma valid_time_spec (t : pytime) :
  valid_time t = true ->
  0 <= t_hour t <= 23 /\ 0 <= t_minute t <= 59 /\ 0 <= t_second t <= 59 /\ 0 <= t_micro t < 10 ^ 6.
Proof. unfold valid_time. rewrite !andb_true_iff, !Z.leb_le, Z.ltb_lt. change (10 ^ 6) with 1000000. lia. Qed.

(** [str(t)] reads back as [t] exactly when it carries a fraction, that
    is when the microsecond is not zero; otherwise [strptime] raises
    [ValueError]. *)
Lemma strptime_str_time (t : pytime) :
  valid_time t = true ->
  strptime fmt_clock (string_of_list_ascii (str_time t)) = if t_micro t =? 0 then Err ValueError else Ok t.
Proof.
  intros Hv. destruct (valid_time_spec t Hv) as (Hh & Hm & Hs & Hu).
  destruct t as [h mi s u]; cbn [t_hour t_minute t_second t_micro] in *. unfold str_time.
  cbn [t_hour t_minute t_second t_micro]. rewrite (pad2 h), (pad2 mi), (pad2 s) by lia.
  destruct (Z.eqb_spec u 0) as [->|Hu0]; cbn [app].
  - unfold strptime. rewrite list_ascii_of_string_of_list_ascii, clock_no_fraction by zdiv.
    reflexivity.
  - destruct (pad_facts 6 u ltac:(lia) (z_digits_length6 u Hu)) as (Hl & Hd & Hval).
    change (?x :: ?y :: ?z :: ?a :: ?b :: ?c :: ?d :: ?e :: "."%char :: pad 6 u)
      with ([x; y; z; a; b; c; d; e; "."%char] ++ pad 6 u)%list.
    rewrite (strptime_first _ _ _ (first_match_clock (h / 10) (h mod 10) (mi / 10) (mi mod 10) (s / 10) (s mod 10)
      (pad 6 u) ltac:(zdiv) ltac:(zdiv) ltac:(zdiv) ltac:(zdiv) ltac:(zdiv) Hd Hl)).
    unfold strptime_groups, build_time, micro_of. rewrite !digits_value_dc2, Hl, app_nil_r, Hval by lia.
    destruct (Z.ltb_spec 59 s); [lia | reflexivity].
Qed.

(** ** The rows [read_raw_log] keeps *)

(** C28. A raw-log row begins with [str(time)] of the moment it was
    logged (the GNSS row [nmea_row] and the sonar row [ping_row] of
    [take_observation]).  [read_raw_log] gives that time back exactly,
    with the other fields coerced, unless the microsecond is zero: then
    [str(time)] has no fraction, [strptime(row[0], '%H:%M:%S.%f')]
    raises, and the row is silently dropped. *)
Theorem raw_row_clock_roundtrip (t : pytime) (rest : list string) :
  valid_time t = true ->
  coerce_row (string_of_list_ascii (str_time t) :: rest)
  = if t_micro t =? 0 then None else Some (PTime t :: map coerce_field rest).
Proof.
  intros Hv. unfold coerce_row. rewrite (strptime_str_time t Hv). destruct (t_micro t =? 0); reflexivity.
Qed.

(** The GNSS row of a fix logged at a whole second is lost. *)
Lemma nmea_row_whole_second_dropped (t : pytime) (s : sentence) (rows : list srow) :
  valid_time t = true -> t_micro t = 0 -> coerce_rows (nmea_row t s :: rows) = coerce_rows rows.
Proof.
  intros Hv H0. unfold coerce_rows. cbn [fold_right]. unfold nmea_row.
  pose proof (strptime_str_time t Hv) as E. rewrite H0, Z.eqb_refl in E.
  unfold coerce_row. rewrite E. reflexivity.
Qed.

Lemma raw_row_clock_roundtrip_witness :
  valid_time (mk_time 12 35 19 100000) = true
  /\ coerce_row (string_of_list_ascii (str_time (mk_time 12 35 19 100000)) :: ["$GNGGA"%string])
     = if t_micro (mk_time 12 35 19 100000) =? 0 then None
       else Some (PTime (mk_time 12 35 19 100000) :: map coerce_field ["$GNGGA"%string]).
Proof.
  assert (V : valid_time (mk_time 12 35 19 100000) = true) by reflexivity.
  split; [exact V | exact (raw_row_clock_roundtrip _ _ V)].
Defined.
