(* ===== verification/Pipeline.v ===== *)
(** * End to end: acquisition, reading back, extraction

    The raw log is the only hand-off between [take_observation] and the
    processing pass.  This file composes the models: the [$DEPTH] row one
    cycle writes ([Acquisition.ping_row]), read back by [read_raw_log]'s
    row conversion ([coerce_row]), folded by [extract_soundings].
    [ping_to_string] writes the distance in metres ([send_ping] has
    already divided the sonar's millimetres by 1000, osplib.py 110),
    while [extract_soundings] divides the field by 1000 again (line 594):
    the water depth of every sounding is [-mm/10^6 + sonar_off] where the
    geometry asks for [-mm/10^3 + sonar_off]. *)

From S2P Require Import Prelude PyVal Repr Strptime Reader Extractor Acquisition ClockTime.

Local Open Scope Z_scope.

(** A distance in millimetres over 1000 is a terminating decimal. *)
Lemma mm_decimal (mm : Z) : decimal (inject_Z mm / 1000)%Q.
Proof. exists 3%nat, mm. change (inject_Z (10 ^ Z.of_nat 3)) with 1000%Q. field. Qed.

(** [read_raw_log] reads the [$DEPTH] row of a ping logged with a
    fraction of a second back as a [$DEPTH] row whose distance field is
    the metres [ping_to_string] printed. *)
Lemma ping_row_read (p : ping) (ssp : pyval) :
  valid_time (p_time p) = true -> t_micro (p_time p) <> 0 ->
  exists d dist, coerce_row (ping_row p ssp) = Some d /\ tagged d "$DEPTH"
    /\ d.[2] = Ok (PFloat dist) /\ (dist == inject_Z (p_mm p) / 1000)%Q.
Proof.
  intros Hv H0. destruct (str_float_parse _ (mm_decimal (p_mm p))) as (q & Eq & Hq).
  unfold coerce_row, ping_row. rewrite (strptime_str_time _ Hv), (proj2 (Z.eqb_neq _ 0) H0).
  eexists _, q. split; [reflexivity|]. split; [exists (PStr "$DEPTH"); split; reflexivity|].
  split; [|exact Hq]. cbn [map]. unfold py_get. cbn. unfold coerce_field, py_str.
  destruct (String.eqb_spec (string_of_list_ascii (str_float (inject_Z (p_mm p) / 1000))) "") as [E|_];
    [rewrite E in Eq; discriminate Eq | rewrite Eq; reflexivity].
Qed.

Section Reprocess.
Variables gnss_off sonar_off : Q.

(** The depth of a [$DEPTH] row after a [$GNGGA] row (lines 594-596). *)
Lemma depth_after_gga_value (pre : list row) (g d : row) (dist : Q) :
  x_prev (run_soundings gnss_off sonar_off pre) = Some g -> tagged g "$GNGGA" ->
  tagged d "$DEPTH" -> d.[2] = Ok (PFloat dist) -> (exists a, x_ant (run_soundings gnss_off sonar_off pre) = PFloat a) ->
  exists s, extract_soundings gnss_off sonar_off (pre ++ [d]) = extract_soundings gnss_off sonar_off pre ++ [s]
    /\ s.[8] = Ok (PFloat (- dist / 1000 + sonar_off)).
Proof.
  intros Hp Hg Hd H2 [a Ha]. destruct (py_get_last_ok d 2 _ ltac:(lia) H2) as [ss Hss].
  unfold extract_soundings. rewrite run_snoc, (step_depth_after_gga _ _ _ g) by assumption.
  unfold depth_emit. rewrite H2. cbn [or_else]. rewrite py_neg_float. cbn [or_else].
  unfold py_div. cbn [res_bind as_num num_q]. change (Qeq_bool (inject_Z 1000) 0) with false.
  cbn [or_else py_add py_arith res_bind as_num num_q]. simpl x_ant. rewrite Ha.
  cbn [or_else py_sub py_arith res_bind as_num num_q]. rewrite Hss. cbn [or_else].
  eexists. split; reflexivity.
Qed.

(** C5. Unit mismatch between acquisition and extraction.  Take any log
    already read, whose last processed row is a [$GNGGA] row with an
    antenna height, and the [$DEPTH] row [take_observation] writes for a
    ping of [mm] millimetres (at a time with a fraction of a second, so
    that [read_raw_log] keeps it).  Reading that row back and extracting
    adds one sounding whose water depth is [-(mm/1000)/1000 + sonar_off]:
    the distance is divided by 1000 twice, once at acquisition and once
    at extraction. *)
Theorem acquired_depth_divided_twice (pre : list row) (g : row) (a : Q) (p : ping) (ssp : pyval) :
  valid_time (p_time p) = true -> t_micro (p_time p) <> 0 ->
  x_prev (run_soundings gnss_off sonar_off pre) = Some g -> tagged g "$GNGGA" ->
  x_ant (run_soundings gnss_off sonar_off pre) = PFloat a ->
  exists d s w, coerce_row (ping_row p ssp) = Some d
    /\ extract_soundings gnss_off sonar_off (pre ++ [d]) = extract_soundings gnss_off sonar_off pre ++ [s]
    /\ s.[8] = Ok (PFloat w) /\ (w == - (inject_Z (p_mm p) / 1000) / 1000 + sonar_off)%Q.
Proof.
  intros Hv H0 Hp Hg Ha. destruct (ping_row_read p ssp Hv H0) as (d & dist & Ed & Hd & H2 & Hdist).
  destruct (depth_after_gga_value pre g d dist Hp Hg Hd H2 (ex_intro _ a Ha)) as (s & Es & H8).
  exists d, s, (- dist / 1000 + sonar_off)%Q. repeat split; try assumption. rewrite Hdist. reflexivity.
Qed.

End Reprocess.

Module Demo.
Local Open Scope string_scope.

(** The GGA row of the design cycle, as read back. *)
Definition pre : list row := Extractor.Demo.rows [Extractor.Demo.gga].

(** Its antenna height as the fold holds it. *)
Definition ant : Q :=
  match x_ant (run_soundings (1 # 2) (-1 # 2) pre) with PFloat a => a | _ => 0%Q end.
End Demo.

Lemma acquired_depth_divided_twice_witness :
  exists d s w,
    valid_time (p_time Acquisition.Demo.ping0) = true /\ t_micro (p_time Acquisition.Demo.ping0) <> 0
    /\ x_prev (run_soundings (1 # 2) (-1 # 2) Demo.pre) = Some (hd [] Demo.pre) /\ tagged (hd [] Demo.pre) "$GNGGA"
    /\ x_ant (run_soundings (1 # 2) (-1 # 2) Demo.pre) = PFloat Demo.ant
    /\ coerce_row (ping_row Acquisition.Demo.ping0 (PFloat 1500)) = Some d
    /\ extract_soundings (1 # 2) (-1 # 2) (Demo.pre ++ [d]) = extract_soundings (1 # 2) (-1 # 2) Demo.pre ++ [s]
    /\ s.[8] = Ok (PFloat w) /\ (w == - (inject_Z (p_mm Acquisition.Demo.ping0) / 1000) / 1000 + (-1 # 2))%Q.
Proof.
  assert (V : valid_time (p_time Acquisition.Demo.ping0) = true) by reflexivity.
  assert (M : t_micro (p_time Acquisition.Demo.ping0) <> 0) by discriminate.
  assert (P : x_prev (run_soundings (1 # 2) (-1 # 2) Demo.pre) = Some (hd [] Demo.pre)) by (vm_compute; reflexivity).
  assert (G : tagged (hd [] Demo.pre) "$GNGGA") by (exists (PStr "$GNGGA"); split; vm_compute; reflexivity).
  assert (A : x_ant (run_soundings (1 # 2) (-1 # 2) Demo.pre) = PFloat Demo.ant) by (vm_compute; reflexivity).
  destruct (acquired_depth_divided_twice (1 # 2) (-1 # 2) Demo.pre _ _ Acquisition.Demo.ping0 (PFloat 1500) V M P G A)
    as (d & s & w & H).
  exists d, s, w. repeat split; try assumption; apply H.
Defined.
