(* ===== verification/Online.v ===== *)
(** * The setup of Open Sonar Online (online.py 51-218)

    Before the acquisition loop, online.py reads the configuration file
    named on standard input, connects the three sensors, leaves at once
    when the GNSS or the sonar did not connect, writes the metadata header
    of the simplified and the raw log and opens them for appending, asks
    for the sound-speed source ([svp], [default], [manual] or [exit]) and
    sets it on the sonar, reads the speed back from the sonar, and waits
    for [online] (or [exit]).  Then the loop of [take_observation] runs
    ([Acquisition]).

    The sensors are the environment [env]: whether each connects, the
    lines the probe will send, and the start time that names the log
    files.  The resources the program holds are the record [devices]:
    the three serial links, the two open log writers, and the sonar's
    stored speed of sound with the commands sent to it.  [online_setup]
    runs in the [io] monad of [PyIO] and ends in [Exited] ([sys.exit()])
    or [GoesOnline] with what the acquisition loop starts from
    ([online_start]).

    The class [Sonar] has no disconnect method: no exit path releases the
    sonar link ([exit_releases_all_but_sonar]). *)

From S2P Require Import Prelude PyVal Reader Header PyIO Acquisition.

Local Open Scope string_scope.
Local Open Scope io_scope.

(** ** Sensors and resources *)

Record env := mk_env {
  e_gnss_ok : bool;        (** [connect_gnss()] *)
  e_sonar_ok : bool;       (** [connect_sonar()] *)
  e_svp_ok : bool;         (** [connect_speed()] *)
  e_probe : list string;   (** the lines the probe sends *)
  e_start : pytime;        (** [dt.datetime.now()] at line 87 *)
  e_sonar_speed : Z }.     (** the speed of sound the sonar holds, mm/s *)

Record devices := mk_dev {
  d_gnss_open : bool;
  d_sonar_open : bool;
  d_svp_open : bool;
  d_simple_open : bool;
  d_raw_open : bool;
  d_sonar_speed : Z;
  d_cmds : list Z;
  d_probe : list string }.

(** Lines 57-66: the three [connect_*] calls. *)
Definition connect (e : env) : devices :=
  mk_dev (e_gnss_ok e) (e_sonar_ok e) (e_svp_ok e) false false (e_sonar_speed e) [] (e_probe e).

(** [gpsdevice.disconnect_gnss()] and [svpdevice.disconnect_speed()]:
    each closes its port when it was found.  Nothing closes the sonar. *)
Definition disconnect (d : devices) : devices :=
  mk_dev false (d_sonar_open d) false (d_simple_open d) (d_raw_open d) (d_sonar_speed d) (d_cmds d)
    (d_probe d).

(** [simple_log_writer.close(); raw_log_writer.close()] *)
Definition close_logs (d : devices) : devices :=
  mk_dev (d_gnss_open d) (d_sonar_open d) (d_svp_open d) false false (d_sonar_speed d) (d_cmds d)
    (d_probe d).

(** Lines 92 and 97: [open(log, 'a', 1)]. *)
Definition open_logs (d : devices) : devices :=
  mk_dev (d_gnss_open d) (d_sonar_open d) (d_svp_open d) true true (d_sonar_speed d) (d_cmds d)
    (d_probe d).

(** [sonardevice.set_sound_speed(s)] with the sonar connected: the
    command [round(s * 1000)] is sent and the sonar holds it. *)
Definition sent (d : devices) (mms : Z) : devices :=
  mk_dev (d_gnss_open d) (d_sonar_open d) (d_svp_open d) (d_simple_open d) (d_raw_open d)
    mms (d_cmds d ++ [mms])%list (d_probe d).

Definition set_speed (d : devices) (s : pyval) : res devices := res_map (sent d) (set_sound_speed s).

(** [svpdevice.get_surface_sound_speed()] *)
Definition read_surface (d : devices) : pyval * devices :=
  let '(v, rest) := read_probe (d_probe d) in
  (v, mk_dev (d_gnss_open d) (d_sonar_open d) (d_svp_open d) (d_simple_open d) (d_raw_open d)
        (d_sonar_speed d) (d_cmds d) rest).

(** [sonardevice.get_sound_speed()]: the stored speed over 1000. *)
Definition get_sound_speed (d : devices) : pyval := PFloat (inject_Z (d_sonar_speed d) / 1000)%Q.

(** [dt.datetime.strftime(start_time, '%H%M%S')] *)
Definition hhmmss (t : pytime) : string :=
  string_of_list_ascii (pad 2 (t_hour t) ++ pad 2 (t_minute t) ++ pad 2 (t_second t))%list.

(** Lines 89-90 and 94-95: ['Output/' + metadata['Survey'][0] + infix +
    strftime(...) + '.csv']. *)
Definition log_name (infix : string) (meta : metadata) (e : env) : string :=
  let '(s0, _, _) := m_survey meta in "Output/" ++ s0 ++ infix ++ hhmmss (e_start e) ++ ".csv".

(** [configuration_filename] read by [read_config_file]; [None] (not a
    [.csv] name) makes [osplib.GNSS(metadata)] raise [TypeError]. *)
Definition read_config (name : string) : io metadata :=
  if file_check name ".csv" then rows <<- open_csv name ;; lift (read_config_file rows)
  else raise TypeError.

(** ** The two menus *)

(** The state of a menu loop: the devices, [proceed], whether
    [sys.exit()] was called, and [update_speed]. *)
Record menu_state := mk_ms { ms_dev : devices; ms_proceed : bool; ms_exit : bool; ms_update : bool }.

Definition running (s : menu_state) : bool := negb (ms_proceed s) && negb (ms_exit s).

(** The [exit] branches (lines 151-165 and 190-204). *)
Definition exit_program (s : menu_state) : menu_state :=
  mk_ms (disconnect (close_logs (ms_dev s))) (ms_proceed s) true (ms_update s).

Definition proceed_with (d : devices) (update : bool) : menu_state := mk_ms d true false update.

(** One iteration of the sound-speed menu (lines 108-168).  [svp_found]
    is the result of [connect_speed()]. *)
Definition speed_step (svp_found : bool) (meta : metadata) (s : menu_state) : io menu_state :=
  soundspeed_option <<- input ;;
  if String.eqb soundspeed_option "svp" then
    if svp_found then
      let '(reading, d1) := read_surface (ms_dev s) in
      d2 <<- lift (set_speed d1 reading) ;;
      ret (proceed_with d2 true)
    else ret s
  else if String.eqb soundspeed_option "default" then
    let '(_, _, p2) := m_svp meta in
    d2 <<- lift (set_speed (ms_dev s) (PFloat p2)) ;;
    ret (proceed_with d2 (ms_update s))
  else if String.eqb soundspeed_option "manual" then
    manual_soundspeed <<- input ;;
    match parse_float manual_soundspeed with
    | Some q =>
        if Qltb q 1500 && Qltb 1400 q then
          d2 <<- lift (set_speed (ms_dev s) (PFloat q)) ;;
          ret (proceed_with d2 (ms_update s))
        else ret s
    | None => ret s
    end
  else if String.eqb soundspeed_option "exit" then ret (exit_program s)
  else ret s.

(** One iteration of the online menu (lines 174-207). *)
Definition online_step (s : menu_state) : io menu_state :=
  online_setting <<- input ;;
  if String.eqb online_setting "online" then ret (mk_ms (ms_dev s) true false (ms_update s))
  else if String.eqb online_setting "exit" then ret (exit_program s)
  else ret s.

(** ** The setup *)

Inductive setup_end :=
| Exited (d : devices)
| GoesOnline (d : devices) (meta : metadata) (current_speed : pyval) (update_speed : bool).

(** online.py lines 51-207. *)
Definition online_setup (e : env) : io setup_end :=
  configuration_filename <<- input ;;
  metadata <<- read_config configuration_filename ;;
  let d0 := connect e in
  if negb (e_gnss_ok e && e_sonar_ok e) then ret (Exited (disconnect d0))
  else
    _ <<- write_file (log_name "_simple_" metadata e) (header_rows "OSP_SIMPLE_LOG" metadata) ;;
    _ <<- write_file (log_name "_raw_" metadata e) (header_rows "OSP_RAW_LOG" metadata) ;;
    s1 <<- while_input running (speed_step (e_svp_ok e) metadata) (mk_ms (open_logs d0) false false false) ;;
    if ms_exit s1 then ret (Exited (ms_dev s1))
    else
      let current_speed := get_sound_speed (ms_dev s1) in
      s2 <<- while_input running online_step (mk_ms (ms_dev s1) false false (ms_update s1)) ;;
      if ms_exit s2 then ret (Exited (ms_dev s2))
      else ret (GoesOnline (ms_dev s2) metadata current_speed (ms_update s2)).

(** Lines 211-218: the state the acquisition loop starts from, with the
    GNSS sentences and the sonar's pings it will receive. *)
Definition online_start (d : devices) (meta : metadata) (current_speed : pyval) (update : bool)
    (gnss : list (pytime * gnss_line)) (pings : list (option ping)) : acq_cfg * acq :=
  (mk_cfg update (sd_offset (m_sonar meta)) (sd_offset (m_gnss meta)),
   mk_acq 0 current_speed [] [] (d_cmds d) (d_probe d) gnss pings).

(** ** Exit paths *)

(** Every port and log file closed, except the sonar link. *)
Definition released (d : devices) : Prop :=
  d_gnss_open d = false /\ d_svp_open d = false /\ d_simple_open d = false /\ d_raw_open d = false.

Lemma set_speed_sonar (d d' : devices) (v : pyval) :
  set_speed d v = Ok d' -> d_sonar_open d' = d_sonar_open d.
Proof. unfold set_speed, res_map. destruct (set_sound_speed v); cbn; intros H; [injection H as <-|]; easy. Qed.

(** The invariant of both menus: the sonar link is as [connect] left it,
    and after [exit] everything else is released. *)
Definition menu_inv (e : env) (s : menu_state) : Prop :=
  d_sonar_open (ms_dev s) = e_sonar_ok e /\ (ms_exit s = true -> released (ms_dev s)).

Lemma exit_program_inv (e : env) (s : menu_state) : menu_inv e s -> menu_inv e (exit_program s).
Proof. intros [H _]. split; [exact H | intros _; repeat split]. Qed.

Lemma speed_step_inv (e : env) (sv : bool) (meta : metadata) (s : menu_state) :
  menu_inv e s -> returns (speed_step sv meta s) (menu_inv e).
Proof.
  intros Hs. unfold speed_step. apply returns_bind. intros opt.
  repeat match goal with |- returns (if ?b then _ else _) _ => destruct b end;
    try (apply returns_ret; first [exact Hs | apply exit_program_inv, Hs]).
  - destruct (read_surface (ms_dev s)) as [r d1] eqn:Er.
    apply (returns_bind_dep _ _ _ _ (returns_lift _)). intros d2 E2. apply returns_ret.
    split; [|discriminate]. cbn. rewrite (set_speed_sonar _ _ _ E2).
    unfold read_surface in Er. destruct (read_probe (d_probe (ms_dev s))). injection Er as _ <-.
    apply Hs.
  - destruct (m_svp meta) as [[? ?] p2].
    apply (returns_bind_dep _ _ _ _ (returns_lift _)). intros d2 E2. apply returns_ret.
    split; [|discriminate]. cbn. rewrite (set_speed_sonar _ _ _ E2). apply Hs.
  - apply returns_bind. intros v. destruct (parse_float v) as [q|]; [|apply returns_ret, Hs].
    destruct (Qltb q 1500 && Qltb 1400 q); [|apply returns_ret, Hs].
    apply (returns_bind_dep _ _ _ _ (returns_lift _)). intros d2 E2. apply returns_ret.
    split; [|discriminate]. cbn. rewrite (set_speed_sonar _ _ _ E2). apply Hs.
Qed.

Lemma online_step_inv (e : env) (s : menu_state) :
  menu_inv e s -> returns (online_step s) (menu_inv e).
Proof.
  intros Hs. unfold online_step. apply returns_bind. intros opt.
  destruct (String.eqb opt "online"); [apply returns_ret; split; [apply Hs | discriminate]|].
  destruct (String.eqb opt "exit"); apply returns_ret; [apply exit_program_inv|]; exact Hs.
Qed.

(** C36. On every path by which the setup calls [sys.exit()] (a sensor
    that did not connect, or [exit] at either menu) the GNSS and probe
    ports and both log files are released, but the sonar link is left
    open whenever it was opened: [Sonar] has no disconnect, where the
    design requires every link to be released on every exit path. *)
Theorem exit_releases_all_but_sonar (e : env) (w : world) (d : devices) :
  fst (online_setup e w) = Ok (Exited d) -> released d /\ d_sonar_open d = e_sonar_ok e.
Proof.
  intros H. cut (returns (online_setup e)
                   (fun r => match r with Exited d => released d /\ d_sonar_open d = e_sonar_ok e
                                        | _ => True end)).
  { intros Hr. specialize (Hr w). destruct (online_setup e w) as [r w']. cbn in H. subst r. exact Hr. }
  unfold online_setup. apply returns_bind. intros name. apply returns_bind. intros meta.
  destruct (negb (e_gnss_ok e && e_sonar_ok e)).
  { apply returns_ret. split; [repeat split | reflexivity]. }
  apply returns_bind. intros _. apply returns_bind. intros _.
  apply (returns_bind_dep _ _ (menu_inv e)).
  { apply returns_while; [intros st; apply speed_step_inv | split; [reflexivity | discriminate]]. }
  intros s1 [Hs1 Hx1]. destruct (ms_exit s1) eqn:E1.
  { apply returns_ret. split; [exact (Hx1 eq_refl) | exact Hs1]. }
  apply (returns_bind_dep _ _ (menu_inv e)).
  { apply returns_while; [intros st; apply online_step_inv | split; [exact Hs1 | discriminate]]. }
  intros s2 [Hs2 Hx2]. destruct (ms_exit s2) eqn:E2; apply returns_ret; [|exact I].
  split; [exact (Hx2 eq_refl) | exact Hs2].
Qed.

(** ** The sound-speed sources *)

Lemma set_speed_float (d : devices) (q : Q) :
  set_speed d (PFloat q) = Ok (sent d (round_half_even (q * inject_Z 1000))).
Proof. reflexivity. Qed.

(** C38. A manual sound speed is accepted only strictly between 1400 and
    1500 m/s: then [round(s * 1000)] mm/s is sent to the sonar and the
    menu ends; any other number, 1500 m/s (the usual nominal speed of
    sound in sea water) included, is refused, nothing is sent and the
    menu is shown again. *)
Theorem manual_speed_range (sv : bool) (meta : metadata) (s : menu_state) (v : string) (q : Q)
    (rest : list string) (f : string -> option (list srow)) (m : list string) :
  parse_float v = Some q ->
  speed_step sv meta s (mk_world ("manual" :: v :: rest) f m)
  = (Ok (if Qltb q 1500 && Qltb 1400 q
         then proceed_with (sent (ms_dev s) (round_half_even (q * inject_Z 1000))) (ms_update s)
         else s), mk_world rest f m).
Proof.
  intros Hq. unfold speed_step, io_bind, input. cbn [w_stdin w_files w_menu String.eqb Ascii.eqb Bool.eqb].
  rewrite Hq. destruct (Qltb q 1500 && Qltb 1400 q); reflexivity.
Qed.

(** C34. Bounds of the command: on the [manual] branch the sonar's
    command list either stays as it was (a refused or unparsable entry)
    or gains one command [round(s * 1000)] with [1400000 <= cmd <= 1500000]
    mm/s, which fits the unsigned 32-bit field of the sonar's
    [set_speed_of_sound] message. *)
Theorem manual_speed_cmd_bounds (sv : bool) (meta : metadata) (s : menu_state) (v : string)
    (rest : list string) (f : string -> option (list srow)) (m : list string) :
  match fst (speed_step sv meta s (mk_world ("manual" :: v :: rest) f m)) with
  | Ok s' =>
      d_cmds (ms_dev s') = d_cmds (ms_dev s)
      \/ exists cmd, d_cmds (ms_dev s') = (d_cmds (ms_dev s) ++ [cmd])%list
                     /\ (1400000 <= cmd <= 1500000)%Z /\ (0 <= cmd < 2 ^ 32)%Z
  | Err _ => True
  end.
Proof.
  unfold speed_step, io_bind, input. cbn [w_stdin w_files w_menu String.eqb Ascii.eqb Bool.eqb].
  destruct (parse_float v) as [q|]; [|left; reflexivity].
  destruct (Qltb q 1500 && Qltb 1400 q) eqn:B; [|left; reflexivity].
  rewrite set_speed_float. cbn. right. eexists. split; [reflexivity|].
  apply andb_prop in B as [B1 B2]. apply Qltb_iff in B1, B2.
  assert (R : (1400000 <= round_half_even (q * inject_Z 1000) <= 1500000)%Z).
  { apply round_half_even_between; unfold inject_Z in *; lra. }
  split; [exact R | lia].
Qed.

Lemma manual_speed_range_witness :
  parse_float "1500" = Some (inject_Z 1500 * pow10 0)%Q
  /\ speed_step true Header.Demo.meta (mk_ms (connect (mk_env true true true [] (mk_time 9 0 0 0) 1500000)) false false false)
       (mk_world ["manual"; "1500"; "exit"] (fun _ => None) [])
     = (Ok (if Qltb (inject_Z 1500 * pow10 0) 1500 && Qltb 1400 (inject_Z 1500 * pow10 0)
            then proceed_with (sent (connect (mk_env true true true [] (mk_time 9 0 0 0) 1500000))
                                 (round_half_even (inject_Z 1500 * pow10 0 * inject_Z 1000))) false
            else mk_ms (connect (mk_env true true true [] (mk_time 9 0 0 0) 1500000)) false false false),
        mk_world ["exit"] (fun _ => None) []).
Proof.
  split; [vm_compute; reflexivity|].
  exact (manual_speed_range true Header.Demo.meta _ "1500" _ ["exit"] (fun _ => None) [] ltac:(vm_compute; reflexivity)).
Defined.

(** ** The default source *)

(** C37. With a [.csv] configuration, the GNSS and the sonar connected,
    and the answers [default] then [online], the setup writes the
    metadata header of the simplified and of the raw log (the raw one
    under its own name, last), sends [round(p2 * 1000)] mm/s for the
    configured speed [p2] as the only command to the sonar, reads back
    that speed over 1000 as [current_speed], and goes online with
    [update_speed] false and the rest of standard input unread. *)
Theorem default_speed_goes_online (e : env) (name : string) (rows : list srow) (meta : metadata)
    (rest : list string) (f : string -> option (list srow)) (m : list string) :
  file_check name ".csv" = true -> f name = Some rows -> read_config_file rows = Ok meta ->
  e_gnss_ok e = true -> e_sonar_ok e = true ->
  let mms := round_half_even (snd (m_svp meta) * inject_Z 1000) in
  online_setup e (mk_world (name :: "default" :: "online" :: rest) f m)
  = (Ok (GoesOnline (sent (open_logs (connect e)) mms) meta (PFloat (inject_Z mms / 1000)) false),
     mk_world rest (fun n => if String.eqb n (log_name "_raw_" meta e) then Some (header_rows "OSP_RAW_LOG" meta)
                            else if String.eqb n (log_name "_simple_" meta e)
                            then Some (header_rows "OSP_SIMPLE_LOG" meta) else f n) m).
Proof.
  intros Hn Hf Hr Hg Hs mms.
  unfold online_setup.
  unfold io_bind at 1. cbn [input w_stdin]. unfold read_config. rewrite Hn.
  unfold io_bind at 1. unfold io_bind at 1. unfold open_csv. cbn [w_files]. rewrite Hf.
  unfold lift. rewrite Hr. rewrite Hg, Hs. cbn [andb negb].
  unfold io_bind at 1. unfold write_file; cbn [w_stdin w_files w_menu].
  unfold io_bind at 1. unfold write_file; cbn [w_stdin w_files w_menu].
  unfold io_bind at 1. unfold while_input at 1. cbn [w_stdin length].
  erewrite (py_while_S_ok _ _ _ _ (proceed_with (sent (open_logs (connect e)) mms) false) _ (mk_world ("online" :: rest) _ m)).
  3:{ unfold speed_step, io_bind, input. cbn [w_stdin w_files w_menu String.eqb Ascii.eqb Bool.eqb].
      destruct (m_svp meta) as [[p0 p1] p2]. rewrite set_speed_float. reflexivity. }
  2: reflexivity.
  rewrite py_while_S_stop by reflexivity. cbn [ms_exit proceed_with].
  unfold io_bind at 1. unfold while_input at 1. cbn [w_stdin length].
  erewrite (py_while_S_ok _ _ _ _ (mk_ms (sent (open_logs (connect e)) mms) true false false) _ (mk_world rest _ m)).
  3:{ unfold online_step, io_bind, input. cbn [w_stdin w_files w_menu String.eqb Ascii.eqb Bool.eqb]. reflexivity. }
  2: reflexivity.
  rewrite py_while_S_stop by reflexivity. cbn [ms_exit ms_dev ms_update]. reflexivity.
Qed.

Module Demo.

Definition env : Online.env := mk_env true true false [] (mk_time 9 5 7 0) 1450000.

Definition files (n : string) : option (list srow) :=
  if String.eqb n "config.csv" then Some Header.Demo.config else None.

(** The GNSS did not connect: the program exits after the configuration. *)
Definition no_gnss : Online.env := mk_env false true true ["1480.5"] (mk_time 9 5 7 0) 1450000.

End Demo.

Lemma exit_releases_all_but_sonar_witness :
  fst (online_setup Demo.no_gnss (mk_world ["config.csv"] Demo.files []))
  = Ok (Exited (disconnect (connect Demo.no_gnss)))
  /\ released (disconnect (connect Demo.no_gnss))
  /\ d_sonar_open (disconnect (connect Demo.no_gnss)) = e_sonar_ok Demo.no_gnss.
Proof.
  assert (H : fst (online_setup Demo.no_gnss (mk_world ["config.csv"] Demo.files []))
              = Ok (Exited (disconnect (connect Demo.no_gnss)))) by (vm_compute; reflexivity).
  split; [exact H | exact (exit_releases_all_but_sonar _ _ _ H)].
Defined.

Lemma default_speed_goes_online_witness :
  online_setup Demo.env (mk_world ["config.csv"; "default"; "online"] Demo.files [])
  = (Ok (GoesOnline (sent (open_logs (connect Demo.env)) 1500000) Header.Demo.meta
                    (PFloat (inject_Z 1500000 / 1000)) false),
     mk_world [] (fun n => if String.eqb n (log_name "_raw_" Header.Demo.meta Demo.env)
                          then Some (header_rows "OSP_RAW_LOG" Header.Demo.meta)
                          else if String.eqb n (log_name "_simple_" Header.Demo.meta Demo.env)
                          then Some (header_rows "OSP_SIMPLE_LOG" Header.Demo.meta)
                          else Demo.files n) []).
Proof.
  exact (default_speed_goes_online Demo.env "config.csv" Header.Demo.config Header.Demo.meta []
           Demo.files [] ltac:(vm_compute; reflexivity) ltac:(vm_compute; reflexivity)
           ltac:(vm_compute; reflexivity) eq_refl eq_refl).
Defined.
