(* ===== verification/Sensors.v ===== *)
(** * The sensor classes of osplib.py: [GNSS], [Sonar] and [Speed]

    Each class keeps its serial settings (read from the metadata by
    [__init__]) and, once [connect_*] has run, a [*_found] flag and an
    open serial link.  Before [connect_*] the flag does not exist, and a
    method that reads it raises [AttributeError].  Whether a serial port
    opens is the environment's: [serial_ok port baud].

    The objects are records with the attribute [*_found] as an [option
    bool] ([None]: not yet set).  The readings are the explicit input
    streams of [Acquisition]: the lines of the GNSS receiver and of the
    probe, the pings of the sonar.  The sonar device's stored speed of
    sound and the commands it received are part of the sonar object.

    The setup of online.py ([Online]) works on an abstraction of these
    objects, the record [devices]; the lemmas at the end show that each
    operation of [Online] is the abstraction of the class methods it
    stands for ([abs_devices]), connections, disconnections, the sound
    speed set and read back, and the probe reading. *)

From S2P Require Import Prelude PyVal Reader Acquisition Online.

Local Open Scope string_scope.

(** ** The objects *)

(** [GNSS] (lines 34-82). *)
Record gnss_obj := mk_gnss {
  gps_com : string; gps_baud : Z;
  gps_found : option bool;      (** [self.gps_found] *)
  gps_open : bool;              (** [self.gps_ser] open *)
  gps_in : list (pytime * gnss_line) }.

(** [Sonar] (lines 86-155), with the device's stored speed. *)
Record sonar_obj := mk_sonar {
  sonar_com : string; sonar_baud : Z;
  sonar_found : option bool;    (** [self.sonar_found] *)
  sonar_speed : Z;              (** [speed_of_sound] held by the device, mm/s *)
  sonar_cmds : list Z;          (** [set_speed_of_sound] commands received *)
  sonar_in : list (option ping) }.

(** [Speed] (lines 160-194). *)
Record speed_obj := mk_speed {
  svp_com : string; svp_baud : Z;
  svp_found : option bool;      (** [self.svp_found] *)
  svp_open : bool;              (** [self.svp_ser] open *)
  svp_in : list string }.

Section Sensors.
(** Whether [serial.Serial(port, baud)] (or [Ping1D.connect_serial])
    succeeds. *)
Variable serial_ok : string -> Z -> bool.

(** Lines 36-38, 88-90, 162-164: the port and baud rate of
    [metadata['GNSS_Com']], [['Sonar_Com']] and [['SVP_Com']]. *)
Definition gnss_init (m : metadata) (inp : list (pytime * gnss_line)) : gnss_obj :=
  mk_gnss (cd_port (m_gnss_com m)) (cd_baud (m_gnss_com m)) None false inp.

Definition sonar_init (m : metadata) (speed : Z) (inp : list (option ping)) : sonar_obj :=
  mk_sonar (cd_port (m_sonar_com m)) (cd_baud (m_sonar_com m)) None speed [] inp.

Definition speed_init (m : metadata) (inp : list string) : speed_obj :=
  mk_speed (cd_port (m_svp_com m)) (cd_baud (m_svp_com m)) None false inp.

(** [connect_gnss()] (lines 40-51): the flag set and returned. *)
Definition connect_gnss (g : gnss_obj) : gnss_obj * bool :=
  let ok := serial_ok (gps_com g) (gps_baud g) in
  (mk_gnss (gps_com g) (gps_baud g) (Some ok) (ok || gps_open g) (gps_in g), ok).

(** [connect_sonar()] (lines 92-103). *)
Definition connect_sonar (s : sonar_obj) : sonar_obj * bool :=
  let ok := serial_ok (sonar_com s) (sonar_baud s) in
  (mk_sonar (sonar_com s) (sonar_baud s) (Some ok) (sonar_speed s) (sonar_cmds s) (sonar_in s), ok).

(** [connect_speed()] (lines 166-177). *)
Definition connect_speed (p : speed_obj) : speed_obj * bool :=
  let ok := serial_ok (svp_com p) (svp_baud p) in
  (mk_speed (svp_com p) (svp_baud p) (Some ok) (ok || svp_open p) (svp_in p), ok).

End Sensors.

(** [disconnect_gnss()] (lines 53-58): nothing when not found, else the
    port closed and the flag reset. *)
Definition disconnect_gnss (g : gnss_obj) : res gnss_obj :=
  match gps_found g with
  | None => Err AttributeError
  | Some false => Ok g
  | Some true => Ok (mk_gnss (gps_com g) (gps_baud g) (Some false) false (gps_in g))
  end.

(** [disconnect_speed()] (lines 190-194): the port closed, the flag left
    as it was. *)
Definition disconnect_speed (p : speed_obj) : res speed_obj :=
  match svp_found p with
  | None => Err AttributeError
  | Some false => Ok p
  | Some true => Ok (mk_speed (svp_com p) (svp_baud p) (Some true) false (svp_in p))
  end.

(** [try: c() except: pass] on an object. *)
Definition try_pass {A} (c : A -> res A) (a : A) : A :=
  match c a with Ok a' => a' | Err _ => a end.

(** What [get_nmea()] returns (lines 60-82): without a GNSS the list
    [[['No','GNSS Found'], True]], else the first sentence that parses
    ([None]: the receiver never sends one, and the loop does not
    return). *)
Inductive nmea_result :=
| NoGnss
| Nmea (r : option (pytime * sentence * list (pytime * gnss_line))).

Definition get_nmea_obj (g : gnss_obj) : res nmea_result :=
  match gps_found g with
  | None => Err AttributeError
  | Some false => Ok NoGnss
  | Some true => Ok (Nmea (get_nmea (gps_in g)))
  end.

(** [time, nmea, ping = gnss_device.get_nmea()] (take_observation, line
    216): the two-element list does not unpack into three names. *)
Definition unpack_nmea (r : nmea_result) : res (option (pytime * sentence * bool)) :=
  match r with
  | NoGnss => Err ValueError
  | Nmea None => Ok None
  | Nmea (Some (t, s, _)) => Ok (Some (t, s, is_fix s))
  end.

(** [set_sound_speed(s)] (lines 134-144): [False] without a sonar, else
    [round(s * 1000)] sent and [True]. *)
Definition set_sound_speed_obj (s : sonar_obj) (v : pyval) : res (sonar_obj * bool) :=
  match sonar_found s with
  | None => Err AttributeError
  | Some false => Ok (s, false)
  | Some true =>
      cmd <- set_sound_speed v ;;
      Ok (mk_sonar (sonar_com s) (sonar_baud s) (Some true) cmd (sonar_cmds s ++ [cmd])%list (sonar_in s),
          true)
  end.

(** [get_sound_speed()] (lines 146-155): [None] without a sonar. *)
Definition get_sound_speed_obj (s : sonar_obj) : res pyval :=
  match sonar_found s with
  | None => Err AttributeError
  | Some false => Ok PNone
  | Some true => Ok (PFloat (inject_Z (sonar_speed s) / 1000)%Q)
  end.

(** [send_ping()] and [ping_to_string(ssp)] (lines 105-132): without a
    sonar, [None] and ['No Sonar Found']. *)
Definition ping_string_obj (s : sonar_obj) (p : ping) (ssp : pyval) : res (list string) :=
  match sonar_found s with
  | None => Err AttributeError
  | Some false => Ok ["No Sonar Found"]
  | Some true => Ok (ping_row p ssp)
  end.

(** [get_surface_sound_speed()] (lines 179-188): a reading when the link
    is open; otherwise [self.svp_ser] is missing or closed, the [except]
    catches the error and the method returns [None]. *)
Definition get_surface_sound_speed_obj (p : speed_obj) : pyval * speed_obj :=
  if svp_open p then
    let '(v, rest) := read_probe (svp_in p) in
    (v, mk_speed (svp_com p) (svp_baud p) (svp_found p) (svp_open p) rest)
  else (PNone, p).

(** ** The setup's abstraction of the objects *)

Definition is_found (f : option bool) : bool := match f with Some true => true | _ => false end.

(** What [Online] keeps of the three objects and the two log writers. *)
Definition abs_devices (g : gnss_obj) (s : sonar_obj) (p : speed_obj) (simple raw : bool) : devices :=
  mk_dev (gps_open g) (is_found (sonar_found s)) (svp_open p) simple raw (sonar_speed s) (sonar_cmds s)
    (svp_in p).

(** A connected object: [connect_*] has run, and an open link was found. *)
Definition connected (found : option bool) (opened : bool) : Prop :=
  exists b, found = Some b /\ (opened = true -> b = true).

Lemma connect_connected (ok : string -> Z -> bool) (m : metadata) (gi : list (pytime * gnss_line))
    (pi : list string) :
  connected (gps_found (fst (connect_gnss ok (gnss_init m gi)))) (gps_open (fst (connect_gnss ok (gnss_init m gi))))
  /\ connected (svp_found (fst (connect_speed ok (speed_init m pi)))) (svp_open (fst (connect_speed ok (speed_init m pi)))).
Proof. cbn. rewrite !orb_false_r. split; eexists; split; eauto. Qed.

(** Lines 57-66: the three objects built from the metadata and connected
    are the devices [Online.connect] starts from, when the environment's
    answers are those of the serial ports. *)
Lemma connect_refines (ok : string -> Z -> bool) (e : env) (m : metadata) (gi : list (pytime * gnss_line))
    (si : list (option ping)) :
  e_gnss_ok e = ok (cd_port (m_gnss_com m)) (cd_baud (m_gnss_com m)) ->
  e_sonar_ok e = ok (cd_port (m_sonar_com m)) (cd_baud (m_sonar_com m)) ->
  e_svp_ok e = ok (cd_port (m_svp_com m)) (cd_baud (m_svp_com m)) ->
  abs_devices (fst (connect_gnss ok (gnss_init m gi))) (fst (connect_sonar ok (sonar_init m (e_sonar_speed e) si)))
    (fst (connect_speed ok (speed_init m (e_probe e)))) false false
  = connect e.
Proof.
  intros Hg Hs Hp. unfold abs_devices, connect. cbn. rewrite !orb_false_r, Hg, Hs, Hp.
  destruct (ok (cd_port (m_sonar_com m)) _); reflexivity.
Qed.

(** C29. Refinement of the exit paths: on objects that [connect_*] has
    set up, whether the connection succeeded or not, online.py's
    [try: gpsdevice.disconnect_gnss() except: pass] and
    [try: svpdevice.disconnect_speed() except: pass] (online.py 75-82,
    157-164, 196-203; osplib.py 53-58, 190-194) act on what [Online]
    keeps of the devices exactly as [Online.disconnect], against which
    the exit theorems of [Online] are proved: the GNSS and probe links
    closed, the sonar link and the logs as they were. *)
Lemma disconnect_refines (g : gnss_obj) (s : sonar_obj) (p : speed_obj) (simple raw : bool) :
  connected (gps_found g) (gps_open g) -> connected (svp_found p) (svp_open p) ->
  abs_devices (try_pass disconnect_gnss g) s (try_pass disconnect_speed p) simple raw
  = disconnect (abs_devices g s p simple raw).
Proof.
  intros (b & Hb & Ho) (c & Hc & Hq). unfold try_pass, disconnect_gnss, disconnect_speed, abs_devices, disconnect.
  rewrite Hb, Hc. cbn.
  destruct b, c; cbn;
    try (destruct (gps_open g) eqn:E1; [specialize (Ho eq_refl); discriminate|]);
    try (destruct (svp_open p) eqn:E2; [specialize (Hq eq_refl); discriminate|]); reflexivity.
Qed.

(** [sonardevice.set_sound_speed(s)] with the sonar found is
    [Online.set_speed]: the command sent and stored. *)
Lemma set_speed_refines (g : gnss_obj) (s : sonar_obj) (p : speed_obj) (simple raw : bool) (v : pyval) :
  sonar_found s = Some true ->
  set_speed (abs_devices g s p simple raw) v
  = res_map (fun r => abs_devices g (fst r) p simple raw) (set_sound_speed_obj s v).
Proof.
  intros Hs. unfold set_speed, set_sound_speed_obj. rewrite Hs.
  destruct (set_sound_speed v); cbn; [|reflexivity]. unfold abs_devices, sent. cbn. rewrite Hs. reflexivity.
Qed.

(** [sonardevice.get_sound_speed()] with the sonar found. *)
Lemma get_sound_speed_refines (g : gnss_obj) (s : sonar_obj) (p : speed_obj) (simple raw : bool) :
  sonar_found s = Some true ->
  get_sound_speed_obj s = Ok (get_sound_speed (abs_devices g s p simple raw)).
Proof. intros Hs. unfold get_sound_speed_obj. rewrite Hs. reflexivity. Qed.

(** [svpdevice.get_surface_sound_speed()] with the probe link open. *)
Lemma read_surface_refines (g : gnss_obj) (s : sonar_obj) (p : speed_obj) (simple raw : bool) :
  svp_open p = true ->
  read_surface (abs_devices g s p simple raw)
  = let '(v, p') := get_surface_sound_speed_obj p in (v, abs_devices g s p' simple raw).
Proof.
  intros Ho. unfold get_surface_sound_speed_obj, read_surface. rewrite Ho. cbn.
  destruct (read_probe (svp_in p)). unfold abs_devices. cbn. rewrite Ho. reflexivity.
Qed.

(** Without a GNSS, [get_nmea()] returns a two-element list, and the
    unpacking into [time, nmea, ping] in [take_observation] raises
    [ValueError]; online.py never gets there, since it exits when the
    GNSS did not connect. *)
Lemma get_nmea_no_gnss (g : gnss_obj) :
  gps_found g = Some false -> res_bind (get_nmea_obj g) unpack_nmea = Err ValueError.
Proof. intros H. unfold get_nmea_obj. rewrite H. reflexivity. Qed.

(** Lines 57-83 on the objects: built, connected and, after a failed
    GNSS or sonar connection, disconnected under [try], they are what
    [online_setup] returns in [Exited (disconnect (connect e))]. *)
Lemma connection_failure_refines (ok : string -> Z -> bool) (e : env) (m : metadata)
    (gi : list (pytime * gnss_line)) (si : list (option ping)) :
  e_gnss_ok e = ok (cd_port (m_gnss_com m)) (cd_baud (m_gnss_com m)) ->
  e_sonar_ok e = ok (cd_port (m_sonar_com m)) (cd_baud (m_sonar_com m)) ->
  e_svp_ok e = ok (cd_port (m_svp_com m)) (cd_baud (m_svp_com m)) ->
  abs_devices (try_pass disconnect_gnss (fst (connect_gnss ok (gnss_init m gi))))
    (fst (connect_sonar ok (sonar_init m (e_sonar_speed e) si)))
    (try_pass disconnect_speed (fst (connect_speed ok (speed_init m (e_probe e))))) false false
  = disconnect (connect e).
Proof.
  intros Hg Hs Hp. rewrite <- (connect_refines ok e m gi si Hg Hs Hp).
  unfold abs_devices, try_pass, disconnect_gnss, disconnect_speed, disconnect. cbn. rewrite !orb_false_r.
  destruct (ok (cd_port (m_gnss_com m)) _), (ok (cd_port (m_svp_com m)) _); reflexivity.
Qed.

Lemma disconnect_refines_witness :
  connected (gps_found (mk_gnss "COM7" 4800 (Some true) true [])) (gps_open (mk_gnss "COM7" 4800 (Some true) true []))
  /\ connected (svp_found (mk_speed "COM9" 9600 (Some false) false [])) (svp_open (mk_speed "COM9" 9600 (Some false) false []))
  /\ abs_devices (try_pass disconnect_gnss (mk_gnss "COM7" 4800 (Some true) true []))
       (mk_sonar "COM3" 115200 (Some true) 1500000 [] [])
       (try_pass disconnect_speed (mk_speed "COM9" 9600 (Some false) false [])) true true
     = disconnect (abs_devices (mk_gnss "COM7" 4800 (Some true) true [])
         (mk_sonar "COM3" 115200 (Some true) 1500000 [] [])
         (mk_speed "COM9" 9600 (Some false) false []) true true).
Proof.
  assert (G : connected (Some true) true) by (exists true; split; reflexivity).
  assert (P : connected (Some false) false) by (exists false; split; [reflexivity | discriminate]).
  split; [exact G|]. split; [exact P|].
  exact (disconnect_refines (mk_gnss "COM7" 4800 (Some true) true []) (mk_sonar "COM3" 115200 (Some true) 1500000 [] [])
    (mk_speed "COM9" 9600 (Some false) false []) true true G P).
Defined.
