(* ===== verification/Processor.v ===== *)
(** * The processor program (processor.py)

    [processor.py] asks for a raw log until a name ends in [.csv], reads
    it with [Raw_Log.read_raw_log], and runs a menu loop over the module
    variables [raw_soundings], [profile], [raw_soundings_exists],
    [profile_exists], [correct], [dops], [raw_profile] and [soundings],
    until the operator types [clean]; it then hands [soundings] to
    [Clean_Soundings] ([processor_main], with the editor of [Editor]).

    The program runs in the monad [io] of [PyIO] (standard input, files,
    printed menu lines; an exception ends the program).

    The variables are the record [proc].  A list of soundings is an object
    that several variables can name: [correct_soundings] appends to the
    rows of [raw_soundings] in place and returns the same list, so after
    [correct] the names [raw_soundings] and [soundings] are aliases.  The
    sounding lists therefore live in a heap [p_heap] and the two variables
    hold addresses. *)

From S2P Require Import Prelude PyVal Reader Extractor Profile PyIO Editor.

Local Open Scope string_scope.
Local Open Scope io_scope.

(** ** The variables of processor.py *)

(** [p_log] and [p_meta] are [read_log] and [metadata] (lines 49-50);
    [p_heap] holds the sounding lists by address; [p_raw_soundings] and
    [p_soundings] are addresses, [None] for [raw_soundings = False] and
    for [soundings] not yet bound; [p_profile] and [p_dops] are [None]
    for [False]; [p_raw_profile] is the [Profile] object's
    [depths_list] and [harmonic_mean_list], [None] while unbound. *)
Record proc := mk_proc {
  p_log : list row;
  p_meta : metadata;
  p_heap : list (list row);
  p_raw_soundings : option nat;
  p_profile : option (list Q);
  p_raw_soundings_exists : bool;
  p_profile_exists : bool;
  p_correct : bool;
  p_dops : option (list row);
  p_raw_profile : option (list Q * list Q);
  p_soundings : option nat;
  p_proceed : bool }.

(** Lines 55-62. *)
Definition proc0 (meta : metadata) (log : list row) : proc :=
  mk_proc log meta [] None None false false false None None None false.

Definition set_correct (st : proc) : proc :=
  mk_proc (p_log st) (p_meta st) (p_heap st) (p_raw_soundings st) (p_profile st)
    (p_raw_soundings_exists st) (p_profile_exists st) true (p_dops st)
    (p_raw_profile st) (p_soundings st) (p_proceed st).

(** [raw_profile = Profile(...); ...; profile = ...; profile_exists = True] *)
Definition set_profile (st : proc) (ds hms : list Q) : proc :=
  mk_proc (p_log st) (p_meta st) (p_heap st) (p_raw_soundings st) (Some hms)
    (p_raw_soundings_exists st) true (p_correct st) (p_dops st)
    (Some (ds, hms)) (p_soundings st) (p_proceed st).

(** [raw_soundings = <a new list>; raw_soundings_exists = True] *)
Definition set_raw_soundings (st : proc) (rows : list row) : proc :=
  mk_proc (p_log st) (p_meta st) (p_heap st ++ [rows]) (Some (length (p_heap st))) (p_profile st)
    true (p_profile_exists st) (p_correct st) (p_dops st)
    (p_raw_profile st) (p_soundings st) (p_proceed st).

(** The rows of the list at [a] replaced in place, and [soundings]
    bound to that same list. *)
Definition set_soundings (st : proc) (a : nat) (rows : list row) : proc :=
  mk_proc (p_log st) (p_meta st) (List.firstn a (p_heap st) ++ rows :: List.skipn (S a) (p_heap st))
    (p_raw_soundings st) (p_profile st)
    (p_raw_soundings_exists st) (p_profile_exists st) (p_correct st) (p_dops st)
    (p_raw_profile st) (Some a) (p_proceed st).

Definition set_dops (st : proc) (d : list row) : proc :=
  mk_proc (p_log st) (p_meta st) (p_heap st) (p_raw_soundings st) (p_profile st)
    (p_raw_soundings_exists st) (p_profile_exists st) (p_correct st) (Some d)
    (p_raw_profile st) (p_soundings st) (p_proceed st).

Definition set_proceed (st : proc) : proc :=
  mk_proc (p_log st) (p_meta st) (p_heap st) (p_raw_soundings st) (p_profile st)
    (p_raw_soundings_exists st) (p_profile_exists st) (p_correct st) (p_dops st)
    (p_raw_profile st) (p_soundings st) true.

(** The list at an address. *)
Definition deref (st : proc) (a : nat) : list row := nth a (p_heap st) [].

(** Python truth values: [False] and the empty list are false. *)
Definition truthy {A} (v : option (list A)) : bool :=
  match v with Some (_ :: _) => true | _ => false end.

Definition raw_soundings_truthy (st : proc) : bool :=
  truthy (option_map (deref st) (p_raw_soundings st)).


(** The menu (lines 64-79).  [correct = True] is set when the option is
    printed, not when it is chosen. *)
Definition menu_display (st : proc) : io proc :=
  _ <<- when (negb (truthy (p_profile st))) (print_option "profile") ;;
  _ <<- when (negb (raw_soundings_truthy st)) (print_option "soundings") ;;
  st' <<- (if p_profile_exists st && p_raw_soundings_exists st && negb (p_correct st)
           then _ <<- print_option "correct" ;; ret (set_correct st)
           else ret st) ;;
  if p_raw_soundings_exists st' then
    _ <<- when (negb (truthy (p_dops st'))) (print_option "dops") ;;
    _ <<- print_option "clean" ;;
    ret st'
  else ret st'.

Section Menu.
Context `{L : Ln}.

(** One selection (lines 83-114).  [plot_hmss] only draws. *)
Definition menu_select (st : proc) (selection : string) : io proc :=
  if String.eqb selection "profile" then
    profile_name <<- input ;;
    rows <<- open_csv profile_name ;;
    '(ds, ss) <<- lift (read_simple_svp rows) ;;
    hms <<- lift (calculate_harmonic_mean ds ss) ;;
    _ <<- save_data (map (fun h => [PFloat h]) hms) ;;
    ret (set_profile st ds hms)
  else if String.eqb selection "soundings" then
    let meta := p_meta st in
    let raw := extract_soundings (sd_offset (m_gnss meta)) (sd_offset (m_sonar meta)) (p_log st) in
    _ <<- save_data raw ;;
    ret (set_raw_soundings st raw)
  else if String.eqb selection "correct" then
    match p_raw_profile st with
    | None => raise NameError
    | Some (ds, hms) =>
        match p_raw_soundings st with
        | None => raise TypeError
        | Some a =>
            corrected <<- lift (correct_soundings ds hms (deref st a)) ;;
            _ <<- save_data corrected ;;
            ret (set_soundings st a corrected)
        end
    end
  else if String.eqb selection "dops" then
    d <<- lift (extract_dop (p_log st)) ;;
    _ <<- save_data d ;;
    ret (set_dops st d)
  else if String.eqb selection "clean" then ret (set_proceed st)
  else ret st.

(** One iteration of the menu loop: the menu, then [input()]. *)
Definition menu_iter (st : proc) : io proc :=
  st1 <<- menu_display st ;;
  selection <<- input ;;
  menu_select st1 selection.

(** [while not proceed: ...] (lines 62-114) *)
Definition menu_loop (st : proc) : io proc :=
  while_input (fun st => negb (p_proceed st)) menu_iter st.

(** Lines 40-45: the last name typed and whether it ends in [.csv]
    ([smile] only prints). *)
Definition ask_body (s : string * bool) : io (string * bool) :=
  raw_file <<- input ;; ret (raw_file, file_check raw_file ".csv").

Definition ask_raw_file : io (string * bool) :=
  while_input (fun s => negb (snd s)) ask_body ("", false).

(** The whole program: what it hands to [Clean_Soundings] (line 116). *)
Definition processor : io (list row) :=
  '(raw_file, _) <<- ask_raw_file ;;
  rows <<- open_csv raw_file ;;
  '(metadata, read_log) <<- lift (read_raw_log rows) ;;
  st <<- menu_loop (proc0 metadata read_log) ;;
  match p_soundings st with
  | None => raise NameError
  | Some a => ret (deref st a)
  end.

(** The whole script: the menu, then [osplib.Clean_Soundings(soundings)]
    (line 116). *)
Definition processor_main : io editor :=
  soundings <<- processor ;;
  clean_soundings soundings.

End Menu.

Local Open Scope nat_scope.

Lemma quiet_ask : quiet ask_raw_file.
Proof. apply quiet_while. intros s. unfold ask_body. io_frame. Qed.

Section MenuTheorems.
Context `{L : Ln}.

Lemma reads_display (st : proc) : reads (menu_display st).
Proof. unfold menu_display. io_frame. Qed.

Lemma reads_select (st : proc) (sel : string) : reads (menu_select st sel).
Proof. unfold menu_select. io_frame. Qed.

Lemma quiet_select (st : proc) (sel : string) : quiet (menu_select st sel).
Proof. unfold menu_select. io_frame. Qed.

Lemma consumes_iter (st : proc) : consumes (menu_iter st).
Proof. apply consumes_input_between; [apply reads_display | intros; apply reads_select]. Qed.

(** The menu loop terminates within its fuel: every iteration reads
    a line, so any fuel larger than the number of lines left gives the
    same outcome as [menu_loop], which either returns with [proceed] set
    or raises (at the latest [EOFError] when the input runs out). *)
Theorem menu_loop_fuel (n : nat) (st : proc) (w : world) :
  length (w_stdin w) < n ->
  py_while n (fun st => negb (p_proceed st)) menu_iter st w = menu_loop st w.
Proof.
  intros Hn. unfold menu_loop, while_input.
  apply py_while_fuel; [exact consumes_iter | exact Hn | lia].
Qed.

(** ** The menu as printed *)

Definition offers_correct (st : proc) : bool :=
  p_profile_exists st && p_raw_soundings_exists st && negb (p_correct st).

Definition opt_line (b : bool) (o : string) : list string := if b then [o] else [].

(** The option lines one display prints. *)
Definition display_lines (st : proc) : list string :=
  (opt_line (negb (truthy (p_profile st))) "profile"
   ++ opt_line (negb (raw_soundings_truthy st)) "soundings"
   ++ opt_line (offers_correct st) "correct"
   ++ (if p_raw_soundings_exists st
       then opt_line (negb (truthy (p_dops st))) "dops" ++ ["clean"] else []))%list.

Lemma menu_display_eq (st : proc) (w : world) :
  menu_display st w
  = (Ok (if offers_correct st then set_correct st else st),
     mk_world (w_stdin w) (w_files w) (w_menu w ++ display_lines st)%list).
Proof.
  destruct w as [i f m], st. unfold menu_display, display_lines, offers_correct, opt_line.
  unfold raw_soundings_truthy, deref. cbn.
  repeat match goal with |- context [if ?b then _ else _] => destruct b; cbn end;
    cbn; rewrite ?app_nil_r, <- ?app_assoc; reflexivity.
Qed.

Definition count_correct (l : list string) : nat := count_occ string_dec l "correct".

Lemma count_correct_app (l1 l2 : list string) :
  count_correct (l1 ++ l2)%list = count_correct l1 + count_correct l2.
Proof. apply count_occ_app. Qed.

Lemma count_display (st : proc) :
  count_correct (display_lines st) = if offers_correct st then 1 else 0.
Proof.
  unfold display_lines, opt_line. rewrite !count_correct_app.
  destruct (truthy (p_profile st)), (raw_soundings_truthy st), (offers_correct st),
    (p_raw_soundings_exists st), (truthy (p_dops st)); reflexivity.
Qed.

Lemma select_keeps_correct (st : proc) (sel : string) :
  returns (menu_select st sel) (fun st' => p_correct st' = p_correct st).
Proof. unfold menu_select. io_returns; reflexivity. Qed.

(** The menu invariant: "correct" has been printed at most once, and not
    at all while the flag [correct] is still false. *)
Definition correct_inv (st : proc) (w : world) : Prop :=
  count_correct (w_menu w) <= if p_correct st then 1 else 0.

Lemma menu_iter_inv (st : proc) (w : world) :
  correct_inv st w ->
  match menu_iter st w with
  | (Ok st', w') => correct_inv st' w'
  | (Err _, w') => count_correct (w_menu w') <= 1
  end.
Proof.
  unfold correct_inv, menu_iter, io_bind. rewrite menu_display_eq. cbn [w_stdin w_files w_menu].
  intros Hi. pose proof (count_display st) as Hd.
  assert (Hc : count_correct (w_menu w ++ display_lines st)%list
               <= if p_correct (if offers_correct st then set_correct st else st) then 1 else 0).
  { rewrite count_correct_app, Hd. unfold offers_correct in *.
    destruct (p_profile_exists st && p_raw_soundings_exists st && negb (p_correct st)) eqn:E;
      [apply andb_true_iff in E as [_ E]; destruct (p_correct st); simpl in *; lia | lia]. }
  unfold input; cbn [w_stdin]. destruct (w_stdin w) as [|choice rest];
    [cbn; revert Hc; unfold count_correct;
     destruct (p_correct (if offers_correct st then set_correct st else st)); lia|].
  pose proof (quiet_select (if offers_correct st then set_correct st else st) choice
                (mk_world rest (w_files w) (w_menu w ++ display_lines st)%list)) as Hq.
  pose proof (select_keeps_correct (if offers_correct st then set_correct st else st) choice
                (mk_world rest (w_files w) (w_menu w ++ display_lines st)%list)) as Hk.
  destruct (menu_select _ choice _) as [[st'|e] w']; simpl in Hq, Hk |- *; rewrite Hq.
  - rewrite Hk. exact Hc.
  - revert Hc. destruct (p_correct (if offers_correct st then set_correct st else st)); lia.
Qed.

Lemma menu_loop_inv (st : proc) (w : world) :
  correct_inv st w ->
  match menu_loop st w with
  | (Ok st', w') => correct_inv st' w'
  | (Err _, w') => count_correct (w_menu w') <= 1
  end.
Proof.
  apply (py_while_inv correct_inv (fun w' => count_correct (w_menu w') <= 1)).
  - intros s w0. unfold correct_inv. destruct (p_correct s); lia.
  - intros s w0 Hi _. apply menu_iter_inv, Hi.
Qed.

(** C32. The menu offers [correct] at most once in a whole run of the
    processor: the flag [correct] is set when the option is printed, so
    an operator who picks anything else at that prompt never sees it
    again (typing it still works, the menu does not check). *)
Theorem correct_offered_once (w : world) :
  w_menu w = [] -> count_correct (w_menu (snd (processor w))) <= 1.
Proof.
  intros H0. unfold processor, io_bind.
  pose proof (quiet_ask w) as Q1. destruct (ask_raw_file w) as [[[name ok]|e] w1];
    simpl in Q1 |- *; [|rewrite Q1, H0; cbv [count_correct count_occ]; lia].
  pose proof (quiet_open name w1) as Q2. destruct (open_csv name w1) as [[rows|e] w2];
    simpl in Q2 |- *; [|rewrite Q2, Q1, H0; cbv [count_correct count_occ]; lia].
  destruct (read_raw_log rows) as [[meta log]|e]; unfold lift; cbv beta iota; [|cbn [snd]; rewrite Q2, Q1, H0; cbv [count_correct count_occ]; lia].
  assert (Hi : correct_inv (proc0 meta log) w2) by (unfold correct_inv; rewrite Q2, Q1, H0; cbv [count_correct count_occ]; lia).
  pose proof (menu_loop_inv _ _ Hi) as Hl. destruct (menu_loop _ w2) as [[st|e] w3]; [|exact Hl].
  unfold correct_inv in Hl. destruct (p_soundings st); simpl;
    (eapply Nat.le_trans; [exact Hl | destruct (p_correct st); lia]).
Qed.

Lemma select_keeps_soundings (st : proc) (choice : string) :
  choice <> "correct" ->
  returns (menu_select st choice) (fun st' => p_soundings st' = p_soundings st).
Proof.
  intros Hs. unfold menu_select. io_returns; try reflexivity.
  exfalso. apply Hs, String.eqb_eq. assumption.
Qed.

(** The invariant of a run in which nobody types [correct]. *)
Definition no_correct (st : proc) (w : world) : Prop :=
  p_soundings st = None /\ ~ In "correct" (w_stdin w).

Lemma menu_iter_no_correct (st : proc) (w : world) :
  no_correct st w ->
  match menu_iter st w with (Ok st', w') => no_correct st' w' | (Err _, _) => True end.
Proof.
  intros [Hs Hw]. unfold menu_iter, io_bind. rewrite menu_display_eq.
  unfold input; cbn [w_stdin]. destruct (w_stdin w) as [|choice rest] eqn:E; [exact I|].
  cbn [w_files w_menu].
  assert (Hc : choice <> "correct") by (intros ->; apply Hw; left; reflexivity).
  assert (Hr : ~ In "correct" rest) by (intros H; apply Hw; right; exact H).
  set (st1 := if offers_correct st then set_correct st else st).
  assert (Hs1 : p_soundings st1 = None) by (unfold st1; destruct (offers_correct st); exact Hs).
  set (w1 := mk_world rest (w_files w) (w_menu w ++ display_lines st)%list).
  pose proof (select_keeps_soundings st1 choice Hc w1) as Hk.
  pose proof (reads_not_in (menu_select st1 choice) w1 _ (reads_select st1 choice) Hr) as Hn.
  destruct (menu_select st1 choice w1) as [[st'|e] w']; [|exact I].
  split; [rewrite Hk; exact Hs1 | exact Hn].
Qed.

Lemma reads_ask : reads ask_raw_file.
Proof. apply reads_while. intros s. unfold ask_body. io_frame. Qed.

(** C30. Without [correct] the processor never reaches the cleaning step:
    [soundings] is bound only by the [correct] branch, so on any input
    in which the operator never types [correct] the program ends in an
    exception ([NameError] at line 116 once [clean] is chosen). *)
Theorem clean_needs_correct (w : world) :
  ~ In "correct" (w_stdin w) -> is_ok (fst (processor w)) = false.
Proof.
  intros Hw. unfold processor, io_bind.
  pose proof (reads_not_in _ w _ reads_ask Hw) as H1.
  destruct (ask_raw_file w) as [[[name ok]|e] w1]; [|reflexivity]. simpl in H1.
  destruct (open_csv name w1) as [[rows|e] w2] eqn:Eo; [|reflexivity].
  assert (H2 : ~ In "correct" (w_stdin w2)).
  { pose proof (reads_not_in _ w1 _ (reads_open name) H1) as H. rewrite Eo in H. exact H. }
  destruct (read_raw_log rows) as [[meta log]|e]; unfold lift; cbv beta iota; [|reflexivity].
  assert (Hi : no_correct (proc0 meta log) w2) by (split; [reflexivity | exact H2]).
  pose proof (py_while_inv no_correct (fun _ => True) (fun st => negb (p_proceed st)) menu_iter
                (fun _ _ _ => I) (fun s w0 H _ => menu_iter_no_correct s w0 H)
                (S (length (w_stdin w2))) _ _ Hi) as Hl.
  unfold menu_loop, while_input.
  destruct (py_while _ _ menu_iter _ w2) as [[st|e] w3]; [|reflexivity].
  destruct Hl as [Hs _]. rewrite Hs. reflexivity.
Qed.

Definition after_display (st : proc) : proc :=
  if offers_correct st then set_correct st else st.

Lemma after_display_fields (st : proc) :
  p_heap (after_display st) = p_heap st /\ p_raw_soundings (after_display st) = p_raw_soundings st
  /\ p_raw_profile (after_display st) = p_raw_profile st /\ p_soundings (after_display st) = p_soundings st
  /\ p_proceed (after_display st) = p_proceed st /\ p_log (after_display st) = p_log st
  /\ p_meta (after_display st) = p_meta st.
Proof. unfold after_display. destruct (offers_correct st); repeat split. Qed.

Lemma deref_after_display (st : proc) (a : nat) : deref (after_display st) a = deref st a.
Proof. unfold deref. rewrite (proj1 (after_display_fields st)). reflexivity. Qed.

Lemma deref_set_soundings (st : proc) (a : nat) (rows : list row) :
  a < length (p_heap st) -> deref (set_soundings st a rows) a = rows.
Proof.
  intros Ha. unfold deref, set_soundings. cbn [p_heap].
  rewrite <- (firstn_length_le (p_heap st) (n := a)) at 1 by lia. apply nth_middle.
Qed.

Lemma length_set_soundings (st : proc) (a : nat) (rows : list row) :
  a < length (p_heap st) -> length (p_heap (set_soundings st a rows)) = length (p_heap st).
Proof.
  intros Ha. unfold set_soundings. cbn [p_heap].
  rewrite length_app, firstn_length_le by lia. cbn [length]. rewrite length_skipn. lia.
Qed.

(** [correct], then [no] at the save prompt. *)
Lemma menu_select_correct (st : proc) (a : nat) (ds hms : list Q) (r : list row)
    (rest : list string) (f : string -> option (list srow)) (m : list string) :
  p_raw_profile st = Some (ds, hms) -> p_raw_soundings st = Some a ->
  correct_soundings ds hms (deref st a) = Ok r ->
  menu_select st "correct" (mk_world ("no" :: rest) f m) = (Ok (set_soundings st a r), mk_world rest f m).
Proof.
  intros Hp Hs Hc. unfold menu_select. cbv [String.eqb Ascii.eqb Bool.eqb].
  rewrite Hp, Hs. unfold io_bind, lift. rewrite Hc. reflexivity.
Qed.

Lemma menu_iter_correct (st : proc) (a : nat) (ds hms : list Q) (r : list row)
    (rest : list string) (f : string -> option (list srow)) (m : list string) :
  p_raw_profile st = Some (ds, hms) -> p_raw_soundings st = Some a ->
  correct_soundings ds hms (deref st a) = Ok r ->
  menu_iter st (mk_world ("correct" :: "no" :: rest) f m)
  = (Ok (set_soundings (after_display st) a r), mk_world rest f (m ++ display_lines st)%list).
Proof.
  intros Hp Hs Hc. unfold menu_iter. unfold io_bind at 1. rewrite menu_display_eq.
  cbv beta iota. unfold io_bind, input. cbn [w_stdin w_files w_menu]. fold (after_display st).
  destruct (after_display_fields st) as (_ & Hs' & Hp' & _).
  apply (menu_select_correct _ a ds hms); [rewrite Hp' | rewrite Hs' | rewrite deref_after_display]; assumption.
Qed.

Lemma menu_iter_clean (st : proc) (rest : list string) (f : string -> option (list srow)) (m : list string) :
  menu_iter st (mk_world ("clean" :: rest) f m)
  = (Ok (set_proceed (after_display st)), mk_world rest f (m ++ display_lines st)%list).
Proof. unfold menu_iter, io_bind. rewrite menu_display_eq. reflexivity. Qed.

Lemma set_soundings_fields (st : proc) (a : nat) (r : list row) :
  p_raw_profile (set_soundings st a r) = p_raw_profile st
  /\ p_raw_soundings (set_soundings st a r) = p_raw_soundings st
  /\ p_proceed (set_soundings st a r) = p_proceed st
  /\ p_soundings (set_soundings st a r) = Some a.
Proof. repeat split. Qed.

(** One [correct] (answered [no]) from a state whose profile and
    soundings exist: the facts the next iteration needs. *)
Lemma correct_step_facts (st : proc) (a : nat) (ds hms : list Q) (r : list row) :
  p_proceed st = false -> p_raw_profile st = Some (ds, hms) -> p_raw_soundings st = Some a ->
  a < length (p_heap st) ->
  let st' := set_soundings (after_display st) a r in
  p_proceed st' = false /\ p_raw_profile st' = Some (ds, hms) /\ p_raw_soundings st' = Some a
  /\ a < length (p_heap st') /\ deref st' a = r /\ p_soundings st' = Some a.
Proof.
  intros Hq Hp Hs Ha st'.
  destruct (after_display_fields st) as (Hh & Hs1 & Hp1 & _ & Hq1 & _).
  destruct (set_soundings_fields (after_display st) a r) as (Hp2 & Hs2 & Hq2 & Hd2).
  assert (A : a < length (p_heap (after_display st))) by (rewrite Hh; exact Ha).
  unfold st'. rewrite Hp2, Hs2, Hq2, Hp1, Hs1, Hq1, length_set_soundings, Hh by exact A.
  repeat split; try assumption. apply deref_set_soundings, A.
Qed.

(** C31. [correct] corrects the list [raw_soundings] names in place and
    binds [soundings] to that same list: choosing it twice corrects the
    already corrected rows again (each row then carries two sets of
    corrected fields), and what [Clean_Soundings] receives is the list
    [raw_soundings] still names. *)
Theorem correct_twice_aliased (st : proc) (a : nat) (ds hms : list Q) (r1 r2 : list row)
    (rest : list string) (f : string -> option (list srow)) (m : list string) :
  p_proceed st = false -> p_raw_profile st = Some (ds, hms) -> p_raw_soundings st = Some a ->
  a < length (p_heap st) ->
  correct_soundings ds hms (deref st a) = Ok r1 -> correct_soundings ds hms r1 = Ok r2 ->
  exists st' w',
    menu_loop st (mk_world ("correct" :: "no" :: "correct" :: "no" :: "clean" :: rest) f m) = (Ok st', w')
    /\ p_soundings st' = Some a /\ p_raw_soundings st' = Some a /\ deref st' a = r2.
Proof.
  intros Hq Hp Hs Ha H1 H2.
  destruct (correct_step_facts st a ds hms r1 Hq Hp Hs Ha) as (Hq2 & Hp2 & Hs2 & Ha2 & Hd2 & _).
  set (st2 := set_soundings (after_display st) a r1) in *.
  destruct (correct_step_facts st2 a ds hms r2 Hq2 Hp2 Hs2 Ha2) as (Hq3 & _ & Hs3 & _ & Hd3 & Hn3).
  set (st3 := set_soundings (after_display st2) a r2) in *.
  destruct (after_display_fields st3) as (Hh4 & Hs4 & _ & Hn4 & Hq4 & _).
  unfold menu_loop, while_input. cbn [w_stdin length].
  rewrite (py_while_S_ok _ (fun st => negb (p_proceed st)) menu_iter st st2 _ _ ltac:(cbv beta; rewrite Hq; reflexivity)
             (menu_iter_correct st a ds hms r1 _ _ _ Hp Hs H1)).
  rewrite (py_while_S_ok _ (fun st => negb (p_proceed st)) menu_iter st2 st3 _ _ ltac:(cbv beta; rewrite Hq2; reflexivity)
             (menu_iter_correct st2 a ds hms r2 _ _ _ Hp2 Hs2 ltac:(rewrite Hd2; exact H2))).
  rewrite (py_while_S_ok _ (fun st => negb (p_proceed st)) menu_iter st3 _ _ _ ltac:(cbv beta; rewrite Hq3; reflexivity) (menu_iter_clean st3 _ _ _)).
  rewrite py_while_S_stop by reflexivity.
  do 2 eexists. split; [reflexivity|]. cbn [p_soundings p_raw_soundings set_proceed].
  rewrite Hn4, Hs4. split; [exact Hn3 | split; [exact Hs3|]].
  unfold deref. cbn [p_heap set_proceed]. rewrite Hh4. exact Hd3.
Qed.

Lemma ask_body_step (s : string * bool) (x : string) (rest : list string)
    (f : string -> option (list srow)) (m : list string) :
  ask_body s (mk_world (x :: rest) f m) = (Ok (x, file_check x ".csv"), mk_world rest f m).
Proof. reflexivity. Qed.

Lemma ask_first (pre : list string) (name : string) (rest : list string)
    (f : string -> option (list srow)) (m : list string) (n : nat) (s0 : string) :
  Forall (fun x => file_check x ".csv" = false) pre -> file_check name ".csv" = true ->
  length pre < n ->
  py_while n (fun s => negb (snd s)) ask_body (s0, false) (mk_world (pre ++ name :: rest) f m)
  = (Ok (name, true), mk_world rest f m).
Proof.
  intros Hpre Hn. revert n s0. induction Hpre as [|x pre Hx Hpre IH]; intros [|n] s0 Hl;
    cbn [length] in Hl; try lia.
  - cbn [py_while app snd negb]. unfold io_bind at 1. rewrite ask_body_step, Hn.
    destruct n; reflexivity.
  - cbn [py_while app snd negb]. unfold io_bind at 1. rewrite ask_body_step, Hx. apply IH. lia.
Qed.

(** The raw-log prompt returns the first name typed that ends in
    [.csv], having consumed the names before it; whether the file exists
    is not checked ([file_check] returns before its existence test). *)
Theorem ask_raw_file_first_csv (pre : list string) (name : string) (rest : list string)
    (f : string -> option (list srow)) (m : list string) :
  Forall (fun x => file_check x ".csv" = false) pre -> file_check name ".csv" = true ->
  ask_raw_file (mk_world (pre ++ name :: rest) f m) = (Ok (name, true), mk_world rest f m).
Proof.
  intros Hpre Hn. unfold ask_raw_file, while_input. apply ask_first; [exact Hpre | exact Hn |].
  cbn [w_stdin]. rewrite length_app. cbn [length]. lia.
Qed.

(** C25. A raw-log name that ends in [.csv] but names no file passes
    the prompt: [file_check] returns on the suffix test before its
    existence test (osplib.py 736-740), so processor.py leaves the loop
    with that name, and [read_raw_log] raises [FileNotFoundError] at
    [open] instead of the prompt asking again, having read nothing after
    the name. *)
Theorem missing_csv_raises (pre : list string) (name : string) (rest : list string)
    (f : string -> option (list srow)) (m : list string) :
  Forall (fun x => file_check x ".csv" = false) pre -> file_check name ".csv" = true -> f name = None ->
  processor (mk_world (pre ++ name :: rest) f m) = (Err FileNotFoundError, mk_world rest f m).
Proof.
  intros Hpre Hn Hf. unfold processor. unfold io_bind at 1.
  rewrite (ask_raw_file_first_csv pre name rest f m Hpre Hn).
  unfold io_bind, open_csv. cbn [w_files]. rewrite Hf. reflexivity.
Qed.


Lemma menu_iter_no_profile (st : proc) (rest : list string) (f : string -> option (list srow)) (m : list string) :
  p_raw_profile st = None ->
  menu_iter st (mk_world ("correct" :: rest) f m)
  = (Err NameError, mk_world rest f (m ++ display_lines st)%list).
Proof.
  intros Hp. unfold menu_iter, io_bind at 1. rewrite menu_display_eq. cbv beta iota.
  unfold io_bind, input. cbn [w_stdin w_files w_menu]. fold (after_display st).
  destruct (after_display_fields st) as (_ & _ & Hp' & _).
  unfold menu_select. cbv [String.eqb Ascii.eqb Bool.eqb]. rewrite Hp', Hp. reflexivity.
Qed.

(** C33. The menu does not check a selection against the options it
    printed: typing [correct] at the first menu, before any profile was
    computed, evaluates [raw_profile.correct_soundings] with
    [raw_profile] unbound and ends the processor with [NameError]. *)
Theorem correct_before_profile_raises (name : string) (rows : list srow) (meta : metadata)
    (log : list row) (rest : list string) (f : string -> option (list srow)) (m : list string) :
  file_check name ".csv" = true -> f name = Some rows -> read_raw_log rows = Ok (meta, log) ->
  fst (processor (mk_world (name :: "correct" :: rest) f m)) = Err NameError.
Proof.
  intros Hn Hf Hr. unfold processor, ask_raw_file, while_input, io_bind at 1.
  pose proof (ask_first [] name ("correct" :: rest) f m (S (length (w_stdin
    (mk_world (name :: "correct" :: rest) f m)))) "" (Forall_nil _) Hn ltac:(cbn; lia)) as E.
  cbn [app] in E. rewrite E. cbv beta iota. unfold io_bind, open_csv. cbn [w_files]. rewrite Hf.
  unfold lift. rewrite Hr. cbv beta iota. unfold menu_loop, while_input. cbn [w_stdin length].
  rewrite (py_while_S_err _ (fun st => negb (p_proceed st)) menu_iter (proc0 meta log) _ _ _ eq_refl
             (menu_iter_no_profile (proc0 meta log) rest f m eq_refl)).
  reflexivity.
Qed.

End MenuTheorems.

(** ** A session of the processor *)

Module Demo.

(** The header [write_meta_header] writes, then the body of a raw log. *)
Definition header : list srow :=
  [["OSP_RAW_LOG"]; ["Header_Start"]; ["Survey"; "Lake"; "2022"]; ["0"; "0"]; ["Boat"];
   ["GNSS"; "F9P"; "0"; "0"; "0"; "0"]; ["Sonar"; "Ping"; "-0.5"; "0"; "0"; "0"];
   ["SVP"; "probe"; "0"]; ["GNSS_Com"; "COM1"; "9600"]; ["Sonar_Com"; "COM2"; "115200"];
   ["SVP_Com"; "COM3"; "9600"]; ["Header_End"]].

Definition logfile : list srow :=
  (header ++ [Extractor.Demo.gga; Extractor.Demo.depth; Extractor.Demo.gll; Extractor.Demo.depth])%list.

(** A profile whose first speed is not a multiple of 0.1 m/s, so that
    its first layer has a gradient. *)
Definition svp : list srow := [["1"; "1500.25"]; ["5"; "1490"]; ["10"; "1480"]].

Definition files (n : string) : option (list srow) :=
  if String.eqb n "log.csv" then Some logfile
  else if String.eqb n "svp.csv" then Some svp else None.

Definition w0 (inp : list string) : world := mk_world inp files [].

Definition no_sensor : sensor_desc := mk_sensor "" "" 0 0 0 0.
Definition no_com : com_desc := mk_com "" "" 0.
Definition no_meta : metadata :=
  mk_meta ("", "", "") (0%Q, 0%Q) "" no_sensor no_sensor ("", "", 0%Q) no_com no_com no_com.

Definition meta : metadata :=
  match read_raw_log logfile with Ok (m, _) => m | Err _ => no_meta end.
Definition log : list row :=
  match read_raw_log logfile with Ok (_, l) => l | Err _ => [] end.

Definition ds : list Q := [1; 5; 10]%Q.
Definition hms : list Q :=
  match calculate_harmonic_mean (L := pade_Ln) ds [150025 # 100; 1490; 1480]%Q with
  | Ok h => h | Err _ => [] end.

(** The state after [soundings] and [profile]: one list of soundings at
    address 0, [correct] already printed. *)
Definition st : proc :=
  mk_proc log meta [extract_soundings 0 (-1 # 2) log] (Some 0%nat) (Some hms) true true true None
    (Some (ds, hms)) None false.

Definition r1 : list row :=
  match correct_soundings ds hms (deref st 0) with Ok r => r | Err _ => [] end.
Definition r2 : list row :=
  match correct_soundings ds hms r1 with Ok r => r | Err _ => [] end.

End Demo.

Lemma clean_needs_correct_witness :
  is_ok (fst (processor (L := pade_Ln) (Demo.w0 ["log.csv"; "soundings"; "no"; "clean"]))) = false.
Proof.
  exact (clean_needs_correct (L := pade_Ln) (Demo.w0 ["log.csv"; "soundings"; "no"; "clean"])
           ltac:(cbn; intros H; repeat (destruct H as [H|H]; [discriminate H|]); exact H)).
Defined.

Lemma correct_twice_aliased_witness :
  exists st' w',
    menu_loop (L := pade_Ln) Demo.st
      (mk_world ["correct"; "no"; "correct"; "no"; "clean"] Demo.files []) = (Ok st', w')
    /\ p_soundings st' = Some 0%nat /\ p_raw_soundings st' = Some 0%nat /\ deref st' 0 = Demo.r2.
Proof.
  exact (correct_twice_aliased (L := pade_Ln) Demo.st 0 Demo.ds Demo.hms Demo.r1 Demo.r2 [] Demo.files []
           eq_refl eq_refl eq_refl ltac:(vm_compute; lia) ltac:(vm_compute; reflexivity)
           ltac:(vm_compute; reflexivity)).
Defined.

Lemma correct_offered_once_witness :
  count_correct (w_menu (snd (processor (L := pade_Ln)
    (Demo.w0 ["log.csv"; "soundings"; "no"; "profile"; "svp.csv"; "no"; "dops"; "no"; "correct"; "no"; "clean"]))))
  <= 1.
Proof.
  exact (correct_offered_once (L := pade_Ln)
    (Demo.w0 ["log.csv"; "soundings"; "no"; "profile"; "svp.csv"; "no"; "dops"; "no"; "correct"; "no"; "clean"])
    eq_refl).
Defined.

Lemma correct_before_profile_raises_witness :
  fst (processor (L := pade_Ln) (mk_world ["log.csv"; "correct"] Demo.files [])) = Err NameError.
Proof.
  exact (correct_before_profile_raises (L := pade_Ln) "log.csv" Demo.logfile Demo.meta Demo.log []
           Demo.files [] eq_refl eq_refl ltac:(vm_compute; reflexivity)).
Defined.

Lemma missing_csv_raises_witness :
  Forall (fun x => file_check x ".csv" = false) ["log.txt"%string]
  /\ file_check "missing.csv" ".csv" = true /\ (fun _ : string => @None (list srow)) "missing.csv"%string = None
  /\ processor (L := pade_Ln) (mk_world (["log.txt"; "missing.csv"; "soundings"]%string) (fun _ => None) [])
     = (Err FileNotFoundError, mk_world ["soundings"%string] (fun _ => None) []).
Proof.
  assert (P : Forall (fun x => file_check x ".csv" = false) ["log.txt"%string]) by (repeat constructor).
  assert (N : file_check "missing.csv" ".csv" = true) by reflexivity.
  split; [exact P|]. split; [exact N|]. split; [reflexivity|].
  exact (missing_csv_raises ["log.txt"%string] "missing.csv" ["soundings"%string] (fun _ => None) [] P N eq_refl).
Defined.
