(* ===== verification/Configurator.v ===== *)
(** * configurator.py: writing the configuration file

    configurator.py asks whether to configure a new survey.  On [yes] it
    prompts for every field, repeating the prompts of the survey name and
    file name (no space, a [.csv] name), of the date (three integers in
    range) and of the two waterline offsets (numbers of the right sign)
    until they are accepted; otherwise it keeps the values written at the
    top of the script.  It then builds the metadata dictionary, which
    calls [dt.datetime(year, month, day)], and writes it with
    [osplib.write_meta_header] as the configuration file that online.py
    reads with [read_config_file].

    [survey_config] holds the script's variables, [defaults] their values
    at lines 26-88, [prompt_config] the prompts (lines 128-258) in the
    [io] monad of [PyIO], [survey_metadata] the dictionary (lines
    266-277) and [configurator] the whole script.  [write_meta_header] is
    the writer on the rows of any metadata dictionary; [Header.header_rows]
    is its instance on the metadata [read_config_file] returns
    ([header_rows_generic]).

    The theorems: the day test of the date prompt tests the month again,
    so the prompt accepts days [dt.datetime] rejects, and the script then
    raises [ValueError] without writing the file; the file the script
    writes ([configurator_tail]) on the configuration the prompts return,
    or on its defaults, reads back with [read_config_file] as those
    values, provided no
    name is a header marker and the sound speed and the baud rates (which
    the prompts do not check) are numbers. *)

From S2P Require Import Prelude PyVal Repr Reader Header PyIO.

Local Open Scope string_scope.
Local Open Scope io_scope.

(** ** The script's variables *)

Record survey_config := mk_config {
  survey_name : string;
  survey_location : string;
  survey_filename : string;
  survey_date : Z * Z * Z;
  vessel_name : string;
  gnss_name : string;
  gnss_type : string;
  gnss_waterline_offset : Q;
  sonar_name : string;
  sonar_type : string;
  sonar_waterline_offset : Q;
  svp_name : string;
  svp_type : string;
  default_sndspd : pyval;   (** an [int] at line 64, the typed [str] otherwise *)
  gnss_port : string;
  gnss_baud : pyval;
  sonar_port : string;
  sonar_baud : pyval;
  svp_port : string;
  svp_baud : pyval }.

(** Lines 26-88: the information entered in the code. *)
Definition defaults : survey_config :=
  mk_config "Example_Survey_Name" "Example_Survey_Location" "Output/example_survey_name_config.csv"
    (2022, 1, 1)%Z "Example_Vessel_Name" "Example_GNSS_Name" "Generic_NMEA" (1 # 2)
    "Example_Sonar_Name" "BR_Ping" (-1 # 2) "Example_SVP_Name" "Valeport_SVS" (PInt 1480%Z)
    "COM7" (PInt 460800%Z) "COM3" (PInt 115200%Z) "COM9" (PInt 9600%Z).

(** ** The prompts *)

(** [len(s.split(' '))]: one more than the spaces in [s]. *)
Definition split_len (s : string) : nat :=
  S (count_occ Ascii.ascii_dec (list_ascii_of_string s) " "%char).

(** [proceed = False; while not proceed: ...]: [body] takes the
    variable's value and gives [proceed] and the new value. *)
Definition ask_until {A} (init : A) (body : A -> io (bool * A)) : io A :=
  p <<- while_input (fun p => negb (fst p)) (fun p => body (snd p)) (false, init) ;;
  ret (snd p).

(** Lines 135-143: a name without spaces. *)
Definition ask_name (_ : string) : io (bool * string) :=
  s <<- input ;; ret (Nat.eqb (split_len s) 1, s).

(** Lines 146-157: a file name without spaces ending in [.csv] (the test
    [str.endswith] makes, as in [file_check]). *)
Definition ask_filename (_ : string) : io (bool * string) :=
  s <<- input ;; ret (Nat.eqb (split_len s) 1 && file_check s ".csv", s).

(** Lines 167-169, as written: the day test checks [survey_month > 0]. *)
Definition date_ok (y m d : Z) : bool :=
  (((2000 <? y) && (y <? 2100)) && ((m <=? 12) && (0 <? m)) && ((d <=? 31) && (0 <? m)))%Z.

(** Lines 159-178: three lines per try; a field that is no integer
    raises in [int()], caught by the [except], and the loop repeats. *)
Definition ask_date (prev : Z * Z * Z) : io (bool * (Z * Z * Z)) :=
  y <<- input ;; m <<- input ;; d <<- input ;;
  match parse_int y, parse_int m, parse_int d with
  | Some y, Some m, Some d => ret (date_ok y m d, (y, m, d))
  | _, _, _ => ret (false, prev)
  end.

(** Lines 194-206 and 214-225: [float(input(...))] with a sign test
    [ok]; a line that is no number is caught and asked again. *)
Definition ask_offset (ok : Q -> bool) (prev : Q) : io (bool * Q) :=
  s <<- input ;;
  match parse_float s with
  | Some q => ret (ok q, q)
  | None => ret (false, prev)
  end.

(** [gnss_waterline_offset >= 0] and [sonar_waterline_offset <= 0]. *)
Definition gnss_offset_ok (q : Q) : bool := negb (Qltb q 0).
Definition sonar_offset_ok (q : Q) : bool := negb (Qltb 0 q).

(** Lines 128-258: the prompts of a new survey, in their order.  The
    sound speed and the baud rates are kept as the strings typed. *)
Definition prompt_config : io survey_config :=
  name <<- ask_until (survey_name defaults) ask_name ;;
  location <<- input ;;
  filename <<- ask_until (survey_filename defaults) ask_filename ;;
  date <<- ask_until (survey_date defaults) ask_date ;;
  vessel <<- input ;;
  gname <<- input ;; gtype <<- input ;;
  goff <<- ask_until (gnss_waterline_offset defaults) (ask_offset gnss_offset_ok) ;;
  sname <<- input ;; stype <<- input ;;
  soff <<- ask_until (sonar_waterline_offset defaults) (ask_offset sonar_offset_ok) ;;
  pname <<- input ;; ptype <<- input ;; speed <<- input ;;
  gport <<- input ;; gbaud <<- input ;;
  sport <<- input ;; sbaud <<- input ;;
  pport <<- input ;; pbaud <<- input ;;
  ret (mk_config name location filename date vessel gname gtype goff sname stype soff
         pname ptype (PStr speed) gport (PStr gbaud) sport (PStr sbaud) pport (PStr pbaud)).

(** ** The dictionary and the file *)

Definition leap_year (y : Z) : bool :=
  (((y mod 4 =? 0) && negb (y mod 100 =? 0)) || (y mod 400 =? 0))%Z.

Definition days_in_month (y m : Z) : Z :=
  (if m =? 2 then (if leap_year y then 29 else 28)
   else if (m =? 4) || (m =? 6) || (m =? 9) || (m =? 11) then 30 else 31)%Z.

(** [dt.datetime(y, m, d)]: [ValueError] for a date out of range. *)
Definition dt_datetime (y m d : Z) : res (Z * Z * Z) :=
  if (((1 <=? y) && (y <=? 9999)) && ((1 <=? m) && (m <=? 12))
      && ((1 <=? d) && (d <=? days_in_month y m)))%Z
  then Ok (y, m, d) else Err ValueError.

(** [str(datetime)], which [csv.writer] writes: [YYYY-MM-DD 00:00:00]. *)
Definition str_datetime (date : Z * Z * Z) : string :=
  let '(y, m, d) := date in
  string_of_list_ascii (pad 4 y ++ ["-"%char] ++ pad 2 m ++ ["-"%char] ++ pad 2 d)%list ++ " 00:00:00".

(** Lines 266-277: the rows of [survey_metadata] after its file type. *)
Definition survey_metadata (c : survey_config) : res (list row) :=
  let '(y, m, d) := survey_date c in
  date <- dt_datetime y m d ;;
  Ok [[PStr (survey_name c); PStr (survey_location c); PStr (str_datetime date)];
      [PInt 6378137%Z; PFloat (298257223563 # 1000000000)];
      [PStr (vessel_name c)];
      [PStr (gnss_name c); PStr (gnss_type c); PFloat (gnss_waterline_offset c); PInt 0%Z; PInt 0%Z; PInt 0%Z];
      [PStr (sonar_name c); PStr (sonar_type c); PFloat (sonar_waterline_offset c); PInt 0%Z; PInt 0%Z; PInt 0%Z];
      [PStr (svp_name c); PStr (svp_type c); default_sndspd c];
      [PStr (gnss_name c); PStr (gnss_port c); gnss_baud c];
      [PStr (sonar_name c); PStr (sonar_port c); sonar_baud c];
      [PStr (svp_name c); PStr (svp_port c); svp_baud c]].

(** [write_meta_header(filename, metadata)] (osplib.py 300-317) with
    [metadata['filetype'] = [ft]] and the other rows [rows]: the rows of
    the new file, [csv.writer] writing [str] of each field. *)
Definition write_meta_header (ft : string) (rows : list row) : list srow :=
  [["['" ++ ft ++ "']"]; ["Header_Start"]] ++ map (map csv_field) rows
  ++ (if String.eqb ft "OSP_SIMPLE_LOG" then [[simple_columns]] else []) ++ [["Header_End"]].

(** Lines 122-280. *)
Definition configurator : io unit :=
  new_survey <<- input ;;
  c <<- (if String.eqb new_survey "yes" then prompt_config else ret defaults) ;;
  rows <<- lift (survey_metadata c) ;;
  write_file (survey_filename c) (write_meta_header "OSPLIB_CONFIG" rows).

Lemma csv_field_str (s : string) : csv_field (PStr s) = s.
Proof. apply string_of_list_ascii_of_string. Qed.

(** ** [write_meta_header] on typed metadata *)

(** The dictionary [read_config_file] returns, as the rows of values
    [write_meta_header] writes. *)
Definition meta_values (m : metadata) : list row :=
  let '(s0, s1, s2) := m_survey m in
  let '(g0, g1) := m_geodetics m in
  let '(p0, p1, p2) := m_svp m in
  let sensor s := [PStr (sd_name s); PStr (sd_type s); PFloat (sd_offset s); PFloat (sd_r1 s);
                   PFloat (sd_r2 s); PFloat (sd_r3 s)] in
  let com c := [PStr (cd_name c); PStr (cd_port c); PInt (cd_baud c)] in
  [[PStr s0; PStr s1; PStr s2]; [PFloat g0; PFloat g1]; [PStr (m_vessel m)];
   sensor (m_gnss m); sensor (m_sonar m); [PStr p0; PStr p1; PFloat p2];
   com (m_gnss_com m); com (m_sonar_com m); com (m_svp_com m)].

(** [Header.header_rows], the header online.py writes, is
    [write_meta_header] on the dictionary it read. *)
Lemma header_rows_generic (ft : string) (m : metadata) :
  header_rows ft m = write_meta_header ft (meta_values m).
Proof.
  unfold header_rows, write_meta_header, meta_values, sensor_row, com_row.
  destruct (m_survey m) as [[s0 s1] s2], (m_geodetics m), (m_svp m) as [[p0 p1] p2].
  cbn [map app]. rewrite !csv_field_str. reflexivity.
Qed.

(** ** What the prompts return *)

(** The numbers of the configuration are terminating decimals: [str]
    prints them back to literals of the same value. *)
Definition field_decimal (v : pyval) : Prop :=
  match v with PFloat q => decimal q | _ => True end.

Definition numbers_decimal (c : survey_config) : Prop :=
  decimal (gnss_waterline_offset c) /\ decimal (sonar_waterline_offset c)
  /\ field_decimal (default_sndspd c).

Lemma ask_until_returns {A} (P : A -> Prop) (init : A) (body : A -> io (bool * A)) :
  (forall a, returns (body a) (fun p => fst p = true -> P (snd p))) ->
  returns (ask_until init body) P.
Proof.
  intros Hb. unfold ask_until.
  apply (returns_bind_dep _ _ (fun p => (fst p = true -> P (snd p)) /\ negb (fst p) = false)).
  - apply returns_while_exit; [intros p _; apply Hb | discriminate].
  - intros [b a] [H E]. apply returns_ret. apply H. destruct b; [reflexivity | discriminate].
Qed.

Lemma ask_filename_csv (s : string) :
  returns (ask_filename s) (fun p => fst p = true -> file_check (snd p) ".csv" = true).
Proof.
  unfold ask_filename. apply returns_bind. intros s'. apply returns_ret. cbn.
  intros H. apply andb_prop in H. apply H.
Qed.

Lemma ask_offset_decimal (ok : Q -> bool) (q : Q) :
  returns (ask_offset ok q) (fun p => fst p = true -> decimal (snd p) /\ ok (snd p) = true).
Proof.
  unfold ask_offset. apply returns_bind. intros s.
  destruct (parse_float s) as [v|] eqn:E; apply returns_ret; cbn; [|discriminate].
  intros Hok. split; [eapply parse_float_decimal, E | exact Hok].
Qed.

(** What every configuration the script uses satisfies: a [.csv] file
    name, terminating decimal numbers, and the sign of the waterline
    offsets the prompts test. *)
Definition config_inv (c : survey_config) : Prop :=
  file_check (survey_filename c) ".csv" = true /\ numbers_decimal c
  /\ gnss_offset_ok (gnss_waterline_offset c) = true /\ sonar_offset_ok (sonar_waterline_offset c) = true.

Lemma prompt_config_returns : returns prompt_config config_inv.
Proof.
  unfold prompt_config.
  apply returns_bind. intros name. apply returns_bind. intros location.
  apply (returns_bind_dep _ _ _ _ (ask_until_returns (fun f => file_check f ".csv" = true) _ _ ask_filename_csv)).
  intros filename Hf.
  apply returns_bind. intros date. apply returns_bind. intros vessel.
  apply returns_bind. intros gname. apply returns_bind. intros gtype.
  apply (returns_bind_dep _ _ _ _ (ask_until_returns (fun q => decimal q /\ gnss_offset_ok q = true) _ _
                                     (ask_offset_decimal _))). intros goff [Dg Hg].
  apply returns_bind. intros sname. apply returns_bind. intros stype.
  apply (returns_bind_dep _ _ _ _ (ask_until_returns (fun q => decimal q /\ sonar_offset_ok q = true) _ _
                                     (ask_offset_decimal _))). intros soff [Ds Hs].
  repeat (apply returns_bind; intros ?).
  apply returns_ret. repeat split; assumption.
Qed.

Lemma defaults_inv : config_inv defaults.
Proof.
  split; [reflexivity|]. split; [split; [|split; [|exact I]]|split; reflexivity].
  - exists 1%nat, 5%Z. reflexivity.
  - exists 1%nat, (-5)%Z. reflexivity.
Qed.

Lemma offsets_sign (c : survey_config) :
  config_inv c -> (0 <= gnss_waterline_offset c)%Q /\ (sonar_waterline_offset c <= 0)%Q.
Proof.
  intros (_ & _ & Hg & Hs). unfold gnss_offset_ok, sonar_offset_ok in *.
  apply negb_true_iff, Qltb_false in Hg, Hs. split; assumption.
Qed.

(** ** Reading the file back *)

(** What [float()] and [int()] of the written field give: a number
    keeps its value, a typed string is parsed. *)
Definition float_field (v : pyval) : option Q :=
  match v with
  | PInt z => Some (inject_Z z)
  | PFloat q => Some q
  | PStr s => parse_float s
  | _ => None
  end.

Definition int_field (v : pyval) : option Z :=
  match v with
  | PInt z => Some z
  | PStr s => parse_int s
  | _ => None
  end.

(** No name starts a row with a header marker. *)
Definition names_ok (c : survey_config) : Prop :=
  not_marker (survey_name c) /\ not_marker (vessel_name c) /\ not_marker (gnss_name c)
  /\ not_marker (sonar_name c) /\ not_marker (svp_name c).

(** The metadata [read_config_file] should return for the values
    entered: the sound speed [spd] and the baud rates read as numbers. *)
Definition config_meta (c : survey_config) (spd : Q) (gb sb pb : Z) : metadata :=
  mk_meta (survey_name c, survey_location c, str_datetime (survey_date c))
    (inject_Z 6378137, 298257223563 # 1000000000) (vessel_name c)
    (mk_sensor (gnss_name c) (gnss_type c) (gnss_waterline_offset c) 0 0 0)
    (mk_sensor (sonar_name c) (sonar_type c) (sonar_waterline_offset c) 0 0 0)
    (svp_name c, svp_type c, spd)
    (mk_com (gnss_name c) (gnss_port c) gb) (mk_com (sonar_name c) (sonar_port c) sb)
    (mk_com (svp_name c) (svp_port c) pb).

Lemma s_float_field (v : pyval) (q : Q) :
  float_field v = Some q -> field_decimal v -> exists q', s_float (csv_field v) = Ok q' /\ (q' == q)%Q.
Proof.
  destruct v as [|q0|z|s|t]; cbn [float_field field_decimal]; intros H D; try discriminate.
  - injection H as <-. apply s_float_str, D.
  - injection H as <-. exists (inject_Z z). unfold s_float, py_float, csv_field.
    rewrite float_int_str. split; reflexivity.
  - exists q. rewrite csv_field_str. unfold s_float, py_float. rewrite H. split; reflexivity.
Qed.

Lemma s_int_field (v : pyval) (b : Z) : int_field v = Some b -> s_int (csv_field v) = Ok b.
Proof.
  destruct v as [|q0|z|s|t]; cbn [int_field]; intros H; try discriminate.
  - injection H as <-. apply s_int_str.
  - rewrite csv_field_str. unfold s_int. rewrite H. reflexivity.
Qed.

Lemma generic_reader_meta_header (ft : string) (rows : list row) (body : list srow) :
  Forall (fun r => exists v t, r = v :: t /\ not_marker (csv_field v)) rows ->
  generic_reader (write_meta_header ft rows ++ body) "Header_Start" (Some "Header_End")
  = Ok (map (map csv_field) rows ++ column_rows ft)%list.
Proof.
  intros Hr. unfold write_meta_header. fold (column_rows ft). rewrite <- !app_assoc.
  unfold generic_reader. cbn [app reader_loop]. cbn [res_bind py_get py_index length nth_error]. simpl.
  rewrite app_assoc. apply (reader_loop_until _ _ _ _ _ []); [discriminate|].
  apply Forall_app. split.
  - apply Forall_map. eapply Forall_impl; [|exact Hr]. intros r (v & t & -> & H).
    apply plain_marker_row, H.
  - unfold column_rows. destruct (String.eqb ft "OSP_SIMPLE_LOG"); repeat constructor.
    apply plain_marker_row. split; discriminate.
Qed.

#[local] Arguments s_float : simpl never.
#[local] Arguments s_int : simpl never.
#[local] Arguments csv_field : simpl never.

(** The rows of [survey_metadata] read back by [read_config_file]. *)
Lemma config_readback (c : survey_config) (rows : list row) (spd : Q) (gb sb pb : Z) :
  names_ok c -> numbers_decimal c -> survey_metadata c = Ok rows ->
  float_field (default_sndspd c) = Some spd -> int_field (gnss_baud c) = Some gb ->
  int_field (sonar_baud c) = Some sb -> int_field (svp_baud c) = Some pb ->
  exists m, read_config_file (write_meta_header "OSPLIB_CONFIG" rows) = Ok m
            /\ meta_eqv m (config_meta c spd gb sb pb).
Proof.
  intros (N1 & N2 & N3 & N4 & N5) (D1 & D2 & D3) Hm Hs Hg Hso Hp.
  unfold survey_metadata in Hm. destruct (survey_date c) as [[y mo] d] eqn:Ed.
  destruct (dt_datetime y mo d) as [date|] eqn:Edt; [|discriminate]. cbn [res_bind] in Hm.
  injection Hm as <-.
  unfold read_config_file.
  rewrite <- (app_nil_r (write_meta_header _ _)), generic_reader_meta_header.
  2:{ repeat constructor; eexists _, _; (split; [reflexivity|]); rewrite ?csv_field_str;
      first [assumption | split; discriminate]. }
  assert (Hdate : date = survey_date c).
  { rewrite Ed. unfold dt_datetime in Edt. destruct (_ && _); [injection Edt as <-; reflexivity | discriminate]. }
  destruct (s_float_field (PInt 6378137) _ eq_refl I) as (g0 & E0 & Q0).
  destruct (s_float_field (PFloat (298257223563 # 1000000000)) _ eq_refl
              ltac:(exists 9%nat, 298257223563%Z; reflexivity)) as (g1 & E1 & Q1).
  destruct (s_float_field (PInt 0) _ eq_refl I) as (z & Ez & Qz).
  destruct (s_float_field (PFloat (gnss_waterline_offset c)) _ eq_refl D1) as (go & Eg & Qg).
  destruct (s_float_field (PFloat (sonar_waterline_offset c)) _ eq_refl D2) as (so & Eso & Qso).
  destruct (s_float_field _ _ Hs D3) as (sp & Esp & Qsp).
  pose proof (s_int_field _ _ Hg) as Ig. pose proof (s_int_field _ _ Hso) as Is.
  pose proof (s_int_field _ _ Hp) as Ip.
  unfold column_rows. cbn [String.eqb Ascii.eqb Bool.eqb map app res_bind]. rewrite !csv_field_str.
  repeat match goal with |- context [csv_field ?v] =>
    let f := fresh "f" in set (f := csv_field v) in *; clearbody f end.
  unfold cell, read_sensor, read_com. simpl.
  rewrite E0, E1, Ez, Eg, Eso, Esp, Ig, Is, Ip. simpl.
  eexists. split; [reflexivity|]. subst date.
  unfold meta_eqv, sensor_eqv, config_meta. cbn. split_and; first [reflexivity | assumption].
Qed.


(** The end of the script (lines 266-280) on the configuration [c] its
    variables hold. *)
Definition configurator_tail (c : survey_config) : io unit :=
  rows <<- lift (survey_metadata c) ;;
  write_file (survey_filename c) (write_meta_header "OSPLIB_CONFIG" rows).

Lemma configurator_tail_file (c : survey_config) (w : world) :
  config_inv c -> fst (configurator_tail c w) = Ok tt ->
  exists rows,
    w_files (snd (configurator_tail c w)) (survey_filename c) = Some rows
    /\ file_check (survey_filename c) ".csv" = true
    /\ (0 <= gnss_waterline_offset c)%Q /\ (sonar_waterline_offset c <= 0)%Q
    /\ (names_ok c -> forall spd gb sb pb,
          float_field (default_sndspd c) = Some spd -> int_field (gnss_baud c) = Some gb ->
          int_field (sonar_baud c) = Some sb -> int_field (svp_baud c) = Some pb ->
          exists m, read_config_file rows = Ok m /\ meta_eqv m (config_meta c spd gb sb pb)).
Proof.
  intros Hinv H. pose proof (offsets_sign c Hinv) as Hsign. destruct Hinv as (Hf & Hd & _).
  unfold configurator_tail, io_bind, lift in *.
  destruct (survey_metadata c) as [rows|e] eqn:Em; [|discriminate].
  exists (write_meta_header "OSPLIB_CONFIG" rows). split; [apply write_file_files|].
  split; [exact Hf|]. split; [apply Hsign|]. split; [apply Hsign|].
  intros Hn spd gb sb pb Hs Hg Hso Hp. eapply config_readback; eassumption.
Qed.

(** C39. Whenever configurator.py ends normally it has written the
    configuration its variables hold, that is the answers to the prompts
    after [yes] and the values at the top of the script otherwise, to a
    [.csv] file (the name [online.py] and [read_config_file] accept), and
    that file reads back with [read_config_file] as those values
    (strings as typed, offsets and sound speed of the same value, baud
    rates as integers), provided no name is a header marker and the
    sound speed and the three baud rates, which the prompts take
    unchecked, are numbers.  The offsets written have the signs the
    metadata requires: the GNSS antenna offset at least 0, the sonar
    offset at most 0. *)
Theorem configurator_file_readable (w : world) :
  fst (configurator w) = Ok tt ->
  exists c rows,
    match input w with
    | (Ok ns, w1) => if String.eqb ns "yes" then fst (prompt_config w1) = Ok c else c = defaults
    | (Err _, _) => False
    end
    /\ w_files (snd (configurator w)) (survey_filename c) = Some rows
    /\ file_check (survey_filename c) ".csv" = true
    /\ (0 <= gnss_waterline_offset c)%Q /\ (sonar_waterline_offset c <= 0)%Q
    /\ (names_ok c -> forall spd gb sb pb,
          float_field (default_sndspd c) = Some spd -> int_field (gnss_baud c) = Some gb ->
          int_field (sonar_baud c) = Some sb -> int_field (svp_baud c) = Some pb ->
          exists m, read_config_file rows = Ok m /\ meta_eqv m (config_meta c spd gb sb pb)).
Proof.
  intros H. unfold configurator in *. unfold io_bind at 1 in H. unfold io_bind at 1.
  destruct (input w) as [[ns|e] w1]; [|discriminate].
  change (fun c => rows <<- lift (survey_metadata c) ;;
           write_file (survey_filename c) (write_meta_header "OSPLIB_CONFIG" rows)) with configurator_tail in *.
  destruct (String.eqb ns "yes").
  - pose proof (prompt_config_returns w1) as Hr. unfold io_bind in *.
    destruct (prompt_config w1) as [[c|e] w2]; [|discriminate].
    destruct (configurator_tail_file c w2 Hr H) as (rows & Hrows).
    exists c, rows. split; [reflexivity | exact Hrows].
  - unfold io_bind, ret in *.
    destruct (configurator_tail_file defaults w1 defaults_inv H) as (rows & Hrows).
    exists defaults, rows. split; [reflexivity | exact Hrows].
Qed.

(** ** The date prompt *)

(** The date prompt accepts a date [dt.datetime] rejects exactly when
    the day is below 1 (the day test compares [survey_month > 0]) or past
    the end of its month (the test allows 31 in every month). *)
Lemma date_ok_bad_day (y m d : Z) :
  date_ok y m d = true -> (dt_datetime y m d = Err ValueError <-> (d < 1 \/ days_in_month y m < d)%Z).
Proof.
  unfold date_ok, dt_datetime. intros H. rewrite !andb_true_iff, !Z.ltb_lt, !Z.leb_le in H.
  destruct H as [[[Hy1 Hy2] [Hm1 Hm2]] [Hd _]].
  destruct (Z.leb_spec 1 d), (Z.leb_spec d (days_in_month y m)); cbn;
    rewrite ?(proj2 (Z.leb_le 1 y)), ?(proj2 (Z.leb_le y 9999)), ?(proj2 (Z.leb_le 1 m)),
      ?(proj2 (Z.leb_le m 12)) by lia; cbn; split; intros; try discriminate; try lia; reflexivity.
Qed.

(** A day the prompt accepts but [dt.datetime] rejects: the script raises
    [ValueError] at line 268, after all the prompts, and writes no file. *)
Lemma bad_day_raises (c : survey_config) (y m d : Z) :
  survey_date c = (y, m, d) -> date_ok y m d = true -> (d < 1 \/ days_in_month y m < d)%Z ->
  survey_metadata c = Err ValueError.
Proof.
  intros Ed Hok Hd. unfold survey_metadata. rewrite Ed.
  rewrite (proj2 (date_ok_bad_day y m d Hok) Hd). reflexivity.
Qed.

Module Demo.

(** The answers of a new survey, with the date [2023-02-day]. *)
Definition answers (day : string) : list string :=
  ["yes"; "Lake_Survey"; "Lake"; "lake config.csv"; "lake.csv"; "2023"; "2"; day; "Boat";
   "F9P"; "NMEA"; "-1"; "1.25"; "Ping"; "BR_Ping"; "-0.5"; "SVS"; "Valeport"; "1480.5";
   "COM7"; "460800"; "COM3"; "115200"; "COM9"; "9600"].

End Demo.

Lemma configurator_file_readable_witness :
  fst (configurator (mk_world (Demo.answers "28") (fun _ => None) [])) = Ok tt
  /\ exists c rows,
    match input (mk_world (Demo.answers "28") (fun _ => None) []) with
    | (Ok ns, w1) => if String.eqb ns "yes" then fst (prompt_config w1) = Ok c else c = defaults
    | (Err _, _) => False
    end
    /\ w_files (snd (configurator (mk_world (Demo.answers "28") (fun _ => None) []))) (survey_filename c)
      = Some rows
    /\ file_check (survey_filename c) ".csv" = true
    /\ (0 <= gnss_waterline_offset c)%Q /\ (sonar_waterline_offset c <= 0)%Q
    /\ (names_ok c -> forall spd gb sb pb,
          float_field (default_sndspd c) = Some spd -> int_field (gnss_baud c) = Some gb ->
          int_field (sonar_baud c) = Some sb -> int_field (svp_baud c) = Some pb ->
          exists m, read_config_file rows = Ok m /\ meta_eqv m (config_meta c spd gb sb pb)).
Proof.
  assert (H : fst (configurator (mk_world (Demo.answers "28") (fun _ => None) [])) = Ok tt)
    by (vm_compute; reflexivity).
  exact (conj H (configurator_file_readable _ H)).
Defined.

(** The day [0] passes the prompt; the script raises [ValueError] and
    no configuration file is written. *)
Example day_zero_no_file :
  fst (configurator (mk_world (Demo.answers "0") (fun _ => None) [])) = Err ValueError
  /\ w_files (snd (configurator (mk_world (Demo.answers "0") (fun _ => None) []))) "lake.csv" = None.
Proof. split; vm_compute; reflexivity. Qed.
